(** * PicoStageDriver: the controller firmware, embedded and verified

    A shallow embedding of the motion core of the stage-driver controller
    (Software/Pico/Controller/StageDriverController): the parameter store
    (Parameters.cpp), the per-axis driver (TMC.cpp), the motion orchestrator
    (Motors.cpp), the serial command dispatcher (SerialComm.cpp) and the
    receiving side of the remote relay (RemoteComm.cpp).

    Conventions.
    - [int32_t], [int8_t], [uint8_t] and [unsigned long] values are [Z]
      with the wrap-around of the type written out ([wrap32], [wrap8], ...).
    - The C++ objects are records; the arrays indexed by the motor number
      are lists read with [aget] and written with [aset].
    - Member functions are state transformers over [World] (the four global
      objects of StageDriverController.ino plus the trace of input/output).
    - Everything outside the firmware (the TMC5240 register interface, the
      clock, the two serial ports, the flash) is an [Environment]: a
      function of the trace of all input/output performed so far.
    - Where the source leaves the language (a [sprintf] longer than its
      buffer, an array read through an index that no one has checked), the
      trace records it with [EvUndefined]: what the program does from there
      on is not determined by its text, and the properties that follow a call
      across such a point are stated for the runs that are [defined]. *)

From Stdlib Require Import ZArith Lia String Ascii Bool.
From stdpp Require Import base list strings pretty.

Open Scope string_scope.
Open Scope Z_scope.

(** ** Machine integers *)

Module Int.

Definition wrap_signed (bits : Z) (x : Z) : Z :=
  (x + 2 ^ (bits - 1)) mod 2 ^ bits - 2 ^ (bits - 1).

Definition wrap_unsigned (bits : Z) (x : Z) : Z := x mod 2 ^ bits.

(** [int32_t] *)
Definition wrap32 : Z -> Z := wrap_signed 32.
(** [int8_t] *)
Definition wrap8 : Z -> Z := wrap_signed 8.
(** [uint8_t] *)
Definition wrapu8 : Z -> Z := wrap_unsigned 8.
(** [unsigned long] (32 bits on the RP2350) *)
Definition wrapu32 : Z -> Z := wrap_unsigned 32.

Definition INT32_MIN : Z := - 2 ^ 31.
Definition INT32_MAX : Z := 2 ^ 31 - 1.

Definition in_int32 (x : Z) : Prop := INT32_MIN <= x <= INT32_MAX.

Definition add32 (a b : Z) : Z := wrap32 (a + b).
Definition sub32 (a b : Z) : Z := wrap32 (a - b).
Definition mul32 (a b : Z) : Z := wrap32 (a * b).
Definition neg32 (a : Z) : Z := wrap32 (- a).
(** [abs] of <stdlib.h> on a 32 bit [int]; the most negative value is
    its own absolute value in two's complement. *)
Definition abs32 (a : Z) : Z := wrap32 (Z.abs a).
(** C division truncates towards zero. *)
Definition div32 (a b : Z) : Z := wrap32 (Z.quot a b).

Lemma wrap32_id x : in_int32 x -> wrap32 x = x.
Proof.
  unfold in_int32, INT32_MIN, INT32_MAX, wrap32, wrap_signed. intros H.
  change (2 ^ (32 - 1)) with 2147483648 in *.
  change (2 ^ 31) with 2147483648 in *.
  change (2 ^ 32) with 4294967296.
  rewrite Z.mod_small by lia. lia.
Qed.

Lemma wrap32_range x : in_int32 (wrap32 x).
Proof.
  unfold in_int32, INT32_MIN, INT32_MAX, wrap32, wrap_signed.
  change (2 ^ (32 - 1)) with 2147483648.
  change (2 ^ 31) with 2147483648.
  change (2 ^ 32) with 4294967296.
  pose proof (Z.mod_pos_bound (x + 2147483648) 4294967296 ltac:(lia)). lia.
Qed.

Lemma abs32_small x : INT32_MIN < x <= INT32_MAX -> abs32 x = Z.abs x.
Proof.
  intros H. unfold abs32. apply wrap32_id.
  unfold in_int32, INT32_MIN, INT32_MAX in *. lia.
Qed.

End Int.
Import Int.

(** ** Arrays indexed by the motor number

    The firmware indexes its fixed-size arrays with an [int8_t] that the
    callers have checked against the size of the array. [aget] and [aset]
    are total: outside the list a read gives the default and a write is
    dropped. Where the source indexes an array with a number that nothing
    has checked ([SerialComm::CheckRemoteControl], the loops over the tables
    of identifiers in [SerialComm::CheckSerialCommand]), the index is tested
    at that place and the access outside the array is recorded as
    undefined. *)

Section Arrays.
Context {A : Type}.

Definition aget (d : A) (l : list A) (i : Z) : A :=
  if i <? 0 then d else default d (l !! Z.to_nat i).

Definition aset (l : list A) (i : Z) (v : A) : list A :=
  if i <? 0 then l else <[Z.to_nat i := v]> l.

Lemma aget_aset_eq d l i v :
  0 <= i < Z.of_nat (length l) -> aget d (aset l i v) i = v.
Proof.
  intros H. unfold aget, aset.
  destruct (i <? 0) eqn:E; [apply Z.ltb_lt in E; lia|].
  rewrite list_lookup_insert_eq by lia. reflexivity.
Qed.

Lemma aget_aset_ne d l i j v : i <> j -> aget d (aset l i v) j = aget d l j.
Proof.
  intros H. unfold aget, aset.
  destruct (j <? 0) eqn:Ej; [reflexivity|].
  destruct (i <? 0) eqn:Ei; [reflexivity|].
  apply Z.ltb_ge in Ej, Ei.
  rewrite list_lookup_insert_ne by lia. reflexivity.
Qed.

Lemma length_aset l i v : length (aset l i v) = length l.
Proof. unfold aset. destruct (i <? 0); [reflexivity|apply length_insert]. Qed.

Lemma aget_aset_default d l i : aget d (aset l i d) i = d.
Proof.
  unfold aget, aset. destruct (i <? 0); [reflexivity|].
  destruct (decide (Z.to_nat i < length l)%nat) as [H|H].
  - rewrite list_lookup_insert_eq by exact H. reflexivity.
  - rewrite list_insert_ge by lia.
    rewrite (proj2 (lookup_ge_None l (Z.to_nat i))) by lia. reflexivity.
Qed.

End Arrays.

(** ** Common.h *)

Inductive ErrorType := ERR_None | ERR_Serial | ERR_Motor | ERR_TMC | ERR_Parameter | ERR_Remote.

(** The numeric code printed after [ERROR=]. *)
Definition ErrorType_code (e : ErrorType) : Z :=
  match e with
  | ERR_None => 0
  | ERR_Serial => -1
  | ERR_Motor => -2
  | ERR_TMC => -3
  | ERR_Parameter => -4
  | ERR_Remote => -5
  end.

#[global] Instance ErrorType_eq_dec : EqDecision ErrorType.
Proof. solve_decision. Defined.

(** [if (err)] on an error code. *)
Definition is_err (e : ErrorType) : bool :=
  match e with ERR_None => false | _ => true end.

Inductive MotorType := MOTOR_NONE | MOTOR_SIM | MOTOR_TMC.

#[global] Instance MotorType_eq_dec : EqDecision MotorType.
Proof. solve_decision. Defined.

Definition MotorType_code (t : MotorType) : Z :=
  match t with MOTOR_NONE => 0 | MOTOR_SIM => 1 | MOTOR_TMC => 2 end.

Inductive AxisType := AXIS_UNDEF | AXIS_X | AXIS_Y | AXIS_Z | AXIS_AUX.

Definition AxisType_code (t : AxisType) : Z :=
  match t with AXIS_UNDEF => 0 | AXIS_X => 1 | AXIS_Y => 2 | AXIS_Z => 3 | AXIS_AUX => 4 end.

Definition VERSION : Z := 1.
Definition MAXNUMMOTORS : Z := 4.
Definition MAXERRORSTRINGSIZE : Z := 200.
Definition SERIAL_TERMCHAR : ascii := "010"%char.
Definition SERIAL_ID_STRING : string := "Stage Driver Pico".
Definition SERIAL_CHECK_INTERVAL_MS : Z := 20.
Definition REMOTE_NUM_PARAMS : Z := 5.
Definition REMOTE_SEND_INTERVAL_MS : Z := 200.
Definition REMOTE_RECEIVE_INTERVAL_MS : Z := 10.
Definition MOTORS_NUM_PARAMS : Z := 34.
Definition MOTORS_NUM_STATUS : Z := 8.
Definition MOTORS_CHECK_ERROR_INTERVAL_MS : Z := 50.
Definition MOTORS_CHECK_STATUS_INTERVAL_MS : Z := 10.
Definition MOTORS_DEFAULT_DEV_TYPE : list MotorType := [MOTOR_SIM; MOTOR_SIM; MOTOR_NONE; MOTOR_NONE].
Definition MOTORS_DEFAULT_AX_TYPE : list AxisType := [AXIS_X; AXIS_Y; AXIS_Z; AXIS_AUX].
Definition MOTORS_DEFAULT_DRIVER_CS : list Z := [22; 21; 20; 17].

(** TMC.h *)
Definition TMC_HOMING_STANDSTILL_TIMEOUT_MS : Z := 1000.
Definition TMC_OVERTEMP_PREWARN : Z := 2962.

(** ** C strings *)

(** [strncmp (a, b, n) == 0] on strings without an embedded NUL. *)
Fixpoint strncmp_eq (n : nat) (a b : string) : bool :=
  match n with
  | O => true
  | S n' =>
      match a, b with
      | EmptyString, EmptyString => true
      | String x a', String y b' => if Ascii.eqb x y then strncmp_eq n' a' b' else false
      | _, _ => false
      end
  end.

(** The bytes of a buffer up to, and without, the first NUL. *)
Fixpoint cstr (s : string) : string :=
  match s with
  | EmptyString => EmptyString
  | String c s' => if Ascii.eqb c "000"%char then EmptyString else String c (cstr s')
  end.

(** What [snprintf (buf, size, ...)] leaves in [buf]: at most [size - 1]
    characters of the formatted text. *)
Fixpoint string_take (n : nat) (s : string) : string :=
  match n, s with
  | S n', String c s' => String c (string_take n' s')
  | _, _ => EmptyString
  end.

Definition snprintf (size : Z) (text : string) : string :=
  string_take (Z.to_nat (size - 1)) text.

(** [s + n] on a [char *]. *)
Fixpoint string_drop (n : nat) (s : string) : string :=
  match n, s with
  | S n', String _ s' => string_drop n' s'
  | _, _ => s
  end.

(** The text of an integer printed with [%d], [%i], [%hhi] or [Serial.print]. *)
Definition print_int (x : Z) : string := pretty x.

(** ** Parameters.h: the tables of identifiers *)

Definition motParamsIDList : list string :=
  [ "CSCA"; "CRAN"; "CRUN"; "CHOL";
    "MMIC"; "MINV"; "MTOF"; "MSGE"; "MSGT"; "MTCT";
    "HMOD"; "HDIR"; "HVEL"; "HSST"; "HNEV";
    "RSEV"; "RMXV"; "RSEA"; "RMXA";
    "ECON"; "EDEV"; "ETOL"; "EMAX"; "ERST";
    "SLEN"; "SREN"; "SLPO"; "SRPO"; "SSWP";
    "LENC"; "LLEN"; "LREN"; "LLPS"; "LRPS" ].

Definition remoteIDList : list string :=
  [ "ENAB"; "JDIR"; "JMAX"; "EDIR"; "ESTP" ].

(** Motors.h *)
Definition motStatIDList : list string :=
  [ "XACT"; "XTAR"; "XENC"; "VELO"; "ACCE"; "ENAB"; "TEMP"; "PULL" ].

(** The entry of a table of identifiers. The callers keep [idx] inside
    the table ([lookup_command] stops at its end); outside it the empty
    string. *)
Definition id_at (table : list string) (idx : Z) : string := aget "" table idx.

(** DefaultParams.h *)
Definition defaultStepperMotorParams : list Z :=
  [ 128; 1; 12; 8;
    3; 0; 5; 1; 0; 145;
    1; 1; 4000; 1; 1;
    32000; 64000; 4000; 5000;
    71536; 500; 5; 1; 0;
    1; 1; 1; 1; 0;
    0; 0; 0; -100000; 100000 ].

Definition defaultSafeMotorParams : list Z :=
  [ 128; 0; 0; 0;
    3; 0; 0; 0; 0; 0;
    0; 1; 0; 0; 1;
    0; 0; 0; 0;
    0; 0; 1; 1; 0;
    0; 0; 1; 1; 0;
    0; 1; 1; -1000; 1000 ].

Definition defaultRemoteParams : list Z := [ 0; 1; 1000; 1; 10 ].

(** ** The objects of the firmware *)

Record HWParamStruct := mkHWParamStruct {
  motorType : list MotorType;
  DRIVER_CS : list Z;
  axisType : list AxisType
}.

Module Parameters.
Record t := mk {
  errorMsg : string;
  errorFlag : Z;
  hwParameters : HWParamStruct;
  motorParamArr : list (list Z);
  remoteParamArr : list (list Z)
}.

Definition set_error (msg : string) (flag : Z) (p : t) : t :=
  mk msg flag (hwParameters p) (motorParamArr p) (remoteParamArr p).
Definition set_errorFlag (flag : Z) (p : t) : t :=
  mk (errorMsg p) flag (hwParameters p) (motorParamArr p) (remoteParamArr p).
Definition set_hwParameters (hw : HWParamStruct) (p : t) : t :=
  mk (errorMsg p) (errorFlag p) hw (motorParamArr p) (remoteParamArr p).
Definition set_motorParamArr (a : list (list Z)) (p : t) : t :=
  mk (errorMsg p) (errorFlag p) (hwParameters p) a (remoteParamArr p).
Definition set_remoteParamArr (a : list (list Z)) (p : t) : t :=
  mk (errorMsg p) (errorFlag p) (hwParameters p) (motorParamArr p) a.
End Parameters.

(** TMC.h *)
Record TMCSimStatus := mkTMCSimStatus {
  xact : Z;
  xtar : Z;
  xenc : Z;
  xmin : Z;
  xmax : Z;
  vel : Z;
  lastVelCalcTime : Z
}.

Module TMC.
(** The pointers [motors], [hwParam] and [motorParam] of the class are
    the global objects themselves; [board] is the position of the object
    in [tmcArr]. *)
Record t := mk {
  simValues : TMCSimStatus;
  encConst : Z;
  maxIterations : Z;
  tolerance : Z;
  resetXafterCL : Z
}.

Definition set_simValues (s : TMCSimStatus) (x : t) : t :=
  mk s (encConst x) (maxIterations x) (tolerance x) (resetXafterCL x).
Definition set_encConst (v : Z) (x : t) : t :=
  mk (simValues x) v (maxIterations x) (tolerance x) (resetXafterCL x).
Definition set_maxIterations (v : Z) (x : t) : t :=
  mk (simValues x) (encConst x) v (tolerance x) (resetXafterCL x).
Definition set_tolerance (v : Z) (x : t) : t :=
  mk (simValues x) (encConst x) (maxIterations x) v (resetXafterCL x).
Definition set_resetXafterCL (v : Z) (x : t) : t :=
  mk (simValues x) (encConst x) (maxIterations x) (tolerance x) v.

Definition zero : t := mk (mkTMCSimStatus 0 0 0 0 0 0 0) 0 0 0 0.
End TMC.

Module Motors.
Record t := mk {
  errorMsgGeneral : string;
  errorMsgBoard : list string;
  tmcArr : list TMC.t;
  errorFlag : Z;
  errorFlagGeneral : Z;
  errorFlagBoard : list Z;
  isMotorEnabled : list Z;
  isRemoteControlled : list Z;
  isMotorMoving : list Z;
  isMotorHoming : list Z;
  isMotorSearching : list Z;
  targetPosition : list Z;
  setPosition : list Z;
  iterationsLeft : list Z;
  (** the function-local statics of [ProcessUpdateChanges] *)
  lastErrorCheckTime : Z;
  lastStatusCheckTime : Z
}.

Definition set_errorMsgGeneral v (m : t) : t :=
  mk v (errorMsgBoard m) (tmcArr m) (errorFlag m) (errorFlagGeneral m) (errorFlagBoard m)
     (isMotorEnabled m) (isRemoteControlled m) (isMotorMoving m) (isMotorHoming m)
     (isMotorSearching m) (targetPosition m) (setPosition m) (iterationsLeft m)
     (lastErrorCheckTime m) (lastStatusCheckTime m).
Definition set_errorMsgBoard v (m : t) : t :=
  mk (errorMsgGeneral m) v (tmcArr m) (errorFlag m) (errorFlagGeneral m) (errorFlagBoard m)
     (isMotorEnabled m) (isRemoteControlled m) (isMotorMoving m) (isMotorHoming m)
     (isMotorSearching m) (targetPosition m) (setPosition m) (iterationsLeft m)
     (lastErrorCheckTime m) (lastStatusCheckTime m).
Definition set_tmcArr v (m : t) : t :=
  mk (errorMsgGeneral m) (errorMsgBoard m) v (errorFlag m) (errorFlagGeneral m) (errorFlagBoard m)
     (isMotorEnabled m) (isRemoteControlled m) (isMotorMoving m) (isMotorHoming m)
     (isMotorSearching m) (targetPosition m) (setPosition m) (iterationsLeft m)
     (lastErrorCheckTime m) (lastStatusCheckTime m).
Definition set_errorFlag v (m : t) : t :=
  mk (errorMsgGeneral m) (errorMsgBoard m) (tmcArr m) v (errorFlagGeneral m) (errorFlagBoard m)
     (isMotorEnabled m) (isRemoteControlled m) (isMotorMoving m) (isMotorHoming m)
     (isMotorSearching m) (targetPosition m) (setPosition m) (iterationsLeft m)
     (lastErrorCheckTime m) (lastStatusCheckTime m).
Definition set_errorFlagGeneral v (m : t) : t :=
  mk (errorMsgGeneral m) (errorMsgBoard m) (tmcArr m) (errorFlag m) v (errorFlagBoard m)
     (isMotorEnabled m) (isRemoteControlled m) (isMotorMoving m) (isMotorHoming m)
     (isMotorSearching m) (targetPosition m) (setPosition m) (iterationsLeft m)
     (lastErrorCheckTime m) (lastStatusCheckTime m).
Definition set_errorFlagBoard v (m : t) : t :=
  mk (errorMsgGeneral m) (errorMsgBoard m) (tmcArr m) (errorFlag m) (errorFlagGeneral m) v
     (isMotorEnabled m) (isRemoteControlled m) (isMotorMoving m) (isMotorHoming m)
     (isMotorSearching m) (targetPosition m) (setPosition m) (iterationsLeft m)
     (lastErrorCheckTime m) (lastStatusCheckTime m).
Definition set_isMotorEnabled v (m : t) : t :=
  mk (errorMsgGeneral m) (errorMsgBoard m) (tmcArr m) (errorFlag m) (errorFlagGeneral m) (errorFlagBoard m)
     v (isRemoteControlled m) (isMotorMoving m) (isMotorHoming m)
     (isMotorSearching m) (targetPosition m) (setPosition m) (iterationsLeft m)
     (lastErrorCheckTime m) (lastStatusCheckTime m).
Definition set_isRemoteControlled v (m : t) : t :=
  mk (errorMsgGeneral m) (errorMsgBoard m) (tmcArr m) (errorFlag m) (errorFlagGeneral m) (errorFlagBoard m)
     (isMotorEnabled m) v (isMotorMoving m) (isMotorHoming m)
     (isMotorSearching m) (targetPosition m) (setPosition m) (iterationsLeft m)
     (lastErrorCheckTime m) (lastStatusCheckTime m).
Definition set_isMotorMoving v (m : t) : t :=
  mk (errorMsgGeneral m) (errorMsgBoard m) (tmcArr m) (errorFlag m) (errorFlagGeneral m) (errorFlagBoard m)
     (isMotorEnabled m) (isRemoteControlled m) v (isMotorHoming m)
     (isMotorSearching m) (targetPosition m) (setPosition m) (iterationsLeft m)
     (lastErrorCheckTime m) (lastStatusCheckTime m).
Definition set_isMotorHoming v (m : t) : t :=
  mk (errorMsgGeneral m) (errorMsgBoard m) (tmcArr m) (errorFlag m) (errorFlagGeneral m) (errorFlagBoard m)
     (isMotorEnabled m) (isRemoteControlled m) (isMotorMoving m) v
     (isMotorSearching m) (targetPosition m) (setPosition m) (iterationsLeft m)
     (lastErrorCheckTime m) (lastStatusCheckTime m).
Definition set_isMotorSearching v (m : t) : t :=
  mk (errorMsgGeneral m) (errorMsgBoard m) (tmcArr m) (errorFlag m) (errorFlagGeneral m) (errorFlagBoard m)
     (isMotorEnabled m) (isRemoteControlled m) (isMotorMoving m) (isMotorHoming m)
     v (targetPosition m) (setPosition m) (iterationsLeft m)
     (lastErrorCheckTime m) (lastStatusCheckTime m).
Definition set_targetPosition v (m : t) : t :=
  mk (errorMsgGeneral m) (errorMsgBoard m) (tmcArr m) (errorFlag m) (errorFlagGeneral m) (errorFlagBoard m)
     (isMotorEnabled m) (isRemoteControlled m) (isMotorMoving m) (isMotorHoming m)
     (isMotorSearching m) v (setPosition m) (iterationsLeft m)
     (lastErrorCheckTime m) (lastStatusCheckTime m).
Definition set_setPosition v (m : t) : t :=
  mk (errorMsgGeneral m) (errorMsgBoard m) (tmcArr m) (errorFlag m) (errorFlagGeneral m) (errorFlagBoard m)
     (isMotorEnabled m) (isRemoteControlled m) (isMotorMoving m) (isMotorHoming m)
     (isMotorSearching m) (targetPosition m) v (iterationsLeft m)
     (lastErrorCheckTime m) (lastStatusCheckTime m).
Definition set_iterationsLeft v (m : t) : t :=
  mk (errorMsgGeneral m) (errorMsgBoard m) (tmcArr m) (errorFlag m) (errorFlagGeneral m) (errorFlagBoard m)
     (isMotorEnabled m) (isRemoteControlled m) (isMotorMoving m) (isMotorHoming m)
     (isMotorSearching m) (targetPosition m) (setPosition m) v
     (lastErrorCheckTime m) (lastStatusCheckTime m).
Definition set_lastErrorCheckTime v (m : t) : t :=
  mk (errorMsgGeneral m) (errorMsgBoard m) (tmcArr m) (errorFlag m) (errorFlagGeneral m) (errorFlagBoard m)
     (isMotorEnabled m) (isRemoteControlled m) (isMotorMoving m) (isMotorHoming m)
     (isMotorSearching m) (targetPosition m) (setPosition m) (iterationsLeft m)
     v (lastStatusCheckTime m).
Definition set_lastStatusCheckTime v (m : t) : t :=
  mk (errorMsgGeneral m) (errorMsgBoard m) (tmcArr m) (errorFlag m) (errorFlagGeneral m) (errorFlagBoard m)
     (isMotorEnabled m) (isRemoteControlled m) (isMotorMoving m) (isMotorHoming m)
     (isMotorSearching m) (targetPosition m) (setPosition m) (iterationsLeft m)
     (lastErrorCheckTime m) v.
End Motors.

Module RemoteComm.
Record t := mk {
  errorMsg : string;
  errorFlag : Z;
  serial1Busy : bool;
  (** function-local statics of [SendPositionUpdates],
      [CheckRemoteCommands] and [processRemoteCommand] *)
  lastSendTime : Z;
  lastReceiveTime : Z;
  repeatPosSet : list Z
}.

Definition set_error (msg : string) (flag : Z) (r : t) : t :=
  mk msg flag (serial1Busy r) (lastSendTime r) (lastReceiveTime r) (repeatPosSet r).
Definition set_errorFlag (flag : Z) (r : t) : t :=
  mk (errorMsg r) flag (serial1Busy r) (lastSendTime r) (lastReceiveTime r) (repeatPosSet r).
Definition set_serial1Busy (b : bool) (r : t) : t :=
  mk (errorMsg r) (errorFlag r) b (lastSendTime r) (lastReceiveTime r) (repeatPosSet r).
Definition set_lastSendTime (v : Z) (r : t) : t :=
  mk (errorMsg r) (errorFlag r) (serial1Busy r) v (lastReceiveTime r) (repeatPosSet r).
Definition set_lastReceiveTime (v : Z) (r : t) : t :=
  mk (errorMsg r) (errorFlag r) (serial1Busy r) (lastSendTime r) v (repeatPosSet r).
Definition set_repeatPosSet (v : list Z) (r : t) : t :=
  mk (errorMsg r) (errorFlag r) (serial1Busy r) (lastSendTime r) (lastReceiveTime r) v.
End RemoteComm.

Module SerialComm.
Record t := mk {
  errorMsg : string;
  errorFlag : Z;
  (** function-local static of [CheckSerialCommand] *)
  lastCheckTime : Z
}.

Definition set_error (msg : string) (flag : Z) (s : t) : t :=
  mk msg flag (lastCheckTime s).
Definition set_errorFlag (flag : Z) (s : t) : t :=
  mk (errorMsg s) flag (lastCheckTime s).
Definition set_lastCheckTime (v : Z) (s : t) : t :=
  mk (errorMsg s) (errorFlag s) v.
End SerialComm.

(** ** The TMC5240 register interface (TMC-API, not part of the repository)

    The firmware names registers, register fields and bit masks through
    the macros of TMC5240_HW_Abstraction.h. Registers and fields are kept
    symbolic; the numeric masks and ramp modes are parameters of the
    development ([TMC5240_Header]). *)

Inductive Register :=
| TMC5240_GSTAT | TMC5240_DRVSTATUS | TMC5240_XACTUAL | TMC5240_XTARGET
| TMC5240_XENC | TMC5240_XLATCH | TMC5240_VMAX | TMC5240_AMAX | TMC5240_DMAX
| TMC5240_ENC_STATUS | TMC5240_RAMPSTAT
| RegisterAt (address : Z).

Inductive Field :=
| TMC5240_GLOBAL_SCALER_FIELD | TMC5240_CURRENT_RANGE_FIELD | TMC5240_IRUN_FIELD
| TMC5240_IHOLD_FIELD | TMC5240_MRES_FIELD | TMC5240_SHAFT_FIELD | TMC5240_TOFF_FIELD
| TMC5240_SG_STOP_FIELD | TMC5240_SGT_FIELD | TMC5240_TCOOLTHRS_FIELD
| TMC5240_AMAX_FIELD | TMC5240_DMAX_FIELD
| TMC5240_ENC_SEL_DECIMAL_FIELD | TMC5240_ENC_CONST_FIELD | TMC5240_ENC_DEVIATION_FIELD
| TMC5240_STOP_L_ENABLE_FIELD | TMC5240_STOP_R_ENABLE_FIELD
| TMC5240_POL_STOP_L_FIELD | TMC5240_POL_STOP_R_FIELD | TMC5240_SWAP_LR_FIELD
| TMC5240_VIRTUAL_STOP_ENC_FIELD
| TMC5240_EN_VIRTUAL_STOP_L_FIELD | TMC5240_EN_VIRTUAL_STOP_R_FIELD
| TMC5240_VIRTUAL_STOP_L_FIELD | TMC5240_VIRTUAL_STOP_R_FIELD
| TMC5240_OVERTEMPPREWARNING_VTH_FIELD
| TMC5240_RAMPMODE_FIELD | TMC5240_EVENT_POS_REACHED_FIELD
| TMC5240_STATUS_LATCH_L_FIELD | TMC5240_STATUS_LATCH_R_FIELD
| TMC5240_IGNORE_AB_FIELD | TMC5240_CLR_CONT_FIELD | TMC5240_POS_NEG_EDGE_FIELD
| TMC5240_N_EVENT_FIELD | TMC5240_EN_SOFTSTOP_FIELD
| TMC5240_LATCH_L_ACTIVE_FIELD | TMC5240_LATCH_R_ACTIVE_FIELD | TMC5240_LATCH_X_ACT_FIELD
| TMC5240_STST_FIELD | TMC5240_POSITION_REACHED_FIELD | TMC5240_DEVIATION_WARN_FIELD
| TMC5240_ADC_TEMP_FIELD.

Inductive Mask :=
| TMC5240_RESET_MASK | TMC5240_DRV_ERR_MASK | TMC5240_UV_CP_MASK
| TMC5240_REGISTER_RESET_MASK | TMC5240_VM_UVLO_MASK
| TMC5240_S2VSA_MASK | TMC5240_S2VSB_MASK | TMC5240_S2GA_MASK | TMC5240_S2GB_MASK
| TMC5240_OLA_MASK | TMC5240_OLB_MASK | TMC5240_STALLGUARD_MASK
| TMC5240_OTPW_MASK | TMC5240_OT_MASK
| TMC5240_EVENT_POS_REACHED_MASK | TMC5240_POSITION_REACHED_MASK
| TMC5240_EVENT_STOP_SG_MASK
| TMC5240_STATUS_LATCH_L_MASK | TMC5240_STATUS_LATCH_R_MASK
| TMC5240_EVENT_STOP_L_MASK | TMC5240_EVENT_STOP_R_MASK
| TMC5240_STATUS_STOP_L_MASK | TMC5240_STATUS_STOP_R_MASK
| TMC5240_STATUS_VIRTUAL_STOP_L_MASK | TMC5240_STATUS_VIRTUAL_STOP_R_MASK
| TMC5240_VZERO_MASK | TMC5240_STATUS_SG_MASK | TMC5240_DEVIATION_WARN_MASK.

Class TMC5240_Header := mkTMC5240_Header {
  mask_value : Mask -> Z;
  TMC5240_MODE_POSITION : Z;
  TMC5240_MODE_VELPOS : Z;
  TMC5240_MODE_VELNEG : Z
}.

(** ** Input and output *)

Inductive PinMode := INPUT_PULLUP | OUTPUT.
Inductive PinLevel := LOW | HIGH.

(** What [EEPROM.put] stores. *)
Inductive FlashObject :=
| FlashVersion (version : Z)
| FlashHWParameters (hw : HWParamStruct)
| FlashMotorParams (arr : list (list Z))
| FlashRemoteParams (arr : list (list Z)).

Inductive Event :=
| EvReadRegister (icID : Z) (address : Register) (value : Z)
| EvWriteRegister (icID : Z) (address : Register) (value : Z)
| EvFieldRead (icID : Z) (field : Field) (value : Z)
| EvFieldWrite (icID : Z) (field : Field) (value : Z)
| EvPinMode (pin : Z) (mode : PinMode)
| EvDigitalWrite (pin : Z) (level : PinLevel)
| EvDelay (ms : Z)
| EvMillis (now : Z)
| EvSerialAvailable (n : Z)
| EvSerialRead (bytes : string)
| EvSerialPrint (text : string)
| EvSerial1Available (n : Z)
| EvSerial1Read (bytes : string)
| EvSerial1Write (bytes : string)
| EvEEPROMPut (obj : FlashObject)
| EvEEPROMCommit (ok : bool)
(** the source has left the language: the behaviour is undefined from here *)
| EvUndefined (what : string).

(** The world outside the firmware answers every input as a function of
    all the input/output performed so far (oldest event first). The three
    last components give the contents of memory that the program reads
    without having written it: stack variables that the source reads without
    having initialised them, and what lies beside an array that is read
    through an index outside it. *)
Class Environment := mkEnvironment {
  env_readRegister : list Event -> Z -> Register -> Z;
  env_fieldRead : list Event -> Z -> Field -> Z;
  env_millis : list Event -> Z;
  env_Serial_available : list Event -> Z;
  env_Serial_readBytesUntil : list Event -> ascii -> Z -> string;
  env_Serial1_available : list Event -> Z;
  env_Serial1_readBytesUntil : list Event -> ascii -> Z -> string;
  env_EEPROM_commit : list Event -> bool;
  env_temperature : Z -> Z;
  env_uninitialised_int : list Event -> Z;
  env_uninitialised_str : list Event -> string;
  env_out_of_bounds : list Event -> Z
}.

(** ** The state of the controller *)

Record World := mkWorld {
  g_params : Parameters.t;
  g_motors : Motors.t;
  g_remComm : RemoteComm.t;
  g_serComm : SerialComm.t;
  (** file-static of TMC.cpp *)
  g_csPin : list Z;
  io : list Event
}.

Definition set_g_params (p : Parameters.t) (w : World) : World :=
  mkWorld p (g_motors w) (g_remComm w) (g_serComm w) (g_csPin w) (io w).
Definition set_g_motors (m : Motors.t) (w : World) : World :=
  mkWorld (g_params w) m (g_remComm w) (g_serComm w) (g_csPin w) (io w).
Definition set_g_remComm (r : RemoteComm.t) (w : World) : World :=
  mkWorld (g_params w) (g_motors w) r (g_serComm w) (g_csPin w) (io w).
Definition set_g_serComm (s : SerialComm.t) (w : World) : World :=
  mkWorld (g_params w) (g_motors w) (g_remComm w) s (g_csPin w) (io w).
Definition set_io (l : list Event) (w : World) : World :=
  mkWorld (g_params w) (g_motors w) (g_remComm w) (g_serComm w) (g_csPin w) l.

(** The arrays all have [MAXNUMMOTORS] entries, the parameter tables
    [MOTORS_NUM_PARAMS] and [REMOTE_NUM_PARAMS] columns. *)
Definition has_len {A} (n : Z) (l : list A) : Prop := Z.of_nat (length l) = n.

Record wf_World (w : World) : Prop := mk_wf_World {
  wf_motorType : has_len MAXNUMMOTORS (motorType (Parameters.hwParameters (g_params w)));
  wf_motorParamArr : has_len MAXNUMMOTORS (Parameters.motorParamArr (g_params w));
  wf_motorParamRows : Forall (has_len MOTORS_NUM_PARAMS) (Parameters.motorParamArr (g_params w));
  wf_remoteParamArr : has_len MAXNUMMOTORS (Parameters.remoteParamArr (g_params w));
  wf_remoteParamRows : Forall (has_len REMOTE_NUM_PARAMS) (Parameters.remoteParamArr (g_params w));
  wf_tmcArr : has_len MAXNUMMOTORS (Motors.tmcArr (g_motors w));
  wf_errorMsgBoard : has_len MAXNUMMOTORS (Motors.errorMsgBoard (g_motors w));
  wf_errorFlagBoard : has_len MAXNUMMOTORS (Motors.errorFlagBoard (g_motors w));
  wf_isMotorEnabled : has_len MAXNUMMOTORS (Motors.isMotorEnabled (g_motors w));
  wf_isRemoteControlled : has_len MAXNUMMOTORS (Motors.isRemoteControlled (g_motors w));
  wf_isMotorMoving : has_len MAXNUMMOTORS (Motors.isMotorMoving (g_motors w));
  wf_isMotorHoming : has_len MAXNUMMOTORS (Motors.isMotorHoming (g_motors w));
  wf_isMotorSearching : has_len MAXNUMMOTORS (Motors.isMotorSearching (g_motors w));
  wf_targetPosition : has_len MAXNUMMOTORS (Motors.targetPosition (g_motors w));
  wf_setPosition : has_len MAXNUMMOTORS (Motors.setPosition (g_motors w));
  wf_iterationsLeft : has_len MAXNUMMOTORS (Motors.iterationsLeft (g_motors w));
  wf_repeatPosSet : has_len MAXNUMMOTORS (RemoteComm.repeatPosSet (g_remComm w));
  wf_g_csPin : has_len MAXNUMMOTORS (g_csPin w)
}.

(** ** Member functions as state transformers *)

Definition M (A : Type) : Type := World -> A * World.

#[global] Instance M_ret : MRet M := fun A a w => (a, w).
#[global] Instance M_bind : MBind M :=
  fun A B f m w => let '(a, w1) := m w in f a w1.

Definition gets {A} (f : World -> A) : M A := fun w => (f w, w).
Definition modify (f : World -> World) : M unit := fun w => (tt, f w).
Definition emit (e : Event) : M unit := modify (fun w => set_io (io w ++ [e]) w).

Definition modify_params (f : Parameters.t -> Parameters.t) : M unit :=
  modify (fun w => set_g_params (f (g_params w)) w).
Definition modify_motors (f : Motors.t -> Motors.t) : M unit :=
  modify (fun w => set_g_motors (f (g_motors w)) w).
Definition modify_remote (f : RemoteComm.t -> RemoteComm.t) : M unit :=
  modify (fun w => set_g_remComm (f (g_remComm w)) w).
Definition modify_serial (f : SerialComm.t -> SerialComm.t) : M unit :=
  modify (fun w => set_g_serComm (f (g_serComm w)) w).

(** [for (z = 0; z < MAXNUMMOTORS; z++)] and the like, the body run for
    each index in turn. *)
Fixpoint for_each (l : list Z) (body : Z -> M unit) : M unit :=
  match l with
  | [] => mret tt
  | z :: l' => body z;; for_each l' body
  end.

(** A loop whose body can [return] from the enclosing function: the body
    gives [Some r] to return [r], [None] to go on. *)
Fixpoint for_return {R} (l : list Z) (body : Z -> M (option R)) : M (option R) :=
  match l with
  | [] => mret None
  | z :: l' =>
      r ← body z;
      match r with
      | Some x => mret (Some x)
      | None => for_return l' body
      end
  end.

(** The body run for each token of a command string in turn. *)
Fixpoint for_each_token (l : list string) (body : string -> M unit) : M unit :=
  match l with
  | [] => mret tt
  | t :: l' => body t;; for_each_token l' body
  end.

(** The indices [0 .. n-1]. *)
Definition upto (n : Z) : list Z := map Z.of_nat (seq 0 (Z.to_nat n)).

Lemma run_bind {A B} (m : M A) (f : A -> M B) (w : World) :
  (m ≫= f) w = let '(a, w1) := m w in f a w1.
Proof. reflexivity. Qed.

Lemma run_ret {A} (a : A) (w : World) : (mret a : M A) w = (a, w).
Proof. reflexivity. Qed.

(** ** [sscanf] of the C library

    The formats of the firmware are a literal prefix and integer
    conversions. A conversion skips white space, reads an optional sign and
    the digits of its base, and stores the number in the width of its
    target; a literal has to match character by character. The result is
    the list of the values assigned, in order: its length is what [sscanf]
    returns. The digits are converted as by [strtol] for the signed
    conversions and as by [strtoul] for [%hhu], with a [long] of 32 bits: a
    number beyond the range of the [long] reads as the nearest bound
    ([LONG_MAX], [LONG_MIN], [ULONG_MAX]), and what has been read is then
    stored in the width of the target. *)

Module Scan.

Inductive Conversion := c_hhi | c_hhd | c_hhu | c_d | c_i.

Inductive Directive := Lit (text : string) | Conv (c : Conversion).

Definition isspace (c : ascii) : bool :=
  let n := Z.of_N (N_of_ascii c) in (n =? 32) || ((9 <=? n) && (n <=? 13)).

Fixpoint skip_space (s : string) : string :=
  match s with
  | String c s' => if isspace c then skip_space s' else s
  | EmptyString => s
  end.

(** The value of a digit in base [base], if it is one. *)
Definition digit_value (base : Z) (c : ascii) : option Z :=
  let n := Z.of_N (N_of_ascii c) in
  let v :=
    if (48 <=? n) && (n <=? 57) then n - 48
    else if (97 <=? n) && (n <=? 102) then n - 87
    else if (65 <=? n) && (n <=? 70) then n - 55
    else 99 in
  if v <? base then Some v else None.

(** The longest run of digits at the head of [s], as a number. *)
Fixpoint digits (base : Z) (s : string) (acc : Z) : Z * string :=
  match s with
  | String c s' =>
      match digit_value base c with
      | Some v => digits base s' (acc * base + v)
      | None => (acc, s)
      end
  | EmptyString => (acc, s)
  end.

Definition starts_with_digit (base : Z) (s : string) : bool :=
  match s with
  | String c _ => match digit_value base c with Some _ => true | None => false end
  | EmptyString => false
  end.

Definition sign (s : string) : Z * string :=
  match s with
  | String "-" s' => (-1, s')
  | String "+" s' => (1, s')
  | _ => (1, s)
  end.

(** A number in base 10 ([%d], [%u]). *)
Definition number10 (s : string) : option (Z * string) :=
  let '(sg, s1) := sign (skip_space s) in
  if starts_with_digit 10 s1 then
    let '(v, rest) := digits 10 s1 0 in Some (sg * v, rest)
  else None.

(** A number whose base follows its prefix ([%i]): [0x] hexadecimal,
    [0] octal, decimal otherwise. *)
Definition number0 (s : string) : option (Z * string) :=
  let '(sg, s1) := sign (skip_space s) in
  match s1 with
  | String "0" (String x s2) =>
      if (Ascii.eqb x "x" || Ascii.eqb x "X") && starts_with_digit 16 s2 then
        let '(v, rest) := digits 16 s2 0 in Some (sg * v, rest)
      else
        let '(v, rest) := digits 8 s1 0 in Some (sg * v, rest)
  | _ =>
      if starts_with_digit 10 s1 then
        let '(v, rest) := digits 10 s1 0 in Some (sg * v, rest)
      else None
  end.

Definition LONG_MIN : Z := - 2 ^ 31.
Definition LONG_MAX : Z := 2 ^ 31 - 1.
Definition ULONG_MAX : Z := 2 ^ 32 - 1.

(** The result of [strtol] for the number [v]. *)
Definition strtol (v : Z) : Z :=
  if v >? LONG_MAX then LONG_MAX else if v <? LONG_MIN then LONG_MIN else v.

(** The result of [strtoul] for the number [v]: a magnitude beyond
    [ULONG_MAX] gives [ULONG_MAX], a negative number within it is negated
    in the [unsigned long]. *)
Definition strtoul (v : Z) : Z :=
  if Z.abs v >? ULONG_MAX then ULONG_MAX else wrapu32 v.

Definition convert (c : Conversion) (s : string) : option (Z * string) :=
  match c with
  | c_hhi => match number0 s with Some (v, r) => Some (wrap8 (strtol v), r) | None => None end
  | c_hhd => match number10 s with Some (v, r) => Some (wrap8 (strtol v), r) | None => None end
  | c_hhu => match number10 s with Some (v, r) => Some (wrapu8 (strtoul v), r) | None => None end
  | c_d => match number10 s with Some (v, r) => Some (wrap32 (strtol v), r) | None => None end
  | c_i => match number0 s with Some (v, r) => Some (wrap32 (strtol v), r) | None => None end
  end.

(** The rest of [s] after the literal [text], if [s] starts with it. *)
Fixpoint literal (text s : string) : option string :=
  match text with
  | EmptyString => Some s
  | String c text' =>
      match s with
      | String c' s' => if Ascii.eqb c c' then literal text' s' else None
      | EmptyString => None
      end
  end.

Fixpoint sscanf (format : list Directive) (s : string) : list Z :=
  match format with
  | [] => []
  | Lit text :: format' =>
      match literal text s with
      | Some rest => sscanf format' rest
      | None => []
      end
  | Conv c :: format' =>
      match convert c s with
      | Some (v, rest) => v :: sscanf format' rest
      | None => []
      end
  end.

End Scan.

(** [strchr (s, c)]: the text before the first [c] and the text after it. *)
Fixpoint strchr (s : string) (c : ascii) : option (string * string) :=
  match s with
  | EmptyString => None
  | String x s' =>
      if Ascii.eqb x c then Some (EmptyString, s')
      else match strchr s' c with
           | Some (before, after) => Some (String x before, after)
           | None => None
           end
  end.

(** The tokens [strtok_r (s, sep, ...)] gives one after the other: the
    non-empty pieces of [s] between separators. *)
Fixpoint strtok_from (s : string) (sep : ascii) (current : string) : list string :=
  match s with
  | EmptyString => if String.eqb current "" then [] else [current]
  | String x s' =>
      if Ascii.eqb x sep then
        if String.eqb current "" then strtok_from s' sep ""
        else current :: strtok_from s' sep ""
      else strtok_from s' sep (current ++ String x EmptyString)
  end.

Definition strtok (s : string) (sep : ascii) : list string := strtok_from s sep "".

(** [strncmp (s, prefix, strlen (prefix)) == 0] *)
Definition has_prefix (prefix s : string) : bool :=
  strncmp_eq (String.length prefix) s prefix.

Definition crlf : string := String "013"%char (String "010"%char EmptyString).

Section Firmware.

Context `{hdr : TMC5240_Header} `{env : Environment}.

(** *** Primitives: TMC-API, Arduino core *)

Definition tmc5240_readRegister (icID : Z) (address : Register) : M Z :=
  fun w =>
    let v := wrap32 (env_readRegister (io w) icID address) in
    (v, set_io (io w ++ [EvReadRegister icID address v]) w).

Definition tmc5240_writeRegister (icID : Z) (address : Register) (value : Z) : M unit :=
  emit (EvWriteRegister icID address value).

Definition tmc5240_fieldRead (icID : Z) (field : Field) : M Z :=
  fun w =>
    let v := wrapu32 (env_fieldRead (io w) icID field) in
    (v, set_io (io w ++ [EvFieldRead icID field v]) w).

Definition tmc5240_fieldWrite (icID : Z) (field : Field) (value : Z) : M unit :=
  emit (EvFieldWrite icID field value).

Definition millis : M Z :=
  fun w =>
    let t := wrapu32 (env_millis (io w)) in
    (t, set_io (io w ++ [EvMillis t]) w).

Definition delay (ms : Z) : M unit := emit (EvDelay ms).
Definition pinMode (pin : Z) (mode : PinMode) : M unit := emit (EvPinMode pin mode).
Definition digitalWrite (pin : Z) (level : PinLevel) : M unit := emit (EvDigitalWrite pin level).

Definition Serial_print (text : string) : M unit := emit (EvSerialPrint text).
Definition Serial_println (text : string) : M unit := emit (EvSerialPrint (text ++ crlf)).

(** The value of a local variable read before it is assigned. *)
Definition uninitialised_int (name : string) : M Z :=
  gets (fun w => wrap32 (env_uninitialised_int (io w))).
Definition uninitialised_str (name : string) : M string :=
  gets (fun w => env_uninitialised_str (io w)).

(** The source has left the language at this point. *)
Definition undefined (what : string) : M unit := emit (EvUndefined what).

(** [sprintf (buffer, ...)] into a buffer of [size] bytes. The formatted
    text and its terminating 0 are written whatever the size of the buffer:
    a text of [size] characters or more runs over what follows the buffer. *)
Definition sprintf (size : Z) (text : string) : M string :=
  if Z.of_nat (String.length text) <? size then mret text
  else undefined "sprintf beyond the end of the buffer";; mret text.

(** The [int8_t] read from an array of [int8_t] through an index outside
    it. *)
Definition out_of_bounds (array : string) : M Z :=
  undefined ("read outside " ++ array);;
  gets (fun w => wrap8 (env_out_of_bounds (io w))).

(** [value & MASK] as a condition. *)
Definition mask_of (m : Mask) : Z := mask_value m.
Definition test_mask (value : Z) (m : Mask) : bool := negb (Z.land value (mask_of m) =? 0).

(** *** Parameters.cpp *)

Definition Parameters_SetErrorMsg (msg : string) : M unit :=
  modify_params (fun p =>
    if negb (Parameters.errorFlag p =? 0) then p  (* do not overwrite the previous entry *)
    else Parameters.set_error (snprintf MAXERRORSTRINGSIZE msg) 1 p).

Definition Parameters_IsValidMotor (board : Z) : M bool :=
  if (board <? 0) || (board >=? MAXNUMMOTORS) then
    Parameters_SetErrorMsg "Invalid board number";;
    mret false
  else mret true.

Definition motorType_of (w : World) (board : Z) : MotorType :=
  aget MOTOR_NONE (motorType (Parameters.hwParameters (g_params w))) board.

Definition Parameters_IsActiveMotor (board : Z) (raiseError : bool) : M bool :=
  ty ← gets (fun w => motorType_of w board);
  if (board <? 0) || (board >=? MAXNUMMOTORS) || bool_decide (ty = MOTOR_NONE) then
    (if raiseError then Parameters_SetErrorMsg "Inactive board number" else mret tt);;
    mret false
  else mret true.

Definition Parameters_SetDeviceType (board : Z) (value : Z) : M ErrorType :=
  ok ← Parameters_IsValidMotor board;
  if negb ok then mret ERR_Parameter else
  let store (t : MotorType) : M ErrorType :=
    modify_params (fun p =>
      let hw := Parameters.hwParameters p in
      Parameters.set_hwParameters
        (mkHWParamStruct (aset (motorType hw) board t) (DRIVER_CS hw) (axisType hw)) p);;
    mret ERR_None in
  if value =? 0 then store MOTOR_NONE
  else if value =? 1 then store MOTOR_SIM
  else if value =? 2 then store MOTOR_TMC
  else Parameters_SetErrorMsg "Invalid device type (0..2)";; mret ERR_Parameter.

Definition Parameters_GetDeviceType (board : Z) (value : Z) : M (ErrorType * Z) :=
  ok ← Parameters_IsValidMotor board;
  if negb ok then mret (ERR_Parameter, value) else
  ty ← gets (fun w => motorType_of w board);
  mret (ERR_None, MotorType_code ty).

Definition Parameters_SetAxisType (board : Z) (value : Z) : M ErrorType :=
  ok ← Parameters_IsValidMotor board;
  if negb ok then mret ERR_Parameter else
  let store (t : AxisType) : M ErrorType :=
    modify_params (fun p =>
      let hw := Parameters.hwParameters p in
      Parameters.set_hwParameters
        (mkHWParamStruct (motorType hw) (DRIVER_CS hw) (aset (axisType hw) board t)) p);;
    mret ERR_None in
  if value =? 0 then store AXIS_UNDEF
  else if value =? 1 then store AXIS_X
  else if value =? 2 then store AXIS_Y
  else if value =? 3 then store AXIS_Z
  else if value =? 4 then store AXIS_AUX
  else Parameters_SetErrorMsg "Invalid axis type (0..4)";; mret ERR_Parameter.

Definition Parameters_GetAxisType (board : Z) (value : Z) : M (ErrorType * Z) :=
  ok ← Parameters_IsValidMotor board;
  if negb ok then mret (ERR_Parameter, value) else
  ty ← gets (fun w => aget AXIS_UNDEF (axisType (Parameters.hwParameters (g_params w))) board);
  mret (ERR_None, AxisType_code ty).

(** [arr[board][index]] *)
Definition get2 (arr : list (list Z)) (board index : Z) : Z :=
  aget 0 (aget [] arr board) index.
Definition set2 (arr : list (list Z)) (board index : Z) (value : Z) : list (list Z) :=
  aset arr board (aset (aget [] arr board) index value).

(** Note: no parameter error checking here *)
Definition Parameters_SetMotorParams (board index : Z) (value : Z) : M ErrorType :=
  ok ← Parameters_IsValidMotor board;
  if negb ok then mret ERR_Parameter else
  modify_params (fun p =>
    Parameters.set_motorParamArr (set2 (Parameters.motorParamArr p) board index value) p);;
  mret ERR_None.

(** [value] is the caller's variable; it is assigned only on success. *)
Definition Parameters_GetMotorParams (board index : Z) (value : Z) : M (ErrorType * Z) :=
  ok ← Parameters_IsValidMotor board;
  if negb ok then mret (ERR_Parameter, value) else
  v ← gets (fun w => get2 (Parameters.motorParamArr (g_params w)) board index);
  mret (ERR_None, v).

(** Note: no parameter error checking here *)
Definition Parameters_SetRemoteParams (board index : Z) (value : Z) : M ErrorType :=
  (* enable is the only command that allows for a -1 for the board *)
  if strncmp_eq 4 (id_at remoteIDList index) "ENAB" && (board =? -1) then
    for_each (upto MAXNUMMOTORS) (fun z =>
      modify_params (fun p =>
        Parameters.set_remoteParamArr (set2 (Parameters.remoteParamArr p) z index value) p));;
    mret ERR_None
  else
    ok ← Parameters_IsValidMotor board;
    if negb ok then mret ERR_Parameter else
    modify_params (fun p =>
      Parameters.set_remoteParamArr (set2 (Parameters.remoteParamArr p) board index value) p);;
    mret ERR_None.

Definition Parameters_GetRemoteParams (board index : Z) (value : Z) : M (ErrorType * Z) :=
  ok ← Parameters_IsValidMotor board;
  if negb ok then mret (ERR_Parameter, value) else
  v ← gets (fun w => get2 (Parameters.remoteParamArr (g_params w)) board index);
  mret (ERR_None, v).

Definition Parameters_PrintErrorMsg : M Z :=
  flag ← gets (fun w => Parameters.errorFlag (g_params w));
  if negb (flag =? 0) then
    msg ← gets (fun w => Parameters.errorMsg (g_params w));
    Serial_print msg;;
    modify_params (Parameters.set_errorFlag 0);;
    mret 1
  else mret 0.

(** *** Motors.cpp: error bookkeeping *)

Definition Motors_SetErrorMsg (source : string) (num : Z) (msg : string) : M unit :=
  if num =? -1 then  (* general error *)
    flag ← gets (fun w => Motors.errorFlagGeneral (g_motors w));
    if negb (flag =? 0) then mret tt  (* do not overwrite the previous entry *)
    else
      modify_motors (fun m =>
        Motors.set_errorFlagGeneral 1
          (Motors.set_errorMsgGeneral
             (snprintf MAXERRORSTRINGSIZE (source ++ " error: " ++ msg)) m));;
      modify_motors (Motors.set_errorFlag 1)
  else
    ok ← Parameters_IsValidMotor num;
    if (ok : bool) then
      flag ← gets (fun w => aget 0 (Motors.errorFlagBoard (g_motors w)) num);
      if negb (flag =? 0) then mret tt  (* do not overwrite the previous entry *)
      else
        modify_motors (fun m =>
          Motors.set_errorFlagBoard (aset (Motors.errorFlagBoard m) num 1)
            (Motors.set_errorMsgBoard
               (aset (Motors.errorMsgBoard m) num
                  (snprintf MAXERRORSTRINGSIZE
                     (source ++ " error in board " ++ print_int num ++ ": " ++ msg))) m));;
        modify_motors (Motors.set_errorFlag 1)
    else modify_motors (Motors.set_errorFlag 1).

Definition Motors_PrintErrorMsg : M Z :=
  flag ← gets (fun w => Motors.errorFlag (g_motors w));
  if negb (flag =? 0) then
    general ← gets (fun w => Motors.errorFlagGeneral (g_motors w));
    firstError ←
      (if negb (general =? 0) then
         msg ← gets (fun w => Motors.errorMsgGeneral (g_motors w));
         Serial_print msg;;
         modify_motors (Motors.set_errorFlagGeneral 0);;
         mret false
       else mret true);
    (fix loop (l : list Z) (firstError : bool) : M unit :=
       match l with
       | [] => mret tt
       | z :: l' =>
           f ← gets (fun w => aget 0 (Motors.errorFlagBoard (g_motors w)) z);
           if negb (f =? 0) then
             (if negb firstError then Serial_print "; " else mret tt);;
             msg ← gets (fun w => aget "" (Motors.errorMsgBoard (g_motors w)) z);
             Serial_print msg;;
             modify_motors (fun m => Motors.set_errorFlagBoard (aset (Motors.errorFlagBoard m) z 0) m);;
             loop l' false
           else loop l' firstError
       end) (upto MAXNUMMOTORS) firstError;;
    modify_motors (Motors.set_errorFlag 0);;
    mret 1  (* there was an error *)
  else mret 0.

(** *** Access to the per-motor state *)

Definition tmc_at (w : World) (board : Z) : TMC.t :=
  aget TMC.zero (Motors.tmcArr (g_motors w)) board.

Definition modify_tmc (board : Z) (f : TMC.t -> TMC.t) : M unit :=
  modify_motors (fun m =>
    Motors.set_tmcArr
      (aset (Motors.tmcArr m) board (f (aget TMC.zero (Motors.tmcArr m) board))) m).

Definition modify_sim (board : Z) (f : TMCSimStatus -> TMCSimStatus) : M unit :=
  modify_tmc board (fun t => TMC.set_simValues (f (TMC.simValues t)) t).

Definition sim_at (w : World) (board : Z) : TMCSimStatus := TMC.simValues (tmc_at w board).

Definition set_xact v (s : TMCSimStatus) :=
  mkTMCSimStatus v (xtar s) (xenc s) (xmin s) (xmax s) (vel s) (lastVelCalcTime s).
Definition set_xtar v (s : TMCSimStatus) :=
  mkTMCSimStatus (xact s) v (xenc s) (xmin s) (xmax s) (vel s) (lastVelCalcTime s).
Definition set_xenc v (s : TMCSimStatus) :=
  mkTMCSimStatus (xact s) (xtar s) v (xmin s) (xmax s) (vel s) (lastVelCalcTime s).
Definition set_xmin v (s : TMCSimStatus) :=
  mkTMCSimStatus (xact s) (xtar s) (xenc s) v (xmax s) (vel s) (lastVelCalcTime s).
Definition set_xmax v (s : TMCSimStatus) :=
  mkTMCSimStatus (xact s) (xtar s) (xenc s) (xmin s) v (vel s) (lastVelCalcTime s).
Definition set_vel v (s : TMCSimStatus) :=
  mkTMCSimStatus (xact s) (xtar s) (xenc s) (xmin s) (xmax s) v (lastVelCalcTime s).
Definition set_lastVelCalcTime v (s : TMCSimStatus) :=
  mkTMCSimStatus (xact s) (xtar s) (xenc s) (xmin s) (xmax s) (vel s) v.

(** [motorParam[idx]] of the driver object [board]: the row of the
    parameter store itself, not a copy. *)
Definition motorParam (w : World) (board idx : Z) : Z :=
  get2 (Parameters.motorParamArr (g_params w)) board idx.

Definition isMotorEnabled_at (w : World) (z : Z) : Z := aget 0 (Motors.isMotorEnabled (g_motors w)) z.
Definition isRemoteControlled_at (w : World) (z : Z) : Z := aget 0 (Motors.isRemoteControlled (g_motors w)) z.
Definition isMotorMoving_at (w : World) (z : Z) : Z := aget 0 (Motors.isMotorMoving (g_motors w)) z.
Definition isMotorHoming_at (w : World) (z : Z) : Z := aget 0 (Motors.isMotorHoming (g_motors w)) z.
Definition isMotorSearching_at (w : World) (z : Z) : Z := aget 0 (Motors.isMotorSearching (g_motors w)) z.
Definition targetPosition_at (w : World) (z : Z) : Z := aget 0 (Motors.targetPosition (g_motors w)) z.
Definition setPosition_at (w : World) (z : Z) : Z := aget 0 (Motors.setPosition (g_motors w)) z.
Definition iterationsLeft_at (w : World) (z : Z) : Z := aget 0 (Motors.iterationsLeft (g_motors w)) z.

Definition set_isMotorEnabled (z v : Z) : M unit :=
  modify_motors (fun m => Motors.set_isMotorEnabled (aset (Motors.isMotorEnabled m) z v) m).
Definition set_isRemoteControlled (z v : Z) : M unit :=
  modify_motors (fun m => Motors.set_isRemoteControlled (aset (Motors.isRemoteControlled m) z v) m).
Definition set_isMotorMoving (z v : Z) : M unit :=
  modify_motors (fun m => Motors.set_isMotorMoving (aset (Motors.isMotorMoving m) z v) m).
Definition set_isMotorHoming (z v : Z) : M unit :=
  modify_motors (fun m => Motors.set_isMotorHoming (aset (Motors.isMotorHoming m) z v) m).
Definition set_isMotorSearching (z v : Z) : M unit :=
  modify_motors (fun m => Motors.set_isMotorSearching (aset (Motors.isMotorSearching m) z v) m).
Definition set_targetPosition (z v : Z) : M unit :=
  modify_motors (fun m => Motors.set_targetPosition (aset (Motors.targetPosition m) z v) m).
Definition set_setPosition (z v : Z) : M unit :=
  modify_motors (fun m => Motors.set_setPosition (aset (Motors.setPosition m) z v) m).
Definition set_iterationsLeft (z v : Z) : M unit :=
  modify_motors (fun m => Motors.set_iterationsLeft (aset (Motors.iterationsLeft m) z v) m).

(** *** TMC.cpp *)

(** [MSG_MAXLENGTH] of TMC.cpp *)
Definition TMC_MSG_MAXLENGTH : Z := 50.

Definition TMC_SetErrorMsg (board : Z) (msg : string) : M unit :=
  Motors_SetErrorMsg "TMC" board msg.

(** The first index whose identifier agrees with [name] on 4 characters. *)
Fixpoint find_id (table : list string) (name : string) (idx : Z) : option Z :=
  match table with
  | [] => None
  | s :: table' => if strncmp_eq 4 s name then Some idx else find_id table' name (idx + 1)
  end.

(** [index] and [value] are the caller's variables, assigned only when
    the name is found. *)
Definition TMC_FindParamIndexVal (board : Z) (name : string) (index value : Z)
  : M (ErrorType * Z * Z) :=
  match find_id motParamsIDList name 0 with
  | Some idx =>
      v ← gets (fun w => motorParam w board idx);
      mret (ERR_None, idx, v)
  | None =>
      TMC_SetErrorMsg board (snprintf TMC_MSG_MAXLENGTH ("Parameter " ++ name ++ " not found"));;
      mret (ERR_TMC, index, value)
  end.

Definition TMC_IsParamInRange (board : Z) (index : Z) (min max : Z) : M bool :=
  val ← gets (fun w => motorParam w board index);
  if (val >=? min) && (val <=? max) then mret true
  else
    TMC_SetErrorMsg board
      (snprintf TMC_MSG_MAXLENGTH
         ("Parameter " ++ id_at motParamsIDList index ++ " out of range (" ++ print_int val ++ ")"));;
    mret false.

Definition TMC_IsValueInRange (board : Z) (value : Z) (name : string) (min max : Z) : M bool :=
  if (value >=? min) && (value <=? max) then mret true
  else
    TMC_SetErrorMsg board
      (snprintf TMC_MSG_MAXLENGTH
         ("Value " ++ name ++ " out of range (" ++ print_int value ++ ")"));;
    mret false.

Definition TMC_CancelHoming (board : Z) : M ErrorType :=
  homing ← gets (fun w => isMotorHoming_at w board);
  if homing =? 0 then mret ERR_None else
  index ← uninitialised_int "index";
  value ← uninitialised_int "value";
  (* reset the virtual limits *)
  '(_, index, value) ← TMC_FindParamIndexVal board "LLEN" index value;
  tmc5240_fieldWrite board TMC5240_EN_VIRTUAL_STOP_L_FIELD value;;
  '(_, index, value) ← TMC_FindParamIndexVal board "LREN" index value;
  tmc5240_fieldWrite board TMC5240_EN_VIRTUAL_STOP_R_FIELD value;;
  (* clear the status flags and enable bits (clearing all is fine) *)
  tmc5240_fieldWrite board TMC5240_LATCH_L_ACTIVE_FIELD 0;;
  tmc5240_fieldWrite board TMC5240_LATCH_R_ACTIVE_FIELD 0;;
  tmc5240_fieldWrite board TMC5240_LATCH_X_ACT_FIELD 0;;
  tmc5240_fieldWrite board TMC5240_STATUS_LATCH_L_FIELD 1;;
  tmc5240_fieldWrite board TMC5240_STATUS_LATCH_R_FIELD 1;;
  tmc5240_fieldWrite board TMC5240_N_EVENT_FIELD 1;;
  set_isMotorHoming board 0;;
  mret ERR_None.

Definition TMC_SetEnable (board : Z) (mode : Z) : M ErrorType :=
  ty ← gets (fun w => motorType_of w board);
  match ty with
  | MOTOR_TMC =>
      if negb (mode =? 0) then
        index ← uninitialised_int "index";
        value ← uninitialised_int "value";
        '(_, index, value) ← TMC_FindParamIndexVal board "MTOF" index value;
        tmc5240_fieldWrite board TMC5240_TOFF_FIELD value;;
        set_isMotorEnabled board 1;;
        mret ERR_None
      else
        (* need to set the velocity to zero, otherwise the XACT keeps going *)
        tmc5240_fieldWrite board TMC5240_RAMPMODE_FIELD TMC5240_MODE_VELPOS;;
        tmc5240_writeRegister board TMC5240_VMAX 0;;
        (* now turn the motor off *)
        tmc5240_fieldWrite board TMC5240_TOFF_FIELD 0;;
        set_isMotorEnabled board 0;;
        homing ← gets (fun w => isMotorHoming_at w board);
        if negb (homing =? 0) then
          (* if the motor is homing, cancel it *)
          TMC_CancelHoming board
        else mret ERR_None
  | MOTOR_SIM =>
      set_isMotorEnabled board (if negb (mode =? 0) then 1 else 0);;
      (if mode =? 0 then modify_sim board (set_vel 0) else mret tt);;
      mret ERR_None
  | MOTOR_NONE =>
      TMC_SetErrorMsg board "Motor is defined as MOTOR_NONE";;
      mret ERR_TMC
  end.

Definition errorMask : Z :=
  Z.lor (mask_of TMC5240_S2VSA_MASK)
 (Z.lor (mask_of TMC5240_S2VSB_MASK)
 (Z.lor (mask_of TMC5240_S2GA_MASK)
 (Z.lor (mask_of TMC5240_S2GB_MASK)
 (Z.lor (mask_of TMC5240_OLA_MASK)
 (Z.lor (mask_of TMC5240_OLB_MASK)
 (Z.lor (mask_of TMC5240_STALLGUARD_MASK)
 (Z.lor (mask_of TMC5240_OTPW_MASK) (mask_of TMC5240_OT_MASK)))))))).

(** [msg] is a buffer of [MSG_MAXLENGTH] bytes on the stack, filled by
    [sprintf]; six of the texts are longer than the buffer. *)
Definition TMC_CheckError (board : Z) : M ErrorType :=
  ty ← gets (fun w => motorType_of w board);
  match ty with
  | MOTOR_TMC =>
      msg ← uninitialised_str "msg";
      value ← tmc5240_readRegister board TMC5240_GSTAT;
      if negb (value =? 0) then  (* any error *)
        TMC_SetEnable board 0;;
        msg ←
          (if test_mask value TMC5240_RESET_MASK then
             sprintf TMC_MSG_MAXLENGTH "GSTAT: reset error bit set"
           else if test_mask value TMC5240_UV_CP_MASK then
             sprintf TMC_MSG_MAXLENGTH "GSTAT: undervoltage warning bit set"
           else if test_mask value TMC5240_REGISTER_RESET_MASK then
             sprintf TMC_MSG_MAXLENGTH "GSTAT: register reset error bit set"
           else if test_mask value TMC5240_VM_UVLO_MASK then
             sprintf TMC_MSG_MAXLENGTH "GSTAT: undervoltage since last reset bit set"
           else if test_mask value TMC5240_DRV_ERR_MASK then
             value ← tmc5240_readRegister board TMC5240_DRVSTATUS;
             if negb (Z.land value errorMask =? 0) then
               (* overwrite with more specific msg *)
               if test_mask value TMC5240_S2VSA_MASK then
                 sprintf TMC_MSG_MAXLENGTH "DRVSTATUS: short to supply indicator phase A error bit set"
               else if test_mask value TMC5240_S2VSB_MASK then
                 sprintf TMC_MSG_MAXLENGTH "DRVSTATUS: short to supply indicator phase B error bit set"
               else if test_mask value TMC5240_S2GA_MASK then
                 sprintf TMC_MSG_MAXLENGTH "DRVSTATUS: short to ground indicator phase A error bit set"
               else if test_mask value TMC5240_S2GB_MASK then
                 sprintf TMC_MSG_MAXLENGTH "DRVSTATUS: short to ground indicator phase B error bit set"
               else if test_mask value TMC5240_OLA_MASK then
                 sprintf TMC_MSG_MAXLENGTH "DRVSTATUS: open load indicator phase A error bit set"
               else if test_mask value TMC5240_OLB_MASK then
                 sprintf TMC_MSG_MAXLENGTH "DRVSTATUS: open load indicator phase B error bit set"
               else if test_mask value TMC5240_STALLGUARD_MASK then
                 sprintf TMC_MSG_MAXLENGTH "DRVSTATUS: StallGuard error bit set"
               else if test_mask value TMC5240_OT_MASK then
                 sprintf TMC_MSG_MAXLENGTH "DRVSTATUS: overtemperature flag set"
               else if test_mask value TMC5240_OTPW_MASK then
                 sprintf TMC_MSG_MAXLENGTH "DRVSTATUS: overtemperature pre-warning flag set"
               else
                 sprintf TMC_MSG_MAXLENGTH
                   ("DRVSTATUS error bits: " ++ print_int (Z.land value errorMask))
             else mret msg
           else mret msg);
        TMC_SetErrorMsg board msg;;
        mret ERR_TMC
      else mret ERR_None
  | _ => mret ERR_None
  end.

Definition TMC_MoveAtVel (board : Z) (velocity : Z) : M ErrorType :=
  index ← uninitialised_int "index";
  value ← uninitialised_int "value";
  '(_, index, value) ← TMC_FindParamIndexVal board "RMXV" index value;
  ok ← TMC_IsValueInRange board velocity "VEL" (neg32 value) value;
  if negb ok then mret ERR_TMC else
  ty ← gets (fun w => motorType_of w board);
  match ty with
  | MOTOR_TMC =>
      tmc5240_fieldWrite board TMC5240_RAMPMODE_FIELD
        (if velocity >? 0 then TMC5240_MODE_VELPOS else TMC5240_MODE_VELNEG);;
      tmc5240_writeRegister board TMC5240_VMAX (abs32 velocity);;
      err ← TMC_CheckError board;
      if is_err err then mret err else mret ERR_None
  | MOTOR_SIM =>
      modify_sim board (set_vel velocity);;
      now ← millis;
      modify_sim board (set_lastVelCalcTime now);;
      mret ERR_None
  | MOTOR_NONE =>
      TMC_SetErrorMsg board "Motor is defined as MOTOR_NONE";;
      mret ERR_TMC
  end.

Definition TMC_MoveToPos (board : Z) (pos : Z) (setVel : Z) : M ErrorType :=
  index ← uninitialised_int "index";
  value ← uninitialised_int "value";
  ty ← gets (fun w => motorType_of w board);
  match ty with
  | MOTOR_TMC =>
      tmc5240_fieldWrite board TMC5240_EVENT_POS_REACHED_FIELD 1;;  (* clear the flag *)
      tmc5240_fieldWrite board TMC5240_RAMPMODE_FIELD TMC5240_MODE_POSITION;;
      (if negb (setVel =? 0) then
         '(_, index, value) ← TMC_FindParamIndexVal board "RSEV" index value;
         tmc5240_writeRegister board TMC5240_VMAX value
       else mret tt);;
      tmc5240_writeRegister board TMC5240_XTARGET pos;;
      err ← TMC_CheckError board;
      if is_err err then mret err else mret ERR_None
  | MOTOR_SIM =>
      modify_sim board (set_vel 0);;
      s ← gets (fun w => sim_at w board);
      let pos := if pos <? xmin s then xmin s else pos in
      let pos := if pos >? xmax s then xmax s else pos in
      modify_sim board (fun s => set_xact pos (set_xenc pos s));;
      mret ERR_None
  | MOTOR_NONE =>
      TMC_SetErrorMsg board "Motor is defined as MOTOR_NONE";;
      mret ERR_TMC
  end.

Definition TMC_SetXPos (board : Z) (pos : Z) : M ErrorType :=
  ty ← gets (fun w => motorType_of w board);
  match ty with
  | MOTOR_TMC =>
      vel ← tmc5240_readRegister board TMC5240_VMAX;
      tmc5240_writeRegister board TMC5240_VMAX 0;;
      tmc5240_writeRegister board TMC5240_XTARGET pos;;
      tmc5240_writeRegister board TMC5240_XACTUAL pos;;
      tmc5240_writeRegister board TMC5240_VMAX vel;;
      mret ERR_None
  | MOTOR_SIM =>
      modify_sim board (set_vel 0);;
      modify_sim board (fun s => set_xact pos (set_xtar pos s));;
      mret ERR_None
  | MOTOR_NONE => mret ERR_None
  end.

(** [pos] is the caller's variable. *)
Definition TMC_GetPos (board : Z) (pos : Z) : M (ErrorType * Z) :=
  ty ← gets (fun w => motorType_of w board);
  match ty with
  | MOTOR_TMC =>
      v ← tmc5240_readRegister board TMC5240_XACTUAL;
      mret (ERR_None, v)
  | MOTOR_SIM =>
      v ← gets (fun w => xact (sim_at w board));
      mret (ERR_None, v)
  | MOTOR_NONE =>
      TMC_SetErrorMsg board "Motor is defined as MOTOR_NONE";;
      mret (ERR_TMC, pos)
  end.

Definition TMC_GetEnc (board : Z) (pos : Z) : M (ErrorType * Z) :=
  ty ← gets (fun w => motorType_of w board);
  match ty with
  | MOTOR_TMC =>
      v ← tmc5240_readRegister board TMC5240_XENC;
      mret (ERR_None, v)
  | MOTOR_SIM =>
      v ← gets (fun w => xact (sim_at w board));
      mret (ERR_None, v)
  | MOTOR_NONE =>
      TMC_SetErrorMsg board "Motor is defined as MOTOR_NONE";;
      mret (ERR_TMC, pos)
  end.

(** One parameter of the configuration loop of [TMC::Config]: check
    the range, then write the field. [Some err] leaves [Config]. *)
Definition Config_write (board idx : Z) (min max : Z) (field : Field) : M (option ErrorType) :=
  ok ← TMC_IsParamInRange board idx min max;
  if negb ok then mret (Some ERR_TMC) else
  v ← gets (fun w => motorParam w board idx);
  tmc5240_fieldWrite board field v;;
  mret None.

(** The body of the configuration loop; [iv] holds the locals [index]
    and [value] of [Config]. *)
Definition Config_param (board idx : Z) (iv : Z * Z) : M (option ErrorType * (Z * Z)) :=
  let name := id_at motParamsIDList idx in
  let named (s : string) := strncmp_eq 4 name s in
  let keep (m : M (option ErrorType)) : M (option ErrorType * (Z * Z)) :=
    r ← m; mret (r, iv) in
  (* CurrentParams *)
  if named "CSCA" then keep (Config_write board idx 32 255 TMC5240_GLOBAL_SCALER_FIELD)
  else if named "CRAN" then keep (Config_write board idx 0 3 TMC5240_CURRENT_RANGE_FIELD)
  else if named "CRUN" then keep (Config_write board idx 0 31 TMC5240_IRUN_FIELD)
  else if named "CHOL" then keep (Config_write board idx 0 31 TMC5240_IHOLD_FIELD)
  (* ModeParams *)
  else if named "MMIC" then keep (Config_write board idx 0 8 TMC5240_MRES_FIELD)
  else if named "MINV" then keep (Config_write board idx 0 1 TMC5240_SHAFT_FIELD)
  else if named "MTOF" then
    keep (ok ← TMC_IsParamInRange board idx 0 10;
          if negb ok then mret (Some ERR_TMC) else
          tmc5240_fieldWrite board TMC5240_TOFF_FIELD 0;;  (* TOFF=0 so the motor won't start *)
          mret None)
  else if named "MSGE" then keep (Config_write board idx 0 1 TMC5240_SG_STOP_FIELD)
  else if named "MSGT" then keep (Config_write board idx (-64) 63 TMC5240_SGT_FIELD)
  else if named "MCTC" then keep (Config_write board idx 0 100000000 TMC5240_TCOOLTHRS_FIELD)
  (* HomingParams (not set here) *)
  (* RateParams (RMXV, RMXA, RSEV, HVEL are not set here) *)
  else if named "RSEA" then
    '(_, index, value) ← TMC_FindParamIndexVal board "RMXA" (fst iv) (snd iv);
    ok ← TMC_IsParamInRange board idx 0 value;
    if negb ok then mret (Some ERR_TMC, (index, value)) else
    v ← gets (fun w => motorParam w board idx);
    tmc5240_fieldWrite board TMC5240_AMAX_FIELD v;;
    tmc5240_fieldWrite board TMC5240_DMAX_FIELD v;;
    mret (None, (index, value))
  (* EncoderParams *)
  else if named "ECON" then
    keep (v ← gets (fun w => motorParam w board idx);
          modify_tmc board (TMC.set_encConst v);;  (* transfer to local copy *)
          tmc5240_fieldWrite board TMC5240_ENC_SEL_DECIMAL_FIELD 1;;
          tmc5240_fieldWrite board TMC5240_ENC_CONST_FIELD v;;
          mret None)
  else if named "EDEV" then keep (Config_write board idx 0 1000000000 TMC5240_ENC_DEVIATION_FIELD)
  (* these just get transferred to local copies (ECON already done above) *)
  else if named "EMAX" then
    keep (v ← gets (fun w => motorParam w board idx);
          modify_tmc board (TMC.set_maxIterations v);; mret None)
  else if named "ETOL" then
    keep (v ← gets (fun w => motorParam w board idx);
          modify_tmc board (TMC.set_tolerance v);; mret None)
  else if named "ERST" then
    keep (v ← gets (fun w => motorParam w board idx);
          modify_tmc board (TMC.set_resetXafterCL v);; mret None)
  (* SwitchParams *)
  else if named "SLEN" then keep (Config_write board idx 0 1 TMC5240_STOP_L_ENABLE_FIELD)
  else if named "SREN" then keep (Config_write board idx 0 1 TMC5240_STOP_R_ENABLE_FIELD)
  else if named "SLPO" then keep (Config_write board idx 0 1 TMC5240_POL_STOP_L_FIELD)
  else if named "SRPO" then keep (Config_write board idx 0 1 TMC5240_POL_STOP_R_FIELD)
  else if named "SSWP" then keep (Config_write board idx 0 1 TMC5240_SWAP_LR_FIELD)
  (* LimitsParam *)
  else if named "LENC" then keep (Config_write board idx 0 1 TMC5240_VIRTUAL_STOP_ENC_FIELD)
  else if named "LLEN" then keep (Config_write board idx 0 1 TMC5240_EN_VIRTUAL_STOP_L_FIELD)
  else if named "LREN" then keep (Config_write board idx 0 1 TMC5240_EN_VIRTUAL_STOP_R_FIELD)
  else if named "LLPS" then
    keep (v ← gets (fun w => motorParam w board idx);
          tmc5240_fieldWrite board TMC5240_VIRTUAL_STOP_L_FIELD v;; mret None)
  else if named "LRPS" then
    keep (v ← gets (fun w => motorParam w board idx);
          tmc5240_fieldWrite board TMC5240_VIRTUAL_STOP_R_FIELD v;; mret None)
  else mret (None, iv).

(** [for (idx = 0; idx < MOTORS_NUM_PARAMS; idx++)] of [Config]. *)
Fixpoint Config_loop (board : Z) (l : list Z) (iv : Z * Z) : M (option ErrorType * (Z * Z)) :=
  match l with
  | [] => mret (None, iv)
  | idx :: l' =>
      '(r, iv) ← Config_param board idx iv;
      match r with
      | Some e => mret (Some e, iv)
      | None => Config_loop board l' iv
      end
  end.

(** The part of [TMC::Config] before the motion flags are cleared:
    [Some err] when the function returns early. *)
Definition Config_device (board : Z) : M (option ErrorType) :=
  index ← uninitialised_int "index";
  value ← uninitialised_int "value";
  ty ← gets (fun w => motorType_of w board);
  pin ← gets (fun w => aget 0 (g_csPin w) board);
  match ty with
  | MOTOR_TMC =>
      if pin <? 0 then
        TMC_SetErrorMsg board "Invalid driver CS pin number";;
        mret (Some ERR_TMC)
      else
      pinMode pin OUTPUT;;
      digitalWrite pin HIGH;;
      err ← TMC_CheckError board;
      if is_err err then mret (Some err) else
      (* config the driver *)
      '(r, (index, value)) ← Config_loop board (upto MOTORS_NUM_PARAMS) (index, value);
      match r with
      | Some e => mret (Some e)
      | None =>
          (* set overtemp pre-warn threshold *)
          tmc5240_fieldWrite board TMC5240_OVERTEMPPREWARNING_VTH_FIELD TMC_OVERTEMP_PREWARN;;
          (* by default, set to position mode, but reset the target position to the
             current position to avoid initial moves; if encoder is present, set both
             to the encoder position *)
          '(_, index, value) ← TMC_FindParamIndexVal board "ECON" index value;
          value ←
            (if negb (value =? 0) then
               value ← tmc5240_readRegister board TMC5240_XENC;
               tmc5240_writeRegister board TMC5240_XACTUAL value;;
               mret value
             else tmc5240_readRegister board TMC5240_XACTUAL);
          tmc5240_writeRegister board TMC5240_XTARGET value;;
          tmc5240_fieldWrite board TMC5240_RAMPMODE_FIELD TMC5240_MODE_POSITION;;
          (* clear all the registers *)
          tmc5240_writeRegister board TMC5240_ENC_STATUS (-1);;  (* clear the enc following error flag *)
          tmc5240_writeRegister board TMC5240_RAMPSTAT (-1);;
          mret None
      end
  | MOTOR_SIM =>
      (* just in case this has been reconfigured *)
      (if pin >=? 0 then pinMode pin INPUT_PULLUP else mret tt);;
      modify_tmc board (TMC.set_encConst 0);;
      modify_tmc board (TMC.set_maxIterations 1);;
      (* set the limits *)
      '(_, index, value) ← TMC_FindParamIndexVal board "LLEN" index value;
      '(index, value) ←
        (if negb (value =? 0) then
           '(_, index, value) ← TMC_FindParamIndexVal board "LLPS" index value;
           modify_sim board (set_xmin value);;
           mret (index, value)
         else
           modify_sim board (set_xmin INT32_MIN);;
           mret (index, value));
      '(_, index, value) ← TMC_FindParamIndexVal board "LREN" index value;
      (if negb (value =? 0) then
         '(_, index, value) ← TMC_FindParamIndexVal board "LRPS" index value;
         modify_sim board (set_xmax value)
       else
         modify_sim board (set_xmax INT32_MAX));;
      modify_sim board (fun s => set_xact 0 (set_xenc 0 s));;
      modify_sim board (set_vel 0);;
      mret None
  | MOTOR_NONE =>  (* Motor not defined *)
      TMC_SetErrorMsg board "Motor is defined as MOTOR_NONE";;
      mret (Some ERR_TMC)
  end.

Definition TMC_Config (board : Z) : M ErrorType :=
  r ← Config_device board;
  match r with
  | Some err => mret err
  | None =>
      set_isMotorEnabled board 0;;
      set_isMotorMoving board 0;;
      set_isMotorHoming board 0;;
      mret ERR_None
  end.

Definition TMC_ClearStatusRegs (board : Z) : M ErrorType :=
  tmc5240_writeRegister board TMC5240_GSTAT (-1);;  (* set all bits, only the lowest few are relevant *)
  tmc5240_writeRegister board TMC5240_ENC_STATUS (-1);;  (* clear the enc following error flag *)
  tmc5240_writeRegister board TMC5240_RAMPSTAT (-1);;
  mret ERR_None.

Definition TMC_StartHoming (board : Z) : M ErrorType :=
  index ← uninitialised_int "index";
  value ← uninitialised_int "value";
  softStop ← uninitialised_int "softStop";
  searchMode ← uninitialised_int "searchMode";
  dir ← uninitialised_int "dir";
  indexMode ← uninitialised_int "indexMode";
  homeVel ← uninitialised_int "homeVel";
  velMax ← uninitialised_int "velMax";
  ty ← gets (fun w => motorType_of w board);
  match ty with
  | MOTOR_TMC =>
      '(_, index, softStop) ← TMC_FindParamIndexVal board "HSST" index softStop;
      ok ← TMC_IsParamInRange board index 0 1;
      if negb ok then mret ERR_TMC else
      '(_, index, searchMode) ← TMC_FindParamIndexVal board "HMOD" index searchMode;
      ok ← TMC_IsParamInRange board index 0 2;
      if negb ok then mret ERR_TMC else
      if searchMode =? 0 then  (* disabled homing *)
        TMC_SetErrorMsg board "Homing disabled by config setting";;
        mret ERR_TMC
      else
      '(_, index, dir) ← TMC_FindParamIndexVal board "HDIR" index dir;
      if negb (abs32 dir =? 1) then
        TMC_SetErrorMsg board "Homing direction undefined (needs -1 or 1)";;
        mret ERR_TMC
      else
      armed ←
        (if searchMode =? 1 then  (* limit switches *)
           (* only enable if the appropriate switch is enabled *)
           '(_, index, value) ←
             TMC_FindParamIndexVal board (if dir =? 1 then "SREN" else "SLEN") index value;
           if negb (value =? 1) then
             TMC_SetErrorMsg board "Homing only allowed if switch is enabled";;
             mret (Some ERR_TMC)
           else
             (* clear the status flags (clearing both is fine) *)
             tmc5240_fieldWrite board TMC5240_STATUS_LATCH_L_FIELD 1;;
             tmc5240_fieldWrite board TMC5240_STATUS_LATCH_R_FIELD 1;;
             mret None
         else if searchMode =? 2 then  (* index *)
           '(_, index, indexMode) ← TMC_FindParamIndexVal board "HNEV" index indexMode;
           if (indexMode <? 0) || (indexMode >? 3) then
             TMC_SetErrorMsg board "Invalid index homeing mode (needs 0..3)";;
             mret (Some ERR_TMC)
           else
             (* set up modes and clear the status flag *)
             tmc5240_fieldWrite board TMC5240_IGNORE_AB_FIELD 1;;
             tmc5240_fieldWrite board TMC5240_CLR_CONT_FIELD 1;;
             tmc5240_fieldWrite board TMC5240_POS_NEG_EDGE_FIELD indexMode;;
             tmc5240_fieldWrite board TMC5240_N_EVENT_FIELD 1;;
             mret None
         else  (* disabled or unknown *)
           TMC_SetErrorMsg board "Homing disabled or mode not defined";;
           mret (Some ERR_TMC));
      match armed with
      | Some err => mret err
      | None =>
          set_isMotorHoming board 1;;
          tmc5240_fieldWrite board TMC5240_EN_SOFTSTOP_FIELD softStop;;
          (if dir =? -1 then  (* -> left (or more negative) direction *)
             (* disable the virtual limit *)
             tmc5240_fieldWrite board TMC5240_EN_VIRTUAL_STOP_L_FIELD 0;;
             (* prepare the latch *)
             (if searchMode =? 1 then tmc5240_fieldWrite board TMC5240_LATCH_L_ACTIVE_FIELD 1
              else tmc5240_fieldWrite board TMC5240_LATCH_X_ACT_FIELD 1);;
             (* set the move direction *)
             tmc5240_fieldWrite board TMC5240_RAMPMODE_FIELD TMC5240_MODE_VELNEG
           else if dir =? 1 then  (* -> right (or more positive) direction *)
             tmc5240_fieldWrite board TMC5240_EN_VIRTUAL_STOP_R_FIELD 0;;
             (if searchMode =? 1 then tmc5240_fieldWrite board TMC5240_LATCH_R_ACTIVE_FIELD 1
              else tmc5240_fieldWrite board TMC5240_LATCH_X_ACT_FIELD 1);;
             tmc5240_fieldWrite board TMC5240_RAMPMODE_FIELD TMC5240_MODE_VELPOS
           else mret tt);;
          '(_, index, velMax) ← TMC_FindParamIndexVal board "RMXV" index velMax;
          '(_, index, homeVel) ← TMC_FindParamIndexVal board "HVEL" index homeVel;
          ok ← TMC_IsValueInRange board homeVel "HVEL" 0 velMax;
          if negb ok then mret ERR_TMC else
          tmc5240_writeRegister board TMC5240_VMAX homeVel;;
          err ← TMC_CheckError board;
          if is_err err then mret err else mret ERR_None
      end
  | MOTOR_SIM =>
      modify_sim board (fun s => set_xact 0 (set_xenc 0 s));;
      modify_sim board (set_vel 0);;
      set_isMotorHoming board 0;;
      mret ERR_None
  | MOTOR_NONE =>
      TMC_SetErrorMsg board "Motor is defined as MOTOR_NONE";;
      mret ERR_TMC
  end.

(** [for (idx = 0; idx < n; idx++) { if (fieldRead (field) != 1) break; delay (50); }] *)
Fixpoint poll_field (n : nat) (board : Z) (field : Field) : M unit :=
  match n with
  | O => mret tt
  | S n' =>
      v ← tmc5240_fieldRead board field;
      if negb (v =? 1) then mret tt
      else delay 50;; poll_field n' board field
  end.

Definition TMC_EndHoming (board : Z) : M ErrorType :=
  index ← uninitialised_int "index";
  value ← uninitialised_int "value";
  set_isMotorHoming board 0;;
  (* wait for the motor to stop, raise error if not *)
  poll_field (Z.to_nat (TMC_HOMING_STANDSTILL_TIMEOUT_MS / 50)) board TMC5240_STST_FIELD;;
  delay 500;;  (* wait a bit more to be sure *)
  stst ← tmc5240_fieldRead board TMC5240_STST_FIELD;
  if negb (stst =? 1) then
    TMC_SetErrorMsg board "Motor hasn't stopped after homing position reached";;
    TMC_SetEnable board 0;;
    mret ERR_TMC
  else
  (* disable the motor so I can change the register value safely *)
  TMC_SetEnable board 0;;
  (* figure out the current positions and write the difference into all the registers *)
  xact ← tmc5240_readRegister board TMC5240_XACTUAL;
  xlatch ← tmc5240_readRegister board TMC5240_XLATCH;
  tmc5240_writeRegister board TMC5240_XACTUAL (sub32 xact xlatch);;
  TMC_SetEnable board 1;;
  enc ← tmc5240_fieldRead board TMC5240_ENC_CONST_FIELD;
  (if negb (enc =? 0) then  (* only update if encoder is present *)
     tmc5240_writeRegister board TMC5240_XENC (sub32 xact xlatch);;
     tmc5240_writeRegister board TMC5240_ENC_STATUS (-1)  (* clear the enc following error flag *)
   else mret tt);;
  (* reset the virtual limits *)
  '(_, index, value) ← TMC_FindParamIndexVal board "LLEN" index value;
  tmc5240_fieldWrite board TMC5240_EN_VIRTUAL_STOP_L_FIELD value;;
  '(_, index, value) ← TMC_FindParamIndexVal board "LREN" index value;
  tmc5240_fieldWrite board TMC5240_EN_VIRTUAL_STOP_R_FIELD value;;
  (* clear the status flags and enable bits (clearing all is fine) *)
  tmc5240_fieldWrite board TMC5240_LATCH_L_ACTIVE_FIELD 0;;
  tmc5240_fieldWrite board TMC5240_LATCH_R_ACTIVE_FIELD 0;;
  tmc5240_fieldWrite board TMC5240_LATCH_X_ACT_FIELD 0;;
  tmc5240_fieldWrite board TMC5240_STATUS_LATCH_L_FIELD 1;;
  tmc5240_fieldWrite board TMC5240_STATUS_LATCH_R_FIELD 1;;
  tmc5240_fieldWrite board TMC5240_N_EVENT_FIELD 1;;
  TMC_MoveToPos board 0 1;;  (* move to the new zero at the regular set speed *)
  poll_field (Z.to_nat (TMC_HOMING_STANDSTILL_TIMEOUT_MS / 50)) board TMC5240_POSITION_REACHED_FIELD;;
  delay 200;;  (* give motor a bit of time to settle *)
  (* reset the encoder again. This shouldn't be necessary, but just in case *)
  enc ← tmc5240_fieldRead board TMC5240_ENC_CONST_FIELD;
  (if negb (enc =? 0) then tmc5240_writeRegister board TMC5240_XENC 0 else mret tt);;
  mret ERR_None.

(** [isMotionDone] is the caller's variable: it is assigned on some
    paths only. *)
Definition TMC_CheckStatus (board : Z) (isMotionDone : Z) : M (ErrorType * Z) :=
  ty ← gets (fun w => motorType_of w board);
  match ty with
  | MOTOR_TMC =>
      (* check for following errors *)
      warn ← tmc5240_fieldRead board TMC5240_DEVIATION_WARN_FIELD;
      if negb (warn =? 0) then
        TMC_SetEnable board 0;;
        TMC_SetErrorMsg board "Following error";;
        mret (ERR_TMC, isMotionDone)
      else
      flags ← tmc5240_readRegister board TMC5240_RAMPSTAT;
      (* set motion done flag *)
      let isMotionDone :=
        if test_mask flags TMC5240_EVENT_POS_REACHED_MASK
           || test_mask flags TMC5240_POSITION_REACHED_MASK then 1 else 0 in
      (* check for errors *)
      if test_mask flags TMC5240_EVENT_STOP_SG_MASK then
        TMC_SetErrorMsg board "Stall guard2 tripped";;
        TMC_SetEnable board 0;;
        mret (ERR_TMC, isMotionDone)
      else
      (* check if homing search has reached a switch *)
      homing ← gets (fun w => isMotorHoming_at w board);
      if (homing =? 1)
         && (test_mask flags TMC5240_STATUS_LATCH_L_MASK
             || test_mask flags TMC5240_STATUS_LATCH_R_MASK) then
        err ← TMC_EndHoming board;
        mret (err, isMotionDone)
      else
      (* check for stop flags *)
      if test_mask flags TMC5240_EVENT_STOP_L_MASK then
        (if test_mask flags TMC5240_STATUS_STOP_L_MASK then
           TMC_SetErrorMsg board "Left limit switch reached";;
           TMC_SetEnable board 0;; mret tt
         else if test_mask flags TMC5240_STATUS_VIRTUAL_STOP_L_MASK then
           TMC_SetErrorMsg board "Left virtual limit switch reached"
           (* do not disable motor for virtual stop *)
         else
           TMC_SetErrorMsg board "Unknown left stop condition";;
           TMC_SetEnable board 0;; mret tt);;
        mret (ERR_TMC, isMotionDone)
      else
      if test_mask flags TMC5240_EVENT_STOP_R_MASK then
        (if test_mask flags TMC5240_STATUS_STOP_R_MASK then
           TMC_SetErrorMsg board "Right limit switch reached";;
           TMC_SetEnable board 0;; mret tt
         else if test_mask flags TMC5240_STATUS_VIRTUAL_STOP_R_MASK then
           TMC_SetErrorMsg board "Right virtual limit switch reached"
           (* do not disable motor for virtual stop *)
         else
           TMC_SetErrorMsg board "Unknown right stop condition";;
           TMC_SetEnable board 0;; mret tt);;
        mret (ERR_TMC, isMotionDone)
      else mret (ERR_None, isMotionDone)
  | MOTOR_SIM =>
      currentTime ← millis;
      s ← gets (fun w => sim_at w board);
      let isMotionDone := if vel s =? 0 then 1 else 0 in
      (if vel s =? 0 then mret tt
       else
         modify_sim board (fun s =>
           set_xact
             (add32 (xact s)
                (div32 (mul32 (wrap32 (wrapu32 (currentTime - lastVelCalcTime s))) (vel s)) 1000))
             s));;
      modify_sim board (set_lastVelCalcTime currentTime);;
      s ← gets (fun w => sim_at w board);
      (if xact s <? xmin s then
         modify_sim board (fun s => set_vel 0 (set_xact (xmin s) s))
       else mret tt);;
      s ← gets (fun w => sim_at w board);
      (if xact s >? xmax s then
         modify_sim board (fun s => set_vel 0 (set_xact (xmax s) s))
       else mret tt);;
      modify_sim board (fun s => set_xenc (xact s) s);;
      mret (ERR_None, isMotionDone)
  | MOTOR_NONE =>
      TMC_SetErrorMsg board "Motor is defined as MOTOR_NONE";;
      mret (ERR_TMC, isMotionDone)
  end.

Definition TMC_SetStatusValue (board : Z) (index : Z) (value : Z) : M ErrorType :=
  limIndex ← uninitialised_int "limIndex";
  limValue ← uninitialised_int "limValue";
  let name := id_at motStatIDList index in
  let named (s : string) := strncmp_eq 4 name s in
  ty ← gets (fun w => motorType_of w board);
  match ty with
  | MOTOR_TMC =>
      if named "ENAB" then
        TMC_SetEnable board value;;
        mret ERR_None
      else  (* the rest of the settings are only allowed if not remote controlled *)
        remote ← gets (fun w => isRemoteControlled_at w board);
        if negb (remote =? 0) then
          TMC_SetErrorMsg board "Motor is under remote control";;
          mret ERR_Motor
        else
          (* set stuff (if allowed) *)
          if named "XACT" then
            tmc5240_writeRegister board TMC5240_XACTUAL value;; mret ERR_None
          else if named "XTAR" then
            tmc5240_writeRegister board TMC5240_XTARGET value;; mret ERR_None
          else if named "XENC" then
            tmc5240_writeRegister board TMC5240_XENC value;;
            tmc5240_writeRegister board TMC5240_ENC_STATUS (-1);;  (* clear the enc following error flag *)
            mret ERR_None
          else if named "VELO" then
            '(_, limIndex, limValue) ← TMC_FindParamIndexVal board "RMXV" limIndex limValue;
            ok ← TMC_IsValueInRange board value name (neg32 limValue) limValue;
            if negb ok then mret ERR_TMC else
            tmc5240_writeRegister board TMC5240_VMAX value;; mret ERR_None
          else if named "ACCE" then
            '(_, limIndex, limValue) ← TMC_FindParamIndexVal board "RMXA" limIndex limValue;
            ok ← TMC_IsValueInRange board value name 0 limValue;
            if negb ok then mret ERR_TMC else
            tmc5240_writeRegister board TMC5240_AMAX value;;
            tmc5240_writeRegister board TMC5240_DMAX value;;
            mret ERR_None
          else mret ERR_None
  | MOTOR_SIM =>
      if named "ENAB" then
        TMC_SetEnable board value;;
        mret ERR_None
      else  (* the rest of the settings are only allowed if not remote controlled *)
        remote ← gets (fun w => isRemoteControlled_at w board);
        if negb (remote =? 0) then
          TMC_SetErrorMsg board "Motor is under remote control";;
          mret ERR_Motor
        else
          (if named "XACT" then modify_sim board (set_xact value)
           else if named "XTAR" then modify_sim board (set_xact value)
           else if named "XENC" then modify_sim board (set_xenc value)
           else if named "VELO" then modify_sim board (set_vel value)
           else mret tt);;
          mret ERR_None
  | MOTOR_NONE =>
      TMC_SetErrorMsg board "Motor is defined as MOTOR_NONE";;
      mret ERR_TMC
  end.

(** [value] is the caller's variable. *)
Definition TMC_GetStatusValue (board : Z) (index : Z) (value : Z) : M (ErrorType * Z) :=
  let name := id_at motStatIDList index in
  let named (s : string) := strncmp_eq 4 name s in
  ty ← gets (fun w => motorType_of w board);
  match ty with
  | MOTOR_TMC =>
      v ←
        (if named "XACT" then tmc5240_readRegister board TMC5240_XACTUAL
         else if named "XTAR" then tmc5240_readRegister board TMC5240_XTARGET
         else if named "XENC" then tmc5240_readRegister board TMC5240_XENC
         else if named "VELO" then tmc5240_readRegister board TMC5240_VMAX
         else if named "ACCE" then tmc5240_readRegister board TMC5240_AMAX
         else if named "ENAB" then gets (fun w => isMotorEnabled_at w board)
         else if named "TEMP" then
           adc ← tmc5240_fieldRead board TMC5240_ADC_TEMP_FIELD;
           (* (int32_t) ((adc - 2038) / 7.7), a floating-point computation *)
           mret (wrap32 (env_temperature adc))
         else mret value);
      mret (ERR_None, v)
  | MOTOR_SIM =>
      s ← gets (fun w => sim_at w board);
      v ←
        (if named "XACT" then mret (xact s)
         else if named "XTAR" then mret (xact s)
         else if named "XENC" then mret (xenc s)
         else if named "VELO" then mret (vel s)
         else if named "ACCE" then mret 0
         else if named "ENAB" then gets (fun w => isMotorEnabled_at w board)
         else if named "TEMP" then mret 0
         else mret value);
      mret (ERR_None, v)
  | MOTOR_NONE =>
      TMC_SetErrorMsg board "Motor is defined as MOTOR_NONE";;
      mret (ERR_TMC, value)
  end.

Definition TMC_SetRegisterValue (board : Z) (address : Z) (value : Z) : M ErrorType :=
  ty ← gets (fun w => motorType_of w board);
  (if bool_decide (ty = MOTOR_TMC) then tmc5240_writeRegister board (RegisterAt address) value
   else mret tt);;
  mret ERR_None.

Definition TMC_GetRegisterValue (board : Z) (address : Z) (value : Z) : M (ErrorType * Z) :=
  ty ← gets (fun w => motorType_of w board);
  if bool_decide (ty = MOTOR_TMC) then
    v ← tmc5240_readRegister board (RegisterAt address);
    mret (ERR_None, v)
  else mret (ERR_None, 0).  (* no register value for sim *)

(** [flags |= (0x1 << n)] when [c]. *)
Definition flag_if (c : bool) (n : Z) (flags : Z) : Z :=
  if c then Z.lor flags (Z.shiftl 1 n) else flags.

(**  bit:     11   |   10   |   9    |   8    |   7    |   6    |   5    |   4    |   3    |   2    |   1    |   0
     flag:  enabled |  atPos |  isMov |latch_R |latch_L | encDev |SG_evnt |SG_stat | virt_R | virt_L | stop_R | stop_L *)
Definition TMC_GetStatusFlags (board : Z) (status : Z) : M (ErrorType * Z) :=
  ty ← gets (fun w => motorType_of w board);
  match ty with
  | MOTOR_TMC =>
      value ← tmc5240_readRegister board TMC5240_RAMPSTAT;
      enabled ← gets (fun w => isMotorEnabled_at w board);
      let flags := 0 in
      let flags := flag_if (negb (enabled =? 0)) 11 flags in
      let flags := flag_if (test_mask value TMC5240_POSITION_REACHED_MASK) 10 flags in
      let flags := flag_if (negb (test_mask value TMC5240_VZERO_MASK)) 9 flags in
      let flags := flag_if (test_mask value TMC5240_STATUS_LATCH_R_MASK) 8 flags in
      let flags := flag_if (test_mask value TMC5240_STATUS_LATCH_L_MASK) 7 flags in
      let flags := flag_if (test_mask value TMC5240_EVENT_STOP_SG_MASK) 5 flags in
      let flags := flag_if (test_mask value TMC5240_STATUS_SG_MASK) 4 flags in
      let flags := flag_if (test_mask value TMC5240_STATUS_VIRTUAL_STOP_R_MASK) 3 flags in
      let flags := flag_if (test_mask value TMC5240_STATUS_VIRTUAL_STOP_L_MASK) 2 flags in
      let flags := flag_if (test_mask value TMC5240_STATUS_STOP_R_MASK) 1 flags in
      let flags := flag_if (test_mask value TMC5240_STATUS_STOP_L_MASK) 0 flags in
      value ← tmc5240_readRegister board TMC5240_ENC_STATUS;
      let flags := flag_if (test_mask value TMC5240_DEVIATION_WARN_MASK) 6 flags in
      mret (ERR_None, flags)
  | MOTOR_SIM =>
      enabled ← gets (fun w => isMotorEnabled_at w board);
      s ← gets (fun w => sim_at w board);
      let flags := 0 in
      let flags := flag_if (negb (enabled =? 0)) 11 flags in
      let flags := flag_if (negb (vel s =? 0)) 9 flags in
      let flags := flag_if (xact s >=? xmax s) 3 flags in
      let flags := flag_if (xact s <=? xmin s) 2 flags in
      mret (ERR_None, flags)
  | MOTOR_NONE =>
      TMC_SetErrorMsg board "Motor is defined as MOTOR_NONE";;
      mret (ERR_TMC, status)
  end.

(** *** Motors.cpp *)

Definition Motors_ConfigBoard (board : Z) : M ErrorType :=
  if board =? -1 then  (* all motors *)
    r ← for_return (upto MAXNUMMOTORS) (fun z =>
           active ← Parameters_IsActiveMotor z false;
           if negb active then mret None  (* silently skip if not defined *)
           else
             err ← TMC_Config z;
             if is_err err then
               Motors_SetErrorMsg "Board" z "Could not configure board";;
               mret (Some ERR_Motor)
             else mret None);
    match r with
    | Some e => mret e
    | None => mret ERR_None
    end
  else
    active ← Parameters_IsActiveMotor board true;
    if (active : bool) then
      err ← TMC_Config board;
      if is_err err then
        Motors_SetErrorMsg "Board" board "Could not configure board";;
        mret ERR_Motor
      else mret ERR_None
    else
      Motors_SetErrorMsg "Board" (-1) "Invalid motor number";;
      mret ERR_Motor.

Definition Motors_MoveToPos (board : Z) (pos : Z) (setVel : Z) : M ErrorType :=
  active ← Parameters_IsActiveMotor board true;
  if negb active then mret ERR_Motor else
  enabled ← gets (fun w => isMotorEnabled_at w board);
  if enabled =? 0 then
    Motors_SetErrorMsg "Board" board "Driver is not enabled";;
    mret ERR_Motor
  else
  homing ← gets (fun w => isMotorHoming_at w board);
  if negb (homing =? 0) then
    Motors_SetErrorMsg "Board" board "Motor is homing";;
    mret ERR_Motor
  else
  t ← gets (fun w => tmc_at w board);
  err ←
    (if ((TMC.maxIterations t =? 0) || (TMC.maxIterations t >? 1))
        && negb (TMC.encConst t =? 0) then  (* closed loop *)
       set_targetPosition board pos;;  (* store the desired position *)
       set_iterationsLeft board (sub32 (TMC.maxIterations t) 1);;  (* reset iteration counter *)
       set_isMotorMoving board 1;;
       set_isMotorSearching board 1;;
       target ← gets (fun w => targetPosition_at w board);
       set_setPosition board target;;
       target ← gets (fun w => targetPosition_at w board);
       TMC_MoveToPos board target (wrap8 setVel)
     else  (* open loop *)
       set_iterationsLeft board 0;;
       set_isMotorMoving board 1;;
       set_isMotorSearching board 0;;
       TMC_MoveToPos board pos (wrap8 setVel));
  if is_err err then
    set_isMotorMoving board 0;;
    Motors_SetErrorMsg "Board" board "Error setting position target";;
    mret ERR_Motor
  else mret ERR_None.

Definition Motors_MoveAtVel (board : Z) (vel : Z) : M ErrorType :=
  active ← Parameters_IsActiveMotor board true;
  if negb active then mret ERR_Motor else
  enabled ← gets (fun w => isMotorEnabled_at w board);
  if enabled =? 0 then
    Motors_SetErrorMsg "Board" board "Driver is not enabled";;
    mret ERR_Motor
  else
  homing ← gets (fun w => isMotorHoming_at w board);
  if negb (homing =? 0) then
    Motors_SetErrorMsg "Board" board "Motor is homing";;
    mret ERR_Motor
  else
  err ← TMC_MoveAtVel board vel;
  set_isMotorMoving board (if vel =? 0 then 0 else 1);;
  if is_err err then
    Motors_SetErrorMsg "Board" board "Error setting velocity mode";;
    set_isMotorMoving board 0;;
    mret ERR_Motor
  else mret ERR_None.

Definition Motors_GetPos (board : Z) (pos : Z) : M (ErrorType * Z) :=
  active ← Parameters_IsActiveMotor board true;
  if negb active then mret (ERR_Motor, pos) else
  TMC_GetPos board pos.

Definition Motors_SetRemoteEnabled (board : Z) (state : Z) : M ErrorType :=
  if board =? -1 then  (* all motors *)
    for_each (upto MAXNUMMOTORS) (fun z =>
      active ← Parameters_IsActiveMotor z false;
      if negb active then mret tt  (* silently skip if not defined *)
      else set_isRemoteControlled z state);;
    mret ERR_None
  else
    active ← Parameters_IsActiveMotor board false;
    if negb active then mret ERR_None  (* do nothing *)
    else
      set_isRemoteControlled board state;;
      mret ERR_None.

Definition Motors_ClearStatusRegs (board : Z) : M ErrorType :=
  if board =? -1 then  (* all motors *)
    for_each (upto MAXNUMMOTORS) (fun z =>
      active ← Parameters_IsActiveMotor z false;
      if negb active then mret tt
      else TMC_ClearStatusRegs z;; mret tt);;
    mret ERR_None
  else
    active ← Parameters_IsActiveMotor board true;
    if negb active then mret ERR_Motor else
    TMC_ClearStatusRegs board;;
    mret ERR_None.

Definition Motors_StartHoming (board : Z) : M ErrorType :=
  active ← Parameters_IsActiveMotor board true;
  if negb active then mret ERR_Motor else
  enabled ← gets (fun w => isMotorEnabled_at w board);
  if enabled =? 0 then
    Motors_SetErrorMsg "Board" board "Driver is not enabled";;
    mret ERR_Motor
  else TMC_StartHoming board.

Definition Motors_SetStatusValue (board : Z) (index : Z) (value : Z) : M ErrorType :=
  (* ENAB is a special case, it can be set for all motors at once *)
  if strncmp_eq 4 (id_at motStatIDList index) "ENAB" && (board =? -1) then
    r ← for_return (upto MAXNUMMOTORS) (fun z =>
           active ← Parameters_IsActiveMotor z false;
           if negb active then mret None  (* silently skip if not defined *)
           else
             status ← TMC_SetStatusValue z index value;
             if is_err status then
               Motors_SetErrorMsg "Board" z "Error enabling/disabling the motor";;
               mret (Some status)
             else mret None);
    match r with
    | Some e => mret e
    | None => mret ERR_None
    end
  else
    active ← Parameters_IsActiveMotor board true;
    if negb active then mret ERR_Motor else
    TMC_SetStatusValue board index value.

Definition Motors_GetStatusValue (board : Z) (index : Z) (value : Z) : M (ErrorType * Z) :=
  idx ← uninitialised_int "idx";
  max ← uninitialised_int "max";
  active ← Parameters_IsActiveMotor board true;
  if negb active then mret (ERR_Motor, value) else
  if strncmp_eq 4 (id_at motStatIDList index) "PULL" then
    '(_, idx, max) ← TMC_FindParamIndexVal board "EMAX" idx max;
    left ← gets (fun w => iterationsLeft_at w board);
    mret (ERR_None, sub32 max left)
  else TMC_GetStatusValue board index value.

Definition Motors_SetRegisterValue (board : Z) (address : Z) (value : Z) : M ErrorType :=
  active ← Parameters_IsActiveMotor board true;
  if negb active then mret ERR_Motor else
  TMC_SetRegisterValue board address value.

Definition Motors_GetRegisterValue (board : Z) (address : Z) (value : Z) : M (ErrorType * Z) :=
  active ← Parameters_IsActiveMotor board true;
  if negb active then mret (ERR_Motor, value) else
  TMC_GetRegisterValue board address value.

Definition Motors_GetStatusFlags (board : Z) (status : Z) : M (ErrorType * Z) :=
  active ← Parameters_IsActiveMotor board true;
  if negb active then mret (ERR_Motor, status) else
  TMC_GetStatusFlags board status.

Definition Motors_IsMotionDone (board : Z) : M (ErrorType * Z) :=
  if board =? -1 then  (* all motors *)
    r ← for_return (upto MAXNUMMOTORS) (fun z =>
           active ← Parameters_IsActiveMotor z false;
           if negb active then mret None
           else
             moving ← gets (fun w => isMotorMoving_at w z);
             searching ← gets (fun w => isMotorSearching_at w z);
             if negb (moving =? 0) || negb (searching =? 0) then mret (Some 0)
             else mret None);
    match r with
    | Some done => mret (ERR_None, done)
    | None => mret (ERR_None, 1)
    end
  else
    active ← Parameters_IsActiveMotor board true;
    if negb active then mret (ERR_Motor, 1) else
    moving ← gets (fun w => isMotorMoving_at w board);
    searching ← gets (fun w => isMotorSearching_at w board);
    mret (ERR_None, if negb (moving =? 0) || negb (searching =? 0) then 0 else 1).

(** What the closed-loop branch of the status poll does with the encoder
    position [currPos] once the motion is done: another pull-in, the
    end of the search, or the fault. *)
Definition ProcessUpdate_adjust (z : Z) (currPos : Z) : M unit :=
  target ← gets (fun w => targetPosition_at w z);
  let deviation := sub32 currPos target in
  t ← gets (fun w => tmc_at w z);
  left ← gets (fun w => iterationsLeft_at w z);
  if abs32 deviation >? TMC.tolerance t then  (* still not at the right spot *)
    if (left =? -1) || (left >? 0) then  (* keep adjusting *)
      (if TMC.maxIterations t >? 1 then set_iterationsLeft z (sub32 left 1) else mret tt);;
      set_isMotorMoving z 1;;
      setpoint ← gets (fun w => setPosition_at w z);
      set_setPosition z (sub32 setpoint deviation);;
      setpoint ← gets (fun w => setPosition_at w z);
      TMC_MoveToPos z setpoint 0;;
      mret tt
    else  (* iterationsLeft==0, i.e. not there but no more tries left *)
      Motors_SetErrorMsg "Board" z "Closed loop motion did not converge";;
      set_isMotorMoving z 0;;
      set_isMotorSearching z 0
  else  (* reached the target *)
    set_isMotorMoving z 0;;
    (if negb (left =? -1) then set_isMotorSearching z 0 else mret tt);;
    (if negb (TMC.resetXafterCL t =? 0) then
       TMC_SetXPos z currPos;; mret tt  (* set X positions to encoder *)
     else mret tt).

(** The closed-loop branch of the status poll of [ProcessUpdateChanges]
    for motor [z]. [isMotionDone] and [currPos] are the locals of the
    function, shared by all iterations of its loop. *)
Definition ProcessUpdate_search (z : Z) (isMotionDone currPos : Z) : M (Z * Z) :=
  '(err, isMotionDone) ← TMC_CheckStatus z isMotionDone;
  if is_err err then
    set_isMotorMoving z 0;;
    set_isMotorSearching z 0;;
    Motors_SetErrorMsg "Board" z "Error during closed loop mode";;
    mret (isMotionDone, currPos)
  else if negb (isMotionDone =? 0) then
    set_isMotorMoving z 0;;
    (* get the encoder position *)
    '(err, currPos) ← TMC_GetEnc z currPos;
    ProcessUpdate_adjust z currPos;;
    mret (isMotionDone, currPos)
  else mret (isMotionDone, currPos).

(** The body of the status loop of [ProcessUpdateChanges]. *)
Definition ProcessUpdate_status (z : Z) (isMotionDone currPos : Z) : M (Z * Z) :=
  active ← Parameters_IsActiveMotor z false;
  enabled ← gets (fun w => isMotorEnabled_at w z);
  if negb active || (enabled =? 0) then mret (isMotionDone, currPos)  (* skip if not enabled *)
  else
  homing ← gets (fun w => isMotorHoming_at w z);
  searching ← gets (fun w => isMotorSearching_at w z);
  moving ← gets (fun w => isMotorMoving_at w z);
  if negb (homing =? 0) then  (* homing in progress *)
    '(err, isMotionDone) ← TMC_CheckStatus z isMotionDone;
    (if negb (isMotionDone =? 0) || is_err err then set_isMotorMoving z 0 else mret tt);;
    mret (isMotionDone, currPos)
  else if negb (searching =? 0) then  (* closed loop search in progress *)
    ProcessUpdate_search z isMotionDone currPos
  else if negb (moving =? 0) then  (* open loop motion in progress *)
    '(err, isMotionDone) ← TMC_CheckStatus z isMotionDone;
    (if negb (isMotionDone =? 0) || is_err err then set_isMotorMoving z 0 else mret tt);;
    mret (isMotionDone, currPos)
  else mret (isMotionDone, currPos).

Fixpoint ProcessUpdate_status_loop (l : list Z) (isMotionDone currPos : Z) : M unit :=
  match l with
  | [] => mret tt
  | z :: l' =>
      '(isMotionDone, currPos) ← ProcessUpdate_status z isMotionDone currPos;
      ProcessUpdate_status_loop l' isMotionDone currPos
  end.

Definition Motors_ProcessUpdateChanges : M unit :=
  isMotionDone ← uninitialised_int "isMotionDone";
  currPos ← uninitialised_int "currPos";
  currentTime ← millis;
  (* check for errors occasionally *)
  lastError ← gets (fun w => Motors.lastErrorCheckTime (g_motors w));
  (if wrapu32 (currentTime - lastError) >? MOTORS_CHECK_ERROR_INTERVAL_MS then
     (* check all drivers, whether enabled or not *)
     for_each (upto MAXNUMMOTORS) (fun z =>
       active ← Parameters_IsActiveMotor z false;
       if negb active then mret tt  (* silently skip if not defined *)
       else TMC_CheckError z;; mret tt);;
     modify_motors (Motors.set_lastErrorCheckTime currentTime)
   else mret tt);;
  (* check for status updates that occur during motion *)
  lastStatus ← gets (fun w => Motors.lastStatusCheckTime (g_motors w));
  if wrapu32 (currentTime - lastStatus) >? MOTORS_CHECK_STATUS_INTERVAL_MS then
    (* check all drivers that are currently moving *)
    ProcessUpdate_status_loop (upto MAXNUMMOTORS) isMotionDone currPos;;
    modify_motors (Motors.set_lastStatusCheckTime currentTime)
  else mret tt.

(** *** RemoteComm.cpp *)

(** [MSG_MAXLENGTH] of RemoteComm.cpp *)
Definition REMOTE_MSG_MAXLENGTH : Z := 1024.

Definition RemoteComm_SetErrorMsg (msg : string) : M unit :=
  modify_remote (fun r =>
    if negb (RemoteComm.errorFlag r =? 0) then r  (* do not overwrite the previous entry *)
    else RemoteComm.set_error (snprintf MAXERRORSTRINGSIZE msg) 1 r).

Definition RemoteComm_PrintErrorMsg : M Z :=
  flag ← gets (fun w => RemoteComm.errorFlag (g_remComm w));
  if negb (flag =? 0) then
    msg ← gets (fun w => RemoteComm.errorMsg (g_remComm w));
    Serial_print msg;;
    modify_remote (RemoteComm.set_errorFlag 0);;
    mret 1
  else mret 0.

Definition RemoteComm_IsValueInRange (value : Z) (name : string) (min max : Z) : M bool :=
  if (value >=? min) && (value <=? max) then mret true
  else
    RemoteComm_SetErrorMsg
      (snprintf REMOTE_MSG_MAXLENGTH
         ("Value " ++ name ++ " out of range (" ++ print_int value ++ ")"));;
    mret false.

Definition RemoteComm_FindParamVal (board : Z) (name : string) (value : Z) : M (ErrorType * Z) :=
  match find_id motParamsIDList name 0 with
  | Some idx =>
      v ← gets (fun w => get2 (Parameters.motorParamArr (g_params w)) board idx);
      mret (ERR_None, v)
  | None =>
      RemoteComm_SetErrorMsg (snprintf REMOTE_MSG_MAXLENGTH ("Parameter " ++ name ++ " not found"));;
      mret (ERR_Remote, value)
  end.

Definition RemoteComm_FindRemoteParamIndex (board : Z) (name : string) (index : Z)
  : M (ErrorType * Z) :=
  match find_id remoteIDList name 0 with
  | Some idx => mret (ERR_None, idx)
  | None =>
      RemoteComm_SetErrorMsg
        (snprintf REMOTE_MSG_MAXLENGTH ("Remote parameter " ++ name ++ " not found"));;
      mret (ERR_TMC, index)
  end.

(** The sum of the characters of [data], in a [uint8_t]. *)
Fixpoint calculateChecksum_from (data : string) (sum : Z) : Z :=
  match data with
  | EmptyString => sum
  | String c data' => calculateChecksum_from data' (wrapu8 (sum + Z.of_N (N_of_ascii c)))
  end.

Definition RemoteComm_calculateChecksum (data : string) : Z := calculateChecksum_from data 0.

Definition NUL : ascii := "000"%char.

(** [data] is the receive buffer, the terminating NUL included; the
    function overwrites the separator with a NUL. The result is the status
    and the buffer as the function leaves it. [checksum] is the initial
    content of the local variable, which [sscanf] assigns only when it finds
    a number. *)
Definition RemoteComm_validateChecksum (data : string) (checksum : Z) : Z * string :=
  match strchr (cstr data) "|" with
  | None => (-1, data)
  | Some (before, after) =>
      let checksum :=
        match Scan.sscanf [Scan.Conv Scan.c_hhu] after with
        | v :: _ => v
        | [] => checksum
        end in
      (* overwrite the sepChar with the EOS *)
      let data := before ++ String NUL (string_drop (S (String.length before)) data) in
      if negb (RemoteComm_calculateChecksum (cstr (string_drop 1 data)) =? checksum) then (-1, data)
      else (0, data)
  end.

(** The spin on [serial1Busy] and the wait for room in the transmit FIFO
    are left out: the bytes are taken to be sent. *)
Definition RemoteComm_safeSerial1Write (data : string) : M unit :=
  modify_remote (RemoteComm.set_serial1Busy true);;
  emit (EvSerial1Write data);;
  modify_remote (RemoteComm.set_serial1Busy false).

Definition RemoteComm_transmitRemoteCommand (cmd : string) : M ErrorType :=
  let checksum := RemoteComm_calculateChecksum cmd in
  let uartData := snprintf (REMOTE_MSG_MAXLENGTH + 1) ("<" ++ cmd ++ "|" ++ print_int checksum ++ ">") in
  RemoteComm_safeSerial1Write uartData;;
  mret ERR_None.

Definition RemoteComm_SendRemoteCommand (cmd : string) (channel : Z) (value : Z) : M ErrorType :=
  intValue ← uninitialised_int "intValue";
  let named (s : string) := strncmp_eq 4 cmd s in
  let text (ch : Z) :=
    snprintf (REMOTE_MSG_MAXLENGTH + 1) (cmd ++ print_int ch ++ "=" ++ print_int value) in
  (* Check for validity of parameters *)
  ok ←
    (if named "ENAB" then  (* allow for axis=-1 for the ENAB command *)
       RemoteComm_IsValueInRange channel "channel" (-1) MAXNUMMOTORS
     else RemoteComm_IsValueInRange channel "channel" 0 (MAXNUMMOTORS - 1));
  if negb ok then mret ERR_Remote else
  ok ←
    (if named "ENAB" then RemoteComm_IsValueInRange value cmd 0 1
     else if named "JDIR" then RemoteComm_IsValueInRange (abs32 value) cmd 1 1
     else if named "JMAX" then
       '(_, intValue) ← RemoteComm_FindParamVal channel "RMXV" intValue;
       RemoteComm_IsValueInRange value cmd 0 intValue
     else if named "EDIR" then RemoteComm_IsValueInRange (abs32 value) cmd 1 1
     else mret true);
  if negb ok then mret ERR_Remote else
  (* ENAB is the only command that needs to send info to the motor section and
     allows -1 for the channel *)
  if named "ENAB" then
    err ← Motors_SetRemoteEnabled channel (wrap8 value);  (* channel -1 allowed here *)
    if is_err err then
      RemoteComm_SetErrorMsg "Could not set remote enable in motor section";;
      mret ERR_Remote
    else
      (if channel =? -1 then
         for_each (upto MAXNUMMOTORS) (fun z =>
           active ← Parameters_IsActiveMotor z false;
           if negb active then mret tt
           else RemoteComm_transmitRemoteCommand (text z);; mret tt)
       else RemoteComm_transmitRemoteCommand (text channel);; mret tt);;
      mret ERR_None
  else  (* any other command *)
    RemoteComm_transmitRemoteCommand (text channel);;
    mret ERR_None.

(** The parameters of motor [mot], sent one after the other; [Some err]
    when [Config] returns early. *)
Fixpoint RemoteComm_Config_params (mot : Z) (l : list Z) (value : Z) : M (option ErrorType * Z) :=
  match l with
  | [] => mret (None, value)
  | idx :: l' =>
      '(_, value) ← Parameters_GetRemoteParams mot idx value;
      err ← RemoteComm_SendRemoteCommand (id_at remoteIDList idx) mot value;
      if is_err err then
        RemoteComm_SetErrorMsg "Unable to set remote parameter";;
        mret (Some ERR_Remote, value)
      else RemoteComm_Config_params mot l' value
  end.

Fixpoint RemoteComm_Config_all (l : list Z) (value : Z) : M (option ErrorType * Z) :=
  match l with
  | [] => mret (None, value)
  | z :: l' =>
      active ← Parameters_IsActiveMotor z false;
      if negb active then RemoteComm_Config_all l' value  (* silently skip if not defined *)
      else
        '(r, value) ← RemoteComm_Config_params z (upto REMOTE_NUM_PARAMS) value;
        match r with
        | Some e => mret (Some e, value)
        | None => RemoteComm_Config_all l' value
        end
  end.

Definition RemoteComm_Config (mot : Z) : M ErrorType :=
  value ← uninitialised_int "value";
  (* initialize the remote parameters *)
  if mot =? -1 then  (* all motors *)
    '(r, _) ← RemoteComm_Config_all (upto MAXNUMMOTORS) value;
    match r with
    | Some e => mret e
    | None => mret ERR_None
    end
  else
    active ← Parameters_IsActiveMotor mot true;
    if (active : bool) then
      '(r, _) ← RemoteComm_Config_params mot (upto REMOTE_NUM_PARAMS) value;
      match r with
      | Some e => mret e
      | None => mret ERR_None
      end
    else
      RemoteComm_SetErrorMsg "Invalid motor number";;
      mret ERR_Motor.

Definition repeatPosSet_at (w : World) (board : Z) : Z :=
  aget 0 (RemoteComm.repeatPosSet (g_remComm w)) board.

Definition set_repeatPosSet (board v : Z) : M unit :=
  modify_remote (fun r => RemoteComm.set_repeatPosSet (aset (RemoteComm.repeatPosSet r) board v) r).

Definition RemoteComm_processRemoteCommand (cmd : string) : M unit :=
  (* check for SetMotorPosition command *)
  if has_prefix "POS" cmd then
    match Scan.sscanf [Scan.Lit "POS"; Scan.Conv Scan.c_hhi; Scan.Lit "="; Scan.Conv Scan.c_d] cmd with
    | [board; intVal] =>
        active ← Parameters_IsActiveMotor board true;
        remote ← gets (fun w => isRemoteControlled_at w board);
        if negb active || (remote =? 0) then mret tt else
        repeat ← gets (fun w => repeatPosSet_at w board);
        status ←
          (if negb (repeat =? 0) then
             Motors_MoveToPos board intVal 0  (* do not set the velocity *)
           else
             status ← Motors_MoveToPos board intVal 1;  (* set the velocity *)
             set_repeatPosSet board 1;;
             mret status);
        if is_err status then RemoteComm_SetErrorMsg "Could not set motor pos with remote"
        else mret tt
    | _ => RemoteComm_SetErrorMsg "Invalid remote POS command format"
    end
  (* check for SetMotorVelocity command *)
  else if has_prefix "VEL" cmd then
    match Scan.sscanf [Scan.Lit "VEL"; Scan.Conv Scan.c_hhi; Scan.Lit "="; Scan.Conv Scan.c_d] cmd with
    | [board; intVal] =>
        active ← Parameters_IsActiveMotor board true;
        remote ← gets (fun w => isRemoteControlled_at w board);
        if negb active || (remote =? 0) then mret tt else
        set_repeatPosSet board 0;;
        err ← Motors_MoveAtVel board intVal;
        if is_err err then RemoteComm_SetErrorMsg "Could not set motor vel with remote"
        else mret tt
    | _ => RemoteComm_SetErrorMsg "Invalid remote VEL command format"
    end
  (* check for AccessRequest command *)
  else if has_prefix "ACCREQ" cmd then
    match Scan.sscanf [Scan.Lit "ACCREQ"; Scan.Conv Scan.c_hhi] cmd with
    | [board] =>
        intVal ← uninitialised_int "intVal";
        active ← Parameters_IsActiveMotor board true;
        if negb active then mret tt else
        set_repeatPosSet board 0;;
        (* enable the remote control (also notifies the motor module) *)
        RemoteComm_SendRemoteCommand "ENAB" board 1;;
        (* also need to set the parameter *)
        '(_, intVal) ← RemoteComm_FindRemoteParamIndex board "ENAB" intVal;
        Parameters_SetRemoteParams board intVal 1;;
        mret tt
    | _ => RemoteComm_SetErrorMsg "Invalid remote ACCREQ command format"
    end
  else mret tt.

(** [Serial1.readBytesUntil (terminator, buffer, length)]: at most [length]
    bytes, up to and without the terminator. *)
Definition until_terminator (terminator : ascii) (length : Z) (bytes : string) : string :=
  let bytes := string_take (Z.to_nat length) bytes in
  match strchr bytes terminator with
  | Some (before, _) => before
  | None => bytes
  end.

Definition Serial1_available : M Z :=
  fun w =>
    let n := env_Serial1_available (io w) in
    (n, set_io (io w ++ [EvSerial1Available n]) w).

Definition Serial1_readBytesUntil (terminator : ascii) (length : Z) : M string :=
  fun w =>
    let bytes := until_terminator terminator length (env_Serial1_readBytesUntil (io w) terminator length) in
    (bytes, set_io (io w ++ [EvSerial1Read bytes]) w).

Definition RemoteComm_CheckRemoteCommands : M unit :=
  currentTime ← millis;
  lastReceiveTime ← gets (fun w => RemoteComm.lastReceiveTime (g_remComm w));
  if wrapu32 (currentTime - lastReceiveTime) >? REMOTE_RECEIVE_INTERVAL_MS then
    available ← Serial1_available;
    if available >? 0 then
      (* max allowed command size is MSG_MAXLENGTH char, ends with a term char *)
      uartData ← Serial1_readBytesUntil ">" REMOTE_MSG_MAXLENGTH;
      let bytesRead := Z.of_nat (String.length uartData) in
      (* check for at least some bytes *)
      if bytesRead <? 3 then
        RemoteComm_SetErrorMsg "Invalid UART command string"
      else
      (* terminate with an end character *)
      let uartData := uartData ++ String NUL EmptyString in
      (* the local [checksum] of validateChecksum, not initialised *)
      checksum ← uninitialised_int "checksum";
      let '(status, uartData) := RemoteComm_validateChecksum uartData (wrapu8 checksum) in
      if negb (status =? 0) then mret tt  (* Checksum error *)
      else
      let commands := cstr (string_drop 1 uartData) in
      (match strchr commands ";" with
       | None => RemoteComm_processRemoteCommand commands  (* single command *)
       | Some _ =>  (* multiple commands *)
           for_each_token (strtok commands ";") RemoteComm_processRemoteCommand
       end);;
      modify_remote (RemoteComm.set_lastReceiveTime currentTime)
    else modify_remote (RemoteComm.set_lastReceiveTime currentTime)
  else mret tt.

(** *** Parameters.cpp: persistence *)

Definition Parameters_SaveConfigToFlash : M ErrorType :=
  p ← gets g_params;
  emit (EvEEPROMPut (FlashVersion VERSION));;
  emit (EvEEPROMPut (FlashHWParameters (Parameters.hwParameters p)));;
  emit (EvEEPROMPut (FlashMotorParams (Parameters.motorParamArr p)));;
  emit (EvEEPROMPut (FlashRemoteParams (Parameters.remoteParamArr p)));;
  ok ← (fun w => let ok := env_EEPROM_commit (io w) in
                 (ok, set_io (io w ++ [EvEEPROMCommit ok]) w));
  if negb ok then
    Parameters_SetErrorMsg "Could not save config to flash";;
    mret ERR_Parameter
  else mret ERR_None.

(** *** SerialComm.cpp *)

(** [MSG_MAXLENGTH] of SerialComm.cpp *)
Definition SERIAL_MSG_MAXLENGTH : Z := 100.

Definition SerialComm_SetErrorMsg (msg : string) : M unit :=
  modify_serial (fun s =>
    if negb (SerialComm.errorFlag s =? 0) then s  (* do not overwrite the previous entry *)
    else SerialComm.set_error (snprintf MAXERRORSTRINGSIZE msg) 1 s).

Definition SerialComm_PrintErrorMsg : M Z :=
  flag ← gets (fun w => SerialComm.errorFlag (g_serComm w));
  if negb (flag =? 0) then
    msg ← gets (fun w => SerialComm.errorMsg (g_serComm w));
    Serial_print msg;;
    modify_serial (SerialComm.set_errorFlag 0);;
    mret 1
  else mret 0.

Definition SerialComm_ReportErrorCode (error : ErrorType) : M unit :=
  Serial_print "ERROR=";;
  Serial_println (print_int (ErrorType_code error)).

Definition SerialComm_ReportErrorMsg : M unit :=
  Serial_print "PC_EMSG=";;
  fs ← gets (fun w => SerialComm.errorFlag (g_serComm w));
  fp ← gets (fun w => Parameters.errorFlag (g_params w));
  fm ← gets (fun w => Motors.errorFlag (g_motors w));
  fr ← gets (fun w => RemoteComm.errorFlag (g_remComm w));
  if negb (fs =? 0) || negb (fp =? 0) || negb (fm =? 0) || negb (fr =? 0) then
    (* print all the error messages *)
    firstError ←
      (if negb (fs =? 0) then
         Serial_print "Serial: ";; SerialComm_PrintErrorMsg;; mret false
       else mret true);
    fp ← gets (fun w => Parameters.errorFlag (g_params w));
    firstError ←
      (if negb (fp =? 0) then
         (if negb firstError then Serial_print "; " else mret tt);;
         Serial_print "Params: ";; Parameters_PrintErrorMsg;; mret false
       else mret firstError);
    fm ← gets (fun w => Motors.errorFlag (g_motors w));
    firstError ←
      (if negb (fm =? 0) then
         (if negb firstError then Serial_print "; " else mret tt);;
         Serial_print "Motors: ";; Motors_PrintErrorMsg;; mret false
       else mret firstError);
    fr ← gets (fun w => RemoteComm.errorFlag (g_remComm w));
    (if negb (fr =? 0) then
       (if negb firstError then Serial_print "; " else mret tt);;
       Serial_print "Remote: ";; RemoteComm_PrintErrorMsg;; mret tt
     else mret tt);;
    Serial_println ""
  else Serial_println "No error".

(** Check if the motor is under remote control. [board] is the number
    that the command carries, as [sscanf] has read it: nothing has checked
    it against the size of [isRemoteControlled]. *)
Definition SerialComm_CheckRemoteControl (board : Z) : M ErrorType :=
  remote ←
    (if (0 <=? board) && (board <? MAXNUMMOTORS) then
       gets (fun w => isRemoteControlled_at w board)
     else out_of_bounds "isRemoteControlled");
  if negb (remote =? 0) then
    SerialComm_SetErrorMsg "Motor is under remote control";;
    mret ERR_Serial
  else mret ERR_None.

Definition Serial_available : M Z :=
  fun w =>
    let n := env_Serial_available (io w) in
    (n, set_io (io w ++ [EvSerialAvailable n]) w).

Definition Serial_readBytesUntil (terminator : ascii) (length : Z) : M string :=
  fun w =>
    let bytes := until_terminator terminator length (env_Serial_readBytesUntil (io w) terminator length) in
    (bytes, set_io (io w ++ [EvSerialRead bytes]) w).

(** The answer to a query: [NAME<board>=<value>]. *)
Definition Serial_reply (name : string) (board : Z) (value : Z) : M unit :=
  Serial_print name;; Serial_print (print_int board);; Serial_print "=";;
  Serial_println (print_int value).

(** The commands with a board number and a value, [<NAME>%hhi,%d]. *)
Definition scan_board_value (c : Scan.Conversion) (name : string) (serialData : string) : list Z :=
  Scan.sscanf [Scan.Lit name; Scan.Conv c; Scan.Lit ","; Scan.Conv Scan.c_d] serialData.

(** The commands with a board number only. *)
Definition scan_board (c : Scan.Conversion) (name : string) (serialData : string) : list Z :=
  Scan.sscanf [Scan.Lit name; Scan.Conv c] serialData.

Definition format_error (serialData : string) : M unit :=
  SerialComm_SetErrorMsg (snprintf SERIAL_MSG_MAXLENGTH ("Invalid command format: " ++ serialData));;
  SerialComm_ReportErrorCode ERR_Serial.

(** The command [serialData] set against the identifiers of [table], in
    the order of the table, from [idx] on and [count] times: the handler is
    run at the first identifier the command names. Two of the loops of the
    source count further than their table is long; [PastTable] is the loop
    arriving at the end of the table with no identifier found. *)
Inductive Lookup := Found (idx : Z) (name : string) | NotFound | PastTable.

Fixpoint lookup_command (table : list string) (count : nat) (idx : Z) (serialData : string)
  : Lookup :=
  match count with
  | O => NotFound
  | S count' =>
      if idx >=? Z.of_nat (length table) then PastTable else
      let name := id_at table idx in
      if strncmp_eq 4 (string_drop 4 serialData) name then Found idx name
      else lookup_command table count' (idx + 1) serialData
  end.

(** The part of [CheckSerialCommand] that handles a command read.
    [true]: the function returned inside a command; [false]: it went on to
    the end. *)
Definition SerialComm_dispatch (serialData : string) : M bool :=
  intVal ← uninitialised_int "intVal";
  (* check for SetMotorPosition command *)
  if has_prefix "SMC_MPOS" serialData then
    match scan_board_value Scan.c_hhi "SMC_MPOS" serialData with
    | [board; intVal] =>
        err ← SerialComm_CheckRemoteControl board;
        if is_err err then SerialComm_ReportErrorCode err;; mret true else
        err ← Motors_MoveToPos board intVal 1;  (* set the velocity *)
        SerialComm_ReportErrorCode err;; mret true
    | _ =>
        SerialComm_SetErrorMsg "Invalid SMC_MPOS command format";;
        SerialComm_ReportErrorCode ERR_Serial;; mret true
    end
  (* check for SetMotorVelocity command *)
  else if has_prefix "SMC_MVEL" serialData then
    match scan_board_value Scan.c_hhi "SMC_MVEL" serialData with
    | [board; intVal] =>
        err ← SerialComm_CheckRemoteControl board;
        if is_err err then SerialComm_ReportErrorCode err;; mret true else
        err ← Motors_MoveAtVel board intVal;
        SerialComm_ReportErrorCode err;; mret true
    | _ =>
        SerialComm_SetErrorMsg "Invalid SMC_MVEL command format";;
        SerialComm_ReportErrorCode ERR_Serial;; mret true
    end
  (* check for GetStatus command *)
  else if has_prefix "GMC_STAT" serialData then
    match scan_board Scan.c_hhi "GMC_STAT" serialData with
    | [board] =>
        '(err, intVal) ← Motors_GetStatusFlags board intVal;
        if is_err err then SerialComm_ReportErrorCode err;; mret true else
        Serial_reply "MC_STAT" board intVal;; mret true
    | _ =>
        SerialComm_SetErrorMsg "Invalid GMC_STAT command format";;
        SerialComm_ReportErrorCode ERR_Serial;; mret true
    end
  (* check for GetPositionReached command *)
  else if has_prefix "GMC_POSR" serialData then
    match scan_board Scan.c_hhi "GMC_POSR" serialData with
    | [board] =>
        '(err, intVal) ← Motors_IsMotionDone board;
        if is_err err then SerialComm_ReportErrorCode err;; mret true else
        Serial_reply "MC_POSR" board intVal;; mret true
    | _ =>
        SerialComm_SetErrorMsg "Invalid GMC_POSR command format";;
        SerialComm_ReportErrorCode ERR_Serial;; mret true
    end
  (* check for Set Motor Status command (starts with an 'SMS_') *)
  else if has_prefix "SMS_" serialData then
    match lookup_command motStatIDList (Z.to_nat MOTORS_NUM_STATUS) 0 serialData with
    | Found idx name =>
        match scan_board_value Scan.c_hhd ("SMS_" ++ name) serialData with
        | [board; intVal] =>
            err ← Motors_SetStatusValue board idx intVal;
            SerialComm_ReportErrorCode err;; mret true
        | _ => format_error serialData;; mret true
        end
    | NotFound | PastTable =>
        SerialComm_SetErrorMsg "Unrecognized SMS_ parameter";;
        SerialComm_ReportErrorCode ERR_Serial;; mret true
    end
  (* check for Get Motor Status command (starts with an 'GMS_') *)
  else if has_prefix "GMS_" serialData then
    (* the loop of the source runs to MOTORS_NUM_PARAMS, past the
       MOTORS_NUM_STATUS entries of motStatIDList *)
    match lookup_command motStatIDList (Z.to_nat MOTORS_NUM_PARAMS) 0 serialData with
    | Found idx name =>
        match scan_board Scan.c_hhd ("GMS_" ++ name) serialData with
        | [board] =>
            '(err, intVal) ← Motors_GetStatusValue board idx intVal;
            if is_err err then SerialComm_ReportErrorCode err;; mret true else
            Serial_reply ("MS_" ++ name) board intVal;; mret true
        | _ => format_error serialData;; mret true
        end
    | NotFound =>
        SerialComm_SetErrorMsg "Unrecognized GMS_ parameter";;
        SerialComm_ReportErrorCode ERR_Serial;; mret true
    | PastTable =>
        undefined "read outside motStatIDList";;
        SerialComm_SetErrorMsg "Unrecognized GMS_ parameter";;
        SerialComm_ReportErrorCode ERR_Serial;; mret true
    end
  (* check for SetDeviceType command *)
  else if has_prefix "SMP_TDEV" serialData then
    match scan_board_value Scan.c_hhi "SMP_TDEV" serialData with
    | [board; intVal] =>
        err ← Parameters_SetDeviceType board intVal;
        SerialComm_ReportErrorCode err;; mret true
    | _ =>
        SerialComm_SetErrorMsg "Invalid SMP_TDEV command format";;
        SerialComm_ReportErrorCode ERR_Serial;; mret true
    end
  (* check for GetDeviceType command *)
  else if has_prefix "GMP_TDEV" serialData then
    match scan_board Scan.c_hhi "GMP_TDEV" serialData with
    | [board] =>
        '(err, intVal) ← Parameters_GetDeviceType board intVal;
        if is_err err then SerialComm_ReportErrorCode err;; mret true else
        Serial_reply "MP_TDEV" board intVal;; mret true
    | _ =>
        SerialComm_SetErrorMsg "Invalid GMP_TDEV command format";;
        SerialComm_ReportErrorCode ERR_Serial;; mret true
    end
  (* check for SetAxisType command *)
  else if has_prefix "SMP_TAXI" serialData then
    match scan_board_value Scan.c_hhi "SMP_TAXI" serialData with
    | [board; intVal] =>
        err ← Parameters_SetAxisType board intVal;
        SerialComm_ReportErrorCode err;; mret true
    | _ =>
        SerialComm_SetErrorMsg "Invalid SMP_TAXI command format";;
        SerialComm_ReportErrorCode ERR_Serial;; mret true
    end
  (* check for GetAxisType command *)
  else if has_prefix "GMP_TAXI" serialData then
    match scan_board Scan.c_hhi "GMP_TAXI" serialData with
    | [board] =>
        '(err, intVal) ← Parameters_GetAxisType board intVal;
        if is_err err then SerialComm_ReportErrorCode err;; mret true else
        Serial_reply "MP_TAXI" board intVal;; mret true
    | _ =>
        SerialComm_SetErrorMsg "Invalid GMP_TAXI command format";;
        SerialComm_ReportErrorCode ERR_Serial;; mret true
    end
  (* check for Set Motor Parameter command (starts with an 'SMP_') *)
  else if has_prefix "SMP_" serialData then
    match lookup_command motParamsIDList (Z.to_nat MOTORS_NUM_PARAMS) 0 serialData with
    | Found idx name =>
        match scan_board_value Scan.c_hhd ("SMP_" ++ name) serialData with
        | [board; intVal] =>
            err ← Parameters_SetMotorParams board idx intVal;
            SerialComm_ReportErrorCode err;; mret true
        | _ => format_error serialData;; mret true
        end
    | NotFound | PastTable =>
        tmpStr ← sprintf SERIAL_MSG_MAXLENGTH ("Unrecognized parameter  " ++ serialData);
        SerialComm_SetErrorMsg tmpStr;;
        SerialComm_ReportErrorCode ERR_Serial;; mret true
    end
  (* check for Get Motor Parameter command (starts with an 'GMP_') *)
  else if has_prefix "GMP_" serialData then
    match lookup_command motParamsIDList (Z.to_nat MOTORS_NUM_PARAMS) 0 serialData with
    | Found idx name =>
        match scan_board Scan.c_hhd ("GMP_" ++ name) serialData with
        | [board] =>
            '(err, intVal) ← Parameters_GetMotorParams board idx intVal;
            if is_err err then SerialComm_ReportErrorCode err;; mret true else
            Serial_reply ("MP_" ++ name) board intVal;; mret true
        | _ => format_error serialData;; mret true
        end
    | NotFound | PastTable =>
        tmpStr ← sprintf SERIAL_MSG_MAXLENGTH ("Unrecognized parameter  " ++ serialData);
        SerialComm_SetErrorMsg tmpStr;;
        SerialComm_ReportErrorCode ERR_Serial;; mret true
    end
  (* check for Set Remote Parameter command (starts with an 'SRP_') *)
  else if has_prefix "SRP_" serialData then
    match lookup_command remoteIDList (Z.to_nat REMOTE_NUM_PARAMS) 0 serialData with
    | Found idx name =>
        match scan_board_value Scan.c_hhd ("SRP_" ++ name) serialData with
        | [board; intVal] =>
            err ← RemoteComm_SendRemoteCommand name board intVal;
            if is_err err then SerialComm_ReportErrorCode err;; mret true else
            err ← Parameters_SetRemoteParams board idx intVal;
            SerialComm_ReportErrorCode err;; mret true
        | _ => format_error serialData;; mret true
        end
    | NotFound | PastTable =>
        tmpStr ← sprintf SERIAL_MSG_MAXLENGTH ("Unrecognized parameter  " ++ serialData);
        SerialComm_SetErrorMsg tmpStr;;
        SerialComm_ReportErrorCode ERR_Serial;; mret true
    end
  (* check for Get Remote Parameter command (starts with an 'GRP_') *)
  else if has_prefix "GRP_" serialData then
    (* the loop of the source runs to MOTORS_NUM_PARAMS, past the
       REMOTE_NUM_PARAMS entries of remoteIDList *)
    match lookup_command remoteIDList (Z.to_nat MOTORS_NUM_PARAMS) 0 serialData with
    | Found idx name =>
        match scan_board Scan.c_hhd ("GRP_" ++ name) serialData with
        | [board] =>
            '(err, intVal) ← Parameters_GetRemoteParams board idx intVal;
            if is_err err then SerialComm_ReportErrorCode err;; mret true else
            Serial_reply ("RP_" ++ name) board intVal;; mret true
        | _ => format_error serialData;; mret true
        end
    | NotFound =>
        tmpStr ← sprintf SERIAL_MSG_MAXLENGTH ("Unrecognized parameter  " ++ serialData);
        SerialComm_SetErrorMsg tmpStr;;
        SerialComm_ReportErrorCode ERR_Serial;; mret true
    | PastTable =>
        undefined "read outside remoteIDList";;
        tmpStr ← sprintf SERIAL_MSG_MAXLENGTH ("Unrecognized parameter  " ++ serialData);
        SerialComm_SetErrorMsg tmpStr;;
        SerialComm_ReportErrorCode ERR_Serial;; mret true
    end
  (* check for set board config command *)
  else if has_prefix "SMC_CONF" serialData then
    match scan_board Scan.c_hhi "SMC_CONF" serialData with
    | [board] =>
        err ← Motors_ConfigBoard board;
        if is_err err then SerialComm_ReportErrorCode err;; mret true else
        err ← RemoteComm_Config board;
        SerialComm_ReportErrorCode err;; mret true
    | _ =>
        SerialComm_SetErrorMsg "Invalid SMC_CONF command format";;
        SerialComm_ReportErrorCode ERR_Serial;; mret true
    end
  (* check for ClearStatusRegs command *)
  else if has_prefix "SMC_SCLR" serialData then
    match scan_board Scan.c_hhi "SMC_SCLR" serialData with
    | [board] =>
        err ← Motors_ClearStatusRegs board;
        SerialComm_ReportErrorCode err;; mret true
    | _ =>
        SerialComm_SetErrorMsg "Invalid SMC_SCLR command format";;
        SerialComm_ReportErrorCode ERR_Serial;; mret true
    end
  (* check for SetHomingMode command *)
  else if has_prefix "SMC_HOME" serialData then
    match scan_board Scan.c_hhi "SMC_HOME" serialData with
    | [board] =>
        err ← SerialComm_CheckRemoteControl board;
        if is_err err then SerialComm_ReportErrorCode err;; mret true else
        err ← Motors_StartHoming board;
        SerialComm_ReportErrorCode err;; mret true
    | _ =>
        SerialComm_SetErrorMsg "Invalid SMC_HOME command format";;
        SerialComm_ReportErrorCode ERR_Serial;; mret true
    end
  (* check for SetDriverRegisterValue command *)
  else if has_prefix "SMC_DREG" serialData then
    match Scan.sscanf [Scan.Lit "SMC_DREG"; Scan.Conv Scan.c_hhi; Scan.Lit ",";
                       Scan.Conv Scan.c_hhu; Scan.Lit ","; Scan.Conv Scan.c_i] serialData with
    | [board; registerAddr; intVal] =>
        err ← Motors_SetRegisterValue board registerAddr intVal;
        SerialComm_ReportErrorCode err;; mret true
    | _ =>
        SerialComm_SetErrorMsg "Invalid SMC_DREG command format";;
        SerialComm_ReportErrorCode ERR_Serial;; mret true
    end
  (* check for GetDriverRegisterValue command *)
  else if has_prefix "GMC_DREG" serialData then
    match Scan.sscanf [Scan.Lit "GMC_DREG"; Scan.Conv Scan.c_hhi; Scan.Lit ",";
                       Scan.Conv Scan.c_hhu] serialData with
    | [board; registerAddr] =>
        '(err, intVal) ← Motors_GetRegisterValue board registerAddr intVal;
        if is_err err then SerialComm_ReportErrorCode err;; mret true else
        Serial_reply "MC_DREG" board intVal;; mret true
    | _ =>
        SerialComm_SetErrorMsg "Invalid GMC_DREG command format";;
        SerialComm_ReportErrorCode ERR_Serial;; mret true
    end
  (* check for ID query *)
  else if has_prefix "*IDN?" serialData then
    Serial_println SERIAL_ID_STRING;; mret true
  (* check for GetNumberDevices command *)
  else if has_prefix "GPC_NDEV" serialData then
    Serial_print "PC_NDEV=";; Serial_println (print_int MAXNUMMOTORS);; mret true
  (* check for version query *)
  else if has_prefix "GPC_VERS" serialData then
    Serial_print "PC_VERS=";; Serial_println (print_int VERSION);; mret true
  (* check for error query *)
  else if has_prefix "GPC_EMSG" serialData then
    SerialComm_ReportErrorMsg;; mret true
  (* check for EEPROM save *)
  else if has_prefix "SPC_SAFL" serialData then
    err ← Parameters_SaveConfigToFlash;
    SerialComm_ReportErrorCode err;; mret true
  else
    (* if we ever get to here, it was an unrecognized command *)
    SerialComm_SetErrorMsg "Unrecognized command";;
    SerialComm_ReportErrorCode ERR_Serial;;
    mret false.

Definition SerialComm_CheckSerialCommand : M unit :=
  currentTime ← millis;
  lastCheckTime ← gets (fun w => SerialComm.lastCheckTime (g_serComm w));
  if wrapu32 (currentTime - lastCheckTime) >? SERIAL_CHECK_INTERVAL_MS then
    available ← Serial_available;
    returned ←
      (if available >? 0 then
         (* max allowed command size is MSG_MAXLENGTH char, ends with a term char *)
         bytes ← Serial_readBytesUntil SERIAL_TERMCHAR SERIAL_MSG_MAXLENGTH;
         (* terminate with an end character *)
         let serialData := cstr bytes in
         (* check for at least some bytes *)
         if Z.of_nat (String.length bytes) <? 5 then
           SerialComm_SetErrorMsg
             (snprintf SERIAL_MSG_MAXLENGTH ("Command <5 chars. Recvd: " ++ serialData));;
           SerialComm_ReportErrorCode ERR_Serial;;
           mret true
         else SerialComm_dispatch serialData
       else mret false);
    if (returned : bool) then mret tt
    else
      (* reset the check time *)
      modify_serial (SerialComm.set_lastCheckTime currentTime)
  else mret tt.

End Firmware.

(** * The vocabulary of the properties *)

(** The state in which [m] leaves [w]. *)
Definition exec {A} (m : M A) (w : World) : World := snd (m w).

(** ** Runs that stay inside the language *)

Definition is_undefined (e : Event) : bool :=
  match e with
  | EvUndefined _ => true
  | _ => false
  end.

(** Nothing in the trace of [w] records undefined behaviour. *)
Definition defined (w : World) : Prop :=
  forallb (fun e => negb (is_undefined e)) (io w) = true.

(** ** What a call leaves alone *)

Definition Parameters_core (p : Parameters.t) :=
  (Parameters.hwParameters p, Parameters.motorParamArr p, Parameters.remoteParamArr p).

Definition closed_loop_params (t : TMC.t) : Z * Z * Z * Z :=
  (TMC.encConst t, TMC.maxIterations t, TMC.tolerance t, TMC.resetXafterCL t).

Record MotionState := mkMotionState {
  ms_enabled : list Z;
  ms_moving : list Z;
  ms_homing : list Z;
  ms_searching : list Z;
  ms_target : list Z;
  ms_setpoint : list Z;
  ms_iterationsLeft : list Z
}.

Definition MotionState_of (w : World) : MotionState :=
  let m := g_motors w in
  mkMotionState (Motors.isMotorEnabled m) (Motors.isMotorMoving m) (Motors.isMotorHoming m)
    (Motors.isMotorSearching m) (Motors.targetPosition m) (Motors.setPosition m)
    (Motors.iterationsLeft m).

(** What the orchestrator owns and the driver objects never write. *)
Definition Motors_orchestration (m : Motors.t) :=
  (Motors.isRemoteControlled m, Motors.isMotorMoving m, Motors.isMotorSearching m,
   Motors.targetPosition m, Motors.setPosition m, Motors.iterationsLeft m,
   Motors.lastErrorCheckTime m, Motors.lastStatusCheckTime m).

Definition Motors_shape (m : Motors.t) :=
  (length (Motors.errorMsgBoard m), length (Motors.errorFlagBoard m),
   length (Motors.isMotorEnabled m), length (Motors.isMotorHoming m), length (Motors.tmcArr m)).

(** [w'] differs from [w] at most in the recorded error messages. *)
Record errors_only (w w' : World) : Prop := mk_errors_only {
  eo_params : Parameters_core (g_params w') = Parameters_core (g_params w);
  eo_motion : MotionState_of w' = MotionState_of w;
  eo_remote_flags : Motors.isRemoteControlled (g_motors w') = Motors.isRemoteControlled (g_motors w);
  eo_times : (Motors.lastErrorCheckTime (g_motors w'), Motors.lastStatusCheckTime (g_motors w'))
             = (Motors.lastErrorCheckTime (g_motors w), Motors.lastStatusCheckTime (g_motors w));
  eo_tmc : Motors.tmcArr (g_motors w') = Motors.tmcArr (g_motors w);
  eo_shape : Motors_shape (g_motors w') = Motors_shape (g_motors w);
  eo_remComm : g_remComm w' = g_remComm w;
  eo_serComm : g_serComm w' = g_serComm w;
  eo_csPin : g_csPin w' = g_csPin w;
  eo_io : io w' = io w
}.

(** What a member function of the driver class other than [Config]
    leaves alone. *)
Record driver_frame (w w' : World) : Prop := mk_driver_frame {
  df_params : Parameters_core (g_params w') = Parameters_core (g_params w);
  df_orchestration : Motors_orchestration (g_motors w') = Motors_orchestration (g_motors w);
  df_closed_loop : map closed_loop_params (Motors.tmcArr (g_motors w'))
                   = map closed_loop_params (Motors.tmcArr (g_motors w));
  df_shape : Motors_shape (g_motors w') = Motors_shape (g_motors w);
  df_remComm : g_remComm w' = g_remComm w;
  df_serComm : g_serComm w' = g_serComm w;
  df_csPin : g_csPin w' = g_csPin w
}.

(** [m] takes every state to one related to it by [R]. *)
Definition preserves {A} (R : World -> World -> Prop) (m : M A) : Prop :=
  forall w, R w (snd (m w)).

(** [w0] differs from [w] at most in the bookkeeping of the orchestrator:
    the driver objects, the parameters, the recorded errors and the trace
    of input/output are the same. *)
Record flags_only (w w0 : World) : Prop := mk_flags_only {
  fo_params : g_params w0 = g_params w;
  fo_remComm : g_remComm w0 = g_remComm w;
  fo_serComm : g_serComm w0 = g_serComm w;
  fo_csPin : g_csPin w0 = g_csPin w;
  fo_io : io w0 = io w;
  fo_tmcArr : Motors.tmcArr (g_motors w0) = Motors.tmcArr (g_motors w);
  fo_enabled : Motors.isMotorEnabled (g_motors w0) = Motors.isMotorEnabled (g_motors w);
  fo_homing : Motors.isMotorHoming (g_motors w0) = Motors.isMotorHoming (g_motors w);
  fo_errors :
    (Motors.errorFlag (g_motors w0), Motors.errorFlagGeneral (g_motors w0),
     Motors.errorFlagBoard (g_motors w0), Motors.errorMsgGeneral (g_motors w0),
     Motors.errorMsgBoard (g_motors w0))
    = (Motors.errorFlag (g_motors w), Motors.errorFlagGeneral (g_motors w),
       Motors.errorFlagBoard (g_motors w), Motors.errorMsgGeneral (g_motors w),
       Motors.errorMsgBoard (g_motors w))
}.

(** ** Motion *)


Definition is_active (w : World) (board : Z) : bool :=
  negb ((board <? 0) || (board >=? MAXNUMMOTORS) || bool_decide (motorType_of w board = MOTOR_NONE)).

(** ** Results of a member function, whatever the state *)

(** Every result of [m] satisfies [P]. *)
Definition always {A} (P : A -> Prop) (m : M A) : Prop := forall w, P (fst (m w)).

(** An early return carries an error code. *)
Definition early_error (r : option ErrorType) : Prop :=
  match r with
  | Some e => is_err e = true
  | None => True
  end.

(** The positions of the homing parameters in the table. *)
Definition HMOD_index : Z := 10.
Definition HDIR_index : Z := 11.

Definition board_fault (w : World) (z : Z) : Z :=
  aget 0 (Motors.errorFlagBoard (g_motors w)) z.

Definition board_fault_msg (w : World) (z : Z) : string :=
  aget "" (Motors.errorMsgBoard (g_motors w)) z.

(** What the poll of the driver and the reading of the encoder leave of
    the bookkeeping of motor [z]. *)
Record after_poll (z : Z) (w w2 : World) : Prop := mk_after_poll {
  ap_wf : wf_World w2;
  ap_searching : isMotorSearching_at w2 z = isMotorSearching_at w z;
  ap_target : targetPosition_at w2 z = targetPosition_at w z;
  ap_setPosition : setPosition_at w2 z = setPosition_at w z;
  ap_iterationsLeft : iterationsLeft_at w2 z = iterationsLeft_at w z;
  ap_params : closed_loop_params (tmc_at w2 z) = closed_loop_params (tmc_at w z)
}.

(** ** Text *)

(** [c] does not occur in [s]. *)
Fixpoint free_of (c : ascii) (s : string) : bool :=
  match s with
  | EmptyString => true
  | String x s' => negb (Ascii.eqb x c) && free_of c s'
  end.

(** The checksum that [validateChecksum] sets against the sum of the
    payload: the field after the separator as [%hhu] reads it or, when the
    field does not start with a number, what the local variable held. *)
Definition checksum_read (tail : string) (held : Z) : Z :=
  match Scan.sscanf [Scan.Conv Scan.c_hhu] (cstr tail) with
  | v :: _ => v
  | [] => held
  end.


(** The arguments of a command after its name: [<board>,<value>] and
    [<board>]. *)
Definition board_value_args (c : Scan.Conversion) (rest : string) : list Z :=
  Scan.sscanf [Scan.Conv c; Scan.Lit ","; Scan.Conv Scan.c_d] rest.

Definition board_arg (c : Scan.Conversion) (rest : string) : list Z :=
  Scan.sscanf [Scan.Conv c] rest.

(** The status values other than the enable flag. *)
Definition locked_status_names : list string :=
  [ "XACT"; "XTAR"; "XENC"; "VELO"; "ACCE"; "TEMP"; "PULL" ].

(** The commands of the host that a motor under remote control turns
    down, with the error code of each. *)
Inductive locked_command (board : Z) : string -> ErrorType -> Prop :=
| locked_MPOS (rest : string) (v : Z) :
    board_value_args Scan.c_hhi rest = [board; v] ->
    locked_command board ("SMC_MPOS" ++ rest) ERR_Serial
| locked_MVEL (rest : string) (v : Z) :
    board_value_args Scan.c_hhi rest = [board; v] ->
    locked_command board ("SMC_MVEL" ++ rest) ERR_Serial
| locked_HOME (rest : string) :
    board_arg Scan.c_hhi rest = [board] ->
    locked_command board ("SMC_HOME" ++ rest) ERR_Serial
| locked_status (name rest : string) (v : Z) :
    In name locked_status_names ->
    board_value_args Scan.c_hhd rest = [board; v] ->
    locked_command board ("SMS_" ++ name ++ rest) ERR_Motor.

(** The two lines of [ReportErrorCode]. *)
Definition error_report (e : ErrorType) : list Event :=
  [ EvSerialPrint "ERROR="; EvSerialPrint (print_int (ErrorType_code e) ++ crlf) ].

(** Nothing of the motors or of the parameters has changed, and the
    host has been sent the error code. *)
Record turned_down (e : ErrorType) (w w' : World) : Prop := mk_turned_down {
  td_motion : MotionState_of w' = MotionState_of w;
  td_tmc : Motors.tmcArr (g_motors w') = Motors.tmcArr (g_motors w);
  td_remote : Motors.isRemoteControlled (g_motors w') = Motors.isRemoteControlled (g_motors w);
  td_params : Parameters_core (g_params w') = Parameters_core (g_params w);
  td_io : io w' = (io w ++ error_report e)%list
}.

(** ** The parameter store *)

(** The state after an error message of the parameter store is recorded:
    the first message since the last report is kept. *)
Definition with_parameter_error (msg : string) (w : World) : World :=
  set_g_params
    (if negb (Parameters.errorFlag (g_params w) =? 0) then g_params w
     else Parameters.set_error (snprintf MAXERRORSTRINGSIZE msg) 1 (g_params w)) w.

(** [arr[a][i]] exists. *)
Definition in_table (arr : list (list Z)) (a i : Z) : bool :=
  (0 <=? a) && (a <? Z.of_nat (length arr)) &&
  (0 <=? i) && (i <? Z.of_nat (length (aget [] arr a))).

(** ** The error records of the motors *)

(** The summary flag is raised whenever an error is waiting. *)
Definition errors_summarised (w : World) : Prop :=
  (Motors.errorFlagGeneral (g_motors w) <> 0 \/
   exists z, 0 <= z < MAXNUMMOTORS /\ board_fault w z <> 0) ->
  Motors.errorFlag (g_motors w) <> 0.

(** No error of the motors is waiting. *)
Definition errors_clear (w : World) : Prop :=
  Motors.errorFlag (g_motors w) = 0 /\ Motors.errorFlagGeneral (g_motors w) = 0 /\
  forall z, 0 <= z < MAXNUMMOTORS -> board_fault w z = 0.

(** ** The driver objects *)

(** A call that stays inside the language leaves alone what the driver
    objects do not own. *)
Definition keeps_bookkeeping {A} (m : M A) : Prop :=
  forall w, defined (exec m w) -> driver_frame w (exec m w).

(** A call adds nothing undefined to a run. *)
Definition stays_defined (w w' : World) : Prop := defined w -> defined w'.


(** [pos] brought inside the limits of a simulated axis, as [MoveToPos]
    does it: first the lower limit, then the upper one. *)
Definition clamped (s : TMCSimStatus) (pos : Z) : Z :=
  let pos := if pos <? xmin s then xmin s else pos in
  if pos >? xmax s then xmax s else pos.


(** ** Disabling and polling *)

Definition LLEN_index : Z := 30.
Definition LREN_index : Z := 31.

(** What [SetEnable] writes to the driver of a Real axis to stop the
    motor and switch it off. *)
Definition stop_writes `{hdr : TMC5240_Header} (board : Z) : list Event :=
  [ EvFieldWrite board TMC5240_RAMPMODE_FIELD TMC5240_MODE_VELPOS;
    EvWriteRegister board TMC5240_VMAX 0;
    EvFieldWrite board TMC5240_TOFF_FIELD 0 ].

(** What [CancelHoming] writes to the driver: the virtual limits as the
    parameters [llen] and [lren] have them, and the latches cleared. *)
Definition cancel_writes (board llen lren : Z) : list Event :=
  [ EvFieldWrite board TMC5240_EN_VIRTUAL_STOP_L_FIELD llen;
    EvFieldWrite board TMC5240_EN_VIRTUAL_STOP_R_FIELD lren;
    EvFieldWrite board TMC5240_LATCH_L_ACTIVE_FIELD 0;
    EvFieldWrite board TMC5240_LATCH_R_ACTIVE_FIELD 0;
    EvFieldWrite board TMC5240_LATCH_X_ACT_FIELD 0;
    EvFieldWrite board TMC5240_STATUS_LATCH_L_FIELD 1;
    EvFieldWrite board TMC5240_STATUS_LATCH_R_FIELD 1;
    EvFieldWrite board TMC5240_N_EVENT_FIELD 1 ].

(** The motor is moving or in a closed-loop search. *)
Definition in_motion (w : World) (z : Z) : bool :=
  negb (isMotorMoving_at w z =? 0) || negb (isMotorSearching_at w z =? 0).

(** The clock reads [d] milliseconds after [last], on a counter that
    wraps at 2^32. *)
Definition clock_reads `{env : Environment} (w : World) (last d : Z) : Prop :=
  0 <= last < 2 ^ 32 /\ 0 <= d < 2 ^ 32 /\
  wrapu32 (env_millis (io w)) = wrapu32 (last + d).

(** The state after the clock has been read. *)
Definition after_millis `{env : Environment} (w : World) : World :=
  set_io (io w ++ [EvMillis (wrapu32 (env_millis (io w)))]) w.

(** ** The commands of the remote *)

(** The arguments of a command of the remote after its name:
    [<board>=<value>]. *)
Definition remote_args (rest : string) : list Z :=
  Scan.sscanf [Scan.Conv Scan.c_hhi; Scan.Lit "="; Scan.Conv Scan.c_d] rest.

(** ** The report of the errors *)

(** The summary flags of the four modules. *)
Definition error_flags (w : World) : Z * Z * Z * Z :=
  (SerialComm.errorFlag (g_serComm w), Parameters.errorFlag (g_params w),
   Motors.errorFlag (g_motors w), RemoteComm.errorFlag (g_remComm w)).

(** What the report prints when no error is waiting. *)
Definition no_error_report : list Event :=
  [EvSerialPrint "PC_EMSG="; EvSerialPrint ("No error" ++ crlf)].

(** From [w] to [w'] no summary flag has been raised, and what is not an
    error record or the trace is the same. *)
Record report_frame (w w' : World) : Prop := mk_report_frame {
  rf_serial : SerialComm.errorFlag (g_serComm w') = 0 \/
              SerialComm.errorFlag (g_serComm w') = SerialComm.errorFlag (g_serComm w);
  rf_params : Parameters.errorFlag (g_params w') = 0 \/
              Parameters.errorFlag (g_params w') = Parameters.errorFlag (g_params w);
  rf_motors : Motors.errorFlag (g_motors w') = 0 \/
              Motors.errorFlag (g_motors w') = Motors.errorFlag (g_motors w);
  rf_remote : RemoteComm.errorFlag (g_remComm w') = 0 \/
              RemoteComm.errorFlag (g_remComm w') = RemoteComm.errorFlag (g_remComm w);
  rf_motion : MotionState_of w' = MotionState_of w;
  rf_core : Parameters_core (g_params w') = Parameters_core (g_params w);
  rf_tmcArr : Motors.tmcArr (g_motors w') = Motors.tmcArr (g_motors w);
  rf_remote_flags : Motors.isRemoteControlled (g_motors w')
                    = Motors.isRemoteControlled (g_motors w)
}.

(** ** The commands to the remote *)

Definition RMXV_index : Z := 16.

(** The check of the value of a command to the remote other than the
    enable: the directions are 1 or -1, a maximum joystick speed lies
    between 0 and the maximum ramp velocity of the motor. *)
Definition remote_value_ok (w : World) (cmd : string) (channel value : Z) : bool :=
  if strncmp_eq 4 cmd "JDIR" || strncmp_eq 4 cmd "EDIR" then abs32 value =? 1
  else if strncmp_eq 4 cmd "JMAX" then
    (0 <=? value) && (value <=? motorParam w channel RMXV_index)
  else true.

(** The text of a command to the remote: [<cmd><channel>=<value>]. *)
Definition remote_text (cmd : string) (channel value : Z) : string :=
  snprintf 1025 (cmd ++ print_int channel ++ "=" ++ print_int value).

(** ** The status poll *)

(** The status poll has nothing to do for motor [z]: it is not fitted,
    not enabled, or neither homing nor searching nor moving. *)
Definition at_rest (w : World) (z : Z) : bool :=
  negb (is_active w z) || (isMotorEnabled_at w z =? 0) ||
  ((isMotorHoming_at w z =? 0) && (isMotorSearching_at w z =? 0) &&
   (isMotorMoving_at w z =? 0)).

(** The frame that carries the text [text] over the link to the remote:
    [<text|checksum>]. *)
Definition remote_frame (text : string) : string :=
  snprintf 1025 ("<" ++ text ++ "|" ++ print_int (RemoteComm_calculateChecksum text) ++ ">").

(** The remote parameter [index] of [board]. *)
Definition remoteParam (w : World) (board index : Z) : Z :=
  get2 (Parameters.remoteParamArr (g_params w)) board index.

(** ** The simulated axis in motion *)

(** The way a simulated axis has gone after [dt] milliseconds at the
    velocity [v], in steps per second: the quotient truncates. *)
Definition sim_travel (dt v : Z) : Z := Z.quot (dt * v) 1000.

(** [w'] is [w] but for the simulation values of [board], which are
    [s]. *)
Record sim_updated (board : Z) (s : TMCSimStatus) (w w' : World) : Prop := mk_sim_updated {
  su_sim : sim_at w' board = s;
  su_io : io w' = io w;
  su_params : g_params w' = g_params w;
  su_motion : MotionState_of w' = MotionState_of w;
  su_length : length (Motors.tmcArr (g_motors w')) = length (Motors.tmcArr (g_motors w))
}.

(** ** A bench set-up *)

(** The header of the TMC-API is not among the sources and the theorems
    hold for any values of its masks and ramp modes; the bench takes these. *)
Definition sample_header : TMC5240_Header :=
  mkTMC5240_Header
    (fun m =>
       match m with
       | TMC5240_RESET_MASK => 1 | TMC5240_DRV_ERR_MASK => 2 | TMC5240_UV_CP_MASK => 4
       | TMC5240_REGISTER_RESET_MASK => 8 | TMC5240_VM_UVLO_MASK => 16
       | TMC5240_S2VSA_MASK => 4096 | TMC5240_S2VSB_MASK => 8192
       | TMC5240_S2GA_MASK => 134217728 | TMC5240_S2GB_MASK => 268435456
       | TMC5240_OLA_MASK => 536870912 | TMC5240_OLB_MASK => 1073741824
       | TMC5240_STALLGUARD_MASK => 16777216
       | TMC5240_OTPW_MASK => 67108864 | TMC5240_OT_MASK => 33554432
       | TMC5240_STATUS_STOP_L_MASK => 1 | TMC5240_STATUS_STOP_R_MASK => 2
       | TMC5240_STATUS_LATCH_L_MASK => 4 | TMC5240_STATUS_LATCH_R_MASK => 8
       | TMC5240_EVENT_STOP_L_MASK => 16 | TMC5240_EVENT_STOP_R_MASK => 32
       | TMC5240_EVENT_STOP_SG_MASK => 64 | TMC5240_EVENT_POS_REACHED_MASK => 128
       | TMC5240_POSITION_REACHED_MASK => 512 | TMC5240_VZERO_MASK => 1024
       | TMC5240_STATUS_SG_MASK => 8192
       | TMC5240_STATUS_VIRTUAL_STOP_L_MASK => 16384 | TMC5240_STATUS_VIRTUAL_STOP_R_MASK => 32768
       | TMC5240_DEVIATION_WARN_MASK => 2
       end)
    0 1 2.

(** A driver whose ramp status register reads [rampstat] and whose
    encoder reads [xenc], a remote with [serial1] waiting on the link, a
    silent host, and a clock that advances with every input and output. *)
Definition bench_env (rampstat xenc : Z) (serial1 : string) : Environment :=
  mkEnvironment
    (fun _ _ r => match r with TMC5240_RAMPSTAT => rampstat | TMC5240_XENC => xenc | _ => 0 end)
    (fun _ _ _ => 0)
    (fun tr => 1000 + Z.of_nat (length tr))
    (fun _ => 0) (fun _ _ _ => "")
    (fun _ => Z.of_nat (String.length serial1)) (fun _ _ _ => serial1)
    (fun _ => true) (fun adc => (adc - 2038) * 10 / 77) (fun _ => 0) (fun _ => "")
    (fun _ => 0).

(** Axis 0 is a Real stepper with the default parameters but for a
    homing direction of 0, axis 1 a Simulated one with the safe defaults
    (homing disabled), axes 2 and 3 are not fitted. *)
Definition bench_Parameters : Parameters.t :=
  Parameters.mk "" 0
    (mkHWParamStruct [MOTOR_TMC; MOTOR_SIM; MOTOR_NONE; MOTOR_NONE]
       MOTORS_DEFAULT_DRIVER_CS MOTORS_DEFAULT_AX_TYPE)
    [aset defaultStepperMotorParams 11 0; defaultSafeMotorParams; defaultSafeMotorParams;
     defaultSafeMotorParams]
    (replicate 4 defaultRemoteParams).

(** Axes 0 and 1 are enabled; axis 0 is in a closed-loop search for
    position 100 with [left] iterations left of [maxIterations], a tolerance
    of 5 and the reset of X requested, and its remote-control flag is
    [remote]. *)
Definition bench_Motors (left maxIterations remote : Z) : Motors.t :=
  Motors.mk "" (replicate 4 "")
    [TMC.mk (mkTMCSimStatus 0 0 0 0 0 0 0) 71536 maxIterations 5 1; TMC.zero; TMC.zero; TMC.zero]
    0 0 (replicate 4 0)
    [1; 1; 0; 0] [remote; 0; 0; 0] [1; 0; 0; 0] [0; 0; 0; 0] [1; 0; 0; 0]
    [100; 0; 0; 0] [100; 0; 0; 0] [left; 0; 0; 0] 0 0.

Definition bench_World (left maxIterations remote : Z) : World :=
  mkWorld bench_Parameters (bench_Motors left maxIterations remote)
    (RemoteComm.mk "" 0 false 0 0 (replicate 4 0)) (SerialComm.mk "" 0 0)
    MOTORS_DEFAULT_DRIVER_CS [].

(** The position is reached (bit 9 of the ramp status) with the encoder
    at 130, 30 off the target. *)
Definition off_target : Environment := bench_env 512 130 "".

(** The position is reached with the encoder at 102, within the
    tolerance. *)
Definition on_target : Environment := bench_env 512 102 "".

(** The bench with every axis disabled. *)
Definition disabled_World : World :=
  set_g_motors (Motors.set_isMotorEnabled [0; 0; 0; 0] (g_motors (bench_World 0 3 0)))
    (bench_World 0 3 0).

(** The remote has sent a frame whose checksum field, 7, is not the sum
    of its payload. *)
Definition corrupted_frame : Environment := bench_env 0 0 "<JOYS0=5|7>".

(** The remote has sent a frame whose checksum field is the sum of its
    payload, 502, not reduced to 8 bits. *)
Definition unreduced_checksum : Environment := bench_env 0 0 "<POS0=250|502>".

(** The driver of every axis reports a driver error in its global status
    and a short of phase A to the supply in its driver status. *)
Definition shorted_phase : Environment :=
  mkEnvironment
    (fun _ _ r => match r with TMC5240_GSTAT => 2 | TMC5240_DRVSTATUS => 4096 | _ => 0 end)
    (fun _ _ _ => 0)
    (fun tr => 1000 + Z.of_nat (length tr))
    (fun _ => 0) (fun _ _ _ => "")
    (fun _ => 0) (fun _ _ _ => "")
    (fun _ => true) (fun adc => (adc - 2038) * 10 / 77) (fun _ => 0) (fun _ => "")
    (fun _ => 0).

(** The bench with the Simulated axis 1 between the limits -1000 and
    1000. *)
Definition simulated_World : World :=
  exec (modify_sim 1 (fun s => set_xmax 1000 (set_xmin (-1000) s))) (bench_World 0 3 0).

(** The bench with axis 0 in a homing run. *)
Definition homing_World : World :=
  exec (set_isMotorHoming 0 1) (bench_World 0 3 0).

(** The millisecond counter has wrapped: it reads 3. *)
Definition wrapped_clock : Environment :=
  mkEnvironment
    (fun _ _ _ => 0) (fun _ _ _ => 0)
    (fun _ => 3)
    (fun _ => 0) (fun _ _ _ => "")
    (fun _ => 0) (fun _ _ _ => "")
    (fun _ => true) (fun adc => (adc - 2038) * 10 / 77) (fun _ => 0) (fun _ => "")
    (fun _ => 0).

(** The bench with the host last served 5 milliseconds before the wrap
    of the counter. *)
Definition before_wrap_World : World :=
  exec (modify_serial (SerialComm.set_lastCheckTime (2 ^ 32 - 5))) (bench_World 0 3 0).

(** The Simulated axis 1 at 900, on its way up at 500 steps per second
    since the time 0. *)
Definition moving_sim_World : World :=
  exec (modify_sim 1 (fun s => set_vel 500 (set_xact 900 s))) simulated_World.

(** The bench with axis 0 moving without a closed-loop search. *)
Definition open_loop_World : World :=
  exec (set_isMotorSearching 0 0) (bench_World 0 3 0).

(** * Frames *)

Section Preserves.

Context (R : World -> World -> Prop) `{!PreOrder R}.

Lemma preserves_ret {A} (a : A) : preserves R (mret a).
Proof. intros w. reflexivity. Qed.

Lemma preserves_gets {A} (f : World -> A) : preserves R (gets f).
Proof. intros w. reflexivity. Qed.

Lemma preserves_bind {A B} (m : M A) (f : A -> M B) :
  preserves R m -> (forall a, preserves R (f a)) -> preserves R (m ≫= f).
Proof.
  intros Hm Hf w. rewrite run_bind.
  specialize (Hm w). destruct (m w) as [a w1]. simpl in Hm.
  transitivity w1; [exact Hm|apply Hf].
Qed.

Lemma preserves_modify (f : World -> World) :
  (forall w, R w (f w)) -> preserves R (modify f).
Proof. intros H w. apply H. Qed.

Lemma preserves_for_each (l : list Z) (body : Z -> M unit) :
  (forall z, preserves R (body z)) -> preserves R (for_each l body).
Proof.
  intros H. induction l as [|z l IH]; simpl.
  - apply preserves_ret.
  - apply preserves_bind; [apply H|intros _; exact IH].
Qed.

Lemma preserves_for_return {X} (l : list Z) (body : Z -> M (option X)) :
  (forall z, preserves R (body z)) -> preserves R (for_return l body).
Proof.
  intros H. induction l as [|z l IH]; simpl.
  - apply preserves_ret.
  - apply preserves_bind; [apply H|intros [x|]; [apply preserves_ret|exact IH]].
Qed.

End Preserves.

#[global] Instance errors_only_preorder : PreOrder errors_only.
Proof.
  split.
  - intros w. constructor; reflexivity.
  - intros a b c [] []. constructor; congruence.
Qed.

#[global] Instance driver_frame_preorder : PreOrder driver_frame.
Proof.
  split.
  - intros w. constructor; reflexivity.
  - intros a b c [] []. constructor; congruence.
Qed.

Lemma errors_only_driver_frame w w' : errors_only w w' -> driver_frame w w'.
Proof.
  intros []. constructor; try assumption.
  - unfold Motors_orchestration. unfold MotionState_of in *. congruence.
  - congruence.
Qed.

Create HintDb frames.

(** Decompose a monadic term along its binds, conditionals and matches,
    closing the leaves with the lemmas of the hint database. *)
Ltac frame_step :=
  match goal with
  | |- PreOrder _ => typeclasses eauto
  | |- forall _, _ => intros
  | |- preserves _ (mret _) => apply preserves_ret
  | |- preserves _ (gets _) => apply preserves_gets
  | |- preserves _ (_ ≫= _) => apply preserves_bind
  | |- preserves _ (for_each _ _) => apply preserves_for_each
  | |- preserves _ (for_return _ _) => apply preserves_for_return
  | |- preserves _ (if ?c then _ else _) => destruct c
  | |- preserves _ (match ?x with _ => _ end) => destruct x
  | |- preserves _ (let _ := _ in _) => cbv zeta
  | |- preserves _ _ => solve [eauto with frames]
  end.

Ltac frames := repeat frame_step.

Lemma preserves_weaken {A} (R R' : World -> World -> Prop) (m : M A) :
  (forall w w', R w w' -> R' w w') -> preserves R m -> preserves R' m.
Proof. intros H Hm w. apply H, Hm. Qed.

Lemma map_aset_same {A B} (g : A -> B) (f : A -> A) (d : A) (l : list A) (i : Z) :
  (forall x, g (f x) = g x) ->
  map g (aset l i (f (aget d l i))) = map g l.
Proof.
  intros Hg. unfold aset, aget.
  destruct (i <? 0); [reflexivity|].
  generalize (Z.to_nat i) as n. intros n. revert n.
  induction l as [|x l IH]; intros [|n]; simpl; try reflexivity.
  - rewrite Hg. reflexivity.
  - f_equal. apply IH.
Qed.

Section FrameLemmas.

Context `{hdr : TMC5240_Header} `{env : Environment}.

(** **** Error bookkeeping changes the error records only *)

Lemma Parameters_SetErrorMsg_errors msg : preserves errors_only (Parameters_SetErrorMsg msg).
Proof.
  intros w. unfold Parameters_SetErrorMsg, modify_params, modify. simpl.
  destruct (negb _); constructor; reflexivity.
Qed.

Lemma Parameters_IsValidMotor_errors board : preserves errors_only (Parameters_IsValidMotor board).
Proof.
  unfold Parameters_IsValidMotor.
  pose proof Parameters_SetErrorMsg_errors. frames.
Qed.

Lemma Parameters_IsActiveMotor_errors board raise :
  preserves errors_only (Parameters_IsActiveMotor board raise).
Proof.
  unfold Parameters_IsActiveMotor.
  pose proof Parameters_SetErrorMsg_errors. frames.
Qed.

Lemma Motors_SetErrorMsg_errors source num msg :
  preserves errors_only (Motors_SetErrorMsg source num msg).
Proof.
  unfold Motors_SetErrorMsg.
  pose proof Parameters_IsValidMotor_errors.
  frames; apply preserves_modify; intros w; constructor; try reflexivity;
    unfold Motors_shape; simpl; rewrite ?length_aset; reflexivity.
Qed.

Lemma TMC_SetErrorMsg_errors board msg : preserves errors_only (TMC_SetErrorMsg board msg).
Proof. apply Motors_SetErrorMsg_errors. Qed.

Lemma uninitialised_int_errors name : preserves errors_only (uninitialised_int name).
Proof. unfold uninitialised_int. frames. Qed.

Lemma uninitialised_str_errors name : preserves errors_only (uninitialised_str name).
Proof. unfold uninitialised_str. frames. Qed.

Lemma TMC_FindParamIndexVal_errors board name index value :
  preserves errors_only (TMC_FindParamIndexVal board name index value).
Proof.
  unfold TMC_FindParamIndexVal. pose proof TMC_SetErrorMsg_errors. frames.
Qed.

Lemma TMC_IsParamInRange_errors board index min max :
  preserves errors_only (TMC_IsParamInRange board index min max).
Proof.
  unfold TMC_IsParamInRange. pose proof TMC_SetErrorMsg_errors. frames.
Qed.

Lemma TMC_IsValueInRange_errors board value name min max :
  preserves errors_only (TMC_IsValueInRange board value name min max).
Proof.
  unfold TMC_IsValueInRange. pose proof TMC_SetErrorMsg_errors. frames.
Qed.

(** **** The driver leaves the orchestrator's state alone *)

Lemma errors_preserves_driver {A} (m : M A) : preserves errors_only m -> preserves driver_frame m.
Proof. apply preserves_weaken. apply errors_only_driver_frame. Qed.

Lemma emit_driver e : preserves driver_frame (emit e).
Proof. intros w. constructor; reflexivity. Qed.

Lemma tmc5240_readRegister_driver icID address :
  preserves driver_frame (tmc5240_readRegister icID address).
Proof. intros w. constructor; reflexivity. Qed.

Lemma tmc5240_fieldRead_driver icID field :
  preserves driver_frame (tmc5240_fieldRead icID field).
Proof. intros w. constructor; reflexivity. Qed.

Lemma millis_driver : preserves driver_frame millis.
Proof. intros w. constructor; reflexivity. Qed.

Lemma modify_tmc_driver board f :
  (forall t, closed_loop_params (f t) = closed_loop_params t) ->
  preserves driver_frame (modify_tmc board f).
Proof.
  intros Hf w. constructor; try reflexivity.
  - simpl. apply map_aset_same, Hf.
  - unfold Motors_shape. simpl. rewrite length_aset. reflexivity.
Qed.

Lemma modify_sim_driver board f : preserves driver_frame (modify_sim board f).
Proof. apply modify_tmc_driver. intros t. reflexivity. Qed.

Lemma set_isMotorEnabled_driver z v : preserves driver_frame (set_isMotorEnabled z v).
Proof.
  intros w. constructor; try reflexivity.
  unfold Motors_shape. simpl. rewrite length_aset. reflexivity.
Qed.

Lemma set_isMotorHoming_driver z v : preserves driver_frame (set_isMotorHoming z v).
Proof.
  intros w. constructor; try reflexivity.
  unfold Motors_shape. simpl. rewrite length_aset. reflexivity.
Qed.

Lemma sprintf_driver size text : preserves driver_frame (sprintf size text).
Proof.
  unfold sprintf, undefined. destruct (_ <? _); [apply preserves_ret; typeclasses eauto|].
  apply preserves_bind; [typeclasses eauto|apply emit_driver|].
  intros _. apply preserves_ret. typeclasses eauto.
Qed.

#[local] Hint Resolve emit_driver tmc5240_readRegister_driver tmc5240_fieldRead_driver
  millis_driver modify_sim_driver set_isMotorEnabled_driver set_isMotorHoming_driver
  sprintf_driver : frames.

Lemma TMC_SetErrorMsg_driver board msg : preserves driver_frame (TMC_SetErrorMsg board msg).
Proof. apply errors_preserves_driver, TMC_SetErrorMsg_errors. Qed.

Lemma TMC_FindParamIndexVal_driver board name index value :
  preserves driver_frame (TMC_FindParamIndexVal board name index value).
Proof. apply errors_preserves_driver, TMC_FindParamIndexVal_errors. Qed.

Lemma TMC_IsParamInRange_driver board index min max :
  preserves driver_frame (TMC_IsParamInRange board index min max).
Proof. apply errors_preserves_driver, TMC_IsParamInRange_errors. Qed.

Lemma TMC_IsValueInRange_driver board value name min max :
  preserves driver_frame (TMC_IsValueInRange board value name min max).
Proof. apply errors_preserves_driver, TMC_IsValueInRange_errors. Qed.

Lemma uninitialised_int_driver name : preserves driver_frame (uninitialised_int name).
Proof. apply errors_preserves_driver, uninitialised_int_errors. Qed.

Lemma uninitialised_str_driver name : preserves driver_frame (uninitialised_str name).
Proof. apply errors_preserves_driver, uninitialised_str_errors. Qed.

#[local] Hint Resolve TMC_SetErrorMsg_driver TMC_FindParamIndexVal_driver
  TMC_IsParamInRange_driver TMC_IsValueInRange_driver uninitialised_int_driver
  uninitialised_str_driver : frames.

Ltac driver_ops :=
  unfold tmc5240_writeRegister, tmc5240_fieldWrite, delay, pinMode, digitalWrite.

Lemma TMC_CancelHoming_driver board : preserves driver_frame (TMC_CancelHoming board).
Proof. unfold TMC_CancelHoming. driver_ops. frames. Qed.
#[local] Hint Resolve TMC_CancelHoming_driver : frames.

Lemma TMC_SetEnable_driver board mode : preserves driver_frame (TMC_SetEnable board mode).
Proof. unfold TMC_SetEnable. driver_ops. frames. Qed.
#[local] Hint Resolve TMC_SetEnable_driver : frames.

Lemma TMC_CheckError_driver board : preserves driver_frame (TMC_CheckError board).
Proof. unfold TMC_CheckError. driver_ops. frames. Qed.
#[local] Hint Resolve TMC_CheckError_driver : frames.

Lemma TMC_MoveAtVel_driver board velocity : preserves driver_frame (TMC_MoveAtVel board velocity).
Proof. unfold TMC_MoveAtVel. driver_ops. frames. Qed.

Lemma TMC_MoveToPos_driver board pos setVel : preserves driver_frame (TMC_MoveToPos board pos setVel).
Proof. unfold TMC_MoveToPos. driver_ops. frames. Qed.
#[local] Hint Resolve TMC_MoveAtVel_driver TMC_MoveToPos_driver : frames.

Lemma TMC_SetXPos_driver board pos : preserves driver_frame (TMC_SetXPos board pos).
Proof. unfold TMC_SetXPos. driver_ops. frames. Qed.

Lemma TMC_GetPos_driver board pos : preserves driver_frame (TMC_GetPos board pos).
Proof. unfold TMC_GetPos. driver_ops. frames. Qed.

Lemma TMC_GetEnc_driver board pos : preserves driver_frame (TMC_GetEnc board pos).
Proof. unfold TMC_GetEnc. driver_ops. frames. Qed.

Lemma TMC_StartHoming_driver board : preserves driver_frame (TMC_StartHoming board).
Proof. unfold TMC_StartHoming. driver_ops. frames. Qed.

Lemma poll_field_driver n board field : preserves driver_frame (poll_field n board field).
Proof. induction n; simpl; driver_ops; frames. Qed.
#[local] Hint Resolve poll_field_driver : frames.

Lemma TMC_EndHoming_driver board : preserves driver_frame (TMC_EndHoming board).
Proof. unfold TMC_EndHoming. driver_ops. frames. Qed.
#[local] Hint Resolve TMC_EndHoming_driver : frames.

Lemma TMC_CheckStatus_driver board isMotionDone :
  preserves driver_frame (TMC_CheckStatus board isMotionDone).
Proof. unfold TMC_CheckStatus. driver_ops. frames. Qed.

End FrameLemmas.

Lemma run_gets {A} (f : World -> A) w : gets f w = (f w, w).
Proof. reflexivity. Qed.

Lemma run_modify (f : World -> World) w : modify f w = (tt, f w).
Proof. reflexivity. Qed.

Lemma run_emit (e : Event) w : emit e w = (tt, set_io (io w ++ [e]) w).
Proof. reflexivity. Qed.

(** One step of symbolic execution. *)
Ltac mstep :=
  first [ rewrite run_bind | rewrite run_gets | rewrite run_ret | rewrite run_modify
        | rewrite run_emit ];
  cbv beta iota; cbn [negb andb orb is_err].

(** Projections of updated records. *)
Ltac proj_simpl :=
  cbn [g_params g_motors g_remComm g_serComm g_csPin io
       set_g_params set_g_motors set_g_remComm set_g_serComm set_io
       Motors.errorMsgGeneral Motors.errorMsgBoard Motors.tmcArr Motors.errorFlag
       Motors.errorFlagGeneral Motors.errorFlagBoard Motors.isMotorEnabled
       Motors.isRemoteControlled Motors.isMotorMoving Motors.isMotorHoming
       Motors.isMotorSearching Motors.targetPosition Motors.setPosition
       Motors.iterationsLeft Motors.lastErrorCheckTime Motors.lastStatusCheckTime
       Motors.set_errorMsgGeneral Motors.set_errorMsgBoard Motors.set_tmcArr
       Motors.set_errorFlag Motors.set_errorFlagGeneral Motors.set_errorFlagBoard
       Motors.set_isMotorEnabled Motors.set_isRemoteControlled Motors.set_isMotorMoving
       Motors.set_isMotorHoming Motors.set_isMotorSearching Motors.set_targetPosition
       Motors.set_setPosition Motors.set_iterationsLeft Motors.set_lastErrorCheckTime
       Motors.set_lastStatusCheckTime
       Parameters.errorMsg Parameters.errorFlag Parameters.hwParameters
       Parameters.motorParamArr Parameters.remoteParamArr
       Parameters.set_error Parameters.set_errorFlag Parameters.set_hwParameters
       Parameters.set_motorParamArr Parameters.set_remoteParamArr
       RemoteComm.errorMsg RemoteComm.errorFlag RemoteComm.serial1Busy
       RemoteComm.lastSendTime RemoteComm.lastReceiveTime RemoteComm.repeatPosSet
       RemoteComm.set_error RemoteComm.set_errorFlag RemoteComm.set_serial1Busy
       RemoteComm.set_lastSendTime RemoteComm.set_lastReceiveTime RemoteComm.set_repeatPosSet
       SerialComm.errorMsg SerialComm.errorFlag SerialComm.lastCheckTime
       SerialComm.set_error SerialComm.set_errorFlag SerialComm.set_lastCheckTime
       TMC.simValues TMC.encConst TMC.maxIterations TMC.tolerance TMC.resetXafterCL
       TMC.set_simValues TMC.set_encConst TMC.set_maxIterations TMC.set_tolerance
       TMC.set_resetXafterCL].

(** The accessors and updates of the per-motor state, unfolded. *)
Ltac unfold_access :=
  unfold set_isMotorEnabled, set_isRemoteControlled, set_isMotorMoving, set_isMotorHoming,
    set_isMotorSearching, set_targetPosition, set_setPosition, set_iterationsLeft,
    modify_motors, modify_params, modify_remote, modify_serial,
    isMotorEnabled_at, isRemoteControlled_at, isMotorMoving_at, isMotorHoming_at,
    isMotorSearching_at, targetPosition_at, setPosition_at, iterationsLeft_at in *.

(** Decide a conditional from what is known. *)
Ltac reduce_if := cbv beta iota; cbn [negb andb orb is_err]; cbv beta iota.

Ltac msteps := repeat mstep.

Section Core.

Context `{hdr : TMC5240_Header} `{env : Environment}.


Lemma run_IsActiveMotor board raise w :
  exists w1, Parameters_IsActiveMotor board raise w = (is_active w board, w1)
             /\ errors_only w w1 /\ (is_active w board = true -> w1 = w).
Proof.
  unfold Parameters_IsActiveMotor, is_active. rewrite run_bind, run_gets.
  destruct (_ || _ || _) eqn:E; simpl.
  - rewrite run_bind.
    destruct raise.
    + pose proof (Parameters_SetErrorMsg_errors "Inactive board number" w) as H.
      destruct (Parameters_SetErrorMsg _ w) as [u w1]. simpl in H.
      exists w1. split; [reflexivity|]. split; [exact H|discriminate].
    + exists w. split; [reflexivity|]. split; [reflexivity|discriminate].
  - exists w. split; [reflexivity|]. split; reflexivity.
Qed.

Lemma errors_only_enabled w w1 z : errors_only w w1 -> isMotorEnabled_at w1 z = isMotorEnabled_at w z.
Proof. intros [? Hm]. unfold isMotorEnabled_at. injection Hm as ->. reflexivity. Qed.

Lemma errors_only_homing w w1 z : errors_only w w1 -> isMotorHoming_at w1 z = isMotorHoming_at w z.
Proof. intros [? Hm]. unfold isMotorHoming_at. injection Hm as _ _ ->. reflexivity. Qed.

(** The checks that open [MoveToPos] and [MoveAtVel] turn the command
    down on a disabled or homing motor, whatever follows them. *)
Lemma move_guard_rejects (w : World) (board : Z) (rest : M ErrorType) :
  isMotorEnabled_at w board = 0 \/ isMotorHoming_at w board <> 0 ->
  let r := (active ← Parameters_IsActiveMotor board true;
            if negb active then mret ERR_Motor else
            enabled ← gets (fun w => isMotorEnabled_at w board);
            if enabled =? 0 then
              Motors_SetErrorMsg "Board" board "Driver is not enabled";;
              mret ERR_Motor
            else
            homing ← gets (fun w => isMotorHoming_at w board);
            if negb (homing =? 0) then
              Motors_SetErrorMsg "Board" board "Motor is homing";;
              mret ERR_Motor
            else rest) w in
  fst r = ERR_Motor /\ errors_only w (snd r).
Proof.
  intros H. cbv zeta. rewrite run_bind.
  destruct (run_IsActiveMotor board true w) as (w1 & -> & Hw1 & _).
  destruct (is_active w board); simpl; [|split; [reflexivity|exact Hw1]].
  rewrite run_bind, run_gets, (errors_only_enabled _ _ _ Hw1).
  destruct (isMotorEnabled_at w board =? 0) eqn:Een.
  - rewrite run_bind.
    pose proof (Motors_SetErrorMsg_errors "Board" board "Driver is not enabled" w1) as H2.
    destruct (Motors_SetErrorMsg _ _ _ w1) as [u w2]. simpl in *.
    split; [reflexivity|]. etransitivity; eassumption.
  - rewrite run_bind, run_gets, (errors_only_homing _ _ _ Hw1).
    destruct H as [H|H]; [apply Z.eqb_neq in Een; contradiction|].
    apply Z.eqb_neq in H. rewrite H. simpl.
    rewrite run_bind.
    pose proof (Motors_SetErrorMsg_errors "Board" board "Motor is homing" w1) as H2.
    destruct (Motors_SetErrorMsg _ _ _ w1) as [u w2]. simpl in *.
    split; [reflexivity|]. etransitivity; eassumption.
Qed.

(** C4: on a motor that is disabled or homing, [MoveToPos] and
    [MoveAtVel] return the error of the motor layer, whatever the position
    or the velocity asked for, and leave the motion state of every motor
    (enabled, moving, homing, searching, target, setpoint, iterations
    left) as it was: only error messages are recorded. *)
Theorem move_rejected_when_disabled_or_homing (w : World) (board pos setVel vel : Z) :
  isMotorEnabled_at w board = 0 \/ isMotorHoming_at w board <> 0 ->
  let r1 := Motors_MoveToPos board pos setVel w in
  let r2 := Motors_MoveAtVel board vel w in
  fst r1 = ERR_Motor /\ fst r2 = ERR_Motor /\
  MotionState_of (snd r1) = MotionState_of w /\ MotionState_of (snd r2) = MotionState_of w /\
  errors_only w (snd r1) /\ errors_only w (snd r2).
Proof.
  intros H. cbv zeta.
  assert (G1 : fst (Motors_MoveToPos board pos setVel w) = ERR_Motor
               /\ errors_only w (snd (Motors_MoveToPos board pos setVel w))).
  { unfold Motors_MoveToPos. apply move_guard_rejects, H. }
  assert (G2 : fst (Motors_MoveAtVel board vel w) = ERR_Motor
               /\ errors_only w (snd (Motors_MoveAtVel board vel w))).
  { unfold Motors_MoveAtVel. apply move_guard_rejects, H. }
  destruct G1 as [G1 G1'], G2 as [G2 G2'].
  repeat (split; [assumption || (apply G1') || (apply G2')|]). assumption.
Qed.

Lemma driver_frame_searching w w' z :
  driver_frame w w' -> isMotorSearching_at w' z = isMotorSearching_at w z.
Proof. intros [? H]. unfold isMotorSearching_at. injection H as _ _ -> _ _ _ _ _. reflexivity. Qed.

Lemma driver_frame_target w w' z :
  driver_frame w w' -> targetPosition_at w' z = targetPosition_at w z.
Proof. intros [? H]. unfold targetPosition_at. injection H as _ _ _ -> _ _ _ _. reflexivity. Qed.

Lemma driver_frame_setPosition w w' z :
  driver_frame w w' -> setPosition_at w' z = setPosition_at w z.
Proof. intros [? H]. unfold setPosition_at. injection H as _ _ _ _ -> _ _ _. reflexivity. Qed.

Lemma driver_frame_iterationsLeft w w' z :
  driver_frame w w' -> iterationsLeft_at w' z = iterationsLeft_at w z.
Proof. intros [? H]. unfold iterationsLeft_at. injection H as _ _ _ _ _ -> _ _. reflexivity. Qed.

Lemma driver_frame_moving w w' z :
  driver_frame w w' -> isMotorMoving_at w' z = isMotorMoving_at w z.
Proof. intros [? H]. unfold isMotorMoving_at. injection H as _ -> _ _ _ _ _ _. reflexivity. Qed.

Lemma driver_frame_remote w w' z :
  driver_frame w w' -> isRemoteControlled_at w' z = isRemoteControlled_at w z.
Proof. intros [? H]. unfold isRemoteControlled_at. injection H as -> _ _ _ _ _ _ _. reflexivity. Qed.

End Core.

Section Orchestrator.

Context `{hdr : TMC5240_Header} `{env : Environment}.

Lemma is_active_range w board : is_active w board = true -> 0 <= board < MAXNUMMOTORS.
Proof.
  unfold is_active. intros H. apply negb_true_iff in H.
  apply orb_false_iff in H as [H _]. apply orb_false_iff in H as [H1 H2].
  apply Z.ltb_ge in H1. rewrite Z.geb_leb in H2. apply Z.leb_gt in H2. lia.
Qed.





End Orchestrator.

(** ** The parameter store *)

Lemma aget_Forall {A} (P : A -> Prop) (d : A) (l : list A) (i : Z) :
  Forall P l -> 0 <= i < Z.of_nat (length l) -> P (aget d l i).
Proof.
  intros HP Hi. unfold aget.
  destruct (i <? 0) eqn:E; [apply Z.ltb_lt in E; lia|].
  destruct (l !! Z.to_nat i) as [x|] eqn:El.
  - simpl. eapply Forall_lookup_1; eassumption.
  - apply lookup_ge_None in El. lia.
Qed.

Lemma get2_set2 (arr : list (list Z)) (board index value : Z) :
  0 <= board < Z.of_nat (length arr) ->
  0 <= index < Z.of_nat (length (aget [] arr board)) ->
  get2 (set2 arr board index value) board index = value.
Proof.
  intros Hb Hi. unfold get2, set2.
  rewrite aget_aset_eq by exact Hb. apply aget_aset_eq. exact Hi.
Qed.

Lemma run_IsValidMotor_in_range (board : Z) (w : World) :
  0 <= board < MAXNUMMOTORS -> Parameters_IsValidMotor board w = (true, w).
Proof.
  intros H. unfold Parameters_IsValidMotor.
  destruct (board <? 0) eqn:E1; [apply Z.ltb_lt in E1; lia|].
  destruct (board >=? MAXNUMMOTORS) eqn:E2; [rewrite Z.geb_leb in E2; apply Z.leb_le in E2; lia|].
  reflexivity.
Qed.

(** C5: a motor parameter reads back as it was written, whatever its
    value. *)
Theorem motor_parameter_roundtrip (w : World) (a i v value : Z) :
  wf_World w ->
  0 <= a < MAXNUMMOTORS ->
  0 <= i < MOTORS_NUM_PARAMS ->
  in_int32 v ->
  let '(e, w1) := Parameters_SetMotorParams a i v w in
  e = ERR_None /\ Parameters_GetMotorParams a i value w1 = ((ERR_None, v), w1).
Proof.
  intros Hwf Ha Hi _.
  unfold Parameters_SetMotorParams, Parameters_GetMotorParams.
  mstep. rewrite (run_IsValidMotor_in_range a w Ha). reduce_if.
  unfold modify_params. msteps.
  split; [reflexivity|].
  rewrite (run_IsValidMotor_in_range a _ Ha). reduce_if. msteps. proj_simpl.
  rewrite get2_set2; [reflexivity| |].
  - rewrite (wf_motorParamArr _ Hwf). exact Ha.
  - assert (H : has_len MOTORS_NUM_PARAMS (aget [] (Parameters.motorParamArr (g_params w)) a)).
    { apply aget_Forall; [apply Hwf|]. rewrite (wf_motorParamArr _ Hwf). exact Ha. }
    unfold has_len in H. rewrite H. exact Hi.
Qed.

(** ** Remote ownership *)

Lemma run_IsActiveMotor_quiet (board : Z) (w : World) :
  Parameters_IsActiveMotor board false w = (is_active w board, w).
Proof.
  unfold Parameters_IsActiveMotor, is_active. msteps.
  destruct (_ || _ || _); reflexivity.
Qed.

(** C9, as the code has it: on a single axis that is not active the
    request is ignored and reported as a success; on an active axis
    releasing remote control succeeds, clears the flag of that axis and
    touches no other. *)
Theorem SetRemoteEnabled_single_axis (w : World) (board state : Z) :
  board <> -1 ->
  (is_active w board = false -> Motors_SetRemoteEnabled board state w = (ERR_None, w)) /\
  (is_active w board = true ->
   let '(e, w') := Motors_SetRemoteEnabled board 0 w in
   e = ERR_None /\ isRemoteControlled_at w' board = 0 /\
   (forall z, z <> board -> isRemoteControlled_at w' z = isRemoteControlled_at w z) /\
   MotionState_of w' = MotionState_of w /\ io w' = io w).
Proof.
  intros Hb. unfold Motors_SetRemoteEnabled.
  apply Z.eqb_neq in Hb. rewrite Hb.
  split; intros Ha; mstep; rewrite run_IsActiveMotor_quiet, Ha; reduce_if.
  - reflexivity.
  - unfold_access. msteps. proj_simpl.
    split; [reflexivity|]. split; [apply aget_aset_default|].
    split; [|split; reflexivity].
    intros z Hz. apply aget_aset_ne. congruence.
Qed.

(** ** [Config] returns early on an error *)

Lemma always_ret {A} (P : A -> Prop) (a : A) : P a -> always P (mret a).
Proof. intros H w. exact H. Qed.

Lemma always_bind {A B} (P : B -> Prop) (m : M A) (f : A -> M B) :
  (forall a, always P (f a)) -> always P (m ≫= f).
Proof. intros H w. rewrite run_bind. destruct (m w) as [a w1]. apply H. Qed.

Lemma always_bind_value {A B} (Q : A -> Prop) (P : B -> Prop) (m : M A) (f : A -> M B) :
  always Q m -> (forall a, Q a -> always P (f a)) -> always P (m ≫= f).
Proof.
  intros Hm H w. rewrite run_bind. specialize (Hm w).
  destruct (m w) as [a w1]. apply H, Hm.
Qed.

Ltac always_step :=
  match goal with
  | |- forall _, _ => intros
  | |- always _ (mret _) => apply always_ret; try exact I; try reflexivity
  | |- always _ (_ ≫= _) => apply always_bind
  | |- always _ (if ?c then _ else _) => destruct c eqn:?
  | |- always _ (match ?x with _ => _ end) => destruct x eqn:?
  | |- always _ (let _ := _ in _) => cbv zeta
  end.

Section Configure.

Context `{hdr : TMC5240_Header} `{env : Environment}.

Lemma Config_write_early board idx min max field :
  always early_error (Config_write board idx min max field).
Proof. unfold Config_write. repeat always_step. Qed.

Lemma keep_early (m : M (option ErrorType)) (iv : Z * Z) :
  always early_error m ->
  always (fun r => early_error (fst r)) (r ← m; mret (r, iv)).
Proof.
  intros H. apply (always_bind_value early_error); [exact H|].
  intros a Ha. apply always_ret. exact Ha.
Qed.

Lemma Config_param_early board idx iv :
  always (fun r => early_error (fst r)) (Config_param board idx iv).
Proof.
  unfold Config_param. cbv zeta.
  repeat first
    [ apply keep_early
    | apply Config_write_early
    | always_step ].
Qed.

Lemma Config_loop_early board l iv :
  always (fun r => early_error (fst r)) (Config_loop board l iv).
Proof.
  revert iv. induction l as [|idx l IH]; intros iv; simpl.
  - apply always_ret. exact I.
  - intros w. rewrite run_bind.
    pose proof (Config_param_early board idx iv w) as H.
    destruct (Config_param board idx iv w) as [[r iv'] w1]. simpl in H.
    destruct r as [e|]; [exact H|apply IH].
Qed.

Lemma Config_device_early board : always early_error (Config_device board).
Proof.
  unfold Config_device.
  repeat first
    [ apply (always_bind_value _ _ _ _ (Config_loop_early _ _ _))
    | always_step
    | progress (simpl in *; try assumption) ].
Qed.

End Configure.

Section Homing.

Context `{hdr : TMC5240_Header} `{env : Environment}.

Lemma errors_only_motorParam w w1 board idx :
  errors_only w w1 -> motorParam w1 board idx = motorParam w board idx.
Proof. intros [H]. unfold motorParam. injection H as _ -> _. reflexivity. Qed.

Lemma errors_only_motorType w w1 board :
  errors_only w w1 -> motorType_of w1 board = motorType_of w board.
Proof. intros [H]. unfold motorType_of. injection H as -> _ _. reflexivity. Qed.

Lemma errors_only_tmc w w1 board : errors_only w w1 -> tmc_at w1 board = tmc_at w board.
Proof. intros H. unfold tmc_at. rewrite (eo_tmc _ _ H). reflexivity. Qed.

Lemma run_FindParamIndexVal board name idx index value w :
  find_id motParamsIDList name 0 = Some idx ->
  TMC_FindParamIndexVal board name index value w = ((ERR_None, idx, motorParam w board idx), w).
Proof. intros H. unfold TMC_FindParamIndexVal. rewrite H. reflexivity. Qed.

Lemma run_IsParamInRange board index min max w :
  exists w1,
    TMC_IsParamInRange board index min max w
    = ((motorParam w board index >=? min) && (motorParam w board index <=? max), w1)
    /\ errors_only w w1.
Proof.
  unfold TMC_IsParamInRange. msteps.
  destruct (_ && _).
  - exists w. split; reflexivity.
  - mstep.
    match goal with |- context [TMC_SetErrorMsg ?b ?m ?w] =>
      pose proof (TMC_SetErrorMsg_errors b m w) as H;
      destruct (TMC_SetErrorMsg b m w) as [u w1] end.
    exists w1. split; [reflexivity|exact H].
Qed.

Lemma run_SetErrorMsg board msg w :
  exists w1, TMC_SetErrorMsg board msg w = (tt, w1) /\ errors_only w w1.
Proof.
  pose proof (TMC_SetErrorMsg_errors board msg w) as H.
  destruct (TMC_SetErrorMsg board msg w) as [[] w1]. exists w1. split; [reflexivity|exact H].
Qed.

Lemma abs32_not_one (dir : Z) : in_int32 dir -> dir <> 1 -> dir <> -1 -> abs32 dir <> 1.
Proof.
  intros Hr H1 H2.
  destruct (Z.eq_dec dir INT32_MIN) as [->|Hm].
  - vm_compute. discriminate.
  - rewrite abs32_small; [lia|]. unfold in_int32, INT32_MIN, INT32_MAX in *. lia.
Qed.

(** C6, as the code has it: on a Real axis homing with the mode
    disabled or a direction other than -1 and +1 is refused with a driver
    fault, before any register is accessed and with the homing flag and the
    motion state as they were. A Simulated axis is homed at once and
    without a look at its homing parameters: the simulated position, the
    simulated encoder and the simulated velocity are set to 0, the homing
    flag is cleared and the result is success. *)
Theorem StartHoming_validation (w : World) (board : Z) :
  wf_World w ->
  is_active w board = true ->
  isMotorEnabled_at w board <> 0 ->
  let mode := motorParam w board HMOD_index in
  let dir := motorParam w board HDIR_index in
  let s := sim_at w board in
  let '(e, w') := Motors_StartHoming board w in
  (motorType_of w board = MOTOR_TMC ->
   in_int32 dir ->
   mode = 0 \/ (dir <> -1 /\ dir <> 1) ->
     e = ERR_TMC /\ isMotorHoming_at w' board = isMotorHoming_at w board /\
     MotionState_of w' = MotionState_of w /\ io w' = io w) /\
  (motorType_of w board = MOTOR_SIM ->
     e = ERR_None /\ isMotorHoming_at w' board = 0 /\
     sim_at w' board = mkTMCSimStatus 0 (xtar s) 0 (xmin s) (xmax s) 0 (lastVelCalcTime s) /\
     io w' = io w).
Proof.
  intros Hwf Ha He mode dir s.
  pose proof (is_active_range _ _ Ha) as Hb.
  unfold Motors_StartHoming. mstep.
  destruct (run_IsActiveMotor board true w) as (w0 & -> & _ & Hw0).
  rewrite (Hw0 Ha), Ha. reduce_if. msteps.
  apply Z.eqb_neq in He. rewrite He.
  unfold TMC_StartHoming, uninitialised_int. msteps.
  destruct (motorType_of w board) eqn:Hty.
  - (* not defined: excluded by [is_active] *)
    exfalso. unfold is_active in Ha. rewrite Hty in Ha.
    rewrite bool_decide_eq_true_2 in Ha by reflexivity.
    rewrite orb_true_r in Ha. discriminate.
  - (* Simulated *)
    unfold modify_sim, modify_tmc, set_isMotorHoming, modify_motors. msteps.
    split; [discriminate|]. intros _.
    split; [reflexivity|]. split; [|split; [|reflexivity]].
    + unfold isMotorHoming_at. proj_simpl. apply aget_aset_default.
    + assert (Hlen : 0 <= board < Z.of_nat (length (Motors.tmcArr (g_motors w)))).
      { pose proof (wf_tmcArr _ Hwf) as L. unfold has_len in L. rewrite L. exact Hb. }
      unfold s, sim_at, tmc_at. proj_simpl.
      rewrite !aget_aset_eq by (rewrite ?length_aset; exact Hlen).
      reflexivity.
  - (* Real *)
    assert (G : forall (e : ErrorType) (w' : World),
               e = ERR_TMC -> errors_only w w' ->
               (MOTOR_TMC = MOTOR_TMC ->
                in_int32 dir ->
                mode = 0 \/ (dir <> -1 /\ dir <> 1) ->
                e = ERR_TMC /\ isMotorHoming_at w' board = isMotorHoming_at w board /\
                MotionState_of w' = MotionState_of w /\ io w' = io w) /\
               (MOTOR_TMC = MOTOR_SIM ->
                e = ERR_None /\ isMotorHoming_at w' board = 0 /\
                sim_at w' board
                = mkTMCSimStatus 0 (xtar s) 0 (xmin s) (xmax s) 0 (lastVelCalcTime s) /\
                io w' = io w)).
    { intros e w' -> Hw'. split; [intros _ _ _|discriminate]. split; [reflexivity|].
      split; [apply errors_only_homing, Hw'|]. split; [apply Hw'|apply Hw']. }
    mstep. rewrite (run_FindParamIndexVal board "HSST" 13) by reflexivity. cbv beta iota.
    mstep.
    destruct (run_IsParamInRange board 13 0 1 w) as (w1 & -> & Hw1).
    destruct (_ && _); reduce_if; [|apply G; [reflexivity|exact Hw1]].
    mstep. rewrite (run_FindParamIndexVal board "HMOD" 10) by reflexivity. cbv beta iota.
    mstep.
    destruct (run_IsParamInRange board 10 0 2 w1) as (w2 & -> & Hw2).
    assert (Hw12 : errors_only w w2) by (etransitivity; eassumption).
    destruct (_ && _); reduce_if; [|apply G; [reflexivity|exact Hw12]].
    rewrite (errors_only_motorParam _ _ board 10 Hw1). fold HMOD_index. fold mode.
    destruct (mode =? 0) eqn:Emode.
    + mstep.
      destruct (run_SetErrorMsg board "Homing disabled by config setting" w2) as (w3 & -> & Hw3).
      msteps. apply G; [reflexivity|etransitivity; eassumption].
    + mstep. rewrite (run_FindParamIndexVal board "HDIR" 11) by reflexivity. cbv beta iota.
      rewrite (errors_only_motorParam _ _ board 11 Hw12). fold HDIR_index. fold dir.
      destruct (abs32 dir =? 1) eqn:Eabs; reduce_if.
      * (* a direction of -1 or +1 with the mode enabled: outside the claim *)
        match goal with |- let '(e, w') := ?r in _ => destruct r as [e w'] end.
        split; [|discriminate]. intros _ Hdir [Hbad|[Hn Hp]].
        -- apply Z.eqb_neq in Emode. contradiction.
        -- pose proof (abs32_not_one dir Hdir Hp Hn) as Habs.
           apply Z.eqb_eq in Eabs. contradiction.
      * mstep.
        destruct (run_SetErrorMsg board "Homing direction undefined (needs -1 or 1)" w2)
          as (w3 & -> & Hw3).
        msteps. apply G; [reflexivity|etransitivity; eassumption].
Qed.

Lemma StartHoming_rejected_when_disabled (w : World) (board : Z) :
  isMotorEnabled_at w board = 0 -> fst (Motors_StartHoming board w) = ERR_Motor.
Proof.
  intros He. unfold Motors_StartHoming. mstep.
  destruct (run_IsActiveMotor board true w) as (w1 & -> & Hw1 & _).
  destruct (is_active w board); reduce_if; [|reflexivity].
  msteps. rewrite (errors_only_enabled _ _ _ Hw1), He.
  change (0 =? 0) with true. reduce_if. mstep.
  destruct (Motors_SetErrorMsg _ _ _ w1). reflexivity.
Qed.

(** C10: a successful [Config] leaves the axis disabled, not moving and
    not homing, so that no motion command is accepted until the axis is
    enabled again. *)
Theorem Config_leaves_axis_disabled (w w' : World) (board : Z) :
  TMC_Config board w = (ERR_None, w') ->
  isMotorEnabled_at w' board = 0 /\ isMotorMoving_at w' board = 0 /\
  isMotorHoming_at w' board = 0 /\
  (forall pos setVel, fst (Motors_MoveToPos board pos setVel w') = ERR_Motor) /\
  (forall vel, fst (Motors_MoveAtVel board vel w') = ERR_Motor) /\
  fst (Motors_StartHoming board w') = ERR_Motor.
Proof.
  unfold TMC_Config. rewrite run_bind.
  pose proof (Config_device_early board w) as Hearly.
  destruct (Config_device board w) as [[err|] w1]; simpl in Hearly; cbv beta iota.
  - rewrite run_ret. intros [= -> _]. discriminate.
  - unfold_access. msteps. intros [= <-].
    assert (Hen : isMotorEnabled_at
                    (set_g_motors
                       (Motors.set_isMotorHoming
                          (aset (Motors.isMotorHoming (g_motors w1)) board 0)
                          (Motors.set_isMotorMoving
                             (aset (Motors.isMotorMoving (g_motors w1)) board 0)
                             (Motors.set_isMotorEnabled
                                (aset (Motors.isMotorEnabled (g_motors w1)) board 0)
                                (g_motors w1)))) w1) board = 0).
    { unfold isMotorEnabled_at. proj_simpl. apply aget_aset_default. }
    proj_simpl. rewrite !aget_aset_default.
    split; [reflexivity|]. split; [reflexivity|]. split; [reflexivity|].
    split; [|split].
    + intros pos setVel. unfold Motors_MoveToPos.
      refine (proj1 (move_guard_rejects _ board _ _)). left. exact Hen.
    + intros vel. unfold Motors_MoveAtVel.
      refine (proj1 (move_guard_rejects _ board _ _)). left. exact Hen.
    + apply StartHoming_rejected_when_disabled. exact Hen.
Qed.

End Homing.

(** * The closed-loop step *)

Section ClosedLoop.

Context `{hdr : TMC5240_Header} `{env : Environment}.

Lemma aget_map {A B} (f : A -> B) (d : A) (l : list A) (i : Z) :
  aget (f d) (map f l) i = f (aget d l i).
Proof.
  unfold aget. destruct (i <? 0); [reflexivity|].
  generalize (Z.to_nat i). induction l as [|x l IH]; intros [|n]; simpl; auto.
Qed.

Lemma driver_frame_closed_loop w w' z :
  driver_frame w w' -> closed_loop_params (tmc_at w' z) = closed_loop_params (tmc_at w z).
Proof.
  intros H. unfold tmc_at.
  rewrite <- !(aget_map closed_loop_params), (df_closed_loop _ _ H). reflexivity.
Qed.

Lemma wf_driver_frame w w' : driver_frame w w' -> wf_World w -> wf_World w'.
Proof.
  intros [Hp Ho Hc Hs Hr Hse Hcs] Hwf.
  unfold Parameters_core, Motors_orchestration, Motors_shape in *.
  injection Hp as Hp1 Hp2 Hp3. injection Ho as Ho1 Ho2 Ho3 Ho4 Ho5 Ho6 Ho7 Ho8.
  injection Hs as Hs1 Hs2 Hs3 Hs4 Hs5.
  clear Hc. destruct Hwf.
  constructor; unfold has_len in *;
    first [ rewrite Hp1; assumption | rewrite Hp2; assumption | rewrite Hp3; assumption
          | rewrite Ho1; assumption | rewrite Ho2; assumption | rewrite Ho3; assumption
          | rewrite Ho4; assumption | rewrite Ho5; assumption | rewrite Ho6; assumption
          | rewrite Hs1; assumption | rewrite Hs2; assumption | rewrite Hs3; assumption
          | rewrite Hs4; assumption | rewrite Hs5; assumption
          | rewrite Hr; assumption | rewrite Hcs; assumption ].
Qed.

Lemma wf_set_isMotorMoving w z v : wf_World w -> wf_World (exec (set_isMotorMoving z v) w).
Proof.
  intros []. constructor; try assumption.
  unfold exec, set_isMotorMoving, modify_motors, has_len in *. simpl.
  rewrite length_aset. assumption.
Qed.

Lemma Motors_SetErrorMsg_raises (source : string) (z : Z) (msg : string) (w : World) :
  wf_World w -> 0 <= z < MAXNUMMOTORS ->
  let w' := exec (Motors_SetErrorMsg source z msg) w in
  board_fault w' z <> 0 /\
  (board_fault w z = 0 ->
     Motors.errorFlag (g_motors w') = 1 /\
     board_fault_msg w' z
     = snprintf MAXERRORSTRINGSIZE (source ++ " error in board " ++ print_int z ++ ": " ++ msg)).
Proof.
  intros Hwf Hz. unfold exec, Motors_SetErrorMsg.
  destruct (z =? -1) eqn:E; [apply Z.eqb_eq in E; lia|].
  rewrite run_bind, (run_IsValidMotor_in_range z w Hz). cbv beta iota.
  rewrite run_bind, run_gets. fold (board_fault w z).
  destruct (board_fault w z =? 0) eqn:Ef; reduce_if.
  - unfold modify_motors. msteps. cbn [fst snd]. unfold board_fault, board_fault_msg. proj_simpl.
    pose proof (wf_errorFlagBoard _ Hwf) as L1. pose proof (wf_errorMsgBoard _ Hwf) as L2.
    unfold has_len in *.
    rewrite !aget_aset_eq by lia. split; [discriminate|]. intros _. split; reflexivity.
  - rewrite run_ret. simpl. apply Z.eqb_neq in Ef. split; [exact Ef|]. intros X. contradiction.
Qed.

(** The status poll of a motor in closed-loop search, when the driver
    reports the motion done, comes down to [ProcessUpdate_adjust] on the
    encoder position. *)
Lemma poll_done (w : World) (z d p done : Z) (w1 : World) (e : ErrorType) (enc : Z) (w2 : World) :
  wf_World w ->
  is_active w z = true ->
  isMotorEnabled_at w z <> 0 ->
  isMotorHoming_at w z = 0 ->
  isMotorSearching_at w z <> 0 ->
  TMC_CheckStatus z d w = ((ERR_None, done), w1) ->
  done <> 0 ->
  TMC_GetEnc z p (exec (set_isMotorMoving z 0) w1) = ((e, enc), w2) ->
  exec (ProcessUpdate_status z d p) w = exec (ProcessUpdate_adjust z enc) w2
  /\ after_poll z w w2.
Proof.
  intros Hwf Ha He Hh Hs Hpoll Hdone Henc.
  split.
  - unfold exec at 1, ProcessUpdate_status. mstep.
    destruct (run_IsActiveMotor z false w) as (w0 & -> & _ & Hw0).
    rewrite (Hw0 Ha), Ha. msteps.
    apply Z.eqb_neq in He, Hs, Hdone. rewrite He. reduce_if. msteps.
    rewrite Hh, Hs. change (0 =? 0) with true. reduce_if.
    unfold ProcessUpdate_search. mstep. rewrite Hpoll. reduce_if.
    rewrite Hdone. reduce_if. mstep.
    unfold exec in Henc.
    destruct (set_isMotorMoving z 0 w1) as [[] w1'] eqn:Em. simpl in Henc.
    mstep. rewrite Henc. reduce_if. mstep.
    unfold exec. destruct (ProcessUpdate_adjust z enc w2). reflexivity.
  - pose proof (TMC_CheckStatus_driver z d w) as D1. rewrite Hpoll in D1. simpl in D1.
    pose proof (TMC_GetEnc_driver z p (exec (set_isMotorMoving z 0) w1)) as D2.
    rewrite Henc in D2. simpl in D2.
    assert (Hwf2 : wf_World w2).
    { eapply wf_driver_frame; [exact D2|]. apply wf_set_isMotorMoving.
      eapply wf_driver_frame; [exact D1|exact Hwf]. }
    constructor; [exact Hwf2|..].
    + rewrite (driver_frame_searching _ _ z D2), <- (driver_frame_searching _ _ z D1). reflexivity.
    + rewrite (driver_frame_target _ _ z D2), <- (driver_frame_target _ _ z D1). reflexivity.
    + rewrite (driver_frame_setPosition _ _ z D2), <- (driver_frame_setPosition _ _ z D1).
      reflexivity.
    + rewrite (driver_frame_iterationsLeft _ _ z D2), <- (driver_frame_iterationsLeft _ _ z D1).
      reflexivity.
    + rewrite (driver_frame_closed_loop _ _ z D2), <- (driver_frame_closed_loop _ _ z D1).
      reflexivity.
Qed.

Lemma closed_loop_params_inv (t t' : TMC.t) :
  closed_loop_params t' = closed_loop_params t ->
  TMC.maxIterations t' = TMC.maxIterations t /\ TMC.tolerance t' = TMC.tolerance t /\
  TMC.resetXafterCL t' = TMC.resetXafterCL t.
Proof. unfold closed_loop_params. intros [= _ -> -> ->]. auto. Qed.


End ClosedLoop.

Section WithinTolerance.

Context `{hdr : TMC5240_Header} `{env : Environment}.

Lemma flags_only_motorType w w0 z : flags_only w w0 -> motorType_of w0 z = motorType_of w z.
Proof. intros H. unfold motorType_of. rewrite (fo_params _ _ H). reflexivity. Qed.

Lemma driver_frame_motorType w w' z : driver_frame w w' -> motorType_of w' z = motorType_of w z.
Proof.
  intros H. unfold motorType_of. pose proof (df_params _ _ H) as Hp.
  unfold Parameters_core in Hp. injection Hp as -> _ _. reflexivity.
Qed.

(** What [SetXPos] does: on a Real axis the velocity is saved, zeroed for
    the two writes of the position and restored; on a Simulated axis the
    actual and target positions are overwritten. *)
Lemma SetXPos_forces_position (z pos : Z) (w : World) :
  wf_World w -> 0 <= z < MAXNUMMOTORS ->
  let w' := exec (TMC_SetXPos z pos) w in
  (motorType_of w z = MOTOR_TMC ->
     let v := wrap32 (env_readRegister (io w) z TMC5240_VMAX) in
     io w' = (io w ++ [EvReadRegister z TMC5240_VMAX v; EvWriteRegister z TMC5240_VMAX 0;
                       EvWriteRegister z TMC5240_XTARGET pos;
                       EvWriteRegister z TMC5240_XACTUAL pos;
                       EvWriteRegister z TMC5240_VMAX v])%list) /\
  (motorType_of w z = MOTOR_SIM ->
     xact (sim_at w' z) = pos /\ xtar (sim_at w' z) = pos /\ io w' = io w).
Proof.
  intros Hwf Hz. cbv zeta. unfold exec, TMC_SetXPos. msteps.
  destruct (motorType_of w z) eqn:Hty.
  - split; discriminate.
  - split; [discriminate|intros _].
    unfold modify_sim, modify_tmc, modify_motors. msteps. cbn [fst snd].
    unfold sim_at, tmc_at. proj_simpl.
    pose proof (wf_tmcArr _ Hwf) as L. unfold has_len in L.
    rewrite !aget_aset_eq by (rewrite ?length_aset; lia).
    proj_simpl. repeat split.
  - split; [intros _|discriminate].
    unfold tmc5240_readRegister, tmc5240_writeRegister. mstep. cbv zeta. msteps.
    cbn [fst snd]. proj_simpl. rewrite <- !app_assoc. reflexivity.
Qed.

(** C2, as the code has it: when the poll of a searching motor reports
    the motion done and the encoder is within the tolerance of the target,
    the motor stops moving; the search ends when the iterations are
    counted, and goes on when they are not (-1, the continuous closed
    loop); with the reset parameter set, [SetXPos] forces the actual and
    the target position to the encoder position. *)
Theorem closed_loop_within_tolerance
    (w : World) (z d p done : Z) (w1 : World) (e : ErrorType) (enc : Z) (w2 : World) :
  wf_World w ->
  is_active w z = true ->
  isMotorEnabled_at w z <> 0 ->
  isMotorHoming_at w z = 0 ->
  isMotorSearching_at w z <> 0 ->
  TMC_CheckStatus z d w = ((ERR_None, done), w1) ->
  done <> 0 ->
  TMC_GetEnc z p (exec (set_isMotorMoving z 0) w1) = ((e, enc), w2) ->
  let t := tmc_at w z in
  let left := iterationsLeft_at w z in
  abs32 (sub32 enc (targetPosition_at w z)) <= TMC.tolerance t ->
  let w' := exec (ProcessUpdate_status z d p) w in
  isMotorMoving_at w' z = 0 /\
  (left <> -1 -> isMotorSearching_at w' z = 0) /\
  (left = -1 -> isMotorSearching_at w' z = isMotorSearching_at w z) /\
  iterationsLeft_at w' z = left /\
  (TMC.resetXafterCL t = 0 -> io w' = io w2) /\
  (TMC.resetXafterCL t <> 0 ->
     (motorType_of w z = MOTOR_TMC ->
        let v := wrap32 (env_readRegister (io w2) z TMC5240_VMAX) in
        io w' = (io w2 ++ [EvReadRegister z TMC5240_VMAX v; EvWriteRegister z TMC5240_VMAX 0;
                           EvWriteRegister z TMC5240_XTARGET enc;
                           EvWriteRegister z TMC5240_XACTUAL enc;
                           EvWriteRegister z TMC5240_VMAX v])%list) /\
     (motorType_of w z = MOTOR_SIM ->
        xact (sim_at w' z) = enc /\ xtar (sim_at w' z) = enc /\ io w' = io w2)).
Proof.
  intros Hwf Ha He Hh Hs Hpoll Hdone Henc t left Hdev w'.
  destruct (poll_done w z d p done w1 e enc w2 Hwf Ha He Hh Hs Hpoll Hdone Henc) as [Hrun Hap].
  pose proof (is_active_range _ _ Ha) as Hz.
  assert (Hty : motorType_of w2 z = motorType_of w z).
  { pose proof (TMC_CheckStatus_driver z d w) as D1. rewrite Hpoll in D1. simpl in D1.
    pose proof (TMC_GetEnc_driver z p (exec (set_isMotorMoving z 0) w1)) as D2.
    rewrite Henc in D2. simpl in D2.
    rewrite (driver_frame_motorType _ _ z D2). unfold exec, set_isMotorMoving, modify_motors.
    rewrite run_modify. cbn [snd]. unfold motorType_of at 1. proj_simpl.
    apply (driver_frame_motorType _ _ z D1). }
  destruct Hap as [Hwf2 As At Ap Ai Ac].
  apply closed_loop_params_inv in Ac as (Am & Atol & Ars).
  assert (Hlen : forall l : list Z, has_len MAXNUMMOTORS l -> 0 <= z < Z.of_nat (length l)).
  { intros l Hl. unfold has_len in Hl. rewrite Hl. exact Hz. }
  unfold w'. rewrite Hrun. clear Hrun w'.
  change (exec (ProcessUpdate_adjust z enc) w2) with (snd (ProcessUpdate_adjust z enc w2)).
  unfold ProcessUpdate_adjust. msteps.
  rewrite At, Ai, Atol, Ars. fold t. fold left.
  assert (Hle : (abs32 (sub32 enc (targetPosition_at w z)) >? TMC.tolerance t) = false).
  { rewrite Z.gtb_ltb. apply Z.ltb_ge. exact Hdev. }
  rewrite Hle. mstep.
  (* the state after the flags are written *)
  assert (Hflags : exists w3,
            (set_isMotorMoving z 0 ≫= λ _ : (),
               if negb (left =? -1) then set_isMotorSearching z 0 else mret ()) w2 = (tt, w3)
            /\ flags_only w2 w3 /\ wf_World w3 /\
            isMotorMoving_at w3 z = 0 /\
            (left <> -1 -> isMotorSearching_at w3 z = 0) /\
            (left = -1 -> isMotorSearching_at w3 z = isMotorSearching_at w z) /\
            iterationsLeft_at w3 z = left).
  { unfold_access. msteps.
    destruct (left =? -1) eqn:El; reduce_if; msteps; eexists; (split; [reflexivity|]).
    - apply Z.eqb_eq in El. proj_simpl.
      split; [constructor; reflexivity|].
      split. { destruct Hwf2. constructor; proj_simpl; try assumption.
               unfold has_len in *. rewrite length_aset. assumption. }
      rewrite aget_aset_eq by (apply Hlen, Hwf2).
      split; [reflexivity|]. split; [intros X; contradiction|]. split; [intros _; exact As|].
      exact Ai.
    - apply Z.eqb_neq in El. proj_simpl.
      split; [constructor; reflexivity|].
      split. { destruct Hwf2. constructor; proj_simpl; try assumption;
               unfold has_len in *; rewrite length_aset; assumption. }
      rewrite !aget_aset_eq by (apply Hlen, Hwf2).
      split; [reflexivity|]. split; [reflexivity|]. split; [intros X; contradiction|].
      exact Ai. }
  destruct Hflags as (w3 & Hw3 & Hfo & Hwf3 & Hm & Hs1 & Hs2 & Hi).
  rewrite run_bind in Hw3.
  destruct (set_isMotorMoving z 0 w2) as [[] w2'] eqn:E2.
  mstep.
  match goal with |- context [(if negb (left =? -1) then _ else _) w2'] =>
    rewrite Hw3 end.
  cbv beta iota.
  destruct (TMC.resetXafterCL t =? 0) eqn:Er; reduce_if.
  - apply Z.eqb_eq in Er. rewrite run_ret. cbn [snd].
    repeat (split; [assumption|]). split; [intros _; apply Hfo|]. intros X. contradiction.
  - apply Z.eqb_neq in Er. mstep.
    pose proof (TMC_SetXPos_driver z enc w3) as Hd.
    pose proof (SetXPos_forces_position z enc w3 Hwf3 Hz) as Hx. cbv zeta in Hx.
    unfold exec in Hx.
    destruct (TMC_SetXPos z enc w3) as [err w4]. simpl in Hd, Hx. rewrite run_ret. cbn [snd].
    rewrite (driver_frame_moving _ _ z Hd), (driver_frame_searching _ _ z Hd),
      (driver_frame_iterationsLeft _ _ z Hd).
    repeat (split; [assumption|]). split; [intros X; contradiction|]. intros _.
    rewrite (flags_only_motorType _ _ z Hfo), Hty, (fo_io _ _ Hfo) in Hx. exact Hx.
Qed.

End WithinTolerance.

(** * Frames of the remote link *)

Lemma strchr_first (s t : string) (c : ascii) :
  free_of c s = true -> strchr (s ++ String c t) c = Some (s, t).
Proof.
  induction s as [|x s IH]; simpl.
  - intros _. rewrite Ascii.eqb_refl. reflexivity.
  - intros H. apply andb_true_iff in H as [Hx Hs]. apply negb_true_iff in Hx.
    rewrite Hx, (IH Hs). reflexivity.
Qed.

Lemma cstr_app (s t : string) : free_of NUL s = true -> cstr (s ++ t) = s ++ cstr t.
Proof.
  induction s as [|x s IH]; simpl; [reflexivity|].
  intros H. apply andb_true_iff in H as [Hx Hs]. apply negb_true_iff in Hx.
  unfold NUL in Hx. rewrite Hx, (IH Hs). reflexivity.
Qed.

Lemma cstr_terminated (s t : string) : cstr (s ++ String NUL t) = cstr s.
Proof.
  induction s as [|x s IH]; simpl; [reflexivity|].
  destruct (Ascii.eqb x "000"); [reflexivity|]. rewrite IH. reflexivity.
Qed.

Lemma cstr_free (s t : string) : free_of NUL s = true -> cstr (s ++ String NUL t) = s.
Proof.
  induction s as [|x s IH]; simpl; [reflexivity|].
  intros H. apply andb_true_iff in H as [Hx Hs]. apply negb_true_iff in Hx.
  unfold NUL in Hx. rewrite Hx, (IH Hs). reflexivity.
Qed.

Lemma append_cons (x : ascii) (a b : string) : String x a ++ b = String x (a ++ b).
Proof. reflexivity. Qed.

Lemma app_assoc_string (a b c : string) : (a ++ b) ++ c = a ++ (b ++ c).
Proof. induction a as [|x a IH]; [reflexivity|]. rewrite !append_cons, IH. reflexivity. Qed.

Lemma string_drop_app (s t : string) : string_drop (String.length s) (s ++ t) = t.
Proof. induction s as [|x s IH]; [destruct t; reflexivity|]. rewrite append_cons. exact IH. Qed.

Lemma length_app_string (s t : string) :
  String.length (s ++ t) = (String.length s + String.length t)%nat.
Proof.
  induction s as [|x s IH]; [reflexivity|]. rewrite append_cons. simpl. rewrite IH. reflexivity.
Qed.

(** What [validateChecksum] makes of a frame [first payload | tail]: the
    checksum read is set against the sum of the payload, and the separator
    has become the end of the text. *)
Lemma validateChecksum_frame (first : ascii) (payload tail : string) (held : Z) :
  free_of "|" (String first payload) = true ->
  free_of NUL (String first payload) = true ->
  let r := RemoteComm_validateChecksum
             (String first (payload ++ "|" ++ tail) ++ String NUL EmptyString) held in
  fst r = (if RemoteComm_calculateChecksum payload =? checksum_read tail held then 0 else -1)
  /\ cstr (string_drop 1 (snd r)) = payload.
Proof.
  intros Hbar Hnul. cbv zeta. unfold RemoteComm_validateChecksum.
  set (before := String first payload) in *.
  assert (Hdata : String first (payload ++ "|" ++ tail) ++ String NUL EmptyString
                  = before ++ String "|" (tail ++ String NUL EmptyString)).
  { unfold before. rewrite !append_cons, app_assoc_string. reflexivity. }
  rewrite Hdata. clear Hdata.
  rewrite (cstr_app _ _ Hnul).
  change (cstr (String "|" (tail ++ String NUL EmptyString)))
    with (String "|" (cstr (tail ++ String NUL EmptyString))).
  rewrite cstr_terminated, (strchr_first _ _ _ Hbar).
  fold (checksum_read tail held).
  replace (S (String.length before)) with (String.length (before ++ "|"))
    by (rewrite length_app_string; simpl; lia).
  replace (before ++ String "|" (tail ++ String NUL EmptyString))
    with ((before ++ "|") ++ (tail ++ String NUL EmptyString))
    by (rewrite app_assoc_string; reflexivity).
  rewrite string_drop_app.
  unfold before at 1 3. simpl string_drop.
  assert (Hp : free_of NUL payload = true).
  { unfold before in Hnul. simpl in Hnul. apply andb_true_iff in Hnul. tauto. }
  rewrite (cstr_free _ _ Hp).
  destruct (_ =? _); simpl; split; try reflexivity; apply (cstr_free _ _ Hp).
Qed.

Section RemoteFrames.

Context `{hdr : TMC5240_Header} `{env : Environment}.


End RemoteFrames.

(** * Commands of the host on a motor under remote control *)

(** Decide the tests of the name of a command on a text that starts with
    known characters. *)
Ltac decide_prefixes :=
  repeat match goal with
         | |- context [has_prefix ?p ?s] =>
             let b := eval cbv in (has_prefix p s) in
             change (has_prefix p s) with b; cbv iota
         end.

Section RemoteLock.

Context `{hdr : TMC5240_Header} `{env : Environment}.

Lemma run_ReportErrorCode (e : ErrorType) (w : World) :
  SerialComm_ReportErrorCode e w = (tt, set_io (io w ++ error_report e) w).
Proof.
  unfold SerialComm_ReportErrorCode, Serial_print, Serial_println. msteps. proj_simpl.
  rewrite <- app_assoc. reflexivity.
Qed.

Lemma in_range_test (board : Z) :
  0 <= board < MAXNUMMOTORS -> (0 <=? board) && (board <? MAXNUMMOTORS) = true.
Proof. intros H. apply andb_true_iff. split; [apply Z.leb_le|apply Z.ltb_lt]; lia. Qed.

Lemma run_CheckRemoteControl_locked (board : Z) (w : World) :
  0 <= board < MAXNUMMOTORS ->
  isRemoteControlled_at w board <> 0 ->
  SerialComm_CheckRemoteControl board w
  = (ERR_Serial,
     set_g_serComm
       (if negb (SerialComm.errorFlag (g_serComm w) =? 0) then g_serComm w
        else SerialComm.set_error (snprintf MAXERRORSTRINGSIZE "Motor is under remote control") 1
               (g_serComm w)) w).
Proof.
  intros Hb H. unfold SerialComm_CheckRemoteControl. rewrite (in_range_test _ Hb). msteps.
  apply Z.eqb_neq in H. rewrite H. reduce_if.
  unfold SerialComm_SetErrorMsg, modify_serial. msteps. reflexivity.
Qed.

Lemma run_CheckRemoteControl_free (board : Z) (w : World) :
  0 <= board < MAXNUMMOTORS ->
  isRemoteControlled_at w board = 0 ->
  SerialComm_CheckRemoteControl board w = (ERR_None, w).
Proof.
  intros Hb H. unfold SerialComm_CheckRemoteControl. rewrite (in_range_test _ Hb). msteps.
  rewrite H. reflexivity.
Qed.

(** What follows the check of the remote control in the three motion
    commands, on a motor under remote control. *)
Lemma locked_motion_command (board : Z) (w : World) (rest : ErrorType -> M bool) :
  0 <= board < MAXNUMMOTORS ->
  isRemoteControlled_at w board <> 0 ->
  let '(r, w') := (err ← SerialComm_CheckRemoteControl board;
                   if is_err err then SerialComm_ReportErrorCode err;; mret true
                   else rest err) w in
  r = true /\ turned_down ERR_Serial w w' /\
  (SerialComm.errorFlag (g_serComm w) = 0 ->
   SerialComm.errorMsg (g_serComm w') = "Motor is under remote control").
Proof.
  intros Hb H. rewrite run_bind, (run_CheckRemoteControl_locked board w Hb H). reduce_if.
  rewrite run_bind, run_ReportErrorCode. cbv beta iota. rewrite run_ret.
  split; [reflexivity|]. split; [constructor; reflexivity|].
  intros ->. reflexivity.
Qed.

Lemma errors_only_turned_down (e : ErrorType) (w w1 : World) :
  errors_only w w1 ->
  turned_down e w (snd (SerialComm_ReportErrorCode e w1)).
Proof.
  intros H. rewrite run_ReportErrorCode. cbn [snd].
  destruct H. constructor; proj_simpl; try assumption.
  rewrite eo_io0. reflexivity.
Qed.

(** A status value other than the enable flag is not written on a motor
    under remote control. *)
Lemma SetStatusValue_locked (board index value : Z) (w : World) :
  isRemoteControlled_at w board <> 0 ->
  strncmp_eq 4 (id_at motStatIDList index) "ENAB" = false ->
  let '(e, w') := Motors_SetStatusValue board index value w in
  e = ERR_Motor /\ errors_only w w' /\
  (wf_World w -> is_active w board = true -> board_fault w board = 0 ->
   board_fault_msg w' board
   = snprintf MAXERRORSTRINGSIZE
       ("TMC error in board " ++ print_int board ++ ": Motor is under remote control")).
Proof.
  intros Hr Hname. unfold Motors_SetStatusValue. rewrite Hname. reduce_if.
  mstep.
  destruct (run_IsActiveMotor board true w) as (w1 & -> & Hw1 & Hsame).
  destruct (is_active w board) eqn:Ha; reduce_if.
  2:{ rewrite run_ret. split; [reflexivity|]. split; [exact Hw1|]. intros _ X. discriminate. }
  rewrite (Hsame eq_refl).
  unfold TMC_SetStatusValue, uninitialised_int. msteps. rewrite Hname.
  apply Z.eqb_neq in Hr.
  pose proof (TMC_SetErrorMsg_errors board "Motor is under remote control" w) as Hk.
  pose proof (Motors_SetErrorMsg_raises "TMC" board "Motor is under remote control" w) as Hm.
  cbv zeta in Hm. unfold exec in Hm. fold (TMC_SetErrorMsg board "Motor is under remote control") in Hm.
  destruct (motorType_of w board) eqn:Hty.
  - exfalso. unfold is_active in Ha. rewrite Hty in Ha.
    rewrite bool_decide_eq_true_2 in Ha by reflexivity.
    rewrite orb_true_r in Ha. discriminate.
  - msteps. rewrite Hr. reduce_if. mstep.
    destruct (TMC_SetErrorMsg board "Motor is under remote control" w) as [[] w2].
    rewrite run_ret. simpl in Hk, Hm.
    split; [reflexivity|]. split; [exact Hk|].
    intros Hwf _ Hf. apply Hm; [exact Hwf|apply (is_active_range _ _ Ha)|exact Hf].
  - msteps. rewrite Hr. reduce_if. mstep.
    destruct (TMC_SetErrorMsg board "Motor is under remote control" w) as [[] w2].
    rewrite run_ret. simpl in Hk, Hm.
    split; [reflexivity|]. split; [exact Hk|].
    intros Hwf _ Hf. apply Hm; [exact Hwf|apply (is_active_range _ _ Ha)|exact Hf].
Qed.

(** [CancelHoming] and [SetEnable]: what is left in the enable flag. *)
Lemma CancelHoming_enabled (board : Z) (w : World) :
  isMotorEnabled_at (exec (TMC_CancelHoming board) w) board = isMotorEnabled_at w board.
Proof.
  unfold exec, TMC_CancelHoming, uninitialised_int. msteps.
  destruct (isMotorHoming_at w board =? 0); [reflexivity|].
  msteps.
  rewrite (run_FindParamIndexVal board "LLEN" 30) by reflexivity. cbv beta iota.
  unfold tmc5240_fieldWrite. msteps.
  rewrite (run_FindParamIndexVal board "LREN" 31) by reflexivity. cbv beta iota.
  unfold set_isMotorHoming, modify_motors. msteps. reflexivity.
Qed.

Lemma SetEnable_enabled (board mode : Z) (w : World) :
  wf_World w ->
  is_active w board = true ->
  isMotorEnabled_at (exec (TMC_SetEnable board mode) w) board = (if mode =? 0 then 0 else 1).
Proof.
  intros Hwf Ha. pose proof (is_active_range _ _ Ha) as Hb.
  assert (Hlen : 0 <= board < Z.of_nat (length (Motors.isMotorEnabled (g_motors w)))).
  { pose proof (wf_isMotorEnabled _ Hwf) as L. unfold has_len in L. rewrite L. exact Hb. }
  unfold exec, TMC_SetEnable, uninitialised_int. msteps.
  destruct (motorType_of w board) eqn:Hty.
  - exfalso. unfold is_active in Ha. rewrite Hty in Ha.
    rewrite bool_decide_eq_true_2 in Ha by reflexivity.
    rewrite orb_true_r in Ha. discriminate.
  - unfold modify_sim, modify_tmc, set_isMotorEnabled, modify_motors.
    destruct (mode =? 0); msteps; cbn [fst snd]; unfold isMotorEnabled_at; proj_simpl;
      rewrite aget_aset_eq by exact Hlen; reflexivity.
  - destruct (mode =? 0); reduce_if.
    + unfold tmc5240_fieldWrite, tmc5240_writeRegister. msteps.
      match goal with |- context [set_isMotorEnabled board 0 ?W] => set (w1 := W) end.
      unfold set_isMotorEnabled, modify_motors. msteps.
      match goal with |- context [if ?c then _ else _] => destruct c end.
      * match goal with |- context [TMC_CancelHoming board ?W] =>
          pose proof (CancelHoming_enabled board W) as Hc; unfold exec in Hc;
            rewrite Hc end.
        unfold isMotorEnabled_at. proj_simpl. unfold w1. proj_simpl.
        rewrite aget_aset_eq by exact Hlen. reflexivity.
      * rewrite run_ret. cbn [snd]. unfold isMotorEnabled_at. proj_simpl. unfold w1. proj_simpl.
        rewrite aget_aset_eq by exact Hlen. reflexivity.
    + msteps. rewrite (run_FindParamIndexVal board "MTOF" 6) by reflexivity. cbv beta iota.
      unfold tmc5240_fieldWrite, set_isMotorEnabled, modify_motors. msteps. cbn [snd].
      unfold isMotorEnabled_at. proj_simpl. rewrite aget_aset_eq by exact Hlen. reflexivity.
Qed.

(** The command to set the enable flag of one motor comes down to
    [SetEnable] and the answer 0, whatever the remote-control flag. *)
Lemma dispatch_ENAB (board v : Z) (rest : string) (w : World) :
  is_active w board = true ->
  board_value_args Scan.c_hhd rest = [board; v] ->
  SerialComm_dispatch ("SMS_ENAB" ++ rest) w
  = (true, exec (SerialComm_ReportErrorCode ERR_None) (exec (TMC_SetEnable board v) w)).
Proof.
  intros Ha Hargs. pose proof (is_active_range _ _ Ha) as Hb.
  unfold SerialComm_dispatch, uninitialised_int. mstep. mstep.
  decide_prefixes.
  match goal with
  | |- context [lookup_command ?t ?n ?i ?s] =>
      let r := eval cbv in (lookup_command t n i s) in
      change (lookup_command t n i s) with r; cbv iota
  end.
  match goal with
  | |- context [scan_board_value ?c ?p ?s] =>
      change (scan_board_value c p s) with (board_value_args c rest)
  end.
  rewrite Hargs. mstep.
  unfold Motors_SetStatusValue.
  change (strncmp_eq 4 (id_at motStatIDList 5) "ENAB") with true.
  assert (Hm1 : (board =? -1) = false) by (apply Z.eqb_neq; lia).
  rewrite Hm1. reduce_if. mstep.
  destruct (run_IsActiveMotor board true w) as (w0 & -> & _ & Hw0).
  rewrite (Hw0 Ha), Ha. reduce_if.
  unfold TMC_SetStatusValue, uninitialised_int. msteps.
  change (strncmp_eq 4 (id_at motStatIDList 5) "ENAB") with true.
  unfold exec.
  destruct (motorType_of w board) eqn:Hty.
  - exfalso. unfold is_active in Ha. rewrite Hty in Ha.
    rewrite bool_decide_eq_true_2 in Ha by reflexivity.
    rewrite orb_true_r in Ha. discriminate.
  - reduce_if. mstep. destruct (TMC_SetEnable board v w) as [e1 w1]. msteps. cbn [snd].
    destruct (SerialComm_ReportErrorCode ERR_None w1) as [[] w2]. reflexivity.
  - reduce_if. mstep. destruct (TMC_SetEnable board v w) as [e1 w1]. msteps. cbn [snd].
    destruct (SerialComm_ReportErrorCode ERR_None w1) as [[] w2]. reflexivity.
Qed.

(** C7, as the code has it: while the remote-control flag of a motor is
    set, the commands of the host to move it to a position, to move it at a
    velocity, to home it and to set a status value other than the enable
    flag are answered with an error code (the serial one for the motion
    commands, the motor one for the status values) and the message that
    the motor is under remote control, and change nothing of the motors;
    with the flag at 0 the check lets the command through. The command to
    set the enable flag is not among them: on every active motor, under
    remote control or not, it is carried out by [SetEnable], leaves the flag
    as the command says and is answered with the code 0. *)
Theorem remote_control_locks_host_commands
    (w : World) (board : Z) (serialData : string) (e : ErrorType) :
  0 <= board < MAXNUMMOTORS ->
  locked_command board serialData e ->
  (isRemoteControlled_at w board <> 0 ->
   let '(r, w') := SerialComm_dispatch serialData w in
   r = true /\ turned_down e w w' /\
   match e with
   | ERR_Serial =>
       SerialComm.errorFlag (g_serComm w) = 0 ->
       SerialComm.errorMsg (g_serComm w') = "Motor is under remote control"
   | _ =>
       wf_World w -> is_active w board = true -> board_fault w board = 0 ->
       board_fault_msg w' board
       = snprintf MAXERRORSTRINGSIZE
           ("TMC error in board " ++ print_int board ++ ": Motor is under remote control")
   end) /\
  (isRemoteControlled_at w board = 0 ->
   SerialComm_CheckRemoteControl board w = (ERR_None, w)) /\
  (forall (rest : string) (v : Z),
     is_active w board = true ->
     board_value_args Scan.c_hhd rest = [board; v] ->
     SerialComm_dispatch ("SMS_ENAB" ++ rest) w
     = (true, exec (SerialComm_ReportErrorCode ERR_None) (exec (TMC_SetEnable board v) w)) /\
     (wf_World w ->
      isMotorEnabled_at (exec (SerialComm_dispatch ("SMS_ENAB" ++ rest)) w) board
      = (if v =? 0 then 0 else 1))).
Proof.
  intros Hb Hcmd. split; [|split].
  2:{ apply run_CheckRemoteControl_free, Hb. }
  2:{ intros rest v Ha Hargs. split; [apply dispatch_ENAB; assumption|].
      intros Hwf. unfold exec at 1. rewrite (dispatch_ENAB board v rest w Ha Hargs). cbn [snd].
      unfold exec at 1. rewrite run_ReportErrorCode. cbn [snd].
      rewrite <- (SetEnable_enabled board v w Hwf Ha). reflexivity. }
  intros Hr.
  destruct Hcmd as [rest v Hargs|rest v Hargs|rest Hargs|name rest v Hname Hargs].
  - unfold SerialComm_dispatch, uninitialised_int. mstep. mstep.
    decide_prefixes.
    change (scan_board_value Scan.c_hhi "SMC_MPOS" ("SMC_MPOS" ++ rest))
      with (board_value_args Scan.c_hhi rest).
    rewrite Hargs. apply locked_motion_command; assumption.
  - unfold SerialComm_dispatch, uninitialised_int. mstep. mstep.
    decide_prefixes.
    change (scan_board_value Scan.c_hhi "SMC_MVEL" ("SMC_MVEL" ++ rest))
      with (board_value_args Scan.c_hhi rest).
    rewrite Hargs. apply locked_motion_command; assumption.
  - unfold SerialComm_dispatch, uninitialised_int. mstep. mstep.
    decide_prefixes.
    change (scan_board Scan.c_hhi "SMC_HOME" ("SMC_HOME" ++ rest))
      with (board_arg Scan.c_hhi rest).
    rewrite Hargs. apply locked_motion_command; assumption.
  - assert (Hstatus : forall index,
              strncmp_eq 4 (id_at motStatIDList index) "ENAB" = false ->
              let '(r, w') := (err ← Motors_SetStatusValue board index v;
                               SerialComm_ReportErrorCode err;; mret true) w in
              r = true /\ turned_down ERR_Motor w w' /\
              (wf_World w -> is_active w board = true -> board_fault w board = 0 ->
               board_fault_msg w' board
               = snprintf MAXERRORSTRINGSIZE
                   ("TMC error in board " ++ print_int board
                    ++ ": Motor is under remote control"))).
    { intros index Hix. rewrite run_bind.
      pose proof (SetStatusValue_locked board index v w Hr Hix) as Hs.
      destruct (Motors_SetStatusValue board index v w) as [err w1].
      destruct Hs as (-> & Hw1 & Hmsg).
      rewrite run_bind. pose proof (errors_only_turned_down ERR_Motor w w1 Hw1) as Ht.
      rewrite run_ReportErrorCode in *. cbn [snd] in Ht. rewrite run_ret.
      split; [reflexivity|]. split; [exact Ht|].
      unfold board_fault_msg in *. exact Hmsg. }
    unfold locked_status_names in Hname. simpl in Hname.
    unfold SerialComm_dispatch, uninitialised_int. mstep. mstep.
    repeat (destruct Hname as [<-|Hname]);
      [..|contradiction];
      decide_prefixes;
      match goal with
      | |- context [lookup_command ?t ?n ?i ?s] =>
          let r := eval cbv in (lookup_command t n i s) in
          change (lookup_command t n i s) with r; cbv iota
      end;
      match goal with
      | |- context [scan_board_value ?c ?p ?s] =>
          change (scan_board_value c p s) with (board_value_args c rest)
      end;
      rewrite Hargs; apply Hstatus; reflexivity.
Qed.

End RemoteLock.

(** * The parameter store *)

Section ParameterStore.

Context `{hdr : TMC5240_Header} `{env : Environment}.

Lemma aset_out_of_range {A} (l : list A) (i : Z) (v : A) :
  ~ 0 <= i < Z.of_nat (length l) -> aset l i v = l.
Proof.
  intros H. unfold aset. destruct (i <? 0) eqn:E; [reflexivity|].
  apply Z.ltb_ge in E. apply list_insert_ge. lia.
Qed.

Lemma get2_set2_other (arr : list (list Z)) (a i v a' i' : Z) :
  (a', i') <> (a, i) -> get2 (set2 arr a i v) a' i' = get2 arr a' i'.
Proof.
  intros Hne. unfold get2, set2.
  destruct (Z.eq_dec a a') as [<-|Ha]; [|rewrite aget_aset_ne by exact Ha; reflexivity].
  destruct (decide (0 <= a < Z.of_nat (length arr))) as [Hr|Hr].
  - rewrite aget_aset_eq by exact Hr. apply aget_aset_ne. congruence.
  - rewrite aset_out_of_range by exact Hr. reflexivity.
Qed.

Lemma run_IsValidMotor_out_of_range (board : Z) (w : World) :
  ~ 0 <= board < MAXNUMMOTORS ->
  Parameters_IsValidMotor board w
  = (false, snd (Parameters_SetErrorMsg "Invalid board number" w)).
Proof.
  intros H. unfold Parameters_IsValidMotor.
  destruct ((board <? 0) || (board >=? MAXNUMMOTORS)) eqn:E.
  - rewrite run_bind. destruct (Parameters_SetErrorMsg _ w). reflexivity.
  - apply orb_false_iff in E as [E1 E2]. apply Z.ltb_ge in E1.
    rewrite Z.geb_leb in E2. apply Z.leb_gt in E2. lia.
Qed.

Lemma run_Parameters_SetErrorMsg (msg : string) (w : World) :
  Parameters_SetErrorMsg msg w = (tt, with_parameter_error msg w).
Proof. reflexivity. Qed.

Lemma with_parameter_error_core msg w :
  Parameters_core (g_params (with_parameter_error msg w)) = Parameters_core (g_params w).
Proof.
  unfold with_parameter_error. destruct (negb _); reflexivity.
Qed.

(** X1: writing a motor parameter changes that entry only. Every other
    entry of the table reads as before, and the device types, the axis
    types, the remote parameters, the motors and the trace are not
    touched; on a board number outside the table nothing is written at
    all. *)
Theorem motor_parameter_write_is_local (w : World) (a i v a' i' : Z) :
  0 <= i < MOTORS_NUM_PARAMS ->
  (a', i') <> (a, i) ->
  let w1 := exec (Parameters_SetMotorParams a i v) w in
  motorParam w1 a' i' = motorParam w a' i' /\
  Parameters.hwParameters (g_params w1) = Parameters.hwParameters (g_params w) /\
  Parameters.remoteParamArr (g_params w1) = Parameters.remoteParamArr (g_params w) /\
  g_motors w1 = g_motors w /\ io w1 = io w /\
  (~ 0 <= a < MAXNUMMOTORS ->
   Parameters.motorParamArr (g_params w1) = Parameters.motorParamArr (g_params w)).
Proof.
  intros _ Hne. cbv zeta. unfold exec, Parameters_SetMotorParams. rewrite run_bind.
  destruct (decide (0 <= a < MAXNUMMOTORS)) as [Ha|Ha].
  - rewrite (run_IsValidMotor_in_range a w Ha). reduce_if.
    unfold modify_params. msteps. cbn [snd]. unfold motorParam. proj_simpl.
    rewrite (get2_set2_other _ _ _ _ _ _ Hne). repeat split. intros X. contradiction.
  - rewrite (run_IsValidMotor_out_of_range a w Ha), run_Parameters_SetErrorMsg.
    reduce_if. rewrite run_ret. cbn [snd]. unfold motorParam, with_parameter_error.
    proj_simpl. destruct (negb _); repeat split.
Qed.


(** X2: an invalid board number is turned down by every accessor of the
    parameter store in the same way: the error of the parameter layer is
    returned, the message [Invalid board number] is recorded unless an
    earlier one is waiting, nothing is stored, and a getter leaves the
    variable of its caller as it was. *)
Theorem invalid_board_rejected (w : World) (board i v x : Z) :
  ~ 0 <= board < MAXNUMMOTORS ->
  let w1 := with_parameter_error "Invalid board number" w in
  Parameters_SetMotorParams board i v w = (ERR_Parameter, w1) /\
  Parameters_GetMotorParams board i x w = ((ERR_Parameter, x), w1) /\
  Parameters_GetRemoteParams board i x w = ((ERR_Parameter, x), w1) /\
  Parameters_SetDeviceType board v w = (ERR_Parameter, w1) /\
  Parameters_GetDeviceType board x w = ((ERR_Parameter, x), w1) /\
  Parameters_SetAxisType board v w = (ERR_Parameter, w1) /\
  Parameters_GetAxisType board x w = ((ERR_Parameter, x), w1) /\
  Parameters_core (g_params w1) = Parameters_core (g_params w).
Proof.
  intros H. cbv zeta.
  pose proof (run_IsValidMotor_out_of_range board w H) as Hv.
  rewrite run_Parameters_SetErrorMsg in Hv. cbn [snd] in Hv.
  unfold Parameters_SetMotorParams, Parameters_GetMotorParams, Parameters_GetRemoteParams,
    Parameters_SetDeviceType, Parameters_GetDeviceType, Parameters_SetAxisType,
    Parameters_GetAxisType.
  rewrite !run_bind, !Hv. reduce_if. rewrite !run_ret.
  repeat (split; [reflexivity|]). apply with_parameter_error_core.
Qed.

Lemma motorType_aset_eq (w : World) (board : Z) (t : MotorType) :
  wf_World w -> 0 <= board < MAXNUMMOTORS ->
  aget MOTOR_NONE (aset (motorType (Parameters.hwParameters (g_params w))) board t) board = t.
Proof.
  intros Hwf Hb. apply aget_aset_eq.
  pose proof (wf_motorType _ Hwf) as L. unfold has_len in L. rewrite L. exact Hb.
Qed.

(** X3: the device type of a valid board reads back as written for the
    values 0, 1 and 2, and the types of the other boards stay; any other
    value is turned down with the error of the parameter layer and nothing
    stored. In both cases the motors are not touched: the new type takes
    effect at the next use only. *)
Theorem device_type_roundtrip (w : World) (board value x : Z) :
  wf_World w -> 0 <= board < MAXNUMMOTORS ->
  let '(e, w1) := Parameters_SetDeviceType board value w in
  g_motors w1 = g_motors w /\ io w1 = io w /\
  Parameters.motorParamArr (g_params w1) = Parameters.motorParamArr (g_params w) /\
  (0 <= value <= 2 ->
     e = ERR_None /\
     Parameters_GetDeviceType board x w1 = ((ERR_None, value), w1) /\
     forall z, z <> board -> motorType_of w1 z = motorType_of w z) /\
  (~ 0 <= value <= 2 ->
     e = ERR_Parameter /\ w1 = with_parameter_error "Invalid device type (0..2)" w).
Proof.
  intros Hwf Hb. unfold Parameters_SetDeviceType.
  rewrite run_bind, (run_IsValidMotor_in_range board w Hb). reduce_if.
  assert (Hget : forall t,
            let w1 := set_g_params
                        (Parameters.set_hwParameters
                           (mkHWParamStruct
                              (aset (motorType (Parameters.hwParameters (g_params w))) board t)
                              (DRIVER_CS (Parameters.hwParameters (g_params w)))
                              (axisType (Parameters.hwParameters (g_params w)))) (g_params w)) w in
            Parameters_GetDeviceType board x w1 = ((ERR_None, MotorType_code t), w1) /\
            forall z, z <> board -> motorType_of w1 z = motorType_of w z).
  { intros t. cbv zeta. unfold Parameters_GetDeviceType.
    rewrite run_bind, run_IsValidMotor_in_range by exact Hb. reduce_if. msteps.
    unfold motorType_of. proj_simpl. cbn [motorType].
    rewrite (motorType_aset_eq w board t Hwf Hb). split; [reflexivity|].
    intros z Hz. apply aget_aset_ne. congruence. }
  destruct (value =? 0) eqn:E0; [|destruct (value =? 1) eqn:E1; [|destruct (value =? 2) eqn:E2]].
  - apply Z.eqb_eq in E0. subst value. unfold modify_params. msteps.
    repeat (split; [reflexivity|]). split; [|intros X; lia].
    intros _. split; [reflexivity|]. apply (Hget MOTOR_NONE).
  - apply Z.eqb_eq in E1. subst value. unfold modify_params. msteps.
    repeat (split; [reflexivity|]). split; [|intros X; lia].
    intros _. split; [reflexivity|]. apply (Hget MOTOR_SIM).
  - apply Z.eqb_eq in E2. subst value. unfold modify_params. msteps.
    repeat (split; [reflexivity|]). split; [|intros X; lia].
    intros _. split; [reflexivity|]. apply (Hget MOTOR_TMC).
  - apply Z.eqb_neq in E0, E1, E2. rewrite run_bind, run_Parameters_SetErrorMsg.
    cbv beta iota. rewrite run_ret.
    unfold with_parameter_error. proj_simpl.
    split; [reflexivity|]. split; [reflexivity|].
    split; [destruct (negb _); reflexivity|].
    split; [intros X; lia|]. intros _. split; reflexivity.
Qed.

(** X4: the axis type of a valid board reads back as written for the
    values 0 to 4; any other value is turned down with the error of the
    parameter layer and nothing stored. *)
Theorem axis_type_roundtrip (w : World) (board value x : Z) :
  wf_World w -> 0 <= board < MAXNUMMOTORS ->
  has_len MAXNUMMOTORS (axisType (Parameters.hwParameters (g_params w))) ->
  let '(e, w1) := Parameters_SetAxisType board value w in
  g_motors w1 = g_motors w /\ io w1 = io w /\
  (forall z, motorType_of w1 z = motorType_of w z) /\
  (0 <= value <= 4 ->
     e = ERR_None /\ Parameters_GetAxisType board x w1 = ((ERR_None, value), w1)) /\
  (~ 0 <= value <= 4 ->
     e = ERR_Parameter /\ w1 = with_parameter_error "Invalid axis type (0..4)" w).
Proof.
  intros Hwf Hb Hlen. unfold Parameters_SetAxisType.
  rewrite run_bind, (run_IsValidMotor_in_range board w Hb). reduce_if.
  assert (Hget : forall t,
            let w1 := set_g_params
                        (Parameters.set_hwParameters
                           (mkHWParamStruct
                              (motorType (Parameters.hwParameters (g_params w)))
                              (DRIVER_CS (Parameters.hwParameters (g_params w)))
                              (aset (axisType (Parameters.hwParameters (g_params w))) board t))
                           (g_params w)) w in
            Parameters_GetAxisType board x w1 = ((ERR_None, AxisType_code t), w1)).
  { intros t. cbv zeta. unfold Parameters_GetAxisType.
    rewrite run_bind, run_IsValidMotor_in_range by exact Hb. reduce_if. msteps.
    proj_simpl. cbn [axisType]. rewrite aget_aset_eq; [reflexivity|].
    unfold has_len in Hlen. rewrite Hlen. exact Hb. }
  destruct (value =? 0) eqn:E0;
    [|destruct (value =? 1) eqn:E1;
      [|destruct (value =? 2) eqn:E2;
        [|destruct (value =? 3) eqn:E3; [|destruct (value =? 4) eqn:E4]]]].
  - apply Z.eqb_eq in E0. subst value. unfold modify_params. msteps.
    repeat (split; [reflexivity|]). split; [|intros X; lia].
    intros _. split; [reflexivity|]. apply (Hget AXIS_UNDEF).
  - apply Z.eqb_eq in E1. subst value. unfold modify_params. msteps.
    repeat (split; [reflexivity|]). split; [|intros X; lia].
    intros _. split; [reflexivity|]. apply (Hget AXIS_X).
  - apply Z.eqb_eq in E2. subst value. unfold modify_params. msteps.
    repeat (split; [reflexivity|]). split; [|intros X; lia].
    intros _. split; [reflexivity|]. apply (Hget AXIS_Y).
  - apply Z.eqb_eq in E3. subst value. unfold modify_params. msteps.
    repeat (split; [reflexivity|]). split; [|intros X; lia].
    intros _. split; [reflexivity|]. apply (Hget AXIS_Z).
  - apply Z.eqb_eq in E4. subst value. unfold modify_params. msteps.
    repeat (split; [reflexivity|]). split; [|intros X; lia].
    intros _. split; [reflexivity|]. apply (Hget AXIS_AUX).
  - apply Z.eqb_neq in E0, E1, E2, E3, E4. rewrite run_bind, run_Parameters_SetErrorMsg.
    cbv beta iota. rewrite run_ret.
    unfold with_parameter_error. proj_simpl.
    split; [reflexivity|]. split; [reflexivity|].
    split; [intros z; unfold motorType_of; proj_simpl; destruct (negb _); reflexivity|].
    split; [intros X; lia|]. intros _. split; reflexivity.
Qed.

End ParameterStore.

(** * The remote parameters *)

Section RemoteParameters.

Context `{hdr : TMC5240_Header} `{env : Environment}.

Lemma get2_set2_spec (arr : list (list Z)) (a i v a' i' : Z) :
  get2 (set2 arr a i v) a' i'
  = if in_table arr a i && (a =? a') && (i =? i') then v else get2 arr a' i'.
Proof.
  destruct (in_table arr a i && (a =? a') && (i =? i')) eqn:E.
  - apply andb_true_iff in E as [E Ei]. apply andb_true_iff in E as [E Ea].
    apply Z.eqb_eq in Ea, Ei. subst a' i'.
    unfold in_table in E. rewrite !andb_true_iff in E.
    destruct E as [[[E1 E2] E3] E4].
    apply Z.leb_le in E1, E3. apply Z.ltb_lt in E2, E4.
    apply get2_set2; lia.
  - destruct (decide ((a', i') = (a, i))) as [Heq|Hne];
      [injection Heq as -> ->|apply get2_set2_other; exact Hne].
    rewrite !Z.eqb_refl, !andb_true_r in E.
    unfold get2, set2, in_table in *.
    destruct (decide (0 <= a < Z.of_nat (length arr))) as [Ha|Ha].
    + rewrite aget_aset_eq by exact Ha.
      rewrite aset_out_of_range; [reflexivity|].
      intros Hi. rewrite !andb_false_iff in E.
      destruct E as [[[E|E]|E]|E];
        [apply Z.leb_gt in E|apply Z.ltb_ge in E|apply Z.leb_gt in E|apply Z.ltb_ge in E]; lia.
    + rewrite aset_out_of_range by exact Ha. reflexivity.
Qed.

Lemma in_table_set2 (arr : list (list Z)) (a i v b j : Z) :
  in_table (set2 arr a i v) b j = in_table arr b j.
Proof.
  unfold in_table, set2. rewrite length_aset.
  destruct (Z.eq_dec a b) as [<-|Hab]; [|rewrite aget_aset_ne by exact Hab; reflexivity].
  destruct (decide (0 <= a < Z.of_nat (length arr))) as [Ha|Ha].
  - rewrite aget_aset_eq by exact Ha. rewrite length_aset. reflexivity.
  - rewrite aset_out_of_range by exact Ha. reflexivity.
Qed.

Lemma wf_in_remote_table (w : World) (z i : Z) :
  wf_World w -> 0 <= z < MAXNUMMOTORS -> 0 <= i < REMOTE_NUM_PARAMS ->
  in_table (Parameters.remoteParamArr (g_params w)) z i = true.
Proof.
  intros Hwf Hz Hi. unfold in_table.
  pose proof (wf_remoteParamArr _ Hwf) as L. unfold has_len in L.
  assert (Hrow : has_len REMOTE_NUM_PARAMS (aget [] (Parameters.remoteParamArr (g_params w)) z)).
  { apply aget_Forall; [apply Hwf|lia]. }
  unfold has_len in Hrow. rewrite L, Hrow.
  rewrite !andb_true_iff, !Z.leb_le, !Z.ltb_lt. lia.
Qed.

Lemma not_ENAB (index : Z) :
  index <> 0 -> strncmp_eq 4 (id_at remoteIDList index) "ENAB" = false.
Proof.
  intros H. unfold id_at, aget.
  destruct (index <? 0) eqn:E; [reflexivity|]. apply Z.ltb_ge in E.
  assert (Hn : Z.to_nat index <> 0%nat) by lia.
  destruct (Z.to_nat index) as [|n]; [contradiction|].
  do 5 (destruct n as [|n]; [reflexivity|]). reflexivity.
Qed.

(** X5: the remote-control enable is the one remote parameter that can be
    written for all boards at once. With board -1, writing the enable
    (index 0) stores the value for each of the four boards and leaves the
    other remote parameters alone; writing any other remote parameter
    with board -1 is turned down as an invalid board, with nothing stored. *)
Theorem remote_enable_broadcast (w : World) (index value : Z) :
  wf_World w ->
  0 <= index < REMOTE_NUM_PARAMS ->
  let '(e, w1) := Parameters_SetRemoteParams (-1) index value w in
  let old := Parameters.remoteParamArr (g_params w) in
  let new := Parameters.remoteParamArr (g_params w1) in
  (index = 0 ->
     e = ERR_None /\
     (forall z, 0 <= z < MAXNUMMOTORS -> get2 new z 0 = value) /\
     (forall z i, i <> 0 -> get2 new z i = get2 old z i) /\
     g_motors w1 = g_motors w /\ io w1 = io w) /\
  (index <> 0 ->
     e = ERR_Parameter /\ w1 = with_parameter_error "Invalid board number" w).
Proof.
  intros Hwf _. unfold Parameters_SetRemoteParams.
  destruct (Z.eq_dec index 0) as [->|Hi].
  - change (strncmp_eq 4 (id_at remoteIDList 0) "ENAB" && (-1 =? -1)) with true.
    cbv iota. change (upto MAXNUMMOTORS) with [0; 1; 2; 3].
    unfold for_each, modify_params. msteps. cbv zeta. proj_simpl.
    split; [intros _|intros X; contradiction].
    split; [reflexivity|].
    pose proof (fun z Hz => wf_in_remote_table w z 0 Hwf Hz ltac:(unfold REMOTE_NUM_PARAMS; lia))
      as Hin.
    split; [|split; [|split; reflexivity]].
    + intros z Hz. rewrite !get2_set2_spec, !in_table_set2.
      rewrite !Hin by (unfold MAXNUMMOTORS; lia). rewrite (Hin z Hz) || idtac.
      unfold MAXNUMMOTORS in Hz.
      assert (Hc : z = 0 \/ z = 1 \/ z = 2 \/ z = 3) by lia.
      destruct Hc as [-> | [-> | [-> | ->]]]; reflexivity.
    + intros z i Hne. rewrite !get2_set2_spec.
      apply Z.eqb_neq in Hne. rewrite Z.eqb_sym in Hne. rewrite Hne, !andb_false_r. reflexivity.
  - rewrite (not_ENAB index Hi). cbn [andb]. cbv iota.
    rewrite run_bind, run_IsValidMotor_out_of_range by (unfold MAXNUMMOTORS; lia).
    rewrite run_Parameters_SetErrorMsg. reduce_if. rewrite run_ret. cbv zeta.
    split; [intros X; contradiction|]. intros _. split; reflexivity.
Qed.

End RemoteParameters.

(** * The error records of the motors *)

Section MotorErrors.

Context `{hdr : TMC5240_Header} `{env : Environment}.

(** X6: the error records of the motors keep the first message and never
    lose sight of one. A message for a board (or a general one) that
    already has one waiting changes nothing at all; otherwise it is stored
    and flagged. As long as the summary flag covers the waiting errors
    before, it does so after, and it is raised after every call. *)
Theorem Motors_SetErrorMsg_keeps_first (w : World) (source : string) (num : Z) (msg : string) :
  wf_World w -> errors_summarised w ->
  let w' := exec (Motors_SetErrorMsg source num msg) w in
  errors_summarised w' /\ Motors.errorFlag (g_motors w') <> 0 /\
  (0 <= num < MAXNUMMOTORS -> board_fault w num <> 0 -> w' = w) /\
  (num = -1 -> Motors.errorFlagGeneral (g_motors w) <> 0 -> w' = w) /\
  (0 <= num < MAXNUMMOTORS -> board_fault w num = 0 ->
     board_fault w' num = 1 /\
     board_fault_msg w' num
     = snprintf MAXERRORSTRINGSIZE (source ++ " error in board " ++ print_int num ++ ": " ++ msg) /\
     forall z, z <> num ->
       board_fault w' z = board_fault w z /\ board_fault_msg w' z = board_fault_msg w z) /\
  (num = -1 -> Motors.errorFlagGeneral (g_motors w) = 0 ->
     Motors.errorFlagGeneral (g_motors w') = 1 /\
     Motors.errorMsgGeneral (g_motors w')
     = snprintf MAXERRORSTRINGSIZE (source ++ " error: " ++ msg)) /\
  MotionState_of w' = MotionState_of w /\ io w' = io w.
Proof.
  intros Hwf Hsum. cbv zeta. unfold exec, Motors_SetErrorMsg.
  pose proof (wf_errorFlagBoard _ Hwf) as L1. pose proof (wf_errorMsgBoard _ Hwf) as L2.
  unfold has_len, MAXNUMMOTORS in *.
  destruct (num =? -1) eqn:En.
  - apply Z.eqb_eq in En. subst num. msteps.
    destruct (Motors.errorFlagGeneral (g_motors w) =? 0) eqn:Eg; reduce_if.
    + apply Z.eqb_eq in Eg. unfold modify_motors. msteps. cbn [snd].
      unfold errors_summarised, board_fault, board_fault_msg. proj_simpl.
      split; [intros _; discriminate|]. split; [discriminate|].
      split; [intros X; lia|]. split; [intros _ X; contradiction|].
      split; [intros X; lia|]. split; [intros _ _; split; reflexivity|].
      split; reflexivity.
    + apply Z.eqb_neq in Eg. rewrite run_ret. cbn [snd].
      assert (Hf : Motors.errorFlag (g_motors w) <> 0) by (apply Hsum; left; exact Eg).
      split; [exact Hsum|]. split; [exact Hf|].
      split; [intros X; lia|]. split; [reflexivity|].
      split; [intros X; lia|]. split; [intros _ X; contradiction|].
      split; reflexivity.
  - apply Z.eqb_neq in En. rewrite run_bind.
    destruct (decide (0 <= num < 4)) as [Hr|Hr].
    + rewrite (run_IsValidMotor_in_range num w) by (unfold MAXNUMMOTORS; exact Hr).
      cbv beta iota. msteps. fold (board_fault w num).
      destruct (board_fault w num =? 0) eqn:Ef; reduce_if.
      * apply Z.eqb_eq in Ef. unfold modify_motors. msteps. cbn [snd].
        unfold errors_summarised, board_fault, board_fault_msg in *. proj_simpl.
        rewrite !aget_aset_eq by lia.
        split; [intros _; discriminate|]. split; [discriminate|].
        split; [intros _ X; contradiction|]. split; [intros X; contradiction|].
        split; [|split; [intros X; contradiction|split; reflexivity]].
        intros _ _. split; [reflexivity|]. split; [reflexivity|].
        intros z Hz. rewrite !aget_aset_ne by congruence. split; reflexivity.
      * apply Z.eqb_neq in Ef. rewrite run_ret. cbn [snd].
        assert (Hf : Motors.errorFlag (g_motors w) <> 0).
        { apply Hsum. right. exists num. split; [exact Hr|exact Ef]. }
        split; [exact Hsum|]. split; [exact Hf|].
        split; [reflexivity|]. split; [intros X; contradiction|].
        split; [intros _ X; contradiction|]. split; [intros X; contradiction|].
        split; reflexivity.
    + rewrite (run_IsValidMotor_out_of_range num w) by (unfold MAXNUMMOTORS; exact Hr).
      rewrite run_Parameters_SetErrorMsg. cbv beta iota. unfold modify_motors. msteps.
      cbn [snd]. unfold errors_summarised, board_fault, board_fault_msg, with_parameter_error.
      proj_simpl.
      split; [intros _; discriminate|]. split; [discriminate|].
      split; [intros X; contradiction|]. split; [intros X; contradiction|].
      split; [intros X; contradiction|]. split; [intros X; contradiction|].
      split; reflexivity.
Qed.

Lemma run_Serial_print (text : string) (w : World) :
  Serial_print text w = (tt, set_io (io w ++ [EvSerialPrint text]) w).
Proof. reflexivity. Qed.

Lemma run_modify_motors (f : Motors.t -> Motors.t) (w : World) :
  modify_motors f w = (tt, set_g_motors (f (g_motors w)) w).
Proof. reflexivity. Qed.

(** The loop of [PrintErrorMsg] over the boards [l]: their flags are
    cleared, and nothing else changes but the trace. *)
Lemma print_board_errors_clears (l : list Z) (firstError : bool) (w : World) :
  exists flags tr,
    (fix loop (l : list Z) (firstError : bool) : M unit :=
       match l with
       | [] => mret tt
       | z :: l' =>
           f ← gets (fun w => aget 0 (Motors.errorFlagBoard (g_motors w)) z);
           if negb (f =? 0) then
             (if negb firstError then Serial_print "; " else mret tt);;
             msg ← gets (fun w => aget "" (Motors.errorMsgBoard (g_motors w)) z);
             Serial_print msg;;
             modify_motors (fun m => Motors.set_errorFlagBoard (aset (Motors.errorFlagBoard m) z 0) m);;
             loop l' false
           else loop l' firstError
       end) l firstError w
    = (tt, set_io tr (set_g_motors (Motors.set_errorFlagBoard flags (g_motors w)) w)) /\
    (forall z, In z l -> aget 0 flags z = 0) /\
    (forall z, ~ In z l -> aget 0 flags z = aget 0 (Motors.errorFlagBoard (g_motors w)) z).
Proof.
  revert firstError w. induction l as [|z l IH]; intros firstError w.
  - exists (Motors.errorFlagBoard (g_motors w)), (io w). rewrite run_ret.
    split; [destruct w as [p m r s c i]; destruct m; reflexivity|].
    split; [intros z []|reflexivity].
  - msteps.
    destruct (aget 0 (Motors.errorFlagBoard (g_motors w)) z =? 0) eqn:Ef; reduce_if.
    + apply Z.eqb_eq in Ef.
      destruct (IH firstError w) as (flags & tr & Hrun & Hin & Hout).
      exists flags, tr. split; [exact Hrun|]. split.
      * intros z' [<-|Hz']; [|apply Hin, Hz'].
        destruct (List.in_dec Z.eq_dec z l) as [Hl|Hl]; [apply Hin, Hl|]. rewrite Hout by exact Hl. exact Ef.
      * intros z' Hz'. apply Hout. intros X. apply Hz'. right. exact X.
    + mstep.
      match goal with |- context [(if negb firstError then _ else _) w] =>
        destruct ((if negb firstError then Serial_print "; " else mret tt) w) as [[] w1] eqn:E1 end.
      assert (Hw1 : exists tr1, w1 = set_io tr1 w).
      { destruct firstError; simpl in E1.
        - exists (io w). rewrite run_ret in E1. injection E1 as <-. destruct w; reflexivity.
        - rewrite run_Serial_print in E1. injection E1 as <-. eauto. }
      destruct Hw1 as [tr1 ->].
      repeat first [mstep | rewrite run_Serial_print | rewrite run_modify_motors];
        cbv beta iota.
      match goal with |- context [_ l false ?W] =>
        destruct (IH false W) as (flags & tr & Hrun & Hin & Hout); rewrite Hrun end.
      proj_simpl.
      exists flags, tr. split; [reflexivity|]. split.
      * intros z' [<-|Hz']; [|apply Hin, Hz'].
        destruct (List.in_dec Z.eq_dec z l) as [Hl|Hl]; [apply Hin, Hl|]. rewrite Hout by exact Hl.
        apply aget_aset_default.
      * intros z' Hz'. rewrite Hout by (intros X; apply Hz'; right; exact X).
        apply aget_aset_ne. intros ->. apply Hz'. left. reflexivity.
Qed.

(** [PrintErrorMsg] with the summary flag up: the three kinds of flags
    are cleared, and nothing else changes but the trace. *)
Lemma run_Motors_PrintErrorMsg (w : World) :
  Motors.errorFlag (g_motors w) <> 0 ->
  exists g1 flags tr,
    Motors_PrintErrorMsg w
    = (1, set_g_motors
            (Motors.set_errorFlag 0
               (Motors.set_errorFlagBoard flags
                  (Motors.set_errorFlagGeneral g1 (g_motors w))))
            (set_io tr w)) /\
    g1 = 0 /\ forall z, 0 <= z < MAXNUMMOTORS -> aget 0 flags z = 0.
Proof.
  intros Ef. apply Z.eqb_neq in Ef.
  unfold Motors_PrintErrorMsg. msteps. rewrite Ef. reduce_if. msteps.
  match goal with |- context [(if negb (?g =? 0) then ?a else ?b) w] =>
    destruct ((if negb (g =? 0) then a else b) w) as [first w1] eqn:E1 end.
  assert (Hw1 : exists tr1 g1, w1 = set_io tr1 (set_g_motors (Motors.set_errorFlagGeneral g1
                                                    (g_motors w)) w) /\ g1 = 0).
  { destruct (Motors.errorFlagGeneral (g_motors w) =? 0) eqn:Eg; simpl in E1.
    - apply Z.eqb_eq in Eg. rewrite run_ret in E1. injection E1 as _ <-.
      exists (io w), (Motors.errorFlagGeneral (g_motors w)).
      split; [destruct w as [p m r s c i]; destruct m; reflexivity|exact Eg].
    - unfold Serial_print, modify_motors in E1. revert E1. msteps. intros [= _ <-].
      eexists _, 0. split; reflexivity. }
  destruct Hw1 as (tr1 & g1 & -> & Hg1).
  mstep.
  destruct (print_board_errors_clears (upto MAXNUMMOTORS) first
              (set_io tr1 (set_g_motors (Motors.set_errorFlagGeneral g1 (g_motors w)) w)))
    as (flags & tr & Hrun & Hin & _).
  rewrite Hrun. cbv beta iota. unfold modify_motors. msteps. proj_simpl.
  exists g1, flags, tr. split; [reflexivity|]. split; [exact Hg1|].
  intros z Hz. apply Hin.
  unfold MAXNUMMOTORS in Hz. change (upto MAXNUMMOTORS) with [0; 1; 2; 3].
  simpl. lia.
Qed.

(** X7: reporting the errors of the motors clears them all. With the
    summary flag down nothing is printed and nothing changes; with it up the
    function returns 1 and leaves the summary flag, the general flag and
    the flag of every board down, so that a second report finds nothing.
    The motion state is never touched. *)
Theorem Motors_PrintErrorMsg_drains (w : World) :
  let '(r, w') := Motors_PrintErrorMsg w in
  (Motors.errorFlag (g_motors w) = 0 -> r = 0 /\ w' = w) /\
  (Motors.errorFlag (g_motors w) <> 0 ->
     r = 1 /\ errors_clear w' /\ Motors_PrintErrorMsg w' = (0, w')) /\
  MotionState_of w' = MotionState_of w /\ g_params w' = g_params w /\
  Motors.tmcArr (g_motors w') = Motors.tmcArr (g_motors w).
Proof.
  destruct (Z.eq_dec (Motors.errorFlag (g_motors w)) 0) as [Ef|Ef].
  - unfold Motors_PrintErrorMsg at 1. msteps. rewrite Ef. reduce_if. try rewrite run_ret.
    split; [intros _; split; reflexivity|]. split; [intros X; contradiction|].
    repeat split.
  - destruct (run_Motors_PrintErrorMsg w Ef) as (g1 & flags & tr & -> & Hg1 & Hin).
    split; [intros X; contradiction|].
    split; [intros _|repeat split].
    split; [reflexivity|]. split.
    + unfold errors_clear, board_fault. proj_simpl. split; [reflexivity|].
      split; [exact Hg1|]. exact Hin.
    + unfold Motors_PrintErrorMsg. msteps. proj_simpl. reflexivity.
Qed.

End MotorErrors.

(** * The driver objects *)

Section Driver.

Context `{hdr : TMC5240_Header} `{env : Environment}.

Ltac driver_prims :=
  unfold tmc5240_writeRegister, tmc5240_fieldWrite, delay, pinMode, digitalWrite.

#[local] Hint Resolve emit_driver tmc5240_readRegister_driver tmc5240_fieldRead_driver
  millis_driver modify_sim_driver set_isMotorEnabled_driver set_isMotorHoming_driver
  sprintf_driver
  TMC_SetErrorMsg_driver TMC_FindParamIndexVal_driver TMC_IsParamInRange_driver
  TMC_IsValueInRange_driver uninitialised_int_driver uninitialised_str_driver
  TMC_CancelHoming_driver TMC_SetEnable_driver TMC_CheckError_driver TMC_MoveAtVel_driver
  TMC_MoveToPos_driver poll_field_driver TMC_EndHoming_driver : frames.

Lemma TMC_GetStatusFlags_driver board status :
  preserves driver_frame (TMC_GetStatusFlags board status).
Proof. unfold TMC_GetStatusFlags. driver_prims. frames. Qed.

Lemma TMC_ClearStatusRegs_driver board : preserves driver_frame (TMC_ClearStatusRegs board).
Proof. unfold TMC_ClearStatusRegs. driver_prims. frames. Qed.

Lemma preserves_keeps {A} (m : M A) : preserves driver_frame m -> keeps_bookkeeping m.
Proof. intros H w _. apply H. Qed.

(** X8: the driver objects never write what the orchestrator and the
    parameter store own. No member function of the driver class that moves
    the motor, homes it, polls it or accesses its status changes the
    parameter tables, the device types, the remote-control flags, the
    moving and searching flags, the target, the setpoint, the iterations
    left, the closed-loop settings, or the records of the two serial
    links. *)
Theorem driver_calls_keep_bookkeeping (board : Z) :
  (forall mode, keeps_bookkeeping (TMC_SetEnable board mode)) /\
  keeps_bookkeeping (TMC_CancelHoming board) /\
  keeps_bookkeeping (TMC_CheckError board) /\
  (forall v, keeps_bookkeeping (TMC_MoveAtVel board v)) /\
  (forall pos setVel, keeps_bookkeeping (TMC_MoveToPos board pos setVel)) /\
  (forall pos, keeps_bookkeeping (TMC_SetXPos board pos)) /\
  (forall pos, keeps_bookkeeping (TMC_GetPos board pos)) /\
  (forall pos, keeps_bookkeeping (TMC_GetEnc board pos)) /\
  keeps_bookkeeping (TMC_StartHoming board) /\
  keeps_bookkeeping (TMC_EndHoming board) /\
  (forall done, keeps_bookkeeping (TMC_CheckStatus board done)) /\
  (forall status, keeps_bookkeeping (TMC_GetStatusFlags board status)) /\
  keeps_bookkeeping (TMC_ClearStatusRegs board).
Proof.
  split; [intros; apply preserves_keeps, TMC_SetEnable_driver|].
  split; [apply preserves_keeps, TMC_CancelHoming_driver|].
  split; [apply preserves_keeps, TMC_CheckError_driver|].
  split; [intros; apply preserves_keeps, TMC_MoveAtVel_driver|].
  split; [intros; apply preserves_keeps, TMC_MoveToPos_driver|].
  split; [intros; apply preserves_keeps, TMC_SetXPos_driver|].
  split; [intros; apply preserves_keeps, TMC_GetPos_driver|].
  split; [intros; apply preserves_keeps, TMC_GetEnc_driver|].
  split; [apply preserves_keeps, TMC_StartHoming_driver|].
  split; [apply preserves_keeps, TMC_EndHoming_driver|].
  split; [intros; apply preserves_keeps, TMC_CheckStatus_driver|].
  split; [intros; apply preserves_keeps, TMC_GetStatusFlags_driver|].
  apply preserves_keeps, TMC_ClearStatusRegs_driver.
Qed.

End Driver.

(** * The message buffer of [CheckError] *)

#[global] Instance stays_defined_preorder : PreOrder stays_defined.
Proof.
  split.
  - intros w H. exact H.
  - intros a b c H1 H2 H. apply H2, H1, H.
Qed.

Lemma defined_app (w : World) (l : list Event) :
  defined (set_io (io w ++ l) w)
  <-> defined w /\ forallb (fun e => negb (is_undefined e)) l = true.
Proof. unfold defined. simpl. rewrite forallb_app, andb_true_iff. reflexivity. Qed.

Section MessageBuffer.

Context `{hdr : TMC5240_Header} `{env : Environment}.

Lemma errors_only_stays_defined (w w' : World) : errors_only w w' -> stays_defined w w'.
Proof. intros H Hd. unfold defined. rewrite (eo_io _ _ H). exact Hd. Qed.

Lemma errors_preserves_defined {A} (m : M A) :
  preserves errors_only m -> preserves stays_defined m.
Proof. apply preserves_weaken. apply errors_only_stays_defined. Qed.

Lemma emit_stays_defined (e : Event) :
  is_undefined e = false -> preserves stays_defined (emit e).
Proof.
  intros He w Hd. unfold emit, modify. cbn [snd]. apply defined_app.
  split; [exact Hd|]. simpl. rewrite He. reflexivity.
Qed.

Lemma modify_motors_stays_defined (f : Motors.t -> Motors.t) :
  preserves stays_defined (modify_motors f).
Proof. intros w Hd. exact Hd. Qed.

Lemma tmc5240_readRegister_stays_defined icID address :
  preserves stays_defined (tmc5240_readRegister icID address).
Proof.
  intros w Hd. unfold tmc5240_readRegister. cbn [snd]. apply defined_app.
  split; [exact Hd|reflexivity].
Qed.

Lemma TMC_SetErrorMsg_stays_defined board msg :
  preserves stays_defined (TMC_SetErrorMsg board msg).
Proof. apply errors_preserves_defined, TMC_SetErrorMsg_errors. Qed.

Lemma TMC_FindParamIndexVal_stays_defined board name index value :
  preserves stays_defined (TMC_FindParamIndexVal board name index value).
Proof. apply errors_preserves_defined, TMC_FindParamIndexVal_errors. Qed.

Lemma uninitialised_int_stays_defined name : preserves stays_defined (uninitialised_int name).
Proof. apply errors_preserves_defined, uninitialised_int_errors. Qed.

Lemma uninitialised_str_stays_defined name : preserves stays_defined (uninitialised_str name).
Proof. apply errors_preserves_defined, uninitialised_str_errors. Qed.

#[local] Hint Resolve modify_motors_stays_defined tmc5240_readRegister_stays_defined
  TMC_SetErrorMsg_stays_defined TMC_FindParamIndexVal_stays_defined
  uninitialised_int_stays_defined uninitialised_str_stays_defined : frames.
#[local] Hint Extern 1 (preserves stays_defined (emit _)) =>
  apply emit_stays_defined; reflexivity : frames.

Ltac defined_ops :=
  unfold tmc5240_writeRegister, tmc5240_fieldWrite, set_isMotorEnabled, set_isMotorHoming,
    modify_sim, modify_tmc.

Lemma TMC_CancelHoming_stays_defined board : preserves stays_defined (TMC_CancelHoming board).
Proof. unfold TMC_CancelHoming. defined_ops. frames. Qed.
#[local] Hint Resolve TMC_CancelHoming_stays_defined : frames.








End MessageBuffer.

(** * The simulated axis *)

Section Simulated.

Context `{hdr : TMC5240_Header} `{env : Environment}.

(** X10: a Simulated axis arrives at once. [MoveToPos] brings the
    position asked for inside the limits of the axis, sets the simulated
    position and the simulated encoder to it and the velocity to 0, and
    performs no input or output; both [GetPos] and [GetEnc] then read that
    position. Within limits that are in order the axis is exactly where it
    was sent. *)
Theorem simulated_move_arrives_at_once (w : World) (board pos setVel : Z) :
  wf_World w ->
  0 <= board < MAXNUMMOTORS ->
  motorType_of w board = MOTOR_SIM ->
  let s := sim_at w board in
  let '(e, w') := TMC_MoveToPos board pos setVel w in
  e = ERR_None /\
  sim_at w' board
  = mkTMCSimStatus (clamped s pos) (xtar s) (clamped s pos) (xmin s) (xmax s) 0
      (lastVelCalcTime s) /\
  io w' = io w /\ g_params w' = g_params w /\ MotionState_of w' = MotionState_of w /\
  (forall p, TMC_GetPos board p w' = ((ERR_None, clamped s pos), w')) /\
  (forall p, TMC_GetEnc board p w' = ((ERR_None, clamped s pos), w')) /\
  (xmin s <= pos <= xmax s -> clamped s pos = pos).
Proof.
  intros Hwf Hb Hty s.
  assert (Hlen : 0 <= board < Z.of_nat (length (Motors.tmcArr (g_motors w)))).
  { pose proof (wf_tmcArr _ Hwf) as L. unfold has_len in L. rewrite L. exact Hb. }
  destruct (TMC_MoveToPos board pos setVel w) as [e w'] eqn:Hrun.
  assert (F : e = ERR_None /\
              sim_at w' board
              = mkTMCSimStatus (clamped s pos) (xtar s) (clamped s pos) (xmin s) (xmax s) 0
                  (lastVelCalcTime s) /\
              io w' = io w /\ g_params w' = g_params w /\
              MotionState_of w' = MotionState_of w).
  { revert Hrun. unfold TMC_MoveToPos, uninitialised_int. msteps. rewrite Hty. cbv iota.
    unfold modify_sim, modify_tmc, modify_motors. msteps. cbv zeta. intros [= <- <-].
    split; [reflexivity|]. split; [|repeat split].
    unfold sim_at, tmc_at. proj_simpl.
    rewrite !aget_aset_eq by (rewrite ?length_aset; exact Hlen). proj_simpl.
    reflexivity. }
  destruct F as (Fe & Hsim & Fio & Fp & Fm).
  assert (Hty' : motorType_of w' board = MOTOR_SIM).
  { unfold motorType_of. rewrite Fp. exact Hty. }
  split; [exact Fe|]. split; [exact Hsim|]. split; [exact Fio|].
  split; [exact Fp|]. split; [exact Fm|].
  split; [|split].
  - intros p. unfold TMC_GetPos. msteps. rewrite Hty'. cbv iota. msteps.
    rewrite Hsim. reflexivity.
  - intros p. unfold TMC_GetEnc. msteps. rewrite Hty'. cbv iota. msteps.
    rewrite Hsim. reflexivity.
  - intros [H1 H2]. unfold clamped. cbv zeta.
    destruct (pos <? xmin s) eqn:E1; [apply Z.ltb_lt in E1; lia|].
    destruct (pos >? xmax s) eqn:E2; [apply Z.gtb_lt in E2; lia|]. reflexivity.
Qed.

End Simulated.

(** * The checksum of the remote link *)

Lemma calculateChecksum_from_range (data : string) (sum : Z) :
  0 <= sum < 256 -> 0 <= calculateChecksum_from data sum < 256.
Proof.
  revert sum. induction data as [|c data IH]; intros sum Hs; simpl; [exact Hs|].
  apply IH. unfold wrapu8, wrap_unsigned. apply Z.mod_pos_bound. reflexivity.
Qed.

Lemma calculateChecksum_range (data : string) : 0 <= RemoteComm_calculateChecksum data < 256.
Proof. apply calculateChecksum_from_range. lia. Qed.

(** A number of 8 bits printed in decimal reads back with [%hhu]. *)
Lemma print_scan_uint8 (c : Z) :
  0 <= c < 256 -> Scan.sscanf [Scan.Conv Scan.c_hhu] (cstr (print_int c)) = [c].
Proof.
  intros Hc.
  assert (H : forallb (fun n => match Scan.sscanf [Scan.Conv Scan.c_hhu]
                                        (cstr (print_int (Z.of_nat n))) with
                                | [v] => v =? Z.of_nat n
                                | _ => false
                                end) (seq 0 256) = true) by (vm_compute; reflexivity).
  rewrite forallb_forall in H.
  specialize (H (Z.to_nat c)). rewrite Z2Nat.id in H by lia.
  assert (Hin : In (Z.to_nat c) (seq 0 256)) by (apply in_seq; lia).
  specialize (H Hin).
  destruct (Scan.sscanf _ _) as [|v [|]]; try discriminate.
  apply Z.eqb_eq in H. subst v. reflexivity.
Qed.

Lemma free_of_app (c : ascii) (a b : string) :
  free_of c (a ++ b) = free_of c a && free_of c b.
Proof.
  induction a as [|x a IH]; [reflexivity|].
  rewrite append_cons. simpl. rewrite IH, andb_assoc. reflexivity.
Qed.

Section Checksum.

Context `{hdr : TMC5240_Header} `{env : Environment}.

(** X11: what [transmitRemoteCommand] sends, [validateChecksum] takes.
    For a command without a separator and without a NUL, short enough for
    the transmit buffer, the bytes written to the link are the frame
    [<command|checksum>]; the part of it up to the terminator, as the
    receiving side reads it, passes [validateChecksum], whatever the local
    variable held, and leaves the command as the text to process. *)
Theorem transmitted_frame_is_valid (w : World) (cmd : string) (held : Z) :
  free_of "|" cmd = true ->
  free_of NUL cmd = true ->
  free_of ">" cmd = true ->
  Z.of_nat (String.length cmd) + 6 <= REMOTE_MSG_MAXLENGTH ->
  let frame := "<" ++ cmd ++ "|" ++ print_int (RemoteComm_calculateChecksum cmd) in
  let '(e, w') := RemoteComm_transmitRemoteCommand cmd w in
  e = ERR_None /\
  io w' = (io w ++ [EvSerial1Write (frame ++ ">")])%list /\
  until_terminator ">" REMOTE_MSG_MAXLENGTH (frame ++ ">") = frame /\
  let r := RemoteComm_validateChecksum (frame ++ String NUL EmptyString) held in
  fst r = 0 /\ cstr (string_drop 1 (snd r)) = cmd.
Proof.
  intros Hbar Hnul Hgt Hlen frame.
  pose proof (calculateChecksum_range cmd) as Hc.
  assert (Hfit : forall s n, (String.length s <= n)%nat -> string_take n s = s).
  { induction s as [|x s IH]; intros [|n] Hn; simpl in *; try reflexivity; try lia.
    rewrite IH by lia. reflexivity. }
  assert (Hp : (String.length (print_int (RemoteComm_calculateChecksum cmd)) <= 3)%nat
               /\ free_of ">" (print_int (RemoteComm_calculateChecksum cmd)) = true).
  { assert (H : forallb (fun n => Nat.leb (String.length (print_int (Z.of_nat n))) 3
                                  && free_of ">" (print_int (Z.of_nat n)))
                  (seq 0 256) = true) by (vm_compute; reflexivity).
    rewrite forallb_forall in H.
    specialize (H (Z.to_nat (RemoteComm_calculateChecksum cmd))).
    rewrite Z2Nat.id in H by lia.
    assert (Hin : In (Z.to_nat (RemoteComm_calculateChecksum cmd)) (seq 0 256))
      by (apply in_seq; lia).
    apply H, andb_true_iff in Hin as [H1 H2]. apply Nat.leb_le in H1. split; assumption. }
  destruct Hp as [Hp Hpg].
  assert (Hflen : (String.length (frame ++ ">") <= Z.to_nat REMOTE_MSG_MAXLENGTH)%nat).
  { unfold frame. rewrite !length_app_string. simpl String.length.
    unfold REMOTE_MSG_MAXLENGTH in *. lia. }
  unfold RemoteComm_transmitRemoteCommand, RemoteComm_safeSerial1Write, modify_remote.
  cbv zeta. msteps. proj_simpl.
  split; [reflexivity|]. split; [|split].
  - f_equal. f_equal. f_equal. unfold snprintf.
    replace ("<" ++ cmd ++ "|" ++ print_int (RemoteComm_calculateChecksum cmd) ++ ">")
      with (frame ++ ">")
      by (unfold frame; rewrite !append_cons, !app_assoc_string; reflexivity).
    apply Hfit. unfold REMOTE_MSG_MAXLENGTH in *. lia.
  - unfold until_terminator. rewrite (Hfit _ _ Hflen).
    rewrite strchr_first; [reflexivity|].
    unfold frame. rewrite !free_of_app, Hgt, Hpg. reflexivity.
  - pose proof (validateChecksum_frame "<" cmd
                  (print_int (RemoteComm_calculateChecksum cmd)) held) as Hv.
    cbv zeta in Hv.
    assert (Hf : String "<" (cmd ++ "|" ++ print_int (RemoteComm_calculateChecksum cmd))
                 = frame) by reflexivity.
    rewrite Hf in Hv.
    destruct Hv as [Hv1 Hv2]; [exact Hbar|exact Hnul|].
    split; [|exact Hv2].
    rewrite Hv1. unfold checksum_read. rewrite (print_scan_uint8 _ Hc), Z.eqb_refl. reflexivity.
Qed.

End Checksum.

(** * The remote-control flags and the velocity mode *)

Section Ownership.

Context `{hdr : TMC5240_Header} `{env : Environment}.

(** The loop of [SetRemoteEnabled] over the boards [l]. *)
Lemma SetRemoteEnabled_loop (l : list Z) (state : Z) (w : World) :
  NoDup l ->
  (forall z, In z l -> 0 <= z < Z.of_nat (length (Motors.isRemoteControlled (g_motors w)))) ->
  let w' := exec (for_each l (fun z =>
                    active ← Parameters_IsActiveMotor z false;
                    if negb active then mret tt
                    else set_isRemoteControlled z state)) w in
  (forall z, In z l -> is_active w z = true -> isRemoteControlled_at w' z = state) /\
  (forall z, ~ In z l \/ is_active w z = false ->
             isRemoteControlled_at w' z = isRemoteControlled_at w z) /\
  MotionState_of w' = MotionState_of w /\ g_params w' = g_params w /\ io w' = io w /\
  length (Motors.isRemoteControlled (g_motors w'))
  = length (Motors.isRemoteControlled (g_motors w)).
Proof.
  revert w. induction l as [|x l IH]; intros w Hnd Hr; cbv zeta.
  - unfold exec. cbn [for_each]. rewrite run_ret. cbn [snd].
    split; [intros z []|]. repeat split.
  - apply NoDup_cons in Hnd as [Hx Hnd]. rewrite list_elem_of_In in Hx.
    set (body := fun z : Z =>
                   active ← Parameters_IsActiveMotor z false;
                   if negb active then mret tt else set_isRemoteControlled z state).
    assert (Hstep : exec (for_each (x :: l) body) w
                    = exec (for_each l body)
                        (if is_active w x then exec (set_isRemoteControlled x state) w else w)).
    { unfold exec, body. cbn [for_each].
      rewrite run_bind, run_bind, run_IsActiveMotor_quiet. cbv beta iota.
      destruct (is_active w x); reduce_if.
      - destruct (set_isRemoteControlled x state w) as [[] w1]. reflexivity.
      - rewrite run_ret. reflexivity. }
    rewrite Hstep. clear Hstep.
    destruct (is_active w x) eqn:Ea.
    + set (w1 := exec (set_isRemoteControlled x state) w).
      assert (Hact : forall z, is_active w1 z = is_active w z) by reflexivity.
      assert (Hr1 : forall z, In z l ->
                0 <= z < Z.of_nat (length (Motors.isRemoteControlled (g_motors w1)))).
      { intros z Hz. unfold w1, exec, set_isRemoteControlled, modify_motors, modify.
        cbn [snd]. proj_simpl. rewrite length_aset. apply Hr. right. exact Hz. }
      destruct (IH w1 Hnd Hr1) as (I1 & I2 & I3 & I4 & I5 & I6). fold body in I1, I2, I3, I4, I5, I6.
      set (w' := exec (for_each l body) w1) in *.
      assert (Hx1 : isRemoteControlled_at w1 x = state).
      { unfold w1, exec, set_isRemoteControlled, modify_motors, modify, isRemoteControlled_at.
        cbn [snd]. proj_simpl. apply aget_aset_eq, Hr. left. reflexivity. }
      assert (Hz1 : forall z, x <> z -> isRemoteControlled_at w1 z = isRemoteControlled_at w z).
      { intros z Hz.
        unfold w1, exec, set_isRemoteControlled, modify_motors, modify, isRemoteControlled_at.
        cbn [snd]. proj_simpl. apply aget_aset_ne. exact Hz. }
      split; [|split; [|split; [exact I3|split; [exact I4|split; [exact I5|]]]]].
      * intros z [<-|Hz] Hza.
        -- rewrite I2 by (left; exact Hx). exact Hx1.
        -- apply I1; [exact Hz|rewrite Hact; exact Hza].
      * intros z Hz.
        assert (Hzx : x <> z).
        { intros <-. destruct Hz as [Hz|Hz]; [apply Hz; left; reflexivity|congruence]. }
        rewrite I2; [apply Hz1, Hzx|].
        destruct Hz as [Hz|Hz]; [left; intros X; apply Hz; right; exact X|right].
        rewrite Hact. exact Hz.
      * rewrite I6. unfold w1, exec, set_isRemoteControlled, modify_motors, modify.
        cbn [snd]. proj_simpl. apply length_aset.
    + assert (Hr1 : forall z, In z l ->
                0 <= z < Z.of_nat (length (Motors.isRemoteControlled (g_motors w)))).
      { intros z Hz. apply Hr. right. exact Hz. }
      destruct (IH w Hnd Hr1) as (I1 & I2 & I3 & I4 & I5 & I6). fold body in I1, I2, I3, I4, I5, I6.
      set (w' := exec (for_each l body) w) in *.
      split; [|split; [|split; [exact I3|split; [exact I4|split; [exact I5|exact I6]]]]].
      * intros z [<-|Hz] Hza; [congruence|apply I1; assumption].
      * intros z Hz. apply I2.
        destruct Hz as [Hz|Hz]; [left; intros X; apply Hz; right; exact X|right; exact Hz].
Qed.

(** X12: handing all boards to the remote, or taking them back, at
    once. With board -1 [SetRemoteEnabled] writes the state to the
    remote-control flag of every active board and to no other, always
    succeeds, and touches neither the motion state nor the parameters nor
    the trace. *)
Theorem SetRemoteEnabled_broadcast (w : World) (state : Z) :
  wf_World w ->
  let '(e, w') := Motors_SetRemoteEnabled (-1) state w in
  e = ERR_None /\
  (forall z, is_active w z = true -> isRemoteControlled_at w' z = state) /\
  (forall z, is_active w z = false -> isRemoteControlled_at w' z = isRemoteControlled_at w z) /\
  MotionState_of w' = MotionState_of w /\ g_params w' = g_params w /\ io w' = io w.
Proof.
  intros Hwf. unfold Motors_SetRemoteEnabled.
  change (-1 =? -1) with true. cbv iota. rewrite run_bind.
  pose proof (wf_isRemoteControlled _ Hwf) as L. unfold has_len in L.
  assert (Hnd : NoDup (upto MAXNUMMOTORS)) by (apply (bool_decide_unpack _); vm_compute; exact I).
  assert (Hr : forall z, In z (upto MAXNUMMOTORS) ->
             0 <= z < Z.of_nat (length (Motors.isRemoteControlled (g_motors w)))).
  { intros z Hz. rewrite L. simpl in Hz. unfold MAXNUMMOTORS. intuition lia. }
  destruct (SetRemoteEnabled_loop (upto MAXNUMMOTORS) state w Hnd Hr)
    as (I1 & I2 & I3 & I4 & I5 & _).
  unfold exec in *. destruct (for_each _ _ w) as [[] w'] eqn:Ef. cbn [snd] in *.
  rewrite run_ret.
  split; [reflexivity|]. split; [|split; [|split; [exact I3|split; [exact I4|exact I5]]]].
  - intros z Hz. apply I1; [|exact Hz].
    apply is_active_range in Hz. unfold MAXNUMMOTORS in Hz. simpl.
    assert (z = 0 \/ z = 1 \/ z = 2 \/ z = 3) by lia. intuition.
  - intros z Hz. apply I2. right. exact Hz.
Qed.


End Ownership.

(** * Disabling a motor *)

Section Disable.

Context `{hdr : TMC5240_Header} `{env : Environment}.

(** X14: disabling a Real axis stops it, switches it off and ends a
    homing run. [SetEnable] with mode 0 writes the velocity mode, a
    velocity limit of 0 and a chopper off-time of 0 to the driver, in this
    order; if the axis was homing it then restores the virtual limits from
    the parameters LLEN and LREN and clears the latches. The call succeeds,
    the axis is left neither enabled nor homing, the flags of the other
    axes stay, and nothing of the bookkeeping of the orchestrator is
    touched. *)
Theorem disable_stops_and_cancels_homing (w : World) (board : Z) :
  wf_World w ->
  0 <= board < MAXNUMMOTORS ->
  motorType_of w board = MOTOR_TMC ->
  let '(e, w') := TMC_SetEnable board 0 w in
  e = ERR_None /\
  isMotorEnabled_at w' board = 0 /\ isMotorHoming_at w' board = 0 /\
  io w'
  = (io w ++ stop_writes board ++
     (if isMotorHoming_at w board =? 0 then []
      else cancel_writes board (motorParam w board LLEN_index) (motorParam w board LREN_index)))%list /\
  (forall z, z <> board ->
     isMotorEnabled_at w' z = isMotorEnabled_at w z /\
     isMotorHoming_at w' z = isMotorHoming_at w z) /\
  driver_frame w w'.
Proof.
  intros Hwf Hb Hty.
  pose proof (TMC_SetEnable_driver board 0 w) as Hd.
  assert (He : 0 <= board < Z.of_nat (length (Motors.isMotorEnabled (g_motors w)))).
  { pose proof (wf_isMotorEnabled _ Hwf) as L. unfold has_len in L. rewrite L. exact Hb. }
  assert (Hh : 0 <= board < Z.of_nat (length (Motors.isMotorHoming (g_motors w)))).
  { pose proof (wf_isMotorHoming _ Hwf) as L. unfold has_len in L. rewrite L. exact Hb. }
  revert Hd. unfold TMC_SetEnable. rewrite run_bind, run_gets. cbv beta iota. rewrite Hty.
  cbv beta iota. cbn [negb Z.eqb].
  unfold tmc5240_fieldWrite, tmc5240_writeRegister, set_isMotorEnabled, modify_motors.
  msteps. unfold isMotorHoming_at, isMotorEnabled_at. proj_simpl.
  destruct (aget 0 (Motors.isMotorHoming (g_motors w)) board =? 0) eqn:Hhom.
  - cbn [negb]. rewrite run_ret. cbn [snd]. intros Hd. proj_simpl.
    rewrite aget_aset_eq by exact He.
    apply Z.eqb_eq in Hhom.
    repeat apply conj; try assumption; try reflexivity.
    + rewrite <- !app_assoc. reflexivity.
    + intros z Hz. split; [apply aget_aset_ne; congruence|reflexivity].
  - cbn [negb]. unfold TMC_CancelHoming, uninitialised_int. rewrite run_bind, run_gets.
    cbv beta iota. unfold isMotorHoming_at. proj_simpl. rewrite Hhom. msteps.
    rewrite (run_FindParamIndexVal board "LLEN" 30) by reflexivity. cbv beta iota.
    unfold tmc5240_fieldWrite. msteps.
    rewrite (run_FindParamIndexVal board "LREN" 31) by reflexivity. cbv beta iota.
    unfold set_isMotorHoming, modify_motors. msteps.
    cbn [snd]. intros Hd.
    unfold motorParam. proj_simpl.
    rewrite !aget_aset_eq by (first [exact He|exact Hh]).
    repeat apply conj; try assumption; try reflexivity.
    + rewrite <- !app_assoc. reflexivity.
    + intros z Hz. split; apply aget_aset_ne; congruence.
Qed.

End Disable.

(** * The query for the end of a motion *)

Section MotionDone.

Context `{hdr : TMC5240_Header} `{env : Environment}.

Lemma run_IsActiveMotor_active (board : Z) (raise : bool) (w : World) :
  is_active w board = true -> Parameters_IsActiveMotor board raise w = (true, w).
Proof.
  intros Ha. destruct (run_IsActiveMotor board raise w) as (w1 & -> & _ & Hw).
  rewrite (Hw Ha), Ha. reflexivity.
Qed.

Lemma run_IsActiveMotor_inactive (board : Z) (w : World) :
  is_active w board = false ->
  Parameters_IsActiveMotor board true w
  = (false, with_parameter_error "Inactive board number" w).
Proof.
  intros Ha. unfold Parameters_IsActiveMotor. rewrite run_bind, run_gets. cbv beta iota.
  unfold is_active in Ha. apply negb_false_iff in Ha. rewrite Ha.
  rewrite run_bind, run_Parameters_SetErrorMsg. reflexivity.
Qed.

(** The loop of [IsMotionDone] over the boards [l] returns at the first
    active board in motion. *)
Lemma IsMotionDone_loop (l : list Z) (w : World) :
  for_return l (fun z =>
    active ← Parameters_IsActiveMotor z false;
    if negb active then mret None
    else
      moving ← gets (fun w => isMotorMoving_at w z);
      searching ← gets (fun w => isMotorSearching_at w z);
      if negb (moving =? 0) || negb (searching =? 0) then mret (Some 0)
      else mret None) w
  = (if existsb (fun z => is_active w z && in_motion w z) l then Some 0 else None, w).
Proof.
  induction l as [|z l IH]; [reflexivity|].
  cbn [for_return existsb]. rewrite run_bind, run_bind, run_IsActiveMotor_quiet.
  cbv beta iota. unfold in_motion at 1.
  destruct (is_active w z); cbn [negb andb orb].
  - msteps. destruct (negb (isMotorMoving_at w z =? 0) || negb (isMotorSearching_at w z =? 0)).
    + rewrite run_ret. cbv beta iota. reflexivity.
    + rewrite run_ret. cbv beta iota. exact IH.
  - rewrite run_ret. cbv beta iota. exact IH.
Qed.

Lemma in_upto (n z : Z) : In z (upto n) <-> 0 <= z < n.
Proof.
  unfold upto. rewrite in_map_iff. split.
  - intros (k & <- & Hk). apply in_seq in Hk. lia.
  - intros Hz. exists (Z.to_nat z). split; [lia|]. apply in_seq. lia.
Qed.

(** X15: the query for the end of a motion reads the flags and changes
    nothing. For all boards at once (board -1) the answer is 1 exactly when
    no active board is moving or searching, and 0 otherwise; for one active
    board it is 1 exactly when that board is neither moving nor searching.
    A board that is not active is answered with the error of the motor
    layer, the answer 1, and the message [Inactive board number] in the
    parameter store. *)
Theorem IsMotionDone_reads_the_flags (w : World) (board : Z) :
  (let '(e, done, w') := Motors_IsMotionDone (-1) w in
   e = ERR_None /\ w' = w /\ (done = 0 \/ done = 1) /\
   (done = 1 <->
    forall z, is_active w z = true -> isMotorMoving_at w z = 0 /\ isMotorSearching_at w z = 0)) /\
  (is_active w board = true ->
   Motors_IsMotionDone board w = ((ERR_None, if in_motion w board then 0 else 1), w) /\
   (in_motion w board = false <->
    isMotorMoving_at w board = 0 /\ isMotorSearching_at w board = 0)) /\
  (board <> -1 -> is_active w board = false ->
   Motors_IsMotionDone board w
   = ((ERR_Motor, 1), with_parameter_error "Inactive board number" w)).
Proof.
  assert (Hm : forall z, in_motion w z = false <->
                         isMotorMoving_at w z = 0 /\ isMotorSearching_at w z = 0).
  { intros z. unfold in_motion. rewrite orb_false_iff, !negb_false_iff, !Z.eqb_eq. tauto. }
  split; [|split].
  - unfold Motors_IsMotionDone. cbn [Z.eqb Pos.eqb]. rewrite run_bind, IsMotionDone_loop.
    cbv beta iota.
    destruct (existsb _ _) eqn:E; rewrite run_ret.
    + split; [reflexivity|]. split; [reflexivity|]. split; [left; reflexivity|].
      split; [discriminate|]. intros H. exfalso.
      apply existsb_exists in E as (z & _ & Hz). apply andb_true_iff in Hz as [Ha Hz].
      apply (H z) in Ha. apply Hm in Ha. congruence.
    + split; [reflexivity|]. split; [reflexivity|]. split; [right; reflexivity|].
      split; [|reflexivity]. intros _ z Ha. apply Hm.
      destruct (in_motion w z) eqn:Hz; [|reflexivity]. exfalso.
      assert (Hx : existsb (fun z => is_active w z && in_motion w z) (upto MAXNUMMOTORS) = true).
      { apply existsb_exists. exists z. split.
        - apply in_upto. exact (is_active_range _ _ Ha).
        - rewrite Ha, Hz. reflexivity. }
      congruence.
  - intros Ha. split; [|apply Hm].
    assert (Hb : (board =? -1) = false).
    { apply Z.eqb_neq. pose proof (is_active_range _ _ Ha). lia. }
    unfold Motors_IsMotionDone. rewrite Hb. rewrite run_bind.
    rewrite (run_IsActiveMotor_active _ _ _ Ha).
    cbv beta iota. cbn [negb]. msteps. reflexivity.
  - intros Hb Ha. apply Z.eqb_neq in Hb.
    unfold Motors_IsMotionDone. rewrite Hb. rewrite run_bind.
    rewrite (run_IsActiveMotor_inactive _ _ Ha). reflexivity.
Qed.

End MotionDone.

(** * The intervals of the three polls *)

Lemma elapsed_wraps (last d : Z) :
  0 <= last < 2 ^ 32 -> 0 <= d < 2 ^ 32 -> wrapu32 (wrapu32 (last + d) - last) = d.
Proof.
  intros Hl Hd. unfold wrapu32, wrap_unsigned.
  rewrite Zminus_mod_idemp_l. replace (last + d - last) with d by lia.
  apply Z.mod_small. exact Hd.
Qed.

Section Intervals.

Context `{hdr : TMC5240_Header} `{env : Environment}.

(** X16: the three polls of the main loop wait for their interval, and
    the wrap of the millisecond counter does not disturb them. With the
    clock [d] milliseconds after the last check, counted modulo 2^32, a
    poll whose interval is not exceeded reads the clock and does nothing
    else: no byte is read from a link and no driver is accessed
    ([ProcessUpdateChanges] has two intervals, each counted from its own
    last check). The polls of the two links, once their interval is
    exceeded and their link is empty, look at the link and take the time as
    that of the last check. *)
Theorem polls_wait_for_their_interval (w : World) (last d : Z) :
  clock_reads w last d ->
  let t := wrapu32 (env_millis (io w)) in
  let w1 := after_millis w in
  (SerialComm.lastCheckTime (g_serComm w) = last ->
   (d <= SERIAL_CHECK_INTERVAL_MS -> SerialComm_CheckSerialCommand w = (tt, w1)) /\
   (d > SERIAL_CHECK_INTERVAL_MS -> env_Serial_available (io w1) <= 0 ->
    SerialComm_CheckSerialCommand w
    = (tt, exec (modify_serial (SerialComm.set_lastCheckTime t))
             (set_io (io w1 ++ [EvSerialAvailable (env_Serial_available (io w1))]) w1)))) /\
  (RemoteComm.lastReceiveTime (g_remComm w) = last ->
   (d <= REMOTE_RECEIVE_INTERVAL_MS -> RemoteComm_CheckRemoteCommands w = (tt, w1)) /\
   (d > REMOTE_RECEIVE_INTERVAL_MS -> env_Serial1_available (io w1) <= 0 ->
    RemoteComm_CheckRemoteCommands w
    = (tt, exec (modify_remote (RemoteComm.set_lastReceiveTime t))
             (set_io (io w1 ++ [EvSerial1Available (env_Serial1_available (io w1))]) w1)))) /\
  (Motors.lastErrorCheckTime (g_motors w) = last ->
   d <= MOTORS_CHECK_ERROR_INTERVAL_MS ->
   forall last' d',
     clock_reads w last' d' ->
     Motors.lastStatusCheckTime (g_motors w) = last' ->
     d' <= MOTORS_CHECK_STATUS_INTERVAL_MS ->
     Motors_ProcessUpdateChanges w = (tt, w1)).
Proof.
  intros (Hl & Hd & Ht). cbv zeta.
  assert (He : wrapu32 (wrapu32 (env_millis (io w)) - last) = d).
  { rewrite Ht. apply elapsed_wraps; assumption. }
  split; [|split].
  - intros Hlast. unfold SerialComm_CheckSerialCommand, millis.
    rewrite run_bind. cbv beta iota. rewrite run_bind, run_gets. cbv beta iota.
    fold (after_millis w). change (g_serComm (after_millis w)) with (g_serComm w).
    rewrite Hlast, He. split.
    + intros Hle.
      replace (d >? SERIAL_CHECK_INTERVAL_MS) with false
        by (symmetry; rewrite Z.gtb_ltb; apply Z.ltb_ge; exact Hle).
      reflexivity.
    + intros Hgt Hav.
      replace (d >? SERIAL_CHECK_INTERVAL_MS) with true
        by (symmetry; rewrite Z.gtb_ltb; apply Z.ltb_lt; lia).
      rewrite run_bind. unfold Serial_available at 1. cbv beta iota.
      rewrite run_bind.
      replace (env_Serial_available (io (after_millis w)) >? 0) with false
        by (symmetry; rewrite Z.gtb_ltb; apply Z.ltb_ge; exact Hav).
      rewrite run_ret. cbv beta iota. reflexivity.
  - intros Hlast. unfold RemoteComm_CheckRemoteCommands, millis.
    rewrite run_bind. cbv beta iota. rewrite run_bind, run_gets. cbv beta iota.
    fold (after_millis w). change (g_remComm (after_millis w)) with (g_remComm w).
    rewrite Hlast, He. split.
    + intros Hle.
      replace (d >? REMOTE_RECEIVE_INTERVAL_MS) with false
        by (symmetry; rewrite Z.gtb_ltb; apply Z.ltb_ge; exact Hle).
      reflexivity.
    + intros Hgt Hav.
      replace (d >? REMOTE_RECEIVE_INTERVAL_MS) with true
        by (symmetry; rewrite Z.gtb_ltb; apply Z.ltb_lt; lia).
      rewrite run_bind. unfold Serial1_available at 1. cbv beta iota.
      replace (env_Serial1_available (io (after_millis w)) >? 0) with false
        by (symmetry; rewrite Z.gtb_ltb; apply Z.ltb_ge; exact Hav).
      reflexivity.
  - intros Hle Hdue last' d' (Hl' & Hd' & Ht') Hls Hdue'.
    assert (He' : wrapu32 (wrapu32 (env_millis (io w)) - last') = d').
    { rewrite Ht'. apply elapsed_wraps; assumption. }
    unfold Motors_ProcessUpdateChanges, uninitialised_int, millis.
    msteps. fold (after_millis w).
    change (g_motors (after_millis w)) with (g_motors w).
    rewrite Hle, He.
    replace (d >? MOTORS_CHECK_ERROR_INTERVAL_MS) with false
      by (symmetry; rewrite Z.gtb_ltb; apply Z.ltb_ge; exact Hdue).
    cbv beta iota. msteps. change (g_motors (after_millis w)) with (g_motors w).
    rewrite Hls, He'.
    replace (d' >? MOTORS_CHECK_STATUS_INTERVAL_MS) with false
      by (symmetry; rewrite Z.gtb_ltb; apply Z.ltb_ge; exact Hdue').
    reflexivity.
Qed.

End Intervals.

(** * The commands of the remote *)

Section RemoteCommands.

Context `{hdr : TMC5240_Header} `{env : Environment}.

(** X17: the remote moves only what it has been given. A [POS] or [VEL]
    command of the remote for an active board that is not under remote
    control is dropped without a trace: no state changes, no error is
    recorded and the driver is not accessed. For a board that is not
    active the only effect is the message [Inactive board number] in the
    parameter store. *)
Theorem remote_moves_need_control (w : World) (name rest : string) (board v : Z) :
  name = "POS" \/ name = "VEL" ->
  remote_args rest = [board; v] ->
  (is_active w board = true -> isRemoteControlled_at w board = 0 ->
   RemoteComm_processRemoteCommand (name ++ rest) w = (tt, w)) /\
  (is_active w board = false ->
   RemoteComm_processRemoteCommand (name ++ rest) w
   = (tt, with_parameter_error "Inactive board number" w)).
Proof.
  intros Hn Hargs. unfold RemoteComm_processRemoteCommand.
  destruct Hn as [-> | ->].
  - change (has_prefix "POS" ("POS" ++ rest)) with true. cbv iota.
    change (Scan.sscanf [Scan.Lit "POS"; Scan.Conv Scan.c_hhi; Scan.Lit "="; Scan.Conv Scan.c_d]
              ("POS" ++ rest)) with (remote_args rest).
    rewrite Hargs. split.
    + intros Ha Hr. rewrite run_bind, (run_IsActiveMotor_active _ _ _ Ha). cbv beta iota.
      rewrite run_bind, run_gets. cbv beta iota. rewrite Hr. reflexivity.
    + intros Ha. rewrite run_bind, (run_IsActiveMotor_inactive _ _ Ha). reflexivity.
  - change (has_prefix "POS" ("VEL" ++ rest)) with false. cbv iota.
    change (has_prefix "VEL" ("VEL" ++ rest)) with true. cbv iota.
    change (Scan.sscanf [Scan.Lit "VEL"; Scan.Conv Scan.c_hhi; Scan.Lit "="; Scan.Conv Scan.c_d]
              ("VEL" ++ rest)) with (remote_args rest).
    rewrite Hargs. split.
    + intros Ha Hr. rewrite run_bind, (run_IsActiveMotor_active _ _ _ Ha). cbv beta iota.
      rewrite run_bind, run_gets. cbv beta iota. rewrite Hr. reflexivity.
    + intros Ha. rewrite run_bind, (run_IsActiveMotor_inactive _ _ Ha). reflexivity.
Qed.

End RemoteCommands.

(** * The report of the errors *)

Section Report.

Context `{hdr : TMC5240_Header} `{env : Environment}.

Lemma report_frame_refl (w : World) : report_frame w w.
Proof. constructor; auto. Qed.

Lemma report_frame_trans (w w1 w2 : World) :
  report_frame w w1 -> report_frame w1 w2 -> report_frame w w2.
Proof.
  intros [s1 p1 m1 r1 a1 b1 c1 d1] [s2 p2 m2 r2 a2 b2 c2 d2].
  constructor; try congruence.
  - destruct s2 as [? | ->]; [left; assumption|exact s1].
  - destruct p2 as [? | ->]; [left; assumption|exact p1].
  - destruct m2 as [? | ->]; [left; assumption|exact m1].
  - destruct r2 as [? | ->]; [left; assumption|exact r1].
Qed.

(** The separator between two parts of the report. *)
Lemma run_separator (firstError : bool) (w : World) :
  exists tr, (if negb firstError then Serial_print "; " else mret tt) w = (tt, set_io tr w).
Proof.
  destruct firstError; cbn [negb].
  - exists (io w). rewrite run_ret. destruct w; reflexivity.
  - eexists. reflexivity.
Qed.

Lemma run_SerialComm_PrintErrorMsg (w : World) :
  SerialComm.errorFlag (g_serComm w) <> 0 ->
  SerialComm_PrintErrorMsg w
  = (1, set_g_serComm (SerialComm.set_errorFlag 0 (g_serComm w))
          (set_io (io w ++ [EvSerialPrint (SerialComm.errorMsg (g_serComm w))]) w)).
Proof.
  intros H. apply Z.eqb_neq in H. unfold SerialComm_PrintErrorMsg, Serial_print, modify_serial.
  msteps. rewrite H. reduce_if. msteps. reflexivity.
Qed.

Lemma run_Parameters_PrintErrorMsg (w : World) :
  Parameters.errorFlag (g_params w) <> 0 ->
  Parameters_PrintErrorMsg w
  = (1, set_g_params (Parameters.set_errorFlag 0 (g_params w))
          (set_io (io w ++ [EvSerialPrint (Parameters.errorMsg (g_params w))]) w)).
Proof.
  intros H. apply Z.eqb_neq in H. unfold Parameters_PrintErrorMsg, Serial_print, modify_params.
  msteps. rewrite H. reduce_if. msteps. reflexivity.
Qed.

Lemma run_RemoteComm_PrintErrorMsg (w : World) :
  RemoteComm.errorFlag (g_remComm w) <> 0 ->
  RemoteComm_PrintErrorMsg w
  = (1, set_g_remComm (RemoteComm.set_errorFlag 0 (g_remComm w))
          (set_io (io w ++ [EvSerialPrint (RemoteComm.errorMsg (g_remComm w))]) w)).
Proof.
  intros H. apply Z.eqb_neq in H. unfold RemoteComm_PrintErrorMsg, Serial_print, modify_remote.
  msteps. rewrite H. reduce_if. msteps. reflexivity.
Qed.

(** The four parts of the report: each clears the flag of its module and
    raises none. *)
Lemma stage_serial (w : World) :
  exists fe w',
    (if negb (SerialComm.errorFlag (g_serComm w) =? 0) then
       Serial_print "Serial: ";; SerialComm_PrintErrorMsg;; mret false
     else mret true) w = (fe, w') /\
    report_frame w w' /\ SerialComm.errorFlag (g_serComm w') = 0.
Proof.
  destruct (SerialComm.errorFlag (g_serComm w) =? 0) eqn:E; cbn [negb].
  - apply Z.eqb_eq in E. exists true, w. split; [reflexivity|].
    split; [apply report_frame_refl|exact E].
  - apply Z.eqb_neq in E. rewrite run_bind, run_Serial_print. cbv beta iota.
    rewrite run_bind, run_SerialComm_PrintErrorMsg by exact E. cbv beta iota.
    rewrite run_ret. eexists _, _. split; [reflexivity|]. split; [|reflexivity].
    constructor; auto.
Qed.

Lemma stage_params (firstError : bool) (w : World) :
  exists fe w',
    (if negb (Parameters.errorFlag (g_params w) =? 0) then
       (if negb firstError then Serial_print "; " else mret tt);;
       Serial_print "Params: ";; Parameters_PrintErrorMsg;; mret false
     else mret firstError) w = (fe, w') /\
    report_frame w w' /\ Parameters.errorFlag (g_params w') = 0.
Proof.
  destruct (Parameters.errorFlag (g_params w) =? 0) eqn:E; cbn [negb].
  - apply Z.eqb_eq in E. exists firstError, w. split; [reflexivity|].
    split; [apply report_frame_refl|exact E].
  - apply Z.eqb_neq in E. rewrite run_bind.
    destruct (run_separator firstError w) as (tr & ->). cbv beta iota.
    rewrite run_bind, run_Serial_print. cbv beta iota.
    rewrite run_bind, run_Parameters_PrintErrorMsg by exact E. cbv beta iota.
    rewrite run_ret. eexists _, _. split; [reflexivity|]. split; [|reflexivity].
    constructor; auto.
Qed.

Lemma stage_motors (firstError : bool) (w : World) :
  exists fe w',
    (if negb (Motors.errorFlag (g_motors w) =? 0) then
       (if negb firstError then Serial_print "; " else mret tt);;
       Serial_print "Motors: ";; Motors_PrintErrorMsg;; mret false
     else mret firstError) w = (fe, w') /\
    report_frame w w' /\ Motors.errorFlag (g_motors w') = 0.
Proof.
  destruct (Motors.errorFlag (g_motors w) =? 0) eqn:E; cbn [negb].
  - apply Z.eqb_eq in E. exists firstError, w. split; [reflexivity|].
    split; [apply report_frame_refl|exact E].
  - apply Z.eqb_neq in E. rewrite run_bind.
    destruct (run_separator firstError w) as (tr & ->). cbv beta iota.
    rewrite run_bind, run_Serial_print. cbv beta iota. rewrite run_bind.
    match goal with |- context [Motors_PrintErrorMsg ?W] =>
      destruct (run_Motors_PrintErrorMsg W E) as (g1 & flags & tr' & -> & _ & _) end.
    cbv beta iota. rewrite run_ret. eexists _, _. split; [reflexivity|].
    split; [|reflexivity]. constructor; auto.
Qed.

Lemma stage_remote (firstError : bool) (w : World) :
  exists w',
    (if negb (RemoteComm.errorFlag (g_remComm w) =? 0) then
       (if negb firstError then Serial_print "; " else mret tt);;
       Serial_print "Remote: ";; RemoteComm_PrintErrorMsg;; mret tt
     else mret tt) w = (tt, w') /\
    report_frame w w' /\ RemoteComm.errorFlag (g_remComm w') = 0.
Proof.
  destruct (RemoteComm.errorFlag (g_remComm w) =? 0) eqn:E; cbn [negb].
  - apply Z.eqb_eq in E. exists w. split; [reflexivity|].
    split; [apply report_frame_refl|exact E].
  - apply Z.eqb_neq in E. rewrite run_bind.
    destruct (run_separator firstError w) as (tr & ->). cbv beta iota.
    rewrite run_bind, run_Serial_print. cbv beta iota.
    rewrite run_bind, run_RemoteComm_PrintErrorMsg by exact E. cbv beta iota.
    rewrite run_ret. eexists. split; [reflexivity|]. split; [|reflexivity].
    constructor; auto.
Qed.

(** With no error waiting the report is [PC_EMSG=No error]. *)
Lemma report_without_errors (w : World) :
  error_flags w = (0, 0, 0, 0) ->
  SerialComm_ReportErrorMsg w = (tt, set_io (io w ++ no_error_report) w).
Proof.
  unfold error_flags. intros [= Hs Hp Hm Hr].
  unfold SerialComm_ReportErrorMsg, Serial_print, Serial_println. msteps. proj_simpl.
  rewrite Hs, Hp, Hm, Hr. change (0 =? 0) with true. reduce_if. msteps. proj_simpl.
  unfold no_error_report. rewrite <- app_assoc. reflexivity.
Qed.

Lemma report_with_errors (w : World) :
  error_flags w <> (0, 0, 0, 0) ->
  let w' := exec SerialComm_ReportErrorMsg w in
  report_frame w w' /\ error_flags w' = (0, 0, 0, 0).
Proof.
  intros Hne. cbv zeta. unfold exec, SerialComm_ReportErrorMsg.
  rewrite run_bind, run_Serial_print. cbv beta iota. msteps. proj_simpl.
  assert (Hany : negb (SerialComm.errorFlag (g_serComm w) =? 0)
                 || negb (Parameters.errorFlag (g_params w) =? 0)
                 || negb (Motors.errorFlag (g_motors w) =? 0)
                 || negb (RemoteComm.errorFlag (g_remComm w) =? 0) = true).
  { destruct (SerialComm.errorFlag (g_serComm w) =? 0) eqn:Es; [|reflexivity].
    destruct (Parameters.errorFlag (g_params w) =? 0) eqn:Ep; [|reflexivity].
    destruct (Motors.errorFlag (g_motors w) =? 0) eqn:Em; [|reflexivity].
    destruct (RemoteComm.errorFlag (g_remComm w) =? 0) eqn:Er; [|reflexivity].
    exfalso. apply Hne. unfold error_flags.
    apply Z.eqb_eq in Es, Ep, Em, Er. congruence. }
  rewrite Hany. cbv iota.
  set (w0 := set_io (io w ++ [EvSerialPrint "PC_EMSG="]) w).
  assert (H0 : report_frame w w0) by (constructor; auto).
  change (SerialComm.errorFlag (g_serComm w)) with (SerialComm.errorFlag (g_serComm w0)).
  rewrite run_bind.
  destruct (stage_serial w0) as (fe1 & w1 & -> & H1 & Z1). cbv beta iota.
  rewrite run_bind, run_gets. cbv beta iota. rewrite run_bind.
  destruct (stage_params fe1 w1) as (fe2 & w2 & -> & H2 & Z2). cbv beta iota.
  rewrite run_bind, run_gets. cbv beta iota. rewrite run_bind.
  destruct (stage_motors fe2 w2) as (fe3 & w3 & -> & H3 & Z3). cbv beta iota.
  rewrite run_bind, run_gets. cbv beta iota. rewrite run_bind.
  destruct (stage_remote fe3 w3) as (w4 & -> & H4 & Z4). cbv beta iota.
  unfold Serial_println. rewrite run_emit. cbn [snd].
  split.
  - apply (report_frame_trans _ _ _ H0). apply (report_frame_trans _ _ _ H1).
    apply (report_frame_trans _ _ _ H2). apply (report_frame_trans _ _ _ H3).
    apply (report_frame_trans _ _ _ H4). constructor; auto.
  - unfold error_flags. proj_simpl.
    destruct (rf_serial _ _ H4) as [S4|S4]; destruct (rf_serial _ _ H3) as [S3|S3];
      destruct (rf_serial _ _ H2) as [S2|S2];
      destruct (rf_params _ _ H4) as [P4|P4]; destruct (rf_params _ _ H3) as [P3|P3];
      destruct (rf_motors _ _ H4) as [M4|M4];
      congruence.
Qed.

(** X18: the report of the errors empties all four records. After
    [ReportErrorMsg] the summary flags of the serial link, the parameter
    store, the motors and the remote link are all down, so that a second
    report is the line [PC_EMSG=No error]; with no error waiting that line
    is all the first report does. The report touches neither the motion
    state nor the parameters nor the driver objects. *)
Theorem ReportErrorMsg_clears_all (w : World) :
  let w' := exec SerialComm_ReportErrorMsg w in
  error_flags w' = (0, 0, 0, 0) /\
  SerialComm_ReportErrorMsg w' = (tt, set_io (io w' ++ no_error_report) w') /\
  (error_flags w = (0, 0, 0, 0) -> w' = set_io (io w ++ no_error_report) w) /\
  MotionState_of w' = MotionState_of w /\
  Parameters_core (g_params w') = Parameters_core (g_params w) /\
  Motors.tmcArr (g_motors w') = Motors.tmcArr (g_motors w) /\
  Motors.isRemoteControlled (g_motors w') = Motors.isRemoteControlled (g_motors w).
Proof.
  cbv zeta.
  assert (Hd : {error_flags w = (0, 0, 0, 0)} + {error_flags w <> (0, 0, 0, 0)}).
  { unfold error_flags. repeat decide equality. }
  assert (H : report_frame w (exec SerialComm_ReportErrorMsg w) /\
              error_flags (exec SerialComm_ReportErrorMsg w) = (0, 0, 0, 0)).
  { destruct Hd as [H0|Hne]; [|exact (report_with_errors w Hne)].
    unfold exec. rewrite (report_without_errors w H0). cbn [snd]. split.
    - constructor; auto.
    - exact H0. }
  destruct H as ([_ _ _ _ Hm Hc Ht Hr] & Hf).
  split; [exact Hf|]. split; [apply report_without_errors, Hf|].
  split; [|repeat split; assumption].
  intros H0. unfold exec. rewrite (report_without_errors w H0). reflexivity.
Qed.

End Report.

(** * The commands to the remote *)

Section ToRemote.

Context `{hdr : TMC5240_Header} `{env : Environment}.

Lemma run_RemoteComm_IsValueInRange (value : Z) (name : string) (min max : Z) (w : World) :
  exists w1,
    RemoteComm_IsValueInRange value name min max w = ((min <=? value) && (value <=? max), w1) /\
    ((min <=? value) && (value <=? max) = true -> w1 = w) /\
    ((min <=? value) && (value <=? max) = false ->
       RemoteComm.errorFlag (g_remComm w1) <> 0) /\
    g_params w1 = g_params w /\ g_motors w1 = g_motors w /\ g_serComm w1 = g_serComm w /\
    io w1 = io w.
Proof.
  unfold RemoteComm_IsValueInRange. rewrite !Z.geb_leb.
  destruct ((min <=? value) && (value <=? max)).
  - exists w. rewrite run_ret. repeat split; discriminate.
  - unfold RemoteComm_SetErrorMsg, modify_remote. msteps.
    eexists. split; [reflexivity|]. split; [discriminate|]. split; [|repeat split].
    intros _. proj_simpl.
    destruct (RemoteComm.errorFlag (g_remComm w) =? 0) eqn:E; cbn [negb]; proj_simpl.
    + discriminate.
    + apply Z.eqb_neq. exact E.
Qed.

(** X19: a command to the remote other than the enable leaves the
    controller only if it is in order. With a channel from 0 to 3 and a
    value that passes the check of its kind, [SendRemoteCommand] transmits
    the one frame [<cmd><channel>=<value>] and succeeds; otherwise it
    returns the error of the remote layer, raises the error flag of the
    remote link, and sends nothing: the trace, the parameters and the
    motors are untouched. *)
Theorem SendRemoteCommand_sends_what_is_in_order
  (w : World) (cmd : string) (channel value : Z) :
  strncmp_eq 4 cmd "ENAB" = false ->
  let ok := (0 <=? channel) && (channel <=? MAXNUMMOTORS - 1)
            && remote_value_ok w cmd channel value in
  let '(e, w') := RemoteComm_SendRemoteCommand cmd channel value w in
  (ok = true ->
   e = ERR_None /\
   w' = exec (RemoteComm_transmitRemoteCommand (remote_text cmd channel value)) w) /\
  (ok = false ->
   e = ERR_Remote /\ RemoteComm.errorFlag (g_remComm w') <> 0 /\
   io w' = io w /\ g_params w' = g_params w /\ g_motors w' = g_motors w /\
   g_serComm w' = g_serComm w).
Proof.
  intros Hne. cbv zeta. unfold RemoteComm_SendRemoteCommand, uninitialised_int.
  rewrite run_bind, run_gets. cbv beta iota zeta. rewrite Hne. cbv iota.
  rewrite run_bind.
  destruct (run_RemoteComm_IsValueInRange channel "channel" 0 (MAXNUMMOTORS - 1) w)
    as (w1 & -> & Hok1 & Hbad1 & Hp1 & Hm1 & Hs1 & Hio1).
  cbv beta iota.
  destruct ((0 <=? channel) && (channel <=? MAXNUMMOTORS - 1)) eqn:Ech; cbn [negb andb].
  2:{ rewrite run_ret. split; [discriminate|]. intros _.
      split; [reflexivity|]. split; [apply Hbad1; reflexivity|]. auto. }
  rewrite (Hok1 eq_refl). clear w1 Hok1 Hbad1 Hp1 Hm1 Hs1 Hio1.
  rewrite run_bind. unfold remote_value_ok.
  destruct (strncmp_eq 4 cmd "JDIR") eqn:Ej; cbn [orb].
  { destruct (run_RemoteComm_IsValueInRange (abs32 value) cmd 1 1 w)
      as (w1 & -> & Hok1 & Hbad1 & Hp1 & Hm1 & Hs1 & Hio1).
    cbv beta iota.
    assert (Hv : (1 <=? abs32 value) && (abs32 value <=? 1) = (abs32 value =? 1)).
    { destruct (abs32 value =? 1) eqn:E.
      - apply Z.eqb_eq in E. rewrite E. reflexivity.
      - apply Z.eqb_neq in E. apply andb_false_iff.
        destruct (Z.leb_spec 1 (abs32 value)); [right; apply Z.leb_gt; lia|left; reflexivity]. }
    rewrite Hv in *. destruct (abs32 value =? 1); cbn [negb].
    - rewrite (Hok1 eq_refl). rewrite run_bind.
      destruct (RemoteComm_transmitRemoteCommand _ w) as [e1 w2] eqn:Et.
      rewrite run_ret. split; [|discriminate]. intros _. split; [reflexivity|].
      unfold exec, remote_text. change (REMOTE_MSG_MAXLENGTH + 1) with 1025 in Et.
      rewrite Et. reflexivity.
    - rewrite run_ret. split; [discriminate|]. intros _.
      split; [reflexivity|]. split; [apply Hbad1; reflexivity|]. auto. }
  destruct (strncmp_eq 4 cmd "JMAX") eqn:Em.
  { destruct (strncmp_eq 4 cmd "EDIR") eqn:Ee.
    { exfalso. revert Em Ee. clear.
      destruct cmd as [|a [|b [|c [|d s]]]]; cbn; try discriminate;
        (destruct (Ascii.eqb a "J") eqn:Ea; [|discriminate]);
        apply Ascii.eqb_eq in Ea; subst a; cbn; intros _; discriminate. }
    rewrite run_bind. unfold RemoteComm_FindParamVal.
    change (find_id motParamsIDList "RMXV" 0) with (Some 16). cbv iota.
    rewrite run_bind, run_gets. cbv beta iota. rewrite run_ret. cbv beta iota.
    fold (motorParam w channel 16). change 16 with RMXV_index.
    destruct (run_RemoteComm_IsValueInRange value cmd 0 (motorParam w channel RMXV_index) w)
      as (w1 & -> & Hok1 & Hbad1 & Hp1 & Hm1 & Hs1 & Hio1).
    cbv beta iota.
    destruct ((0 <=? value) && (value <=? motorParam w channel RMXV_index)); cbn [negb].
    - rewrite (Hok1 eq_refl). rewrite run_bind.
      destruct (RemoteComm_transmitRemoteCommand _ w) as [e1 w2] eqn:Et.
      rewrite run_ret. split; [|discriminate]. intros _. split; [reflexivity|].
      unfold exec, remote_text. change (REMOTE_MSG_MAXLENGTH + 1) with 1025 in Et.
      rewrite Et. reflexivity.
    - rewrite run_ret. split; [discriminate|]. intros _.
      split; [reflexivity|]. split; [apply Hbad1; reflexivity|]. auto. }
  destruct (strncmp_eq 4 cmd "EDIR") eqn:Ee.
  { destruct (run_RemoteComm_IsValueInRange (abs32 value) cmd 1 1 w)
      as (w1 & -> & Hok1 & Hbad1 & Hp1 & Hm1 & Hs1 & Hio1).
    cbv beta iota.
    assert (Hv : (1 <=? abs32 value) && (abs32 value <=? 1) = (abs32 value =? 1)).
    { destruct (abs32 value =? 1) eqn:E.
      - apply Z.eqb_eq in E. rewrite E. reflexivity.
      - apply Z.eqb_neq in E. apply andb_false_iff.
        destruct (Z.leb_spec 1 (abs32 value)); [right; apply Z.leb_gt; lia|left; reflexivity]. }
    rewrite Hv in *. destruct (abs32 value =? 1); cbn [negb].
    - rewrite (Hok1 eq_refl). rewrite run_bind.
      destruct (RemoteComm_transmitRemoteCommand _ w) as [e1 w2] eqn:Et.
      rewrite run_ret. split; [|discriminate]. intros _. split; [reflexivity|].
      unfold exec, remote_text. change (REMOTE_MSG_MAXLENGTH + 1) with 1025 in Et.
      rewrite Et. reflexivity.
    - rewrite run_ret. split; [discriminate|]. intros _.
      split; [reflexivity|]. split; [apply Hbad1; reflexivity|]. auto. }
  rewrite run_ret. cbv beta iota. cbn [negb]. rewrite run_bind.
  destruct (RemoteComm_transmitRemoteCommand _ w) as [e1 w2] eqn:Et.
  rewrite run_ret. split; [|discriminate]. intros _. split; [reflexivity|].
  unfold exec, remote_text. change (REMOTE_MSG_MAXLENGTH + 1) with 1025 in Et.
  rewrite Et. reflexivity.
Qed.

End ToRemote.

(** * The status poll of motors at rest *)

Section AtRest.

Context `{hdr : TMC5240_Header} `{env : Environment}.

Lemma ProcessUpdate_status_at_rest (w : World) (z d c : Z) :
  at_rest w z = true -> ProcessUpdate_status z d c w = ((d, c), w).
Proof.
  unfold at_rest, ProcessUpdate_status. intros H.
  rewrite run_bind, run_IsActiveMotor_quiet. cbv beta iota. rewrite run_bind, run_gets.
  cbv beta iota.
  destruct (negb (is_active w z) || (isMotorEnabled_at w z =? 0)) eqn:E; [reflexivity|].
  cbn [orb] in H. msteps.
  apply andb_true_iff in H as [H Hm]. apply andb_true_iff in H as [Hh Hs].
  rewrite Hh, Hs, Hm. reflexivity.
Qed.

Lemma ProcessUpdate_status_loop_at_rest (l : list Z) (w : World) (d c : Z) :
  forallb (at_rest w) l = true -> ProcessUpdate_status_loop l d c w = (tt, w).
Proof.
  induction l as [|z l IH]; [reflexivity|].
  cbn [forallb ProcessUpdate_status_loop]. intros H. apply andb_true_iff in H as [Hz Hl].
  rewrite run_bind, (ProcessUpdate_status_at_rest _ _ _ _ Hz). cbv beta iota.
  exact (IH Hl).
Qed.

(** X20: motors at rest are not polled. The status poll leaves a motor
    that is not fitted, not enabled, or neither homing nor searching nor
    moving entirely alone: no register of its driver is read and no flag
    changes. With all four motors at rest, a pass of [ProcessUpdateChanges]
    at which the status interval is exceeded and the error interval is not
    reads the clock, takes the time as that of the last status check, and
    does nothing else. *)
Theorem status_poll_skips_motors_at_rest (w : World) :
  (forall z d c, at_rest w z = true -> ProcessUpdate_status z d c w = ((d, c), w)) /\
  (forallb (at_rest w) (upto MAXNUMMOTORS) = true ->
   let t := wrapu32 (env_millis (io w)) in
   wrapu32 (t - Motors.lastErrorCheckTime (g_motors w)) <= MOTORS_CHECK_ERROR_INTERVAL_MS ->
   wrapu32 (t - Motors.lastStatusCheckTime (g_motors w)) > MOTORS_CHECK_STATUS_INTERVAL_MS ->
   Motors_ProcessUpdateChanges w
   = (tt, exec (modify_motors (Motors.set_lastStatusCheckTime t)) (after_millis w))).
Proof.
  split; [intros z d c; apply ProcessUpdate_status_at_rest|].
  intros Hall t He Hs.
  unfold Motors_ProcessUpdateChanges, uninitialised_int, millis.
  msteps. fold (after_millis w). fold t.
  change (g_motors (after_millis w)) with (g_motors w).
  replace (wrapu32 (t - Motors.lastErrorCheckTime (g_motors w)) >? MOTORS_CHECK_ERROR_INTERVAL_MS)
    with false by (symmetry; rewrite Z.gtb_ltb; apply Z.ltb_ge; exact He).
  cbv beta iota. msteps. change (g_motors (after_millis w)) with (g_motors w).
  replace (wrapu32 (t - Motors.lastStatusCheckTime (g_motors w)) >? MOTORS_CHECK_STATUS_INTERVAL_MS)
    with true by (symmetry; rewrite Z.gtb_ltb; apply Z.ltb_lt; lia).
  rewrite run_bind.
  assert (Hall' : forallb (at_rest (after_millis w)) (upto MAXNUMMOTORS) = true) by exact Hall.
  rewrite (ProcessUpdate_status_loop_at_rest _ _ _ _ Hall'). reflexivity.
Qed.

End AtRest.

(** * The request of the remote for access *)

Section AccessRequest.

Context `{hdr : TMC5240_Header} `{env : Environment}.

(** X21: the request of the remote for access is granted to every
    fitted board. For an active board, [ACCREQ<board>] sets the
    remote-control flag of that board, stores 1 as its remote parameter
    [ENAB], clears its repeat flag for position commands and answers with
    the one frame [ENAB<board>=1]; the flags and parameters of the other
    boards and the motion state stay. For a board that is not active the
    only effect is the message [Inactive board number] in the parameter
    store. *)
Theorem access_request_grants_control (w : World) (rest : string) (board : Z) :
  wf_World w ->
  board_arg Scan.c_hhi rest = [board] ->
  let w' := exec (RemoteComm_processRemoteCommand ("ACCREQ" ++ rest)) w in
  (is_active w board = true ->
   isRemoteControlled_at w' board = 1 /\
   remoteParam w' board 0 = 1 /\
   repeatPosSet_at w' board = 0 /\
   io w' = (io w ++ [EvSerial1Write (remote_frame (remote_text "ENAB" board 1))])%list /\
   (forall z, z <> board ->
      isRemoteControlled_at w' z = isRemoteControlled_at w z /\
      forall i, remoteParam w' z i = remoteParam w z i) /\
   (forall i, i <> 0 -> remoteParam w' board i = remoteParam w board i) /\
   MotionState_of w' = MotionState_of w /\
   Parameters.motorParamArr (g_params w') = Parameters.motorParamArr (g_params w)) /\
  (is_active w board = false -> w' = with_parameter_error "Inactive board number" w).
Proof.
  intros Hwf Hargs. cbv zeta. unfold exec.
  destruct (RemoteComm_processRemoteCommand ("ACCREQ" ++ rest) w) as [u w'] eqn:Erun.
  cbn [snd]. revert Erun. unfold RemoteComm_processRemoteCommand.
  change (has_prefix "POS" ("ACCREQ" ++ rest)) with false. cbv iota.
  change (has_prefix "VEL" ("ACCREQ" ++ rest)) with false. cbv iota.
  change (has_prefix "ACCREQ" ("ACCREQ" ++ rest)) with true. cbv iota.
  change (Scan.sscanf [Scan.Lit "ACCREQ"; Scan.Conv Scan.c_hhi] ("ACCREQ" ++ rest))
    with (board_arg Scan.c_hhi rest).
  rewrite Hargs. unfold uninitialised_int. rewrite run_bind, run_gets. cbv beta iota.
  rewrite run_bind.
  intros Erun. split.
  2:{ intros Ha. rewrite (run_IsActiveMotor_inactive _ _ Ha) in Erun.
      injection Erun as _ <-. reflexivity. }
  intros Ha. revert Erun.
  rewrite (run_IsActiveMotor_active _ _ _ Ha). cbv beta iota. cbn [negb].
  pose proof (is_active_range _ _ Ha) as Hb.
  assert (Hrc : 0 <= board < Z.of_nat (length (Motors.isRemoteControlled (g_motors w)))).
  { pose proof (wf_isRemoteControlled _ Hwf) as L. unfold has_len in L. rewrite L. exact Hb. }
  assert (Hrp : 0 <= board < Z.of_nat (length (RemoteComm.repeatPosSet (g_remComm w)))).
  { pose proof (wf_repeatPosSet _ Hwf) as L. unfold has_len in L. rewrite L. exact Hb. }
  pose proof (wf_in_remote_table w board 0 Hwf Hb ltac:(unfold REMOTE_NUM_PARAMS; lia)) as Hin.
  unfold set_repeatPosSet, modify_remote. rewrite run_bind, run_modify. cbv beta iota.
  set (w1 := set_g_remComm
               (RemoteComm.set_repeatPosSet
                  (aset (RemoteComm.repeatPosSet (g_remComm w)) board 0) (g_remComm w)) w).
  assert (Ha1 : is_active w1 board = true) by exact Ha.
  (* the enable is sent *)
  assert (Hsend : RemoteComm_SendRemoteCommand "ENAB" board 1 w1
                  = (ERR_None,
                     exec (RemoteComm_transmitRemoteCommand (remote_text "ENAB" board 1))
                       (exec (set_isRemoteControlled board 1) w1))).
  { unfold RemoteComm_SendRemoteCommand, uninitialised_int.
    rewrite run_bind, run_gets. cbv beta iota zeta.
    change (strncmp_eq 4 "ENAB" "ENAB") with true. cbv iota.
    rewrite run_bind.
    destruct (run_RemoteComm_IsValueInRange board "channel" (-1) MAXNUMMOTORS w1)
      as (w2 & -> & Hok & _).
    assert (Hch : (-1 <=? board) && (board <=? MAXNUMMOTORS) = true)
      by (apply andb_true_iff; unfold MAXNUMMOTORS in *; split; apply Z.leb_le; lia).
    rewrite Hch in *. rewrite (Hok eq_refl). clear w2 Hok. cbv beta iota. cbn [negb].
    rewrite run_bind.
    destruct (run_RemoteComm_IsValueInRange 1 "ENAB" 0 1 w1) as (w2 & -> & Hok & _).
    change ((0 <=? 1) && (1 <=? 1)) with true in *. rewrite (Hok eq_refl). clear w2 Hok.
    cbv beta iota. cbn [negb].
    unfold Motors_SetRemoteEnabled.
    replace (board =? -1) with false by (symmetry; apply Z.eqb_neq; lia).
    rewrite run_bind, run_bind, run_IsActiveMotor_quiet, Ha1. cbv beta iota. cbn [negb].
    rewrite run_bind. change (wrap8 1) with 1.
    destruct (set_isRemoteControlled board 1 w1) as [[] w2] eqn:E2.
    rewrite run_ret. cbv beta iota. cbn [is_err].
    rewrite run_bind.
    replace (board =? -1) with false by (symmetry; apply Z.eqb_neq; lia).
    rewrite run_bind. unfold exec. rewrite E2. cbn [snd].
    change (REMOTE_MSG_MAXLENGTH + 1) with 1025. fold (remote_text "ENAB" board 1).
    destruct (RemoteComm_transmitRemoteCommand (remote_text "ENAB" board 1) w2) as [e3 w3].
    rewrite run_ret. cbv beta iota. rewrite run_ret. reflexivity. }
  rewrite run_bind, Hsend. cbv beta iota.
  unfold RemoteComm_FindRemoteParamIndex.
  change (find_id remoteIDList "ENAB" 0) with (Some 0). cbv iota.
  rewrite run_bind, run_ret. cbv beta iota.
  unfold Parameters_SetRemoteParams.
  change (strncmp_eq 4 (id_at remoteIDList 0) "ENAB") with true. cbn [andb].
  replace (board =? -1) with false by (symmetry; apply Z.eqb_neq; lia).
  unfold Parameters_IsValidMotor.
  replace ((board <? 0) || (board >=? MAXNUMMOTORS)) with false
    by (symmetry; apply orb_false_iff; rewrite Z.geb_leb; split;
        [apply Z.ltb_ge|apply Z.leb_gt]; lia).
  rewrite run_bind, run_bind, run_ret. cbv beta iota. cbn [negb].
  unfold modify_params. rewrite run_bind, run_modify. cbv beta iota. rewrite !run_ret.
  intros [= _ <-].
  unfold exec, RemoteComm_transmitRemoteCommand, RemoteComm_safeSerial1Write,
    set_isRemoteControlled, modify_motors, modify_remote.
  msteps. cbn [snd]. unfold w1.
  unfold isRemoteControlled_at, remoteParam, repeatPosSet_at, MotionState_of. proj_simpl.
  rewrite !aget_aset_eq by assumption.
  split; [reflexivity|].
  split; [rewrite get2_set2_spec, Hin, !Z.eqb_refl; reflexivity|].
  split; [reflexivity|].
  split; [reflexivity|].
  split.
  { intros z Hz. split; [apply aget_aset_ne; congruence|].
    intros i. rewrite get2_set2_spec.
    replace (board =? z) with false by (symmetry; apply Z.eqb_neq; congruence).
    rewrite andb_false_r. reflexivity. }
  split.
  { intros i Hi. rewrite get2_set2_spec.
    replace (0 =? i) with false by (symmetry; apply Z.eqb_neq; congruence).
    rewrite andb_false_r. reflexivity. }
  split; reflexivity.
Qed.

End AccessRequest.

(** * The velocity limit *)

Section VelocityLimit.

Context `{hdr : TMC5240_Header} `{env : Environment}.


End VelocityLimit.

(** * The simulated axis in motion *)

Section SimulatedMotion.

Context `{hdr : TMC5240_Header} `{env : Environment}.

Lemma run_modify_sim_if (c : bool) (board : Z) (f : TMCSimStatus -> TMCSimStatus) (w : World) :
  0 <= board < Z.of_nat (length (Motors.tmcArr (g_motors w))) ->
  exists w',
    (if c then modify_sim board f else mret tt) w = (tt, w') /\
    sim_updated board (if c then f (sim_at w board) else sim_at w board) w w'.
Proof.
  intros Hlen. destruct c.
  - unfold modify_sim, modify_tmc, modify_motors. rewrite run_modify.
    eexists. split; [reflexivity|]. constructor; try reflexivity.
    + unfold sim_at, tmc_at. proj_simpl. rewrite aget_aset_eq by exact Hlen. reflexivity.
    + proj_simpl. apply length_aset.
  - exists w. split; [reflexivity|]. constructor; reflexivity.
Qed.

Lemma run_modify_sim (board : Z) (f : TMCSimStatus -> TMCSimStatus) (w : World) :
  0 <= board < Z.of_nat (length (Motors.tmcArr (g_motors w))) ->
  exists w', modify_sim board f w = (tt, w') /\ sim_updated board (f (sim_at w board)) w w'.
Proof. exact (run_modify_sim_if true board f w). Qed.

Lemma sim_updated_trans (board : Z) (s1 s2 : TMCSimStatus) (w w1 w2 : World) :
  sim_updated board s1 w w1 -> sim_updated board s2 w1 w2 -> sim_updated board s2 w w2.
Proof. intros [] []. constructor; congruence. Qed.

(** X23: the status poll keeps a Simulated axis within its limits. With
    limits in order and a travel since the last poll that an [int32_t] can
    hold, [CheckStatus] advances the position by the velocity times the
    time elapsed (in seconds, truncated), brings it inside the limits, and
    stops the axis if it was beyond one; it takes the time of the poll and
    sets the simulated encoder to the position. The motion is reported as
    done exactly when the axis stood still before the poll, the limits
    stay, and the only input or output is the reading of the clock. *)
Theorem simulated_axis_stays_within_limits (w : World) (board done : Z) :
  wf_World w ->
  0 <= board < MAXNUMMOTORS ->
  motorType_of w board = MOTOR_SIM ->
  let s := sim_at w board in
  let t := wrapu32 (env_millis (io w)) in
  let dt := wrap32 (wrapu32 (t - lastVelCalcTime s)) in
  let moved := if vel s =? 0 then xact s else xact s + sim_travel dt (vel s) in
  xmin s <= xmax s ->
  (vel s <> 0 -> in_int32 (dt * vel s) /\ in_int32 (xact s + sim_travel dt (vel s))) ->
  let '(e, done', w') := TMC_CheckStatus board done w in
  let s' := sim_at w' board in
  e = ERR_None /\ done' = (if vel s =? 0 then 1 else 0) /\
  xact s' = clamped s moved /\ xmin s <= xact s' <= xmax s /\ xenc s' = xact s' /\
  vel s' = (if (moved <? xmin s) || (moved >? xmax s) then 0 else vel s) /\
  xmin s' = xmin s /\ xmax s' = xmax s /\ xtar s' = xtar s /\ lastVelCalcTime s' = t /\
  io w' = (io w ++ [EvMillis t])%list /\
  g_params w' = g_params w /\ MotionState_of w' = MotionState_of w.
Proof.
  intros Hwf Hb Hty s t dt moved Hlim Hfit.
  assert (Hlen : 0 <= board < Z.of_nat (length (Motors.tmcArr (g_motors w)))).
  { pose proof (wf_tmcArr _ Hwf) as L. unfold has_len in L. rewrite L. exact Hb. }
  assert (Hmoved : (if vel s =? 0 then xact s
                    else add32 (xact s) (div32 (mul32 dt (vel s)) 1000)) = moved).
  { unfold moved. destruct (vel s =? 0) eqn:Ev; [reflexivity|].
    apply Z.eqb_neq in Ev. destruct (Hfit Ev) as [Hp Hs].
    unfold add32, div32, mul32, sim_travel in *.
    rewrite (wrap32_id (dt * vel s)) by exact Hp.
    assert (Hq : in_int32 (Z.quot (dt * vel s) 1000)).
    { unfold in_int32, INT32_MIN, INT32_MAX in *.
      pose proof (Z.quot_le_mono (dt * vel s) (2 ^ 31 - 1) 1000 ltac:(lia) ltac:(lia)).
      pose proof (Z.quot_le_mono (- 2 ^ 31) (dt * vel s) 1000 ltac:(lia) ltac:(lia)).
      change ((- 2 ^ 31) ÷ 1000) with (- 2147483) in *.
      change ((2 ^ 31 - 1) ÷ 1000) with 2147483 in *. lia. }
    rewrite (wrap32_id _ Hq). apply wrap32_id. exact Hs. }
  unfold TMC_CheckStatus. rewrite run_bind, run_gets. cbv beta iota. rewrite Hty. cbv iota.
  unfold millis. rewrite run_bind. cbv beta iota. fold t.
  set (w0 := set_io (io w ++ [EvMillis t]) w).
  assert (H0 : sim_at w0 board = s /\ io w0 = (io w ++ [EvMillis t])%list /\
               g_params w0 = g_params w /\ MotionState_of w0 = MotionState_of w /\
               length (Motors.tmcArr (g_motors w0)) = length (Motors.tmcArr (g_motors w)))
    by (repeat split).
  destruct H0 as (S0 & I0 & P0 & M0 & L0). clearbody w0.
  rewrite run_bind, run_gets. cbv beta iota. rewrite S0.
  (* the advance *)
  rewrite run_bind.
  match goal with |- context [if vel s =? 0 then mret tt else modify_sim board ?f] =>
    destruct (run_modify_sim_if (negb (vel s =? 0)) board f w0) as (w1 & E1 & U1);
      [rewrite L0; exact Hlen|];
    replace (if vel s =? 0 then mret tt else modify_sim board f)
      with (if negb (vel s =? 0) then modify_sim board f else mret tt)
      by (destruct (vel s =? 0); reflexivity)
  end.
  rewrite E1. clear E1. cbv beta iota.
  assert (S1 : sim_at w1 board = set_xact moved s).
  { rewrite (su_sim _ _ _ _ U1), S0. rewrite <- Hmoved. fold dt.
    destruct (vel s =? 0); cbn [negb]; [destruct s|]; reflexivity. }
  (* the time *)
  rewrite run_bind.
  destruct (run_modify_sim board (set_lastVelCalcTime t) w1) as (w2 & -> & U2);
    [rewrite (su_length _ _ _ _ U1), L0; exact Hlen|].
  cbv beta iota. rewrite S1 in U2.
  (* the lower limit *)
  rewrite run_bind, run_gets. cbv beta iota. rewrite (su_sim _ _ _ _ U2).
  cbn [xact xmin set_xact set_lastVelCalcTime]. rewrite run_bind.
  destruct (run_modify_sim_if (moved <? xmin s) board
              (fun s => set_vel 0 (set_xact (xmin s) s)) w2)
    as (w3 & -> & U3);
    [rewrite (su_length _ _ _ _ U2), (su_length _ _ _ _ U1), L0; exact Hlen|].
  cbv beta iota. rewrite (su_sim _ _ _ _ U2) in U3.
  (* the upper limit *)
  rewrite run_bind, run_gets. cbv beta iota. rewrite (su_sim _ _ _ _ U3). rewrite run_bind.
  match goal with |- context [if ?c then modify_sim board ?f else mret tt] =>
    destruct (run_modify_sim_if c board f w3) as (w4 & -> & U4);
      [rewrite (su_length _ _ _ _ U3), (su_length _ _ _ _ U2), (su_length _ _ _ _ U1), L0;
       exact Hlen|] end.
  cbv beta iota. rewrite (su_sim _ _ _ _ U3) in U4.
  (* the encoder *)
  rewrite run_bind.
  destruct (run_modify_sim board (fun s => set_xenc (xact s) s) w4) as (w5 & -> & U5);
    [rewrite (su_length _ _ _ _ U4), (su_length _ _ _ _ U3), (su_length _ _ _ _ U2),
       (su_length _ _ _ _ U1), L0; exact Hlen|].
  cbv beta iota. rewrite (su_sim _ _ _ _ U4) in U5. rewrite run_ret.
  pose proof (sim_updated_trans _ _ _ _ _ _ U1
                (sim_updated_trans _ _ _ _ _ _ U2
                   (sim_updated_trans _ _ _ _ _ _ U3
                      (sim_updated_trans _ _ _ _ _ _ U4 U5)))) as U.
  destruct U as [Us Uio Up Um _].
  rewrite Uio, Up, Um, I0, P0, M0, Us.
  unfold clamped. cbv zeta.
  destruct (moved <? xmin s) eqn:Lo.
  - apply Z.ltb_lt in Lo. cbn [xact xmin xmax set_xact set_vel set_lastVelCalcTime].
    replace (xmin s >? xmax s) with false by (symmetry; rewrite Z.gtb_ltb; apply Z.ltb_ge; lia).
    cbn [xact xenc xmin xmax vel xtar lastVelCalcTime set_xact set_vel set_xenc
         set_lastVelCalcTime orb].
    repeat apply conj; try reflexivity; lia.
  - apply Z.ltb_ge in Lo. cbn [xact xmin xmax set_xact set_vel set_lastVelCalcTime].
    destruct (moved >? xmax s) eqn:Hi;
      cbn [xact xenc xmin xmax vel xtar lastVelCalcTime set_xact set_vel set_xenc
           set_lastVelCalcTime orb].
    + apply Z.gtb_lt in Hi. repeat apply conj; try reflexivity; lia.
    + rewrite Z.gtb_ltb in Hi. apply Z.ltb_ge in Hi.
      repeat apply conj; try reflexivity; lia.
Qed.

End SimulatedMotion.

(** * The status flags *)

Lemma testbit_flag_if (c : bool) (n flags m : Z) :
  0 <= n -> 0 <= m ->
  Z.testbit (flag_if c n flags) m = (c && (m =? n)) || Z.testbit flags m.
Proof.
  intros Hn Hm. unfold flag_if. destruct c; [|reflexivity].
  rewrite Z.lor_spec, Z.shiftl_spec by exact Hm. cbn [andb].
  rewrite orb_comm. f_equal.
  destruct (Z.eqb_spec m n) as [->|Hne].
  - rewrite Z.sub_diag. reflexivity.
  - destruct (Z.lt_ge_cases m n) as [Hlt|Hge].
    + apply Z.testbit_neg_r. lia.
    + apply (Z.bits_above_log2 1 (m - n)); [lia|]. cbn. lia.
Qed.

Lemma flag_if_bound (c : bool) (n flags k : Z) :
  0 <= n < k -> 0 <= flags < 2 ^ k -> 0 <= flag_if c n flags < 2 ^ k.
Proof.
  intros Hn Hf. unfold flag_if. destruct c; [|exact Hf].
  assert (H1 : 0 <= Z.shiftl 1 n) by (apply Z.shiftl_nonneg; lia).
  split; [apply Z.lor_nonneg; split; [lia|exact H1]|].
  assert (H2 : Z.shiftl 1 n < 2 ^ k).
  { rewrite Z.shiftl_1_l. apply Z.pow_lt_mono_r; lia. }
  destruct (Z.eq_dec (Z.lor flags (Z.shiftl 1 n)) 0) as [->|Hz]; [apply Z.pow_pos_nonneg; lia|].
  apply Z.log2_lt_pow2; [pose proof (Z.lor_nonneg flags (Z.shiftl 1 n)); lia|].
  rewrite Z.log2_lor by lia.
  apply Z.max_lub_lt.
  - destruct (Z.eq_dec flags 0) as [->|Hf0]; [cbn; lia|]. apply Z.log2_lt_pow2; lia.
  - apply Z.log2_lt_pow2; [rewrite Z.shiftl_1_l; apply Z.pow_pos_nonneg; lia|exact H2].
Qed.

Section StatusFlags.

Context `{hdr : TMC5240_Header} `{env : Environment}.

(** X24: the status word can be taken apart bit by bit. On a Real axis
    [GetStatusFlags] reads the ramp status and then the encoder status of
    the driver, and in the word it returns each of the bits 0 to 11 stands
    for its own condition and for nothing else: the enable flag of the
    motor in bit 11, the bits of the ramp status in the bits 10, 9, 8, 7, 5,
    4, 3, 2, 1 and 0, the deviation warning of the encoder in bit 6; no
    higher bit is set. On a Simulated axis the bits 11, 9, 3 and 2 tell
    whether the motor is enabled, moving, at or beyond its upper limit and
    at or beyond its lower limit, every other bit is 0, and nothing is read
    or changed. *)
Theorem status_flags_decode (w : World) (board status : Z) :
  (motorType_of w board = MOTOR_TMC ->
   let ramp := wrap32 (env_readRegister (io w) board TMC5240_RAMPSTAT) in
   let w1 := set_io (io w ++ [EvReadRegister board TMC5240_RAMPSTAT ramp]) w in
   let enc := wrap32 (env_readRegister (io w1) board TMC5240_ENC_STATUS) in
   let '(e, flags, w') := TMC_GetStatusFlags board status w in
   e = ERR_None /\
   w' = set_io (io w1 ++ [EvReadRegister board TMC5240_ENC_STATUS enc]) w1 /\
   0 <= flags < 2 ^ 12 /\
   Z.testbit flags 11 = negb (isMotorEnabled_at w board =? 0) /\
   Z.testbit flags 10 = test_mask ramp TMC5240_POSITION_REACHED_MASK /\
   Z.testbit flags 9 = negb (test_mask ramp TMC5240_VZERO_MASK) /\
   Z.testbit flags 8 = test_mask ramp TMC5240_STATUS_LATCH_R_MASK /\
   Z.testbit flags 7 = test_mask ramp TMC5240_STATUS_LATCH_L_MASK /\
   Z.testbit flags 6 = test_mask enc TMC5240_DEVIATION_WARN_MASK /\
   Z.testbit flags 5 = test_mask ramp TMC5240_EVENT_STOP_SG_MASK /\
   Z.testbit flags 4 = test_mask ramp TMC5240_STATUS_SG_MASK /\
   Z.testbit flags 3 = test_mask ramp TMC5240_STATUS_VIRTUAL_STOP_R_MASK /\
   Z.testbit flags 2 = test_mask ramp TMC5240_STATUS_VIRTUAL_STOP_L_MASK /\
   Z.testbit flags 1 = test_mask ramp TMC5240_STATUS_STOP_R_MASK /\
   Z.testbit flags 0 = test_mask ramp TMC5240_STATUS_STOP_L_MASK) /\
  (motorType_of w board = MOTOR_SIM ->
   let s := sim_at w board in
   let '(e, flags, w') := TMC_GetStatusFlags board status w in
   e = ERR_None /\ w' = w /\ 0 <= flags < 2 ^ 12 /\
   forall n, 0 <= n ->
     Z.testbit flags n
     = if n =? 11 then negb (isMotorEnabled_at w board =? 0)
       else if n =? 9 then negb (vel s =? 0)
       else if n =? 3 then xact s >=? xmax s
       else if n =? 2 then xact s <=? xmin s
       else false).
Proof.
  split; intros Hty; cbv zeta; unfold TMC_GetStatusFlags;
    rewrite run_bind, run_gets; cbv beta iota; rewrite Hty; cbv iota.
  - unfold tmc5240_readRegister. rewrite run_bind. cbv beta iota zeta.
    rewrite run_bind, run_gets. cbv beta iota. rewrite run_bind. cbv beta iota.
    rewrite run_ret.
    change (isMotorEnabled_at (set_io _ w) board) with (isMotorEnabled_at w board).
    split; [reflexivity|]. split; [reflexivity|].
    split; [repeat (apply flag_if_bound; [lia|]); lia|].
    repeat split;
      repeat (rewrite testbit_flag_if by lia; cbn [Z.eqb Pos.eqb andb orb]);
      rewrite ?andb_true_r, ?andb_false_r, ?orb_false_r; cbn [orb];
      rewrite ?Z.bits_0, ?orb_false_r; reflexivity.
  - msteps. split; [reflexivity|]. split; [reflexivity|].
    split; [repeat (apply flag_if_bound; [lia|]); lia|].
    intros n Hn. repeat (rewrite testbit_flag_if by lia). rewrite Z.bits_0, orb_false_r.
    destruct (n =? 11) eqn:E11; [apply Z.eqb_eq in E11; subst n; cbn [Z.eqb Pos.eqb];
                                  rewrite ?andb_true_r, ?andb_false_r, ?orb_false_r;
                                  reflexivity|].
    destruct (n =? 9) eqn:E9; [apply Z.eqb_eq in E9; subst n; cbn [Z.eqb Pos.eqb];
                                rewrite ?andb_true_r, ?andb_false_r, ?orb_false_r;
                                reflexivity|].
    destruct (n =? 3) eqn:E3; [apply Z.eqb_eq in E3; subst n; cbn [Z.eqb Pos.eqb];
                                rewrite ?andb_true_r, ?andb_false_r, ?orb_false_r;
                                reflexivity|].
    destruct (n =? 2) eqn:E2; [apply Z.eqb_eq in E2; subst n; cbn [Z.eqb Pos.eqb];
                                rewrite ?andb_true_r, ?andb_false_r, ?orb_false_r;
                                reflexivity|].
    rewrite ?andb_false_r. reflexivity.
Qed.

End StatusFlags.

(** * The poll of an open-loop move and of a homing run *)

Section OpenLoopPoll.

Context `{hdr : TMC5240_Header} `{env : Environment}.

(** X25: the poll of an axis that is homing, or moving without a
    closed-loop search, asks the driver once and clears the moving flag
    exactly when the driver reports the motion as done or returns an
    error. The searching flag, the target, the setpoint, the iterations
    left and the remote-control flags are not touched, and the local
    [currPos] of the caller is handed back as it came. The poll is taken
    to stay inside the language. *)
Theorem open_loop_poll_clears_moving (w : World) (z isMotionDone currPos : Z) :
  wf_World w ->
  is_active w z = true ->
  isMotorEnabled_at w z <> 0 ->
  isMotorHoming_at w z <> 0 \/ (isMotorSearching_at w z = 0 /\ isMotorMoving_at w z <> 0) ->
  let '(err, done, w1) := TMC_CheckStatus z isMotionDone w in
  let '(r, w') := ProcessUpdate_status z isMotionDone currPos w in
  let stop := negb (done =? 0) || is_err err in
  defined w' ->
  r = (done, currPos) /\
  w' = (if stop then exec (set_isMotorMoving z 0) w1 else w1) /\
  isMotorMoving_at w' z = (if stop then 0 else isMotorMoving_at w z) /\
  isMotorSearching_at w' z = isMotorSearching_at w z /\
  targetPosition_at w' z = targetPosition_at w z /\
  setPosition_at w' z = setPosition_at w z /\
  iterationsLeft_at w' z = iterationsLeft_at w z /\
  isRemoteControlled_at w' z = isRemoteControlled_at w z.
Proof.
  intros Hwf Ha He Hmode.
  pose proof (TMC_CheckStatus_driver z isMotionDone w) as Hd.
  assert (Hrun : ProcessUpdate_status z isMotionDone currPos w
                 = ('(err, isMotionDone) ← TMC_CheckStatus z isMotionDone;
                    (if negb (isMotionDone =? 0) || is_err err then set_isMotorMoving z 0
                     else mret tt);;
                    mret (isMotionDone, currPos)) w).
  { unfold ProcessUpdate_status. rewrite run_bind, run_IsActiveMotor_quiet, Ha.
    cbv beta iota. rewrite run_bind, run_gets. cbv beta iota.
    apply Z.eqb_neq in He. rewrite He. cbn [negb orb]. msteps.
    destruct Hmode as [Hh|[Hs Hm]].
    - apply Z.eqb_neq in Hh. rewrite Hh. reflexivity.
    - destruct (isMotorHoming_at w z =? 0); [|reflexivity]. cbn [negb].
      rewrite Hs. cbn [Z.eqb negb]. apply Z.eqb_neq in Hm. rewrite Hm. reflexivity. }
  rewrite Hrun. clear Hrun. rewrite run_bind.
  destruct (TMC_CheckStatus z isMotionDone w) as [[err done] w1]. cbn [snd] in Hd.
  cbv beta iota zeta. rewrite run_bind.
  pose proof (wf_driver_frame _ _ Hd Hwf) as Hwf1.
  pose proof (is_active_range _ _ Ha) as Hb.
  assert (Hlen : 0 <= z < Z.of_nat (length (Motors.isMotorMoving (g_motors w1)))).
  { pose proof (wf_isMotorMoving _ Hwf1) as L. unfold has_len in L. rewrite L. exact Hb. }
  rewrite <- (driver_frame_moving _ _ z Hd), <- (driver_frame_searching _ _ z Hd),
    <- (driver_frame_target _ _ z Hd), <- (driver_frame_setPosition _ _ z Hd),
    <- (driver_frame_iterationsLeft _ _ z Hd), <- (driver_frame_remote _ _ z Hd).
  destruct (negb (done =? 0) || is_err err).
  - unfold exec, set_isMotorMoving, modify_motors. rewrite run_modify. cbv beta iota.
    rewrite run_ret. cbn [snd].
    unfold isMotorMoving_at, isMotorSearching_at, targetPosition_at, setPosition_at,
      iterationsLeft_at, isRemoteControlled_at. proj_simpl.
    rewrite aget_aset_eq by exact Hlen. intros _. repeat split.
  - rewrite run_ret. cbv beta iota. rewrite run_ret. intros _. repeat split.
Qed.

End OpenLoopPoll.

(** * Commands for a board that is not fitted *)

Section Unfitted.

Context `{hdr : TMC5240_Header} `{env : Environment}.

(** X26: the motor layer turns every command for a board that is not
    active down in the same way. Each of the ten entry points returns the
    error of the motor layer without a call of the driver; the only effect
    is the message [Inactive board number] in the parameter store, unless a
    message is already waiting there, and a getter leaves the variable of
    its caller as it was. (Board -1 stands for all boards in two of the
    commands and is left out there.) *)
Theorem unfitted_board_refused (w : World) (board : Z) :
  is_active w board = false ->
  let w1 := with_parameter_error "Inactive board number" w in
  (forall pos setVel, Motors_MoveToPos board pos setVel w = (ERR_Motor, w1)) /\
  (forall vel, Motors_MoveAtVel board vel w = (ERR_Motor, w1)) /\
  (forall pos, Motors_GetPos board pos w = ((ERR_Motor, pos), w1)) /\
  (board <> -1 -> Motors_ClearStatusRegs board w = (ERR_Motor, w1)) /\
  Motors_StartHoming board w = (ERR_Motor, w1) /\
  (board <> -1 ->
   forall index value,
     0 <= index < Z.of_nat (length motStatIDList) ->
     Motors_SetStatusValue board index value w = (ERR_Motor, w1)) /\
  (forall index value, Motors_GetStatusValue board index value w = ((ERR_Motor, value), w1)) /\
  (forall address value, Motors_SetRegisterValue board address value w = (ERR_Motor, w1)) /\
  (forall address value,
     Motors_GetRegisterValue board address value w = ((ERR_Motor, value), w1)) /\
  (forall status, Motors_GetStatusFlags board status w = ((ERR_Motor, status), w1)) /\
  io w1 = io w /\ g_motors w1 = g_motors w /\
  Parameters_core (g_params w1) = Parameters_core (g_params w).
Proof.
  intros Ha. cbv zeta.
  pose proof (run_IsActiveMotor_inactive board w Ha) as Hrun.
  repeat apply conj; try reflexivity.
  - intros pos setVel. unfold Motors_MoveToPos. rewrite run_bind, Hrun. reflexivity.
  - intros vel. unfold Motors_MoveAtVel. rewrite run_bind, Hrun. reflexivity.
  - intros pos. unfold Motors_GetPos. rewrite run_bind, Hrun. reflexivity.
  - intros Hb. unfold Motors_ClearStatusRegs. apply Z.eqb_neq in Hb. rewrite Hb.
    rewrite run_bind, Hrun. reflexivity.
  - unfold Motors_StartHoming. rewrite run_bind, Hrun. reflexivity.
  - intros Hb index value _. unfold Motors_SetStatusValue. apply Z.eqb_neq in Hb.
    rewrite Hb, andb_false_r. rewrite run_bind, Hrun. reflexivity.
  - intros index value. unfold Motors_GetStatusValue, uninitialised_int.
    rewrite run_bind, run_gets. cbv beta iota. rewrite run_bind, run_gets. cbv beta iota.
    rewrite run_bind, Hrun. reflexivity.
  - intros address value. unfold Motors_SetRegisterValue. rewrite run_bind, Hrun. reflexivity.
  - intros address value. unfold Motors_GetRegisterValue. rewrite run_bind, Hrun. reflexivity.
  - intros status. unfold Motors_GetStatusFlags. rewrite run_bind, Hrun. reflexivity.
  - apply with_parameter_error_core.
Qed.

End Unfitted.

(** * The bench *)

Lemma bench_World_wf (left maxIterations remote : Z) :
  wf_World (bench_World left maxIterations remote).
Proof. constructor; try reflexivity; repeat constructor. Qed.

(** ** The theorems at work on the bench *)

Section OffTarget.

#[local] Existing Instance sample_header.
#[local] Existing Instance off_target.



(** The disabled axis 0 turns both motion commands down. *)
Lemma move_rejected_when_disabled_bench :
  fst (Motors_MoveToPos 0 250 1 disabled_World) = ERR_Motor /\
  fst (Motors_MoveAtVel 0 4000 disabled_World) = ERR_Motor /\
  MotionState_of (snd (Motors_MoveToPos 0 250 1 disabled_World)) = MotionState_of disabled_World.
Proof.
  assert (H := move_rejected_when_disabled_or_homing disabled_World 0 250 1 4000
                 (or_introl eq_refl)).
  cbv zeta in H. destruct H as (H1 & H2 & H3 & _).
  exact (conj H1 (conj H2 H3)).
Defined.

(** The encoder constant of axis 1 takes the smallest 32-bit value. *)
Lemma motor_parameter_roundtrip_bench :
  let w1 := exec (Parameters_SetMotorParams 1 19 (-2147483648)) (bench_World 0 3 0) in
  Parameters_GetMotorParams 1 19 0 w1 = ((ERR_None, -2147483648), w1).
Proof.
  assert (H := motor_parameter_roundtrip (bench_World 0 3 0) 1 19 (-2147483648) 0
                 (bench_World_wf 0 3 0)).
  cbv zeta. unfold exec.
  destruct (Parameters_SetMotorParams 1 19 (-2147483648) (bench_World 0 3 0)) as [e w1].
  destruct H as [_ H]; [split; [discriminate|reflexivity]|split; [discriminate|reflexivity]
                       |split; discriminate|].
  exact H.
Defined.

(** The Real axis 0, whose homing direction is 0, is not homed; the
    Simulated axis 1, whose homing is disabled, is. *)
Lemma StartHoming_validation_bench :
  fst (Motors_StartHoming 0 (bench_World 0 3 0)) = ERR_TMC /\
  fst (Motors_StartHoming 1 (bench_World 0 3 0)) = ERR_None /\
  xact (sim_at (snd (Motors_StartHoming 1 (bench_World 0 3 0))) 1) = 0.
Proof.
  assert (H0 := StartHoming_validation (bench_World 0 3 0) 0 (bench_World_wf 0 3 0)).
  assert (H1 := StartHoming_validation (bench_World 0 3 0) 1 (bench_World_wf 0 3 0)).
  cbv zeta in H0, H1.
  destruct (Motors_StartHoming 0 (bench_World 0 3 0)) as [e0 w0].
  destruct (Motors_StartHoming 1 (bench_World 0 3 0)) as [e1 w1].
  destruct H0 as [H0 _]; [reflexivity|discriminate|].
  destruct H0 as [H0 _]; [reflexivity|split; discriminate|right; split; discriminate|].
  destruct H1 as [_ H1]; [reflexivity|discriminate|].
  destruct H1 as (H1 & _ & H2 & _); [reflexivity|].
  cbn [fst snd]. rewrite H2. exact (conj H0 (conj H1 eq_refl)).
Defined.

(** On the Simulated axis, with the homing disabled in its parameters,
    the command to home succeeds. *)
Lemma simulated_axis_homes_unchecked :
  let w := bench_World 0 3 0 in
  is_active w 1 = true /\ isMotorEnabled_at w 1 = 1 /\
  motorType_of w 1 = MOTOR_SIM /\ motorParam w 1 HMOD_index = 0 /\
  fst (Motors_StartHoming 1 w) = ERR_None.
Proof. cbv zeta. repeat split. Qed.

(** With axis 0 under remote control, the host is refused a move and
    the setting of the target register, and the motion state stays. *)
Lemma remote_control_locks_host_commands_bench :
  let w := bench_World 0 3 1 in
  let w' := exec (SerialComm_dispatch "SMC_MPOS0,250") w in
  let w'' := exec (SerialComm_dispatch "SMS_XTAR0,250") w in
  (io w' = error_report ERR_Serial /\ MotionState_of w' = MotionState_of w) /\
  (io w'' = error_report ERR_Motor /\ MotionState_of w'' = MotionState_of w).
Proof.
  assert (Hb : 0 <= 0 < MAXNUMMOTORS) by (split; [discriminate|reflexivity]).
  assert (H1 := remote_control_locks_host_commands (bench_World 0 3 1) 0 "SMC_MPOS0,250"
                  ERR_Serial Hb (locked_MPOS 0 "0,250" 250 eq_refl)).
  assert (H2 := remote_control_locks_host_commands (bench_World 0 3 1) 0 "SMS_XTAR0,250"
                  ERR_Motor Hb
                  (locked_status 0 "XTAR" "0,250" 250 (or_intror (or_introl eq_refl)) eq_refl)).
  cbv zeta. unfold exec.
  destruct H1 as [H1 _], H2 as [H2 _].
  destruct (SerialComm_dispatch "SMC_MPOS0,250" (bench_World 0 3 1)) as [r1 w'].
  destruct (SerialComm_dispatch "SMS_XTAR0,250" (bench_World 0 3 1)) as [r2 w''].
  destruct H1 as (_ & H1 & _); [discriminate|].
  destruct H2 as (_ & H2 & _); [discriminate|].
  exact (conj (conj (td_io _ _ _ H1) (td_motion _ _ _ H1))
              (conj (td_io _ _ _ H2) (td_motion _ _ _ H2))).
Defined.

(** Under remote control, the command of the host that clears the
    enable flag is carried out and answered with the code 0. *)
Lemma remote_control_leaves_enable_open :
  let w := bench_World 0 3 1 in
  let w' := exec (SerialComm_dispatch "SMS_ENAB0,0") w in
  isRemoteControlled_at w 0 = 1 /\ isMotorEnabled_at w 0 = 1 /\
  isMotorEnabled_at w' 0 = 0 /\
  last (io w') = Some (EvSerialPrint (print_int (ErrorType_code ERR_None) ++ crlf)).
Proof. cbv zeta. repeat split. Qed.

(** Handing axis 2, which is not fitted, to the remote changes nothing. *)
Lemma SetRemoteEnabled_single_axis_bench :
  Motors_SetRemoteEnabled 2 1 (bench_World 0 3 0) = (ERR_None, bench_World 0 3 0).
Proof.
  assert (H := SetRemoteEnabled_single_axis (bench_World 0 3 0) 2 1).
  destruct H as [H _]; [discriminate|]. exact (H eq_refl).
Defined.

(** Axis 2 is not fitted, and the request to hand it to the remote is
    answered with a success. *)
Lemma SetRemoteEnabled_inactive_succeeds :
  let w := bench_World 0 3 0 in
  is_active w 2 = false /\ is_err (fst (Motors_SetRemoteEnabled 2 1 w)) = false.
Proof. cbv zeta. split; reflexivity. Qed.

(** The enabled axis 1 is disabled by its configuration and then turns a
    move down. *)
Lemma Config_leaves_axis_disabled_bench :
  let w' := exec (TMC_Config 1) (bench_World 0 3 0) in
  isMotorEnabled_at w' 1 = 0 /\ fst (Motors_MoveToPos 1 250 1 w') = ERR_Motor.
Proof.
  assert (H := Config_leaves_axis_disabled (bench_World 0 3 0)
                 (exec (TMC_Config 1) (bench_World 0 3 0)) 1).
  destruct H as (H1 & _ & _ & H2 & _); [vm_compute; reflexivity|].
  exact (conj H1 (H2 250 1)).
Defined.

End OffTarget.

Section OnTarget.

#[local] Existing Instance sample_header.
#[local] Existing Instance on_target.

(** With the encoder 2 beyond the target the search of axis 0 ends. *)
Lemma closed_loop_within_tolerance_bench :
  let w' := exec (ProcessUpdate_status 0 0 0) (bench_World 2 3 0) in
  isMotorMoving_at w' 0 = 0 /\ isMotorSearching_at w' 0 = 0.
Proof.
  pose (W := bench_World 2 3 0).
  pose (r1 := TMC_CheckStatus 0 0 W).
  pose (r2 := TMC_GetEnc 0 0 (exec (set_isMotorMoving 0 0) (snd r1))).
  assert (H := closed_loop_within_tolerance W 0 0 0
                 (snd (fst r1)) (snd r1) (fst (fst r2)) (snd (fst r2)) (snd r2)
                 (bench_World_wf 2 3 0)).
  destruct H as (H1 & H2 & _); [reflexivity|discriminate|reflexivity|discriminate|reflexivity
                               |discriminate|reflexivity|discriminate|].
  exact (conj H1 (H2 ltac:(discriminate))).
Defined.

(** In the continuous closed loop (a maximum of 0 iterations) the move
    to 100 leaves -1 iterations, and the motor that the poll then finds on
    target, 2 off with a tolerance of 5, goes on searching. *)
Lemma continuous_closed_loop_keeps_searching :
  let w := exec (Motors_MoveToPos 0 100 1) (bench_World 0 0 0) in
  let w' := exec (ProcessUpdate_status 0 0 0) w in
  is_active w 0 = true /\ isMotorEnabled_at w 0 = 1 /\ isMotorHoming_at w 0 = 0 /\
  isMotorSearching_at w 0 = 1 /\ iterationsLeft_at w 0 = -1 /\
  fst (TMC_CheckStatus 0 0 w) = (ERR_None, 1) /\
  fst (TMC_GetEnc 0 0 w) = (ERR_None, 102) /\
  abs32 (sub32 102 (targetPosition_at w 0)) <= TMC.tolerance (tmc_at w 0) /\
  isMotorMoving_at w' 0 = 0 /\ isMotorSearching_at w' 0 = 1.
Proof. cbv zeta. repeat split. discriminate. Qed.

End OnTarget.

Section RemoteLink.

#[local] Existing Instance sample_header.
#[local] Existing Instance corrupted_frame.


End RemoteLink.

Section UnreducedChecksum.

#[local] Existing Instance sample_header.
#[local] Existing Instance unreduced_checksum.


End UnreducedChecksum.

(** ** The parameter store, the error records and the simulated axis on the bench *)

Section StoreBench.

#[local] Existing Instance sample_header.
#[local] Existing Instance off_target.

(** Writing parameter 3 of axis 0 leaves parameter 3 of axis 1. *)
Lemma motor_parameter_write_is_local_bench :
  let w := bench_World 0 3 0 in
  let w1 := exec (Parameters_SetMotorParams 0 3 77) w in
  motorParam w1 1 3 = motorParam w 1 3 /\ g_motors w1 = g_motors w /\ io w1 = io w.
Proof.
  assert (H := motor_parameter_write_is_local (bench_World 0 3 0) 0 3 77 1 3).
  cbv zeta in *.
  destruct H as (H1 & _ & _ & H2 & H3 & _);
    [split; [discriminate|reflexivity]|discriminate|].
  exact (conj H1 (conj H2 H3)).
Defined.

(** There is no board 7. *)
Lemma invalid_board_rejected_bench :
  let w := bench_World 0 3 0 in
  let w1 := with_parameter_error "Invalid board number" w in
  Parameters_SetMotorParams 7 0 5 w = (ERR_Parameter, w1) /\
  Parameters_GetDeviceType 7 9 w = ((ERR_Parameter, 9), w1) /\
  Parameters.errorMsg (g_params w1) = "Invalid board number".
Proof.
  assert (H := invalid_board_rejected (bench_World 0 3 0) 7 0 5 9).
  cbv zeta in *.
  destruct H as (H1 & _ & _ & _ & H2 & _); [intros [_ H]; discriminate H|].
  exact (conj H1 (conj H2 eq_refl)).
Defined.

(** Axis 0 becomes a Simulated one. *)
Lemma device_type_roundtrip_bench :
  let w1 := exec (Parameters_SetDeviceType 0 1) (bench_World 0 3 0) in
  Parameters_GetDeviceType 0 9 w1 = ((ERR_None, 1), w1) /\
  motorType_of w1 1 = MOTOR_SIM.
Proof.
  assert (H := device_type_roundtrip (bench_World 0 3 0) 0 1 9 (bench_World_wf 0 3 0)).
  cbv zeta. unfold exec.
  destruct (Parameters_SetDeviceType 0 1 (bench_World 0 3 0)) as [e w1].
  destruct H as (_ & _ & _ & H & _); [split; [discriminate|reflexivity]|].
  destruct H as (_ & H1 & H2); [split; discriminate|].
  cbn [snd]. split; [exact H1|]. rewrite H2 by discriminate. reflexivity.
Defined.

(** Axis 3 becomes an axis of type 2. *)
Lemma axis_type_roundtrip_bench :
  let w1 := exec (Parameters_SetAxisType 3 2) (bench_World 0 3 0) in
  Parameters_GetAxisType 3 9 w1 = ((ERR_None, 2), w1).
Proof.
  assert (H := axis_type_roundtrip (bench_World 0 3 0) 3 2 9 (bench_World_wf 0 3 0)).
  cbv zeta. unfold exec.
  destruct (Parameters_SetAxisType 3 2 (bench_World 0 3 0)) as [e w1].
  destruct H as (_ & _ & _ & H & _); [split; [discriminate|reflexivity]|reflexivity|].
  destruct H as (_ & H); [split; discriminate|].
  exact H.
Defined.

(** The remote control is enabled for all boards at once. *)
Lemma remote_enable_broadcast_bench :
  let w1 := exec (Parameters_SetRemoteParams (-1) 0 1) (bench_World 0 3 0) in
  get2 (Parameters.remoteParamArr (g_params w1)) 0 0 = 1 /\
  get2 (Parameters.remoteParamArr (g_params w1)) 3 0 = 1.
Proof.
  assert (H := remote_enable_broadcast (bench_World 0 3 0) 0 1 (bench_World_wf 0 3 0)).
  cbv zeta in *. unfold exec.
  destruct (Parameters_SetRemoteParams (-1) 0 1 (bench_World 0 3 0)) as [e w1].
  destruct H as [H _]; [split; [discriminate|reflexivity]|].
  destruct H as (_ & H & _); [reflexivity|].
  cbn [snd]. split; apply H; split; try discriminate; reflexivity.
Defined.

Lemma bench_errors_summarised : errors_summarised (bench_World 0 3 0).
Proof.
  intros [H|(z & Hz & H)]; [exact (False_ind _ (H eq_refl))|].
  assert (Hc : z = 0 \/ z = 1 \/ z = 2 \/ z = 3) by (unfold MAXNUMMOTORS in Hz; lia).
  destruct Hc as [-> | [-> | [-> | ->]]]; exact (False_ind _ (H eq_refl)).
Defined.

(** The first error of board 0 is recorded, the second is not. *)
Lemma Motors_SetErrorMsg_keeps_first_bench :
  let w := bench_World 0 3 0 in
  let w1 := exec (Motors_SetErrorMsg "Board" 0 "first") w in
  let w2 := exec (Motors_SetErrorMsg "Board" 0 "second") w1 in
  board_fault_msg w1 0 = "Board error in board 0: first" /\ w2 = w1.
Proof.
  pose (w := bench_World 0 3 0).
  pose (w1 := exec (Motors_SetErrorMsg "Board" 0 "first") w).
  assert (H := Motors_SetErrorMsg_keeps_first w "Board" 0 "first"
                 (bench_World_wf 0 3 0) bench_errors_summarised).
  cbv zeta in H. destruct H as (Hs & _ & _ & _ & H1 & _).
  destruct H1 as (F1 & H1 & _); [split; [discriminate|reflexivity]|reflexivity|].
  assert (Hwf1 : wf_World w1) by (constructor; try reflexivity; repeat constructor).
  assert (H := Motors_SetErrorMsg_keeps_first w1 "Board" 0 "second" Hwf1 Hs).
  cbv zeta in H. destruct H as (_ & _ & H2 & _).
  cbv zeta. split; [exact H1|].
  apply H2; [split; [discriminate|reflexivity]|discriminate].
Defined.

(** The Simulated axis 1, sent beyond its upper limit, is at the limit. *)
Lemma simulated_move_arrives_at_once_bench :
  let w' := exec (TMC_MoveToPos 1 5000 1) simulated_World in
  xact (sim_at w' 1) = 1000 /\ TMC_GetPos 1 0 w' = ((ERR_None, 1000), w').
Proof.
  assert (Hwf : wf_World simulated_World) by (constructor; try reflexivity; repeat constructor).
  assert (H := simulated_move_arrives_at_once simulated_World 1 5000 1 Hwf).
  cbv zeta in *. unfold exec.
  destruct (TMC_MoveToPos 1 5000 1 simulated_World) as [e w'].
  destruct H as (_ & H1 & _ & _ & _ & H2 & _); [split; [discriminate|reflexivity]|reflexivity|].
  cbn [snd]. rewrite H1. split; [reflexivity|exact (H2 0)].
Defined.

(** The frame that carries [POS0=250]. *)
Lemma transmitted_frame_is_valid_bench :
  let w' := exec (RemoteComm_transmitRemoteCommand "POS0=250") (bench_World 0 3 0) in
  io w' = [EvSerial1Write "<POS0=250|246>"] /\
  fst (RemoteComm_validateChecksum ("<POS0=250|246" ++ String NUL EmptyString) 0) = 0.
Proof.
  assert (H := transmitted_frame_is_valid (bench_World 0 3 0) "POS0=250" 0).
  cbv zeta in *. unfold exec.
  destruct (RemoteComm_transmitRemoteCommand "POS0=250" (bench_World 0 3 0)) as [e w'].
  destruct H as (_ & H1 & _ & H2 & _); [reflexivity|reflexivity|reflexivity|discriminate|].
  exact (conj H1 H2).
Defined.

(** All boards are handed to the remote: the fitted axes 0 and 1 are,
    axis 2 is not. *)
Lemma SetRemoteEnabled_broadcast_bench :
  let w' := exec (Motors_SetRemoteEnabled (-1) 1) (bench_World 0 3 0) in
  isRemoteControlled_at w' 0 = 1 /\ isRemoteControlled_at w' 1 = 1 /\
  isRemoteControlled_at w' 2 = 0.
Proof.
  assert (H := SetRemoteEnabled_broadcast (bench_World 0 3 0) 1 (bench_World_wf 0 3 0)).
  cbv zeta. unfold exec.
  destruct (Motors_SetRemoteEnabled (-1) 1 (bench_World 0 3 0)) as [e w'].
  destruct H as (_ & H1 & H2 & _). cbn [snd].
  split; [apply H1; reflexivity|]. split; [apply H1; reflexivity|].
  rewrite H2 by reflexivity. reflexivity.
Defined.


End StoreBench.

Section ShortedPhase.

#[local] Existing Instance sample_header.
#[local] Existing Instance shorted_phase.


End ShortedPhase.
Section DriverBench.

#[local] Existing Instance sample_header.
#[local] Existing Instance off_target.

(** Axis 0 is disabled in the middle of a homing run: the three writes
    that stop the motor are followed by the eight that end the run. *)
Lemma disable_stops_and_cancels_homing_bench :
  let w' := exec (TMC_SetEnable 0 0) homing_World in
  isMotorHoming_at homing_World 0 = 1 /\
  isMotorEnabled_at w' 0 = 0 /\ isMotorHoming_at w' 0 = 0 /\ length (io w') = 11%nat.
Proof.
  assert (Hwf : wf_World homing_World) by (constructor; try reflexivity; repeat constructor).
  assert (H := disable_stops_and_cancels_homing homing_World 0 Hwf).
  cbv zeta. unfold exec.
  destruct (TMC_SetEnable 0 0 homing_World) as [e w'].
  destruct H as (_ & H1 & H2 & H3 & _); [split; [discriminate|reflexivity]|reflexivity|].
  cbn [snd]. rewrite H3. exact (conj eq_refl (conj H1 (conj H2 eq_refl))).
Defined.

(** Axis 0 of the bench is moving: the motion of all boards is not
    done, that of the Simulated axis 1 is. *)
Lemma IsMotionDone_reads_the_flags_bench :
  Motors_IsMotionDone 1 (bench_World 0 3 0) = ((ERR_None, 1), bench_World 0 3 0) /\
  Motors_IsMotionDone 2 (bench_World 0 3 0)
  = ((ERR_Motor, 1), with_parameter_error "Inactive board number" (bench_World 0 3 0)).
Proof.
  destruct (IsMotionDone_reads_the_flags (bench_World 0 3 0) 1) as (_ & H1 & _).
  destruct (IsMotionDone_reads_the_flags (bench_World 0 3 0) 2) as (_ & _ & H2).
  split; [exact (proj1 (H1 eq_refl))|apply H2; [discriminate|reflexivity]].
Defined.

(** A position command of the remote for axis 0, which is not under
    remote control, is dropped. *)
Lemma remote_moves_need_control_bench :
  RemoteComm_processRemoteCommand "POS0=250" (bench_World 0 3 0) = (tt, bench_World 0 3 0).
Proof.
  destruct (remote_moves_need_control (bench_World 0 3 0) "POS" "0=250" 0 250) as [H _];
    [left; reflexivity|reflexivity|].
  apply H; reflexivity.
Defined.

(** A joystick direction of 5 is not sent. *)
Lemma SendRemoteCommand_sends_what_is_in_order_bench :
  let r := RemoteComm_SendRemoteCommand "JDIR" 0 5 (bench_World 0 3 0) in
  fst r = ERR_Remote /\ io (snd r) = [].
Proof.
  assert (H := SendRemoteCommand_sends_what_is_in_order (bench_World 0 3 0) "JDIR" 0 5 eq_refl).
  cbv zeta in *.
  destruct (RemoteComm_SendRemoteCommand "JDIR" 0 5 (bench_World 0 3 0)) as [e w'].
  destruct H as [_ H]. destruct H as (H1 & _ & H2 & _); [reflexivity|].
  exact (conj H1 H2).
Defined.

(** Axis 2 is not fitted and is not polled. *)
Lemma status_poll_skips_motors_at_rest_bench :
  ProcessUpdate_status 2 0 0 (bench_World 0 3 0) = ((0, 0), bench_World 0 3 0).
Proof.
  destruct (status_poll_skips_motors_at_rest (bench_World 0 3 0)) as [H _].
  apply H. reflexivity.
Defined.

(** The remote asks for axis 1 and is given it. *)
Lemma access_request_grants_control_bench :
  let w' := exec (RemoteComm_processRemoteCommand "ACCREQ1") (bench_World 0 3 0) in
  isRemoteControlled_at w' 1 = 1 /\ remoteParam w' 1 0 = 1 /\
  io w' = [EvSerial1Write "<ENAB1=1|181>"].
Proof.
  assert (H := access_request_grants_control (bench_World 0 3 0) "1" 1
                 (bench_World_wf 0 3 0) eq_refl).
  cbv zeta in *. destruct H as [H _].
  destruct H as (H1 & H2 & _ & H3 & _); [reflexivity|].
  split; [exact H1|]. split; [exact H2|]. exact (eq_trans H3 eq_refl).
Defined.


(** The Simulated axis 1, at 900 and on its way up at 500 steps per
    second, is polled a second later: it stands at its upper limit. *)
Lemma simulated_axis_stays_within_limits_bench :
  let s' := sim_at (exec (TMC_CheckStatus 1 0) moving_sim_World) 1 in
  fst (TMC_CheckStatus 1 0 moving_sim_World) = (ERR_None, 0) /\
  xact s' = 1000 /\ vel s' = 0 /\ xenc s' = 1000.
Proof.
  assert (Hwf : wf_World moving_sim_World) by (constructor; try reflexivity; repeat constructor).
  assert (H := simulated_axis_stays_within_limits moving_sim_World 1 0 Hwf).
  cbv zeta in *. unfold exec.
  destruct (TMC_CheckStatus 1 0 moving_sim_World) as [[e done] w'].
  destruct H as (H1 & H2 & H3 & _ & H4 & H5 & _);
    [split; [discriminate|reflexivity]|reflexivity|discriminate
    |intros _; split; split; discriminate|].
  cbn [fst snd]. rewrite H4, H3, H5, H1, H2. repeat split.
Defined.

(** The status word of axis 0, enabled and at its position. *)
Lemma status_flags_decode_bench :
  let flags := snd (fst (TMC_GetStatusFlags 0 0 (bench_World 0 3 0))) in
  Z.testbit flags 11 = true /\ Z.testbit flags 10 = true /\ Z.testbit flags 6 = false.
Proof.
  destruct (status_flags_decode (bench_World 0 3 0) 0 0) as [H _].
  cbv zeta in *.
  destruct (TMC_GetStatusFlags 0 0 (bench_World 0 3 0)) as [[e flags] w'].
  destruct H as (_ & _ & _ & H11 & H10 & _ & _ & _ & H6 & _); [reflexivity|].
  cbn [fst snd]. rewrite H11, H10, H6. repeat split.
Defined.

(** Axis 0 is moving without a search and the driver reports the
    position as reached: the poll clears the moving flag. *)
Lemma open_loop_poll_clears_moving_bench :
  let w' := exec (ProcessUpdate_status 0 0 0) open_loop_World in
  isMotorMoving_at open_loop_World 0 = 1 /\ isMotorMoving_at w' 0 = 0.
Proof.
  assert (Hwf : wf_World open_loop_World) by (constructor; try reflexivity; repeat constructor).
  assert (H := open_loop_poll_clears_moving open_loop_World 0 0 0 Hwf).
  cbv zeta in *. unfold exec.
  destruct (TMC_CheckStatus 0 0 open_loop_World) as [[err done] w1] eqn:E1.
  destruct (ProcessUpdate_status 0 0 0 open_loop_World) as [r w'] eqn:E.
  destruct H as (_ & _ & H & _);
    [reflexivity|discriminate|right; split; [reflexivity|discriminate]
    |apply (f_equal snd) in E; cbn [snd] in E; rewrite <- E; vm_compute; reflexivity|].
  apply (f_equal fst) in E1. cbn [fst] in E1. injection E1 as <- <-.
  cbn [snd]. split; [reflexivity|exact H].
Defined.

(** No motor is fitted as axis 2: a move is refused. *)
Lemma unfitted_board_refused_bench :
  Motors_MoveToPos 2 250 1 (bench_World 0 3 0)
  = (ERR_Motor, with_parameter_error "Inactive board number" (bench_World 0 3 0)) /\
  Parameters.errorMsg (g_params (with_parameter_error "Inactive board number" (bench_World 0 3 0)))
  = "Inactive board number".
Proof.
  destruct (unfitted_board_refused (bench_World 0 3 0) 2 eq_refl) as (H & _).
  exact (conj (H 250 1) eq_refl).
Defined.

End DriverBench.

Section WrappedClock.

#[local] Existing Instance sample_header.
#[local] Existing Instance wrapped_clock.

(** The host was last served 5 milliseconds before the wrap of the
    counter, which now reads 3: 8 milliseconds have passed, and the poll of
    the host waits. *)
Lemma polls_wait_for_their_interval_bench :
  SerialComm.lastCheckTime (g_serComm before_wrap_World) = 4294967291 /\
  SerialComm_CheckSerialCommand before_wrap_World
  = (tt, set_io [EvMillis 3] before_wrap_World).
Proof.
  assert (Hc : clock_reads before_wrap_World (2 ^ 32 - 5) 8).
  { split; [split; [discriminate|reflexivity]|].
    split; [split; [discriminate|reflexivity]|reflexivity]. }
  destruct (polls_wait_for_their_interval before_wrap_World (2 ^ 32 - 5) 8 Hc) as [H _].
  destruct (H eq_refl) as [H1 _].
  split; [reflexivity|]. apply H1. discriminate.
Defined.

End WrappedClock.
